(** * maelstrom.loader: the data-loading pipeline of [Loader]

    A shallow embedding of [src/maelstrom/loader.py].  Arrays (numpy arrays
    and TensorFlow tensors) are a shape together with the flat row-major
    list of their elements, so that [reshape] and [expand_dims] only touch
    the shape, as they do in numpy and TensorFlow.  Python exceptions are
    values of [exn], carried by the [result] monad. *)

From Stdlib Require Import Arith ZArith List Lia String Ascii SpecFloat.
From stdpp Require Import base option list strings gmap.

Open Scope nat_scope.

(** ** Exceptions and the error monad *)

(** The exceptions the modelled code can raise.  [InvalidArgumentError]
    and [UnknownError] are the classes of [tf.errors].  [ConfigError] is
    the exception class named by the specification; no path of
    [loader.py] raises it. *)
Inductive exn : Type :=
  | IndexError
  | ValueError
  | NameError
  | KeyError
  | ZeroDivisionError
  | InvalidArgumentError
  | UnknownError
  | OSError
  | ConfigError.

Inductive result (A : Type) : Type :=
  | Ok (a : A)
  | Err (e : exn).
Arguments Ok {A} a.
Arguments Err {A} e.

Definition bind {A B : Type} (r : result A) (k : A -> result B) : result B :=
  match r with
  | Ok a => k a
  | Err e => Err e
  end.

Notation "'let*' x ':=' r 'in' k" := (bind r (fun x => k))
  (at level 10, x pattern, r at level 100, k at level 200).

Definition of_option {A : Type} (e : exn) (o : option A) : result A :=
  match o with
  | Some a => Ok a
  | None => Err e
  end.

(** [for x in l: acc = f(acc, x)], stopping at the first exception. *)
Fixpoint foldM {A B : Type} (f : B -> A -> result B) (l : list A) (acc : B)
  : result B :=
  match l with
  | [] => Ok acc
  | x :: l' => let* acc' := f acc x in foldM f l' acc'
  end.

(** ** Arrays: a shape and row-major data *)

Record tensor (A : Type) : Type := Tensor { shape : list nat; data : list A }.
Arguments Tensor {A} shape data.
Arguments shape {A} t.
Arguments data {A} t.

(** Number of elements of an array of the given shape. *)
Definition numel (s : list nat) : nat := fold_right Nat.mul 1 s.

(** Row-major position of a multi-index. *)
Fixpoint offset (s idx : list nat) : nat :=
  match s, idx with
  | _ :: s', i :: idx' => i * numel s' + offset s' idx'
  | _, _ => 0
  end.

(** A multi-index is in range when it has one entry per axis, each below
    the axis length. *)
Definition in_range (s idx : list nat) : Prop := Forall2 lt idx s.

Definition wf {A : Type} (t : tensor A) : Prop :=
  length (data t) = numel (shape t).

Section Tensor.
Context {A : Type}.
Variable zero : A.

(** The row-major data of the array whose element at [idx] is [f idx]. *)
Fixpoint tabulate (s : list nat) (f : list nat -> A) : list A :=
  match s with
  | [] => [f []]
  | n :: s' => flat_map (fun i => tabulate s' (fun idx => f (i :: idx))) (seq 0 n)
  end.

(** [t[idx]] for an in-range multi-index. *)
Definition get (t : tensor A) (idx : list nat) : A :=
  nth (offset (shape t) idx) (data t) zero.

Definition build (s : list nat) (f : list nat -> A) : tensor A :=
  Tensor s (tabulate s f).

End Tensor.

(** ** Array operations of numpy and TensorFlow used by the loader *)

(** Python's treatment of a possibly negative index or axis number [i]
    into something of length [n]. *)
Definition norm_index (n : nat) (i : Z) : option nat :=
  if (0 <=? i)%Z && (i <? Z.of_nat n)%Z then Some (Z.to_nat i)
  else if (- Z.of_nat n <=? i)%Z && (i <? 0)%Z then Some (Z.to_nat (Z.of_nat n + i))
  else None.

(** Ceiling division, as TensorFlow computes SAME output sizes. *)
Definition ceil_div (n d : nat) : nat := (n + d - 1) / d.

Section Ops.
Context {A : Type}.
Variable zero : A.

Definition rank (t : tensor A) : nat := length (shape t).

(** [tf.expand_dims(t, axis)], [np.expand_dims(t, axis)]. *)
Definition expand_dims (t : tensor A) (axis : Z) : result (tensor A) :=
  let* k := of_option InvalidArgumentError (norm_index (S (rank t)) axis) in
  Ok (Tensor (firstn k (shape t) ++ 1 :: skipn k (shape t)) (data t)).

(** [tf.reshape(t, s)]: the data is kept, the element count must agree. *)
Definition reshape (t : tensor A) (s : list nat) : result (tensor A) :=
  if numel s =? length (data t) then Ok (Tensor s (data t))
  else Err InvalidArgumentError.

(** The shape of [t[:s0, :s1, ...]]: a stop beyond the axis length is
    clipped, [None] stands for [:], axes without a slice are kept. *)
Fixpoint slice_shape (stops : list (option nat)) (s : list nat) : list nat :=
  match stops, s with
  | Some k :: stops', n :: s' => Nat.min k n :: slice_shape stops' s'
  | None :: stops', n :: s' => n :: slice_shape stops' s'
  | _, _ => s
  end.

(** [t[:s0, :s1, ...]] with non-negative stops. *)
Definition slice_to (stops : list (option nat)) (t : tensor A) : result (tensor A) :=
  if length (shape t) <? length stops then Err IndexError
  else Ok (build (slice_shape stops (shape t)) (get zero t)).

(** [tf.tile(t, reps)]. *)
Definition tile (t : tensor A) (reps : list nat) : result (tensor A) :=
  if length reps =? rank t then
    Ok (build (zip_with Nat.mul (shape t) reps)
          (fun idx => get zero t (zip_with Nat.modulo idx (shape t))))
  else Err InvalidArgumentError.

(** Shapes that may be joined along [axis]: same rank, [axis] within it,
    equal lengths on every other axis. *)
Fixpoint concat_compatible (axis : nat) (s1 s2 : list nat) : bool :=
  match s1, s2 with
  | n1 :: s1', n2 :: s2' =>
      match axis with
      | O => bool_decide (s1' = s2')
      | S axis' => (n1 =? n2) && concat_compatible axis' s1' s2'
      end
  | _, _ => false
  end.

(** Joining two arrays along [axis]. *)
Definition concat2 (axis : nat) (a b : tensor A) : result (tensor A) :=
  if concat_compatible axis (shape a) (shape b) then
    let na := nth axis (shape a) 0 in
    let nb := nth axis (shape b) 0 in
    Ok (build (<[axis := na + nb]> (shape a))
          (fun idx =>
             let i := nth axis idx 0 in
             if i <? na then get zero a idx
             else get zero b (<[axis := i - na]> idx)))
  else Err InvalidArgumentError.

(** [tf.concat(ts, axis)], [np.concatenate(ts, axis)] for a non-negative
    axis: a single array is returned as it is, several are joined from
    left to right. *)
Definition concat (ts : list (tensor A)) (axis : nat) : result (tensor A) :=
  match ts with
  | [] => Err InvalidArgumentError
  | t :: ts' => foldM (concat2 axis) ts' t
  end.

(** [t[..., i]] for a non-negative [i]. *)
Definition index_last (t : tensor A) (i : nat) : result (tensor A) :=
  match last (shape t) with
  | None => Err InvalidArgumentError
  | Some n =>
      if i <? n then
        Ok (build (removelast (shape t)) (fun idx => get zero t (idx ++ [i])))
      else Err InvalidArgumentError
  end.

(** Selection of the positions [idxs] along [axis] (xarray's [isel] with a
    list or range, numpy's integer-array indexing); Python's negative
    positions count from the end. *)
Definition take_axis (axis : nat) (idxs : list Z) (t : tensor A) : result (tensor A) :=
  match shape t !! axis with
  | None => Err IndexError
  | Some n =>
      let* sel := of_option IndexError (mapM (norm_index n) idxs) in
      Ok (build (<[axis := length sel]> (shape t))
            (fun idx => get zero t (<[axis := nth (nth axis idx 0) sel 0]> idx)))
  end.

(** Broadcasting of two shapes, aligned at their last axes; the
    arguments are the reversed shapes. *)
Fixpoint broadcast_rev (r1 r2 : list nat) : option (list nat) :=
  match r1, r2 with
  | [], r => Some r
  | r, [] => Some r
  | a :: r1', b :: r2' =>
      if a =? b then cons a <$> broadcast_rev r1' r2'
      else if a =? 1 then cons b <$> broadcast_rev r1' r2'
      else if b =? 1 then cons a <$> broadcast_rev r1' r2'
      else None
  end.

Definition broadcast_shapes (s1 s2 : list nat) : option (list nat) :=
  rev (A:=nat) <$> broadcast_rev (rev s1) (rev s2).

(** The index into an operand of shape [s] that a broadcast index reads. *)
Definition project_index (s idx : list nat) : list nat :=
  zip_with (fun n i => if n =? 1 then 0 else i) s
           (skipn (length idx - length s) idx).

(** An element-wise binary operation with broadcasting
    ([tf.math.subtract], [tf.math.divide]). *)
Definition binop (f : A -> A -> A) (a b : tensor A) : result (tensor A) :=
  match broadcast_shapes (shape a) (shape b) with
  | None => Err InvalidArgumentError
  | Some s =>
      Ok (build s (fun idx => f (get zero a (project_index (shape a) idx))
                                (get zero b (project_index (shape b) idx))))
  end.

(** [tf.image.extract_patches(t, [1,ps,ps,1], [1,ps,ps,1], [1,1,1,1], "SAME")]
    on a [(batch, rows, cols, depth)] array: one output position per
    stride step, [ceil (rows / ps)] by [ceil (cols / ps)] of them; the
    window at output position [(r, c)] starts [pad] before input position
    [(r * ps, c * ps)], where the total padding of an axis is
    [max ((out - 1) * ps + ps - n) 0] and the smaller half goes before;
    the last axis lists the window row by row, each pixel with all its
    channels; positions outside the input read as zero. *)
Definition extract_patches (t : tensor A) (ps : nat) : result (tensor A) :=
  match shape t with
  | [B; H; W; C] =>
      if ps =? 0 then Err InvalidArgumentError else
      let out_rows := ceil_div H ps in
      let out_cols := ceil_div W ps in
      let pad_top := (out_rows * ps - H) / 2 in
      let pad_left := (out_cols * ps - W) / 2 in
      Ok (build [B; out_rows; out_cols; ps * ps * C]
            (fun idx =>
               match idx with
               | [b; r; c; k] =>
                   let i := k / (ps * C) in
                   let j := (k / C) mod ps in
                   let ch := k mod C in
                   let y := r * ps + i in
                   let x := c * ps + j in
                   if (pad_top <=? y) && (y - pad_top <? H)
                      && (pad_left <=? x) && (x - pad_left <? W)
                   then get zero t [b; y - pad_top; x - pad_left; ch]
                   else zero
               | _ => zero
               end))
  | _ => Err InvalidArgumentError
  end.

End Ops.

(** ** Floating-point numbers

    Tensors hold [float32]; numpy computes the statistics of an integer
    range in [float64].  Both are IEEE 754 binary formats with
    round-to-nearest-even, as specified by [SpecFloat]. *)

Definition float32 : Type := spec_float.
Definition float64 : Type := spec_float.

Definition f32_zero : float32 := S754_zero false.
Definition f32_one : float32 := SFone 24 128.
Definition f32_sub : float32 -> float32 -> float32 := SFsub 24 128.
Definition f32_div : float32 -> float32 -> float32 := SFdiv 24 128.
Definition f32_of_nat (n : nat) : float32 :=
  binary_normalize 24 128 (Z.of_nat n) 0 false.

Definition f64_zero : float64 := S754_zero false.
Definition f64_one : float64 := SFone 53 1024.
Definition f64_add : float64 -> float64 -> float64 := SFadd 53 1024.
Definition f64_sub : float64 -> float64 -> float64 := SFsub 53 1024.
Definition f64_mul : float64 -> float64 -> float64 := SFmul 53 1024.
Definition f64_div : float64 -> float64 -> float64 := SFdiv 53 1024.
Definition f64_sqrt : float64 -> float64 := SFsqrt 53 1024.
Definition f64_of_nat (n : nat) : float64 :=
  binary_normalize 53 1024 (Z.of_nat n) 0 false.

(** Storing a [float64] into a [float32] array. *)
Definition f32_of_f64 (x : float64) : float32 :=
  match x with
  | S754_finite s m e => binary_round 24 128 s m e
  | _ => x
  end.

(** [np.arange(n)]. *)
Definition np_arange (n : nat) : list nat := seq 0 n.

(** [np.sum] with a [float64] accumulator.  numpy adds pairwise; the order
    is immaterial as long as the partial sums are exact, which they are for
    the integer ranges of realistic axis lengths. *)
Definition np_sum (l : list float64) : float64 := fold_left f64_add l f64_zero.

(** [np.mean(val)] of an integer array: the sum over the count. *)
Definition np_mean (val : list nat) : float64 :=
  f64_div (np_sum (map f64_of_nat val)) (f64_of_nat (length val)).

(** [np.std(val)] of an integer array: the square root of the mean of the
    squared deviations from the mean. *)
Definition np_std (val : list nat) : float64 :=
  let arrmean := np_mean val in
  let x := map (fun v => f64_sub (f64_of_nat v) arrmean) val in
  f64_sqrt (f64_div (np_sum (map (fun d => f64_mul d d) x)) (f64_of_nat (length val))).

(** [tf.range(n, dtype=tf.float32)]. *)
Definition tf_range (n : nat) : tensor float32 :=
  Tensor [n] (map f32_of_nat (seq 0 n)).

(** [np.zeros(s, np.float32)]. *)
Definition np_zeros (s : list nat) : tensor float32 :=
  build s (fun _ => f32_zero).

(** ** Python strings: [str.split(":")] and [int(s)] *)

Definition colon : ascii := ":"%char.

(** [s.split(":")], on the characters of [s]. *)
Fixpoint split_colon (s : list ascii) : list (list ascii) :=
  match s with
  | [] => [[]]
  | c :: s' =>
      if Ascii.eqb c colon then [] :: split_colon s'
      else match split_colon s' with
           | h :: t => (c :: h) :: t
           | [] => [[c]]
           end
  end.

Definition is_space (c : ascii) : bool :=
  let n := nat_of_ascii c in (n =? 32) || ((9 <=? n) && (n <=? 13)).

Definition digit_of (c : ascii) : option Z :=
  let n := nat_of_ascii c in
  if (48 <=? n) && (n <=? 57) then Some (Z.of_nat (n - 48)) else None.

Fixpoint lstrip (s : list ascii) : list ascii :=
  match s with
  | c :: s' => if is_space c then lstrip s' else s
  | [] => []
  end.

Definition strip (s : list ascii) : list ascii := rev (lstrip (rev (lstrip s))).

(** The digits of a decimal literal; single underscores may separate
    digits.  [prev] tells whether the previous character was a digit. *)
Fixpoint parse_digits (s : list ascii) (acc : Z) (prev : bool) : option Z :=
  match s with
  | [] => if prev then Some acc else None
  | c :: s' =>
      match digit_of c with
      | Some d => parse_digits s' (10 * acc + d)%Z true
      | None =>
          if Ascii.eqb c "_"%char && prev then parse_digits s' acc false else None
      end
  end.

(** [int(s)] for a string of ASCII characters: surrounding white space, an
    optional sign, decimal digits.  [None] stands for [ValueError]. *)
Definition int_of_ascii (s : list ascii) : option Z :=
  match strip s with
  | c :: s' =>
      if Ascii.eqb c "-"%char then Z.opp <$> parse_digits s' 0%Z false
      else if Ascii.eqb c "+"%char then parse_digits s' 0%Z false
      else parse_digits (c :: s') 0%Z false
  | [] => None
  end.

(** A string holds text as its UTF-8 bytes: the characters of ASCII are the
    bytes below 128, and every other character shows as bytes from 128
    on. *)
Definition is_ascii (c : ascii) : bool := nat_of_ascii c <? 128.

(** [int(s)].  On ASCII text of at most 640 characters it is
    [int_of_ascii].  On other text the result depends on the interpreter:
    on its tables of the Unicode decimal digits and white space, which
    [int] accepts as well, and on its limit on the number of digits of a
    literal, which can be configured but not below 640.  There the result
    is left as the parameter [int_other]; [None] stands for [ValueError],
    the one exception that [int] raises on a string. *)
Definition int_of_str (int_other : list ascii -> option Z) (s : list ascii)
  : option Z :=
  if forallb is_ascii s && (length s <=? 640) then int_of_ascii s else int_other s.

(** [range(start, stop)] as the list of its elements. *)
Definition py_range (start stop : Z) : list Z :=
  map (fun k => (start + Z.of_nat k)%Z) (seq 0 (Z.to_nat (stop - start))).

(** [l.index(x)]: the first position of [x]; [None] stands for [ValueError]. *)
Fixpoint list_index (x : string) (l : list string) : option nat :=
  match l with
  | [] => None
  | y :: l' => if String.eqb y x then Some 0 else S <$> list_index x l'
  end.

(** ** The data model *)

(** An extra-feature descriptor: a dictionary with a ["type"] entry and an
    optional ["name"] entry. *)
Record Feature : Type := { f_type : string; f_name : option string }.

(** What [xr.open_dataset] gives for one archive: the lead-time
    coordinate, the lengths of the [y] and [x] dimensions, the names along
    the [predictor] and [static_predictor] dimensions, and the variables
    [predictors] (leadtime, y, x, predictor), [static_predictors]
    (y, x, static_predictor) and [target_mean] (leadtime, y, x). *)
Record Dataset : Type := {
  ds_leadtime : list Z;
  ds_y : nat;
  ds_x : nat;
  ds_predictor : list string;
  ds_static_predictor : list string;
  ds_predictors : tensor float32;
  ds_static_predictors : tensor float32;
  ds_target_mean : tensor float32
}.

(** A dataset has one length per dimension, shared by its variables. *)
Record wf_dataset (ds : Dataset) : Prop := {
  wf_predictors_shape :
    shape (ds_predictors ds) =
      [length (ds_leadtime ds); ds_y ds; ds_x ds; length (ds_predictor ds)];
  wf_static_shape :
    shape (ds_static_predictors ds) =
      [ds_y ds; ds_x ds; length (ds_static_predictor ds)];
  wf_target_shape :
    shape (ds_target_mean ds) = [length (ds_leadtime ds); ds_y ds; ds_x ds];
  wf_predictors_data : wf (ds_predictors ds);
  wf_static_data : wf (ds_static_predictors ds);
  wf_target_data : wf (ds_target_mean ds)
}.

(** The coefficient table: a [num_predictors] by 2 array of [float32],
    one (mean, scale) row per predictor. *)
Abbreviation table := (list (float32 * float32)).

(** The keyword arguments of [Loader.__init__] that the modelled methods
    read.  ([probabilistic_target], [quick_metadata], [debug] and [to_gpu]
    only feed logging or are never read.) *)
Record Args : Type := {
  arg_filenames : list string;
  arg_limit_leadtimes : option (list Z);
  arg_limit_predictors : option (list string);
  arg_x_range : option (list Z);
  arg_y_range : option (list Z);
  arg_normalization : option string;
  arg_patch_size : option nat;
  arg_predict_diff : bool;
  arg_batch_size : nat;
  arg_prefetch : option nat;
  arg_cache : bool;
  arg_num_parallel_calls : option nat;
  arg_extra_features : list Feature;
  arg_fake : bool
}.

(** The attributes set by [load_metadata]. *)
Record Metadata : Type := {
  leadtimes : list Z;
  num_x_input : nat;
  num_y_input : nat;
  num_input_predictors : nat;
  num_predictors : nat;
  predictor_names_input : list string;
  predictor_names : list string;
  num_targets : nat
}.

(** A constructed loader. *)
Record Loader : Type := {
  args : Args;
  filenames : list string;
  metadata : Metadata;
  coefficients : option table
}.

Definition extra_features (self : Loader) : list Feature := arg_extra_features (args self).
Definition limit_leadtimes (self : Loader) : option (list Z) := arg_limit_leadtimes (args self).
Definition limit_predictors (self : Loader) : option (list string) := arg_limit_predictors (args self).
Definition patch_size (self : Loader) : option nat := arg_patch_size (args self).
Definition predict_diff (self : Loader) : bool := arg_predict_diff (args self).
Definition normalization (self : Loader) : option string := arg_normalization (args self).
Definition fake (self : Loader) : bool := arg_fake (args self).

Definition num_leadtimes (m : Metadata) : nat := length (leadtimes m).

(** A range option of the configuration dictionary: a ["start:end"] string
    or a list of positions. *)
Inductive range_arg : Type :=
  | RangeStr (s : string)
  | RangeList (l : list Z).

(** The configuration dictionary without its ["type"] entry. *)
Record Config : Type := {
  cfg_filenames : list string;
  cfg_limit_leadtimes : option range_arg;
  cfg_limit_predictors : option (list string);
  cfg_x_range : option range_arg;
  cfg_y_range : option range_arg;
  cfg_normalization : option string;
  cfg_patch_size : option nat;
  cfg_predict_diff : bool;
  cfg_batch_size : nat;
  cfg_prefetch : option nat;
  cfg_cache : bool;
  cfg_num_parallel_calls : option nat;
  cfg_extra_features : list Feature;
  cfg_fake : bool
}.

(** ** Dimension limiting: [Dataset.isel] *)

(** numpy reports its errors as [ValueError]. *)
Definition as_numpy {B : Type} (r : result B) : result B :=
  match r with
  | Ok b => Ok b
  | Err _ => Err ValueError
  end.

(** The entries of [l] at the positions [idxs]. *)
Definition take_list {B : Type} (idxs : list Z) (l : list B) : result (list B) :=
  of_option IndexError (mapM (fun i => norm_index (length l) i ≫= (l !!.)) idxs).

Definition isel_leadtime (idxs : list Z) (ds : Dataset) : result Dataset :=
  let* lt := take_list idxs (ds_leadtime ds) in
  let* p := take_axis f32_zero 0 idxs (ds_predictors ds) in
  let* t := take_axis f32_zero 0 idxs (ds_target_mean ds) in
  Ok {| ds_leadtime := lt; ds_y := ds_y ds; ds_x := ds_x ds;
        ds_predictor := ds_predictor ds;
        ds_static_predictor := ds_static_predictor ds;
        ds_predictors := p;
        ds_static_predictors := ds_static_predictors ds;
        ds_target_mean := t |}.

Definition isel_y (idxs : list Z) (ds : Dataset) : result Dataset :=
  let* sel := of_option IndexError (mapM (norm_index (ds_y ds)) idxs) in
  let* p := take_axis f32_zero 1 idxs (ds_predictors ds) in
  let* s := take_axis f32_zero 0 idxs (ds_static_predictors ds) in
  let* t := take_axis f32_zero 1 idxs (ds_target_mean ds) in
  Ok {| ds_leadtime := ds_leadtime ds; ds_y := length sel; ds_x := ds_x ds;
        ds_predictor := ds_predictor ds;
        ds_static_predictor := ds_static_predictor ds;
        ds_predictors := p;
        ds_static_predictors := s;
        ds_target_mean := t |}.

Definition isel_x (idxs : list Z) (ds : Dataset) : result Dataset :=
  let* sel := of_option IndexError (mapM (norm_index (ds_x ds)) idxs) in
  let* p := take_axis f32_zero 2 idxs (ds_predictors ds) in
  let* s := take_axis f32_zero 1 idxs (ds_static_predictors ds) in
  let* t := take_axis f32_zero 2 idxs (ds_target_mean ds) in
  Ok {| ds_leadtime := ds_leadtime ds; ds_y := ds_y ds; ds_x := length sel;
        ds_predictor := ds_predictor ds;
        ds_static_predictor := ds_static_predictor ds;
        ds_predictors := p;
        ds_static_predictors := s;
        ds_target_mean := t |}.

Definition isel_predictor (idxs : list Z) (ds : Dataset) : result Dataset :=
  let* names := take_list idxs (ds_predictor ds) in
  let* p := take_axis f32_zero 3 idxs (ds_predictors ds) in
  Ok {| ds_leadtime := ds_leadtime ds; ds_y := ds_y ds; ds_x := ds_x ds;
        ds_predictor := names;
        ds_static_predictor := ds_static_predictor ds;
        ds_predictors := p;
        ds_static_predictors := ds_static_predictors ds;
        ds_target_mean := ds_target_mean ds |}.

Definition isel_static_predictor (idxs : list Z) (ds : Dataset) : result Dataset :=
  let* names := take_list idxs (ds_static_predictor ds) in
  let* s := take_axis f32_zero 2 idxs (ds_static_predictors ds) in
  Ok {| ds_leadtime := ds_leadtime ds; ds_y := ds_y ds; ds_x := ds_x ds;
        ds_predictor := ds_predictor ds;
        ds_static_predictor := names;
        ds_predictors := ds_predictors ds;
        ds_static_predictors := s;
        ds_target_mean := ds_target_mean ds |}.

(** One keyword of [isel]'s arguments; an absent keyword leaves the
    dimension as it is. *)
Definition isel_key (limit : gmap string (list Z)) (dim : string)
    (sel : list Z -> Dataset -> result Dataset) (ds : Dataset) : result Dataset :=
  match limit !! dim with
  | Some idxs => sel idxs ds
  | None => Ok ds
  end.

(** [dataset.isel] with the entries of [limit] as keywords: the dimensions
    are independent of each other, so they are limited one after the other. *)
Definition isel (limit : gmap string (list Z)) (ds : Dataset) : result Dataset :=
  let* ds := isel_key limit "predictor" isel_predictor ds in
  let* ds := isel_key limit "static_predictor" isel_static_predictor ds in
  let* ds := isel_key limit "leadtime" isel_leadtime ds in
  let* ds := isel_key limit "x" isel_x ds in
  isel_key limit "y" isel_y ds.

(** [[i for i in range(len(names)) if names[i] in allowed]], counting
    from [i]. *)
Fixpoint matching_indices (i : nat) (names allowed : list string) : list Z :=
  match names with
  | [] => []
  | n :: names' =>
      if bool_decide (n ∈ allowed)
      then Z.of_nat i :: matching_indices (S i) names' allowed
      else matching_indices (S i) names' allowed
  end.

(** [Loader.get_dimension_limits]. *)
Definition get_dimension_limits (a : Args) (dataset : Dataset)
    (leadtime_indices : option (list Z)) : result (gmap string (list Z)) :=
  let limit : gmap string (list Z) := ∅ in
  let limit :=
    match arg_limit_predictors a with
    | Some allowed =>
        <["static_predictor" := matching_indices 0 (ds_static_predictor dataset) allowed]>
          (<["predictor" := matching_indices 0 (ds_predictor dataset) allowed]> limit)
    | None => limit
    end in
  let* limit :=
    match leadtime_indices with
    | None =>
        match arg_limit_leadtimes a with
        | Some l => Ok (<["leadtime" := l]> limit)
        | None => Ok limit
        end
    | Some indices =>
        match arg_limit_leadtimes a with
        | Some _ =>
            let* l := take_list indices (ds_leadtime dataset) in
            Ok (<["leadtime" := l]> limit)
        | None => Ok (<["leadtime" := indices]> limit)
        end
    end in
  let limit :=
    match arg_x_range a with
    | Some r => <["x" := r]> limit
    | None => limit
    end in
  let limit :=
    match arg_y_range a with
    | Some r => <["y" := r]> limit
    | None => limit
    end in
  Ok limit.

(** [Loader.get_feature_name]. *)
Definition get_feature_name (feature : Feature) : string :=
  match f_name feature with
  | Some name => name
  | None => f_type feature
  end.

(** ** The loader *)

(** [m.update(upd)], written in the source as
    [for k, v in upd.items(): m[k] = v]. *)
Definition dict_update {V : Type} (m upd : gmap string V) : gmap string V := upd ∪ m.

(** [name in self.extra_features] compares a predictor name with the
    feature dictionaries; a string never equals a dictionary. *)
Definition str_eq_dict (name : string) (feature : Feature) : bool := false.

Definition name_in_features (name : string) (features : list Feature) : bool :=
  existsb (str_eq_dict name) features.

(** [coefficients[i, :] = v] on the [float32] table. *)
Definition set_row (tbl : table) (i : nat) (v : float64 * float64) : result table :=
  if i <? length tbl then Ok (<[i := (f32_of_f64 (fst v), f32_of_f64 (snd v))]> tbl)
  else Err IndexError.

(** The body of the loop of [Loader.get_extra_features_normalization]. *)
Definition feature_coefficients (m : Metadata) (feature : Feature) : float64 * float64 :=
  let feature_type := f_type feature in
  if String.eqb feature_type "x" then
    let val := np_arange (num_x_input m) in (np_mean val, np_std val)
  else if String.eqb feature_type "y" then
    let val := np_arange (num_y_input m) in (np_mean val, np_std val)
  else if String.eqb feature_type "leadtime" then
    let val := np_arange (num_leadtimes m) in (np_mean val, np_std val)
  else (f64_zero, f64_one).

(** [Loader.get_extra_features_normalization]. *)
Definition get_extra_features_normalization (m : Metadata) (features : list Feature)
  : gmap string (float64 * float64) :=
  fold_left
    (fun normalization feature =>
       <[get_feature_name feature := feature_coefficients m feature]> normalization)
    features ∅.

(** The loop [for i, name in enumerate(self.predictor_names)] of
    [Loader.load_coefficients], from position [i] on.  Its second branch
    misspells [self], so it would raise [NameError]. *)
Fixpoint fill_rows (coefficients : gmap string (float64 * float64))
    (features : list Feature) (i : nat) (names : list string) (tbl : table)
  : result table :=
  match names with
  | [] => Ok tbl
  | name :: names' =>
      let* tbl :=
        match coefficients !! name with
        | Some v => set_row tbl i v
        | None =>
            if name_in_features name features then Err NameError
            else set_row tbl i (f64_zero, f64_one)
        end in
      fill_rows coefficients features (S i) names' tbl
  end.

(** [tf.py_function]: the wrapped function runs eagerly and its result is
    returned; an exception that it raises reaches the caller as a
    TensorFlow error.  Of the exceptions of this model, [ValueError]
    becomes [tf.errors.InvalidArgumentError]; every other one, the errors
    of TensorFlow's own operations included, becomes
    [tf.errors.UnknownError]. *)
Definition py_function_error (e : exn) : exn :=
  match e with
  | ValueError => InvalidArgumentError
  | _ => UnknownError
  end.

Definition py_function {A : Type} (r : result A) : result A :=
  match r with
  | Ok a => Ok a
  | Err e => Err (py_function_error e)
  end.

(** [map_decorator2]: the decorator of the stages, which wraps a method of
    two arrays as a [tf.py_function]. *)
Definition map_decorator2
    (func : Loader -> tensor float32 * tensor float32
            -> result (tensor float32 * tensor float32))
    (self : Loader) (pt : tensor float32 * tensor float32)
  : result (tensor float32 * tensor float32) :=
  py_function (func self pt).

(** [Loader.raw_predictor_index]: [None] unless [predict_diff] is set. *)
Definition raw_predictor_index (self : Loader) : result (option nat) :=
  if predict_diff self then
    let* i := of_option ValueError
                (list_index "air_temperature_2m" (predictor_names (metadata self))) in
    Ok (Some i)
  else Ok None.

(** [Loader.broadcast]. *)
Definition broadcast (t : tensor float32) (final_shape : list nat) (axis : nat)
  : result (tensor float32) :=
  let dim k := of_option IndexError (final_shape !! k) in
  if axis =? 2 then
    let* t := expand_dims t 0 in
    let* t := expand_dims t 1 in
    let* d0 := dim 0 in
    let* d1 := dim 1 in
    tile f32_zero t [d0; d1; 1]
  else if axis =? 1 then
    let* t := expand_dims t 0 in
    let* t := expand_dims t 2 in
    let* d0 := dim 0 in
    let* d2 := dim 2 in
    tile f32_zero t [d0; 1; d2]
  else
    let* t := expand_dims t 1 in
    let* t := expand_dims t 2 in
    let* d1 := dim 1 in
    let* d2 := dim 2 in
    tile f32_zero t [1; d1; d2].

(** One iteration of the loop of [Loader.extract_features].  The state is
    the local variable [curr], unbound before the first assignment, and the
    list [p].  A feature of another type than ["x"], ["y"] or ["leadtime"]
    leaves [curr] as the previous iteration left it. *)
Definition extract_feature (shp : list nat)
    (st : option (tensor float32) * list (tensor float32)) (feature : Feature)
  : result (option (tensor float32) * list (tensor float32)) :=
  let '(curr, p) := st in
  let feature_type := f_type feature in
  let* curr :=
    if String.eqb feature_type "x" then
      let* n := of_option IndexError (shp !! 2) in
      let* c := broadcast (tf_range n) shp 2 in Ok (Some c)
    else if String.eqb feature_type "y" then
      let* n := of_option IndexError (shp !! 1) in
      let* c := broadcast (tf_range n) shp 1 in Ok (Some c)
    else if String.eqb feature_type "leadtime" then
      let* n := of_option IndexError (shp !! 0) in
      let* c := broadcast (tf_range n) shp 0 in Ok (Some c)
    else Ok curr in
  let* curr := of_option NameError curr in
  let* curr := expand_dims curr (-1) in
  Ok (Some curr, p ++ [curr]).

(** [Loader.extract_features], decorated with [map_decorator2]. *)
Definition extract_features : Loader -> tensor float32 * tensor float32
                              -> result (tensor float32 * tensor float32) :=
  map_decorator2 (fun self pt =>
    let '(predictors, targets) := pt in
    let* st := foldM (extract_feature (shape predictors)) (extra_features self)
                 (None, [predictors]) in
    let* p := concat f32_zero (snd st) 3 in
    Ok (p, targets)).

(** [patch_tensor], the local function of [Loader.patch]. *)
Definition patch_tensor (a : tensor float32) (ps : nat) : result (tensor float32) :=
  let dim k := of_option IndexError (shape a !! k) in
  if length (shape a) =? 4 then
    let* LT := dim 0 in
    let* Y := dim 1 in
    let* X := dim 2 in
    let* P := dim 3 in
    if ps =? 0 then Err ZeroDivisionError else
    let num_patches_y := Y / ps in
    let num_patches_x := X / ps in
    let* a := slice_to f32_zero [None; Some (Y / ps * ps); Some (X / ps * ps); None] a in
    let* a := extract_patches f32_zero a ps in
    let* a := expand_dims a 0 in
    reshape a [LT; num_patches_y * num_patches_x; ps; ps; P]
  else
    let* Y := dim 0 in
    let* X := dim 1 in
    let* P := dim 2 in
    if ps =? 0 then Err ZeroDivisionError else
    let num_patches_y := Y / ps in
    let num_patches_x := X / ps in
    let* a := slice_to f32_zero [Some (Y / ps * ps); Some (X / ps * ps); None] a in
    let* a := expand_dims a 0 in
    let* a := extract_patches f32_zero a ps in
    reshape a [num_patches_y * num_patches_x; ps; ps; P].

(** [Loader.patch], decorated with [map_decorator2]. *)
Definition patch : Loader -> tensor float32 * tensor float32
                   -> result (tensor float32 * tensor float32) :=
  map_decorator2 (fun self pt =>
    let '(predictors, targets) := pt in
    match patch_size self with
    | None =>
        let* p := expand_dims predictors 1 in
        let* t := expand_dims targets 1 in
        Ok (p, t)
    | Some ps =>
        let* p := patch_tensor predictors ps in
        let* t := patch_tensor targets ps in
        Ok (p, t)
    end).

(** [Loader.diff], decorated with [map_decorator2]. *)
Definition diff : Loader -> tensor float32 * tensor float32
                  -> result (tensor float32 * tensor float32) :=
  map_decorator2 (fun self pt =>
    let '(predictors, targets) := pt in
    let* raw := raw_predictor_index self in
    match raw with
    | None => Ok (predictors, targets)
    | Some Ip =>
        let* v := index_last f32_zero predictors Ip in
        let* v := expand_dims v (-1) in
        let* t := binop f32_zero f32_sub targets v in
        Ok (predictors, t)
    end).

(** [expand_array], the local function of [Loader.normalize]. *)
Definition expand_array (a : tensor float32) (shp : list nat) : result (tensor float32) :=
  let* a := expand_dims a 0 in
  let* a := expand_dims a 0 in
  let* a := expand_dims a 0 in
  let* a := expand_dims a 0 in
  tile f32_zero a shp.

(** [Loader.normalize], decorated with [map_decorator2]. *)
Definition normalize : Loader -> tensor float32 * tensor float32
                       -> result (tensor float32 * tensor float32) :=
  map_decorator2 (fun self pt =>
    let '(predictors, targets) := pt in
    match coefficients self with
    | None => Ok (predictors, targets)
    | Some coefficients =>
        let a := Tensor [length coefficients] (map fst coefficients) in
        let s := Tensor [length coefficients] (map snd coefficients) in
        let shp := removelast (shape predictors) ++ [1] in
        let* a := expand_array a shp in
        let* s := expand_array s shp in
        let* p := binop f32_zero f32_sub predictors a in
        let* p := binop f32_zero f32_div p s in
        Ok (p, targets)
    end).

(** [Loader.process], decorated with [map_decorator2]: the four stages
    in sequence, each of them a decorated method itself. *)
Definition process : Loader -> tensor float32 * tensor float32
                     -> result (tensor float32 * tensor float32) :=
  map_decorator2 (fun self pt =>
    let* pt := extract_features self pt in
    let* pt := patch self pt in
    let* pt := diff self pt in
    normalize self pt).

(** ** Construction and file reads

    The file system is a parameter: [glob] resolves a pattern to paths,
    [open_dataset] opens an archive, [yaml_load] opens and parses a
    normalization file into its mapping from names to (mean, scale).  So
    is [int_other], what [int] gives outside short ASCII text. *)

Section Files.
Variable glob : string -> list string.
Variable open_dataset : string -> result Dataset.
Variable yaml_load : string -> result (gmap string (float64 * float64)).
Variable int_other : list ascii -> option Z.

(** [Loader.load_metadata]. *)
Definition load_metadata (a : Args) (filename : string) : result Metadata :=
  let* dataset := open_dataset filename in
  let* limit := get_dimension_limits a dataset None in
  let* dataset := isel limit dataset in
  let leadtimes := ds_leadtime dataset in
  let num_x_input := ds_x dataset in
  let num_y_input := ds_y dataset in
  let* _ :=
    match arg_patch_size a with
    | Some ps =>
        if num_x_input <? ps then Err ValueError
        else if num_y_input <? ps then Err ValueError
        else Ok tt
    | None => Ok tt
    end in
  let num_input_predictors :=
    length (ds_predictor dataset) + length (ds_static_predictor dataset) in
  let num_predictors := num_input_predictors + length (arg_extra_features a) in
  let predictor_names_input := ds_predictor dataset ++ ds_static_predictor dataset in
  let predictor_names :=
    predictor_names_input ++ map get_feature_name (arg_extra_features a) in
  let num_predictors :=
    match arg_limit_predictors a with
    | Some allowed => length allowed
    | None => num_predictors
    end in
  Ok {| leadtimes := leadtimes;
        num_x_input := num_x_input;
        num_y_input := num_y_input;
        num_input_predictors := num_input_predictors;
        num_predictors := num_predictors;
        predictor_names_input := predictor_names_input;
        predictor_names := predictor_names;
        num_targets := 1 |}.

(** [Loader.load_coefficients]: the value of [self.coefficients]. *)
Definition load_coefficients (a : Args) (m : Metadata) : result (option table) :=
  match arg_normalization a with
  | None => Ok None
  | Some path =>
      let tbl : table := replicate (num_predictors m) (f32_zero, f32_one) in
      let* coefficients := yaml_load path in
      let coefficients :=
        dict_update coefficients
          (get_extra_features_normalization m (arg_extra_features a)) in
      let* tbl := fill_rows coefficients (arg_extra_features a) 0 (predictor_names m) tbl in
      Ok (Some tbl)
  end.

(** [Loader.__init__]. *)
Definition __init__ (a : Args) : result Loader :=
  let filenames := flat_map glob (arg_filenames a) in
  let* first := of_option IndexError (filenames !! 0) in
  let* m := load_metadata a first in
  let* c := load_coefficients a m in
  Ok {| args := a; filenames := filenames; metadata := m; coefficients := c |}.

(** The treatment of one range variable in [Loader.from_config]. *)
Definition parse_range (r : option range_arg) : result (option (list Z)) :=
  match r with
  | None => Ok None
  | Some (RangeList l) => Ok (Some l)
  | Some (RangeStr curr) =>
      let cs := list_ascii_of_string curr in
      if negb (existsb (Ascii.eqb colon) cs) then Err ValueError else
      match split_colon cs with
      | [start; stop] =>
          let* start := of_option ValueError (int_of_str int_other start) in
          let* stop := of_option ValueError (int_of_str int_other stop) in
          Ok (Some (py_range start stop))
      | _ => Err ValueError
      end
  end.

(** [Loader.from_config]. *)
Definition from_config (config : Config) : result Loader :=
  let* x_range := parse_range (cfg_x_range config) in
  let* y_range := parse_range (cfg_y_range config) in
  let* limit_leadtimes := parse_range (cfg_limit_leadtimes config) in
  __init__ {| arg_filenames := cfg_filenames config;
              arg_limit_leadtimes := limit_leadtimes;
              arg_limit_predictors := cfg_limit_predictors config;
              arg_x_range := x_range;
              arg_y_range := y_range;
              arg_normalization := cfg_normalization config;
              arg_patch_size := cfg_patch_size config;
              arg_predict_diff := cfg_predict_diff config;
              arg_batch_size := cfg_batch_size config;
              arg_prefetch := cfg_prefetch config;
              arg_cache := cfg_cache config;
              arg_num_parallel_calls := cfg_num_parallel_calls config;
              arg_extra_features := cfg_extra_features config;
              arg_fake := cfg_fake config |}.

(** The loop [for lt in range(n): static[lt, ...] = static0] of
    [Loader.parse_file], where [n] is [predictors.shape[0]].  The
    assignment needs [static0] to have the shape of [static[lt, ...]]; the
    variables of one dataset agree on the lengths of their dimensions, so
    no other broadcast arises. *)
Definition assign_leadtimes (n : nat) (static static0 : tensor float32)
  : result (tensor float32) :=
  if n =? 0 then Ok static
  else if bool_decide (shape static = n :: shape static0) then
    Ok (build (shape static) (fun idx => get f32_zero static0 (tail idx)))
  else Err ValueError.

(** [Loader.parse_file]. *)
Definition parse_file (self : Loader) (filename : string)
  : result (tensor float32 * tensor float32) :=
  let* dataset := open_dataset filename in
  let* limit := get_dimension_limits (args self) dataset None in
  let* dataset := isel limit dataset in
  let predictors := ds_predictors dataset in
  let* predictors :=
    if 0 <? length (ds_static_predictor dataset) then
      let static_predictors0 := ds_static_predictors dataset in
      let* n := of_option IndexError (last (shape static_predictors0)) in
      let static_predictors := np_zeros (removelast (shape predictors) ++ [n]) in
      let* num_lt := of_option IndexError (shape predictors !! 0) in
      let* static_predictors :=
        assign_leadtimes num_lt static_predictors static_predictors0 in
      as_numpy (concat f32_zero [predictors; static_predictors] 3)
    else Ok predictors in
  let* targets := as_numpy (expand_dims (ds_target_mean dataset) 3) in
  Ok (predictors, targets).

(** [Loader.generate_fake_data]. *)
Definition generate_fake_data (self : Loader) : tensor float32 * tensor float32 :=
  let m := metadata self in
  (np_zeros [num_leadtimes m; num_y_input m; num_x_input m; num_input_predictors m],
   np_zeros [num_leadtimes m; num_y_input m; num_x_input m; 1]).

(** [Loader.load_file]. *)
Definition load_file (self : Loader) (index : nat)
  : result (tensor float32 * tensor float32) :=
  let* filename := of_option IndexError (filenames self !! index) in
  if fake self then Ok (generate_fake_data self)
  else parse_file self filename.

End Files.

(** ** Reassembling patches

    The inverse of the patch stage in the words of the specification:
    the tiles are put back row-major, patch [py * nx + px] covering rows
    [py * ps ..] and columns [px * ps ..] of the grid, where [nx] is the
    number of patches along the x axis. *)
Definition unpatch (t : tensor float32) (nx : nat) : tensor float32 :=
  match shape t with
  | [LT; N; ps; ps'; P] =>
      build [LT; N / nx * ps; nx * ps'; P]
        (fun idx =>
           match idx with
           | [lt; y; x; c] =>
               get f32_zero t [lt; y / ps * nx + x / ps'; y mod ps; x mod ps'; c]
           | _ => f32_zero
           end)
  | _ => t
  end.

(** ** Auxiliary definitions for the properties *)

(** The input of [patch_tensor] without the trailing edge that does not
    fill a patch. *)
Definition trimmed (LT Y X P ps : nat) (a : tensor float32) : tensor float32 :=
  build [LT; Y / ps * ps; X / ps * ps; P] (get f32_zero a).

(** The element of the extracted patches at window position [k] of patch
    [(r, c)], when no padding is read. *)
Definition window_elem (P ps : nat) (a : tensor float32) (idx : list nat) : float32 :=
  match idx with
  | [b; r; c; k] =>
      get f32_zero a [b; r * ps + k / (ps * P); c * ps + (k / P) mod ps; k mod P]
  | _ => f32_zero
  end.

(** What [patch_tensor] computes on a four-dimensional array. *)
Definition patched (LT Y X P ps : nat) (a : tensor float32) : tensor float32 :=
  Tensor [LT; Y / ps * (X / ps); ps; ps; P]
         (tabulate [LT; Y / ps; X / ps; ps * ps * P] (window_elem P ps a)).

(** The axis whose coordinate a feature of a known type holds. *)
Definition feature_axis (feature : Feature) : option nat :=
  if String.eqb (f_type feature) "x" then Some 2
  else if String.eqb (f_type feature) "y" then Some 1
  else if String.eqb (f_type feature) "leadtime" then Some 0
  else None.

(** The one-channel array holding, at every position, its coordinate along
    [axis]. *)
Definition coordinate_channel (LT Y X axis : nat) : tensor float32 :=
  Tensor [LT; Y; X; 1] (tabulate [LT; Y; X] (fun idx => f32_of_nat (nth axis idx 0))).

(** The channels that the loop of [extract_features] appends for features
    of known types. *)
Definition feature_channels (LT Y X : nat) (features : list Feature)
  : list (tensor float32) :=
  map (fun feature => coordinate_channel LT Y X (default 0 (feature_axis feature))) features.

(** The row that the loop of [load_coefficients] writes for a name. *)
Definition coefficient_row (coefficients : gmap string (float64 * float64))
    (name : string) : float32 * float32 :=
  match coefficients !! name with
  | Some v => (f32_of_f64 (fst v), f32_of_f64 (snd v))
  | None => (f32_zero, f32_one)
  end.

(** The facts about the lead-time dimension of a dataset that the
    limiting of the other dimensions preserves. *)
Definition leadtime_length (n : nat) (ds : Dataset) : Prop :=
  length (ds_leadtime ds) = n /\
  shape (ds_predictors ds) !! 0 = Some n /\
  shape (ds_target_mean ds) !! 0 = Some n.

(** * A small archive *)

Definition example_dataset : Dataset := {|
  ds_leadtime := [0; 3600; 7200; 10800; 14400]%Z;
  ds_y := 4;
  ds_x := 4;
  ds_predictor := ["air_temperature_2m"; "precipitation_amount"];
  ds_static_predictor := ["altitude"];
  ds_predictors := build [5; 4; 4; 2] (fun idx => f32_of_nat (offset [5; 4; 4; 2] idx));
  ds_static_predictors := build [4; 4; 1] (fun idx => f32_of_nat (offset [4; 4; 1] idx));
  ds_target_mean := build [5; 4; 4] (fun idx => f32_of_nat (offset [5; 4; 4] idx))
|}.

Definition example_files : list string := ["data/20200301.nc"; "data/20200302.nc"].

Definition example_glob (pattern : string) : list string :=
  if String.eqb pattern "data/*.nc" then example_files else [].

Definition example_open (filename : string) : result Dataset :=
  if bool_decide (filename ∈ example_files) then Ok example_dataset else Err OSError.

(** A normalization file that gives the precipitation a scale of 0. *)
Definition example_source : gmap string (float64 * float64) :=
  <["air_temperature_2m" := (f64_of_nat 280, f64_of_nat 10)]>
    (<["precipitation_amount" := (f64_zero, f64_zero)]> ∅).

Definition example_yaml (path : string) : result (gmap string (float64 * float64)) :=
  if String.eqb path "normalization.yml" then Ok example_source else Err OSError.

(** An interpreter whose [int] accepts nothing outside short ASCII text. *)
Definition example_int (s : list ascii) : option Z := None.

Definition example_args : Args := {|
  arg_filenames := ["data/*.nc"];
  arg_limit_leadtimes := None;
  arg_limit_predictors := None;
  arg_x_range := None;
  arg_y_range := None;
  arg_normalization := Some "normalization.yml";
  arg_patch_size := Some 2;
  arg_predict_diff := true;
  arg_batch_size := 1;
  arg_prefetch := None;
  arg_cache := false;
  arg_num_parallel_calls := None;
  arg_extra_features := [{| f_type := "x"; f_name := None |}];
  arg_fake := false
|}.

(** The loader that [__init__] builds from [example_args]. *)
Definition example_loader : Loader := {|
  args := example_args;
  filenames := example_files;
  metadata := {|
    leadtimes := [0; 3600; 7200; 10800; 14400]%Z;
    num_x_input := 4;
    num_y_input := 4;
    num_input_predictors := 3;
    num_predictors := 4;
    predictor_names_input := ["air_temperature_2m"; "precipitation_amount"; "altitude"];
    predictor_names := ["air_temperature_2m"; "precipitation_amount"; "altitude"; "x"];
    num_targets := 1
  |};
  coefficients :=
    Some [(f32_of_f64 (f64_of_nat 280), f32_of_f64 (f64_of_nat 10));
          (f32_zero, f32_zero);
          (f32_zero, f32_one);
          (f32_of_f64 (np_mean (np_arange 4)), f32_of_f64 (np_std (np_arange 4)))]
|}.

(** The same options without differencing and without normalization. *)
Definition plain_args : Args := {|
  arg_filenames := ["data/*.nc"];
  arg_limit_leadtimes := None;
  arg_limit_predictors := None;
  arg_x_range := None;
  arg_y_range := None;
  arg_normalization := None;
  arg_patch_size := Some 2;
  arg_predict_diff := false;
  arg_batch_size := 1;
  arg_prefetch := None;
  arg_cache := false;
  arg_num_parallel_calls := None;
  arg_extra_features := [{| f_type := "x"; f_name := None |}];
  arg_fake := false
|}.

Definition plain_loader : Loader := {|
  args := plain_args;
  filenames := example_files;
  metadata := metadata example_loader;
  coefficients := None
|}.

(** A predictor allow-list that names the two dynamic predictors, together
    with one extra feature and a normalization file. *)
Definition allow_list_args (allowed : list string) : Args := {|
  arg_filenames := ["data/*.nc"];
  arg_limit_leadtimes := None;
  arg_limit_predictors := Some allowed;
  arg_x_range := None;
  arg_y_range := None;
  arg_normalization := Some "normalization.yml";
  arg_patch_size := None;
  arg_predict_diff := false;
  arg_batch_size := 1;
  arg_prefetch := None;
  arg_cache := false;
  arg_num_parallel_calls := None;
  arg_extra_features := [{| f_type := "x"; f_name := None |}];
  arg_fake := false
|}.

(** Differencing together with an allow-list that leaves out the raw
    forecast, and the loader that [__init__] builds from these options. *)
Definition no_raw_args : Args := {|
  arg_filenames := ["data/*.nc"];
  arg_limit_leadtimes := None;
  arg_limit_predictors := Some ["precipitation_amount"; "altitude"];
  arg_x_range := None;
  arg_y_range := None;
  arg_normalization := None;
  arg_patch_size := Some 2;
  arg_predict_diff := true;
  arg_batch_size := 1;
  arg_prefetch := None;
  arg_cache := false;
  arg_num_parallel_calls := None;
  arg_extra_features := [];
  arg_fake := false
|}.

Definition no_raw_loader : Loader := {|
  args := no_raw_args;
  filenames := example_files;
  metadata := {|
    leadtimes := [0; 3600; 7200; 10800; 14400]%Z;
    num_x_input := 4;
    num_y_input := 4;
    num_input_predictors := 2;
    num_predictors := 2;
    predictor_names_input := ["precipitation_amount"; "altitude"];
    predictor_names := ["precipitation_amount"; "altitude"];
    num_targets := 1
  |};
  coefficients := None
|}.

(** A configuration that limits the lead times by the string ["1:3"]. *)
Definition example_config : Config := {|
  cfg_filenames := ["data/*.nc"];
  cfg_limit_leadtimes := Some (RangeStr "1:3");
  cfg_limit_predictors := None;
  cfg_x_range := None;
  cfg_y_range := None;
  cfg_normalization := None;
  cfg_patch_size := None;
  cfg_predict_diff := false;
  cfg_batch_size := 1;
  cfg_prefetch := None;
  cfg_cache := false;
  cfg_num_parallel_calls := None;
  cfg_extra_features := [];
  cfg_fake := false
|}.

(** The arrays that [load_file] gives for the first example file. *)
Definition example_predictors : tensor float32 :=
  build [5; 4; 4; 3]
    (fun idx =>
       match idx with
       | [lt; y; x; c] =>
           if c <? 2 then f32_of_nat (offset [5; 4; 4; 2] [lt; y; x; c])
           else f32_of_nat (offset [4; 4; 1] [y; x; 0])
       | _ => f32_zero
       end).

Definition example_targets : tensor float32 :=
  Tensor [5; 4; 4; 1] (data (ds_target_mean example_dataset)).

(** A file system in which no pattern matches. *)
Definition no_files (pattern : string) : list string := [].

(** * The remaining stages, the loader's properties and the streaming pipeline *)

Section MoreOps.
Context {A : Type}.
Variable zero : A.

(** The position of [a] in [perm]. *)
Fixpoint position (a : nat) (perm : list nat) : option nat :=
  match perm with
  | [] => None
  | b :: perm' => if b =? a then Some 0 else S <$> position a perm'
  end.

(** [perm] lists every axis of an array of rank [n] once. *)
Definition is_permutation (n : nat) (perm : list nat) : bool :=
  (length perm =? n) && forallb (fun a => bool_decide (is_Some (position a perm))) (seq 0 n).

(** The index into the input that the element at [idx] of
    [tf.transpose(t, perm)] comes from: output axis [k] is input axis
    [perm[k]]. *)
Definition transpose_source (perm idx : list nat) : list nat :=
  map (fun a => nth (default 0 (position a perm)) idx 0) (seq 0 (length perm)).

(** [tf.transpose(t, perm)]. *)
Definition transpose (t : tensor A) (perm : list nat) : result (tensor A) :=
  if is_permutation (length (shape t)) perm then
    Ok (build (map (fun a => nth a (shape t) 0) perm)
          (fun idx => get zero t (transpose_source perm idx)))
  else Err InvalidArgumentError.

(** One component of [Dataset.unbatch]: the slices of [t] along its first
    axis.  In row-major data the slices are consecutive pieces. *)
Definition unstack (t : tensor A) : result (list (tensor A)) :=
  match shape t with
  | [] => Err InvalidArgumentError
  | n :: s =>
      Ok (map (fun i => Tensor s (firstn (numel s) (skipn (i * numel s) (data t))))
              (seq 0 n))
  end.

(** One component of [Dataset.batch]: arrays of one shape stacked along a
    new first axis. *)
Definition stack (ts : list (tensor A)) : result (tensor A) :=
  match ts with
  | [] => Err InvalidArgumentError
  | t :: _ =>
      if forallb (fun u => bool_decide (shape u = shape t)) ts
      then Ok (Tensor (length ts :: shape t) (flat_map data ts))
      else Err InvalidArgumentError
  end.

End MoreOps.

(** [map] with a function that may raise. *)
Fixpoint map_result {A B : Type} (f : A -> result B) (l : list A) : result (list B) :=
  match l with
  | [] => Ok []
  | x :: l' =>
      let* y := f x in
      let* ys := map_result f l' in
      Ok (y :: ys)
  end.

(** The consecutive groups of [n] elements of [l], the last one possibly
    shorter; [fuel] bounds the number of groups. *)
Fixpoint groups {A : Type} (fuel n : nat) (l : list A) : list (list A) :=
  match fuel, l with
  | S fuel', _ :: _ => firstn n l :: groups fuel' n (skipn n l)
  | _, _ => []
  end.

(** An element of the streamed dataset: a predictor array and a target
    array. *)
Abbreviation element := (tensor float32 * tensor float32)%type.

(** [Dataset.unbatch] on one element: both components are sliced along
    their first axis, which must have one length. *)
Definition unbatch_element (e : element) : result (list element) :=
  let* ps := unstack (fst e) in
  let* ts := unstack (snd e) in
  if length ps =? length ts then Ok (zip ps ts) else Err InvalidArgumentError.

(** [Dataset.unbatch]. *)
Definition unbatch (dataset : list element) : result (list element) :=
  let* parts := map_result unbatch_element dataset in
  Ok (List.concat parts).

(** [Dataset.batch] on one group of elements. *)
Definition batch_element (es : list element) : result element :=
  let* p := stack (map fst es) in
  let* t := stack (map snd es) in
  Ok (p, t).

(** [Dataset.batch(n)] with the default [drop_remainder=False]. *)
Definition batch (n : nat) (dataset : list element) : result (list element) :=
  if n =? 0 then Err InvalidArgumentError
  else map_result batch_element (groups (length dataset) n dataset).

(** [Loader.reorder], decorated with [map_decorator2]. *)
Definition reorder : Loader -> element -> result element :=
  map_decorator2 (fun self pt =>
    let '(predictors, targets) := pt in
    let* p := transpose f32_zero predictors [1; 0; 2; 3; 4] in
    let* t := transpose f32_zero targets [1; 0; 2; 3; 4] in
    Ok (p, t)).

(** [Loader.to_gpu], decorated with [map_decorator2]: [tf.identity] on
    both arrays. *)
Definition to_gpu : Loader -> element -> result element :=
  map_decorator2 (fun self pt => Ok pt).

(** [Loader.num_files]. *)
Definition num_files (self : Loader) : nat := length (filenames self).

(** [Loader.num_x] and [Loader.num_y]. *)
Definition num_x (self : Loader) : nat :=
  match patch_size self with
  | Some ps => ps
  | None => num_x_input (metadata self)
  end.

Definition num_y (self : Loader) : nat :=
  match patch_size self with
  | Some ps => ps
  | None => num_y_input (metadata self)
  end.

(** Python's [a // b] on non-negative integers. *)
Definition floordiv (a b : nat) : result nat :=
  if b =? 0 then Err ZeroDivisionError else Ok (a / b).

(** [Loader.num_y_patches] and [Loader.num_x_patches]. *)
Definition num_y_patches (self : Loader) : result nat :=
  match patch_size self with
  | Some ps => floordiv (num_y_input (metadata self)) ps
  | None => Ok 1
  end.

Definition num_x_patches (self : Loader) : result nat :=
  match patch_size self with
  | Some ps => floordiv (num_x_input (metadata self)) ps
  | None => Ok 1
  end.

(** [Loader.num_patches_per_file]. *)
Definition num_patches_per_file (self : Loader) : result nat :=
  let* nx := num_x_patches self in
  let* ny := num_y_patches self in
  Ok (nx * ny).

(** [Loader.num_patches]. *)
Definition num_patches (self : Loader) : result nat :=
  let* n := num_patches_per_file self in
  Ok (n * num_files self).

(** [Loader.predictor_shape] and [Loader.target_shape]. *)
Definition predictor_shape (self : Loader) : list nat :=
  [num_leadtimes (metadata self); num_y self; num_x self; num_predictors (metadata self)].

Definition target_shape (self : Loader) : list nat :=
  [num_leadtimes (metadata self); num_y self; num_x self; num_targets (metadata self)].

(** ** The streaming pipeline *)

(** The [num_parallel_calls] argument of [get_dataset]: a number of
    threads or [tf.data.AUTOTUNE]. *)
Inductive parallelism : Type :=
  | Autotune
  | Calls (n : nat).

(** What an iteration gives that ends in an exception of some stage. *)
Definition iteration {B : Type} (r : result B) : option B :=
  match r with
  | Ok b => Some b
  | Err _ => None
  end.

Section Pipeline.
Variable open_dataset : string -> result Dataset.

(** The stages of the dataset that [get_dataset] builds, applied to the
    file indices [z] in order.  [chunk] is the number of lead times per
    unit of work, [None] when the lead times are not split.  The files
    are read through [tf.py_function], as the stages are by their
    decorator.  A map with several threads keeps the order of its input;
    [cache], [prefetch] and the logging maps do not change the
    elements. *)
Definition stream (self : Loader) (z : list nat) (chunk : option nat)
  : result (list element) :=
  let load_file := fun i => py_function (load_file open_dataset self i) in
  let* dataset := map_result load_file z in
  let* dataset :=
    match chunk with
    | Some size => let* dataset := unbatch dataset in batch size dataset
    | None => Ok dataset
    end in
  let* dataset := map_result (process self) dataset in
  let* dataset :=
    match chunk with
    | Some _ =>
        let* dataset := unbatch dataset in
        batch (num_leadtimes (metadata self)) dataset
    | None => Ok dataset
    end in
  let* dataset := map_result (reorder self) dataset in
  let* dataset := unbatch dataset in
  let* dataset := map_result (to_gpu self) dataset in
  batch (arg_batch_size (args self)) dataset.

(** [Loader.get_dataset].  [randomized] is the order drawn when
    [randomize_order] is set.  The result is an exception raised while the
    dataset is built (a division by zero, a batch size of zero), or else
    what iterating the dataset to its end gives: the batches, or [None]
    when a stage raises on some element. *)
Definition get_dataset (self : Loader) (randomized : option (list nat))
    (num_parallel_calls : parallelism) (repeat : option nat)
  : result (option (list element)) :=
  let num_parallel_calls :=
    match arg_num_parallel_calls (args self) with
    | Some n => Calls n
    | None => num_parallel_calls
    end in
  let z :=
    match randomized with
    | Some order => order
    | None => seq 0 (num_files self)
    end in
  let dataset :=
    match repeat with
    | Some n => List.concat (replicate n z)
    | None => z
    end in
  let* chunk :=
    match num_parallel_calls with
    | Autotune => Ok None
    | Calls n =>
        if n =? 0 then Err ZeroDivisionError
        else
          let size := ceil_div (num_leadtimes (metadata self)) n in
          if size =? 0 then Err InvalidArgumentError else Ok (Some size)
    end in
  let* _ :=
    match chunk with
    | Some _ =>
        if num_leadtimes (metadata self) =? 0 then Err InvalidArgumentError else Ok tt
    | None => Ok tt
    end in
  let* _ :=
    if arg_batch_size (args self) =? 0 then Err InvalidArgumentError else Ok tt in
  Ok (iteration (stream self dataset chunk)).

End Pipeline.

(** ** Auxiliary definitions for the further properties *)

(** The variables of a dataset have the shapes that its dimensions give. *)
Definition consistent_shapes (ds : Dataset) : Prop :=
  shape (ds_predictors ds)
  = [length (ds_leadtime ds); ds_y ds; ds_x ds; length (ds_predictor ds)] /\
  shape (ds_static_predictors ds)
  = [ds_y ds; ds_x ds; length (ds_static_predictor ds)] /\
  shape (ds_target_mean ds) = [length (ds_leadtime ds); ds_y ds; ds_x ds].

(** The number of [":"] in a string. *)
Definition count_colons (s : string) : nat :=
  count_occ Ascii.ascii_dec (list_ascii_of_string s) colon.

(** The slices of an array along its first axis. *)
Definition slices {A : Type} (t : tensor A) : list (tensor A) :=
  match shape t with
  | [] => []
  | n :: s =>
      map (fun i => Tensor s (firstn (numel s) (skipn (i * numel s) (data t)))) (seq 0 n)
  end.

(** The slices of an element: pairs of a predictor and a target slice. *)
Definition element_slices (e : element) : list element :=
  zip (slices (fst e)) (slices (snd e)).

(** Both arrays of an element are well-formed and have [n] entries along
    their first axis. *)
Definition leading (n : nat) (e : element) : Prop :=
  wf (fst e) /\ wf (snd e) /\
  (exists s, shape (fst e) = n :: s) /\ (exists s, shape (snd e) = n :: s).

(** The arrays of one file as the metadata describes them, with [P] input
    channels. *)
Definition file_arrays (self : Loader) (P : nat) (e : element) : Prop :=
  let m := metadata self in
  wf (fst e) /\
  shape (fst e) = [num_leadtimes m; num_y_input m; num_x_input m; P] /\
  wf (snd e) /\
  shape (snd e) = [num_leadtimes m; num_y_input m; num_x_input m; 1].

(** The file indices that [get_dataset] streams. *)
Definition file_indices (self : Loader) (randomized : option (list nat))
    (repeat : option nat) : list nat :=
  let z :=
    match randomized with
    | Some order => order
    | None => seq 0 (num_files self)
    end in
  match repeat with
  | Some n => List.concat (replicate n z)
  | None => z
  end.

(** The arrays of one file after [process], with [n] patches; after
    [reorder]; and one sample of the final stream. *)
Definition processed (self : Loader) (P n : nat) (e : element) : Prop :=
  let LT := num_leadtimes (metadata self) in
  let C := P + length (extra_features self) in
  wf (fst e) /\ shape (fst e) = [LT; n; num_y self; num_x self; C] /\
  wf (snd e) /\ shape (snd e) = [LT; n; num_y self; num_x self; 1].

Definition reordered (self : Loader) (P n : nat) (e : element) : Prop :=
  let LT := num_leadtimes (metadata self) in
  let C := P + length (extra_features self) in
  wf (fst e) /\ shape (fst e) = [n; LT; num_y self; num_x self; C] /\
  wf (snd e) /\ shape (snd e) = [n; LT; num_y self; num_x self; 1].

Definition sample_arrays (self : Loader) (P : nat) (e : element) : Prop :=
  let LT := num_leadtimes (metadata self) in
  let C := P + length (extra_features self) in
  shape (fst e) = [LT; num_y self; num_x self; C] /\
  shape (snd e) = [LT; num_y self; num_x self; 1].

(** ** What [process] computes *)

(** The grid row and column of element [(i, j)] of patch [k]. *)
Definition patch_row (self : Loader) (k i : nat) : nat :=
  match patch_size self with
  | Some ps => k / (num_x_input (metadata self) / ps) * ps + i
  | None => i
  end.

Definition patch_column (self : Loader) (k j : nat) : nat :=
  match patch_size self with
  | Some ps => k mod (num_x_input (metadata self) / ps) * ps + j
  | None => j
  end.

(** Channel [c] of the predictors with the extra features appended, at
    position [lt] along the first axis and grid point [(y, x)], when
    [value y x c] is the input predictor [c] there. *)
Definition extended (self : Loader) (P : nat) (value : nat -> nat -> nat -> float32)
    (lt y x c : nat) : float32 :=
  if c <? P then value y x c
  else
    match extra_features self !! (c - P) with
    | Some feature =>
        match feature_axis feature with
        | Some axis => f32_of_nat (nth axis [lt; y; x] 0)
        | None => f32_zero
        end
    | None => f32_zero
    end.

(** The normalization of a value of channel [c]. *)
Definition normalized (self : Loader) (c : nat) (v : float32) : float32 :=
  match coefficients self with
  | Some tbl =>
      let row := nth c tbl (f32_zero, f32_zero) in
      f32_div (f32_sub v (fst row)) (snd row)
  | None => v
  end.

(** The target after the raw forecast, if any, is subtracted. *)
Definition differenced (self : Loader) (P : nat) (value : nat -> nat -> nat -> float32)
    (target : nat -> nat -> float32) (lt y x : nat) : float32 :=
  match raw_predictor_index self with
  | Ok (Some Ip) => f32_sub (target y x) (extended self P value lt y x Ip)
  | _ => target y x
  end.

(** What [process] computes for one lead time, at position [pos] of the
    array that it is given: [s] holds the (y, x, channel) arrays of that
    lead time, [n] is the number of patches. *)
Definition process_slice (self : Loader) (P n pos : nat) (s : element) : element :=
  let value y x c := get f32_zero (fst s) [y; x; c] in
  let target y x := get f32_zero (snd s) [y; x; 0] in
  (build [n; num_y self; num_x self; P + length (extra_features self)]
     (fun idx =>
        match idx with
        | [k; i; j; c] =>
            normalized self c
              (extended self P value pos (patch_row self k i) (patch_column self k j) c)
        | _ => f32_zero
        end),
   build [n; num_y self; num_x self; 1]
     (fun idx =>
        match idx with
        | [k; i; j; _] =>
            differenced self P value target pos (patch_row self k i) (patch_column self k j)
        | _ => f32_zero
        end)).

(** Slice [i] of an array along its first axis. *)
Definition slice_at {A : Type} (t : tensor A) (i : nat) : tensor A :=
  let s := tail (shape t) in
  Tensor s (firstn (numel s) (skipn (i * numel s) (data t))).

(** What stacking a group of arrays of one shape gives. *)
Definition stacked_tensor {A : Type} (ts : list (tensor A)) : tensor A :=
  Tensor (length ts :: match ts with t :: _ => shape t | [] => [] end)
         (flat_map data ts).

Definition stacked (g : list element) : element :=
  (stacked_tensor (map fst g), stacked_tensor (map snd g)).

(** The arrays of [k] lead times on the grid of the metadata, with [P]
    input channels. *)
Definition chunk_arrays (self : Loader) (P k : nat) (e : element) : Prop :=
  let m := metadata self in
  wf (fst e) /\ shape (fst e) = [k; num_y_input m; num_x_input m; P] /\
  wf (snd e) /\ shape (snd e) = [k; num_y_input m; num_x_input m; 1].

(** The arrays of one lead time. *)
Definition slice_arrays (self : Loader) (P : nat) (e : element) : Prop :=
  let m := metadata self in
  wf (fst e) /\ shape (fst e) = [num_y_input m; num_x_input m; P] /\
  wf (snd e) /\ shape (snd e) = [num_y_input m; num_x_input m; 1].

(** The positions that a range option selects along a dimension of
    length [n]: all of them when the option is absent. *)
Definition selection (n : nat) (r : option (list Z)) : option (list nat) :=
  match r with
  | Some idxs => mapM (norm_index n) idxs
  | None => Some (seq 0 n)
  end.

(** The positions of the names that a predictor allow-list keeps: all of
    them without an allow-list. *)
Definition allowed_positions (names : list string) (allowed : option (list string))
  : list nat :=
  match allowed with
  | Some al => filter (fun i => nth i names ""%string ∈ al) (seq 0 (length names))
  | None => seq 0 (length names)
  end.

(** The dataset [ds'] holds, along each dimension, the entries of [ds] at
    the positions of a list: [sl] for the lead times, [sy] and [sx] for
    the rows and columns, [sp] and [ss] for the predictors and the static
    predictors. *)
Definition reindexed (sl sy sx sp ss : list nat) (ds ds' : Dataset) : Prop :=
  ds_leadtime ds' = map (fun i => nth i (ds_leadtime ds) 0%Z) sl /\
  ds_predictor ds' = map (fun i => nth i (ds_predictor ds) ""%string) sp /\
  ds_static_predictor ds' = map (fun i => nth i (ds_static_predictor ds) ""%string) ss /\
  ds_y ds' = length sy /\
  ds_x ds' = length sx /\
  shape (ds_predictors ds') = [length sl; length sy; length sx; length sp] /\
  shape (ds_static_predictors ds') = [length sy; length sx; length ss] /\
  shape (ds_target_mean ds') = [length sl; length sy; length sx] /\
  (forall lt y x c, lt < length sl -> y < length sy -> x < length sx -> c < length sp ->
     get f32_zero (ds_predictors ds') [lt; y; x; c]
     = get f32_zero (ds_predictors ds) [nth lt sl 0; nth y sy 0; nth x sx 0; nth c sp 0]) /\
  (forall y x s, y < length sy -> x < length sx -> s < length ss ->
     get f32_zero (ds_static_predictors ds') [y; x; s]
     = get f32_zero (ds_static_predictors ds) [nth y sy 0; nth x sx 0; nth s ss 0]) /\
  (forall lt y x, lt < length sl -> y < length sy -> x < length sx ->
     get f32_zero (ds_target_mean ds') [lt; y; x]
     = get f32_zero (ds_target_mean ds) [nth lt sl 0; nth y sy 0; nth x sx 0]).

(** The processed arrays of one lead time, with [n] patches. *)
Definition patch_arrays (self : Loader) (P n : nat) (e : element) : Prop :=
  let C := P + length (extra_features self) in
  wf (fst e) /\ shape (fst e) = [n; num_y self; num_x self; C] /\
  wf (snd e) /\ shape (snd e) = [n; num_y self; num_x self; 1].

(** The number of threads that [get_dataset] uses. *)
Definition threads (self : Loader) (num_parallel_calls : parallelism) : parallelism :=
  match arg_num_parallel_calls (args self) with
  | Some n => Calls n
  | None => num_parallel_calls
  end.

(** Every element of channel [c] (the position along the last axis) of
    an array is [v]. *)
Definition channel_constant (c : nat) (v : float32) (t : tensor float32) : Prop :=
  forall pre, in_range (shape t) (pre ++ [c]) -> get f32_zero t (pre ++ [c]) = v.

(** What [from_config] makes of a range option: a list is kept, a string
    ["start:end"] whose parts hold no further colon becomes
    [range(int(start), int(end))]. *)
Inductive range_value (int_other : list ascii -> option Z)
  : option range_arg -> option (list Z) -> Prop :=
  | range_absent : range_value int_other None None
  | range_list (l : list Z) : range_value int_other (Some (RangeList l)) (Some l)
  | range_string (start stop : string) (s e : Z) :
      count_colons start = 0 -> count_colons stop = 0 ->
      int_of_str int_other (list_ascii_of_string start) = Some s ->
      int_of_str int_other (list_ascii_of_string stop) = Some e ->
      range_value int_other (Some (RangeStr (start ++ ":" ++ stop)%string))
        (Some (py_range s e)).

(** ** What the stream holds *)

(** The value that the stream holds for channel [c] of element [(i, j)] of
    patch [q] of a file at lead time [lt], and the target there. *)
Definition patch_value (self : Loader) (P : nat) (file : element) (q lt i j c : nat)
    : float32 :=
  normalized self c
    (extended self P (fun y x c => get f32_zero (fst file) [lt; y; x; c]) lt
       (patch_row self q i) (patch_column self q j) c).

Definition patch_target (self : Loader) (P : nat) (file : element) (q lt i j : nat)
    : float32 :=
  differenced self P (fun y x c => get f32_zero (fst file) [lt; y; x; c])
    (fun y x => get f32_zero (snd file) [lt; y; x; 0]) lt
    (patch_row self q i) (patch_column self q j).

(** The reordered arrays [r] hold the [n] patches of [file]. *)
Definition holds_patches (self : Loader) (P n : nat) (file r : element) : Prop :=
  reordered self P n r /\
  forall q lt i j,
    q < n -> lt < num_leadtimes (metadata self) -> i < num_y self -> j < num_x self ->
    (forall c, c < P + length (extra_features self) ->
       get f32_zero (fst r) [q; lt; i; j; c] = patch_value self P file q lt i j c) /\
    get f32_zero (snd r) [q; lt; i; j; 0] = patch_target self P file q lt i j.

(** ** Further loaders on the small archive *)

(** The options of [plain_args] with another patch size, other extra
    features and the fake mode. *)
Definition options_with (patch_size : option nat) (features : list Feature)
    (fake : bool) : Args := {|
  arg_filenames := ["data/*.nc"];
  arg_limit_leadtimes := None;
  arg_limit_predictors := None;
  arg_x_range := None;
  arg_y_range := None;
  arg_normalization := None;
  arg_patch_size := patch_size;
  arg_predict_diff := false;
  arg_batch_size := 3;
  arg_prefetch := None;
  arg_cache := false;
  arg_num_parallel_calls := None;
  arg_extra_features := features;
  arg_fake := fake
|}.

(** The loader that [__init__] builds from these options on the small
    archive. *)
Definition loader_with (patch_size : option nat) (features : list Feature)
    (fake : bool) : Loader :=
  match __init__ example_glob example_open example_yaml
                 (options_with patch_size features fake) with
  | Ok self => self
  | Err _ => plain_loader
  end.

Definition feature_of_type (type : string) : Feature := {| f_type := type; f_name := None |}.

(** What [process] gives for the first example file with [plain_loader]:
    arrays of the shapes (5, 4, 2, 2, 4) and (5, 4, 2, 2, 1). *)
Definition example_patches : element :=
  match process plain_loader (example_predictors, example_targets) with
  | Ok e => e
  | Err _ => (example_predictors, example_targets)
  end.

(** A configuration whose [x_range] is a string without a colon. *)
Definition bad_range_config : Config := {|
  cfg_filenames := ["data/*.nc"];
  cfg_limit_leadtimes := None;
  cfg_limit_predictors := None;
  cfg_x_range := Some (RangeStr "0-4");
  cfg_y_range := None;
  cfg_normalization := None;
  cfg_patch_size := None;
  cfg_predict_diff := false;
  cfg_batch_size := 1;
  cfg_prefetch := None;
  cfg_cache := false;
  cfg_num_parallel_calls := None;
  cfg_extra_features := [];
  cfg_fake := false
|}.

(** A configuration whose [x_range] has a letter for its end. *)
Definition letter_range_config : Config := {|
  cfg_filenames := ["data/*.nc"];
  cfg_limit_leadtimes := None;
  cfg_limit_predictors := None;
  cfg_x_range := Some (RangeStr "1:x");
  cfg_y_range := None;
  cfg_normalization := None;
  cfg_patch_size := None;
  cfg_predict_diff := false;
  cfg_batch_size := 1;
  cfg_prefetch := None;
  cfg_cache := false;
  cfg_num_parallel_calls := None;
  cfg_extra_features := [];
  cfg_fake := false
|}.

(** Options that limit the lead times to the last and the first one, the
    grid to the columns 1 and 3 (given as -1) and the rows 0, 2 and 3, and
    the predictors to two names, and the loader built from them. *)
Definition range_args : Args := {|
  arg_filenames := ["data/*.nc"];
  arg_limit_leadtimes := Some [4; 0]%Z;
  arg_limit_predictors := Some ["altitude"; "precipitation_amount"];
  arg_x_range := Some [1; -1]%Z;
  arg_y_range := Some [0; 2; 3]%Z;
  arg_normalization := None;
  arg_patch_size := None;
  arg_predict_diff := false;
  arg_batch_size := 1;
  arg_prefetch := None;
  arg_cache := false;
  arg_num_parallel_calls := None;
  arg_extra_features := [];
  arg_fake := false
|}.

Definition range_loader : Loader :=
  match __init__ example_glob example_open example_yaml range_args with
  | Ok self => self
  | Err _ => plain_loader
  end.


(** * Properties *)

(** ** The decorator *)

(** A decorated stage returns what its body returns, and raises when its
    body raises. *)
Lemma py_function_Ok {A : Type} (r : result A) (a : A) :
  py_function r = Ok a <-> r = Ok a.
Proof.
  destruct r as [a'|e]; cbn [py_function]; split; intros H;
    first [exact H | discriminate].
Qed.

Lemma py_function_Err {A : Type} (r : result A) (e : exn) :
  r = Err e -> py_function r = Err (py_function_error e).
Proof. intros ->. reflexivity. Qed.

(** ** Arrays *)

Section TensorFacts.
Context {A : Type}.
Variable zero : A.

Lemma length_flat_map_uniform {B : Type} (f : B -> list A) (l : list B) (m : nat) :
  (forall b, In b l -> length (f b) = m) ->
  length (flat_map f l) = length l * m.
Proof.
  induction l as [|b l IH]; intros Hf; simpl; [reflexivity|].
  rewrite length_app, Hf by (left; reflexivity).
  rewrite IH by (intros; apply Hf; right; assumption). lia.
Qed.

Lemma length_tabulate (s : list nat) (f : list nat -> A) :
  length (tabulate s f) = numel s.
Proof.
  revert f. induction s as [|n s IH]; intros f; simpl; [reflexivity|].
  rewrite (length_flat_map_uniform _ _ (numel s)) by (intros; apply IH).
  rewrite length_seq. reflexivity.
Qed.

Lemma wf_build (s : list nat) (f : list nat -> A) : wf (build s f).
Proof. apply length_tabulate. Qed.

Lemma nth_flat_map_seq (f : nat -> list A) (m n a i j : nat) (d : A) :
  (forall k, length (f k) = m) -> i < n -> j < m ->
  nth (i * m + j) (flat_map f (seq a n)) d = nth j (f (a + i)) d.
Proof.
  intros Hlen. revert a i. induction n as [|n IH]; intros a i Hi Hj; [lia|].
  simpl. destruct i as [|i].
  - rewrite app_nth1 by (rewrite Hlen; lia).
    simpl. rewrite Nat.add_0_r. reflexivity.
  - rewrite app_nth2 by (rewrite Hlen; lia).
    rewrite Hlen. replace (S i * m + j - m) with (i * m + j) by lia.
    rewrite IH by lia. f_equal. f_equal. lia.
Qed.

Lemma offset_lt (s idx : list nat) : in_range s idx -> offset s idx < numel s.
Proof.
  intros H. induction H as [|i n idx s Hi _ IH]; simpl; [lia|]. nia.
Qed.

Lemma nth_tabulate (s idx : list nat) (f : list nat -> A) (d : A) :
  in_range s idx -> nth (offset s idx) (tabulate s f) d = f idx.
Proof.
  intros H. revert f. induction H as [|i n idx s Hi Hr IH]; intros f; simpl.
  - reflexivity.
  - rewrite (nth_flat_map_seq _ (numel s)).
    + simpl. apply IH.
    + intros k. apply length_tabulate.
    + exact Hi.
    + apply offset_lt. exact Hr.
Qed.

Lemma get_build (s idx : list nat) (f : list nat -> A) :
  in_range s idx -> get zero (build s f) idx = f idx.
Proof. intros H. unfold get, build. simpl. apply nth_tabulate. exact H. Qed.

Lemma get_tabulate (s idx : list nat) (f : list nat -> A) :
  in_range s idx -> get zero (Tensor s (tabulate s f)) idx = f idx.
Proof. apply get_build. Qed.

Lemma flat_map_ext_seq (f g : nat -> list A) (a n : nat) :
  (forall i, i < n -> f (a + i) = g (a + i)) ->
  flat_map f (seq a n) = flat_map g (seq a n).
Proof.
  revert a. induction n as [|n IH]; intros a H; simpl; [reflexivity|].
  f_equal.
  - specialize (H 0). rewrite Nat.add_0_r in H. apply H. lia.
  - apply IH. intros i Hi. replace (S a + i) with (a + S i) by lia.
    apply H. lia.
Qed.

Lemma tabulate_ext (s : list nat) (f g : list nat -> A) :
  (forall idx, in_range s idx -> f idx = g idx) ->
  tabulate s f = tabulate s g.
Proof.
  revert f g. induction s as [|n s IH]; intros f g H; simpl.
  - f_equal. apply H. constructor.
  - apply flat_map_ext_seq. intros i Hi. simpl. apply IH.
    intros idx Hidx. apply H. constructor; assumption.
Qed.

Lemma flat_map_chunks (l : list A) (m n a : nat) :
  length l = (a + n) * m ->
  flat_map (fun i => firstn m (skipn (i * m) l)) (seq a n) = skipn (a * m) l.
Proof.
  revert a. induction n as [|n IH]; intros a Hl; cbn [flat_map seq].
  - rewrite skipn_all2 by lia. reflexivity.
  - rewrite IH by lia.
    replace (S a * m) with (m + a * m) by lia.
    rewrite <- skipn_skipn. apply firstn_skipn.
Qed.

(** Reading every element of well-formed data back gives the data. *)
Lemma tabulate_nth (s : list nat) (l : list A) (d : A) :
  length l = numel s ->
  tabulate s (fun idx => nth (offset s idx) l d) = l.
Proof.
  revert l. induction s as [|n s IH]; intros l Hl; simpl in *.
  - destruct l as [|x [|y l]]; simpl in Hl; try lia. reflexivity.
  - rewrite (flat_map_ext_seq _ (fun i => firstn (numel s) (skipn (i * numel s) l))).
    + rewrite flat_map_chunks by (simpl; lia). reflexivity.
    + intros i Hi. simpl.
      etransitivity; [|apply (IH (firstn (numel s) (skipn (i * numel s) l)))].
      * apply tabulate_ext. intros idx Hidx.
        pose proof (offset_lt _ _ Hidx) as Ho.
        rewrite nth_firstn.
        destruct (Nat.ltb_spec (offset s idx) (numel s)); [|lia].
        rewrite nth_skipn. reflexivity.
      * rewrite length_firstn, length_skipn. nia.
Qed.

Lemma build_get (t : tensor A) : wf t -> build (shape t) (get zero t) = t.
Proof.
  intros H. destruct t as [s l]. unfold build, get. simpl in *.
  f_equal. apply tabulate_nth. exact H.
Qed.

End TensorFacts.

(** ** Index arithmetic *)

Lemma ceil_div_exact (n ps : nat) : 0 < ps -> ceil_div (n * ps) ps = n.
Proof.
  intros H. unfold ceil_div. symmetry.
  apply (Nat.div_unique _ _ _ (ps - 1)); lia.
Qed.

Lemma div_mul_le (n ps : nat) : n / ps * ps <= n.
Proof. rewrite Nat.mul_comm. apply Nat.Div0.mul_div_le. Qed.

Lemma div_lt_mul (a n ps : nat) : a < n * ps -> a / ps < n.
Proof.
  intros H. apply Nat.Div0.div_lt_upper_bound. lia.
Qed.

Lemma div_mod_rebuild (a ps : nat) : a / ps * ps + a mod ps = a.
Proof. pose proof (Nat.div_mod_eq a ps). lia. Qed.

(** Decoding the position [k = (i * ps + j) * P + c] inside a flattened
    window. *)
Lemma window_decode (ps P i j c : nat) :
  i < ps -> j < ps -> c < P ->
  let k := (i * ps + j) * P + c in
  k < ps * ps * P /\ k / (ps * P) = i /\ (k / P) mod ps = j /\ k mod P = c.
Proof.
  intros Hi Hj Hc k. subst k.
  assert (Hij : i * ps + j + 1 <= ps * ps) by nia.
  assert (HjP : j * P + c + 1 <= ps * P) by nia.
  repeat split.
  - assert ((i * ps + j + 1) * P <= ps * ps * P) by (apply Nat.mul_le_mono_r; exact Hij).
    lia.
  - symmetry. apply (Nat.div_unique _ _ _ (j * P + c)); lia.
  - replace ((i * ps + j) * P + c) with (c + (i * ps + j) * P) by lia.
    rewrite Nat.div_add by lia. rewrite (Nat.div_small c P) by lia. simpl.
    replace (i * ps + j) with (j + i * ps) by lia.
    rewrite Nat.Div0.mod_add. apply Nat.mod_small. lia.
  - replace ((i * ps + j) * P + c) with (c + (i * ps + j) * P) by lia.
    rewrite Nat.Div0.mod_add. apply Nat.mod_small. lia.
Qed.

Lemma norm_index_nat (n k : nat) : k < n -> norm_index n (Z.of_nat k) = Some k.
Proof.
  intros H. unfold norm_index.
  destruct (Z.leb_spec 0 (Z.of_nat k)); [|lia].
  destruct (Z.ltb_spec (Z.of_nat k) (Z.of_nat n)); [|lia].
  simpl. rewrite Nat2Z.id. reflexivity.
Qed.

Lemma norm_index_last (n : nat) : norm_index (S n) (-1) = Some n.
Proof.
  unfold norm_index.
  destruct (Z.leb_spec 0 (-1)); [lia|].
  destruct (Z.leb_spec (- Z.of_nat (S n)) (-1)); [|lia].
  simpl. f_equal. lia.
Qed.

Lemma norm_index_length (n : nat) (idxs : list Z) (sel : list nat) :
  mapM (norm_index n) idxs = Some sel -> length sel = length idxs.
Proof. intros H. apply length_mapM in H. congruence. Qed.

Lemma in_range_4 (a b c d i j k l : nat) :
  i < a -> j < b -> k < c -> l < d -> in_range [a; b; c; d] [i; j; k; l].
Proof. intros; repeat constructor; assumption. Qed.

Lemma in_range_4_inv (a b c d : nat) (idx : list nat) :
  in_range [a; b; c; d] idx ->
  exists i j k l, idx = [i; j; k; l] /\ i < a /\ j < b /\ k < c /\ l < d.
Proof.
  intros H.
  inversion H as [|i ? idx1 ? Hi H1]; subst.
  inversion H1 as [|j ? idx2 ? Hj H2]; subst.
  inversion H2 as [|k ? idx3 ? Hk H3]; subst.
  inversion H3 as [|l ? idx4 ? Hl H4]; subst.
  inversion H4; subst.
  exists i, j, k, l. repeat split; assumption.
Qed.

(** ** The patch stage *)

Section Patch.
Variables LT Y X P ps : nat.
Variable a : tensor float32.
Hypothesis Hshape : shape a = [LT; Y; X; P].
Hypothesis Hps : 0 < ps.

Local Abbreviation ny := (Y / ps).
Local Abbreviation nx := (X / ps).

Lemma slice_to_trimmed :
  slice_to f32_zero [None; Some (Y / ps * ps); Some (X / ps * ps); None] a = Ok (trimmed LT Y X P ps a).
Proof.
  unfold slice_to, trimmed. rewrite Hshape. cbn.
  rewrite !Nat.min_l by apply div_mul_le. reflexivity.
Qed.

Lemma extract_patches_trimmed :
  extract_patches f32_zero (trimmed LT Y X P ps a) ps
  = Ok (build [LT; ny; nx; ps * ps * P] (window_elem P ps a)).
Proof.
  unfold extract_patches, trimmed. cbn [shape build].
  destruct (Nat.eqb_spec ps 0) as [?|_]; [lia|].
  rewrite !ceil_div_exact by exact Hps.
  rewrite !Nat.sub_diag. cbn [Nat.div Nat.divmod fst].
  f_equal. unfold build. f_equal.
  apply tabulate_ext. intros idx Hidx.
  apply in_range_4_inv in Hidx as (b & r & c & k & -> & Hb & Hr & Hc & Hk).
  cbn [window_elem].
  assert (HP : 0 < P) by (destruct P; [lia|lia]).
  assert (Hi : k / (ps * P) < ps) by (apply div_lt_mul; lia).
  assert (Hj : (k / P) mod ps < ps) by (apply Nat.mod_upper_bound; lia).
  assert (Hch : k mod P < P) by (apply Nat.mod_upper_bound; lia).
  rewrite !Nat.sub_0_r.
  assert (Hy : r * ps + k / (ps * P) < ny * ps) by nia.
  assert (Hx : c * ps + (k / P) mod ps < nx * ps) by nia.
  cbn [Nat.leb].
  destruct (Nat.ltb_spec (r * ps + k / (ps * P)) (ny * ps)); [|lia].
  destruct (Nat.ltb_spec (c * ps + (k / P) mod ps) (nx * ps)); [|lia].
  cbn [andb].
  fold (build [LT; ny * ps; nx * ps; P] (get f32_zero a)).
  rewrite get_build by (apply in_range_4; assumption).
  reflexivity.
Qed.

Lemma patch_tensor_4d : patch_tensor a ps = Ok (patched LT Y X P ps a).
Proof.
  unfold patch_tensor. rewrite Hshape. cbn [length Nat.eqb lookup list_lookup of_option bind].
  destruct (Nat.eqb_spec ps 0) as [?|_]; [lia|].
  rewrite slice_to_trimmed. cbn [bind].
  rewrite extract_patches_trimmed. cbn [bind].
  unfold expand_dims, reshape. cbn [rank build shape length].
  change (norm_index 5 0) with (Some 0).
  cbn [of_option bind data firstn skipn app]. unfold build. cbn [data].
  rewrite length_tabulate.
  match goal with
  | |- (if ?x =? ?y then _ else _) = _ =>
      replace x with y by (cbn [numel fold_right]; lia)
  end.
  rewrite Nat.eqb_refl. reflexivity.
Qed.

Lemma wf_patched : wf (patched LT Y X P ps a).
Proof.
  unfold wf, patched. cbn [data shape]. rewrite length_tabulate. cbn. ring.
Qed.

(** Patch [py * nx + px] holds the tile at rows [py * ps ..] and columns
    [px * ps ..]. *)
Lemma get_patched (lt py px i j c : nat) :
  lt < LT -> py < ny -> px < nx -> i < ps -> j < ps -> c < P ->
  get f32_zero (patched LT Y X P ps a) [lt; py * nx + px; i; j; c]
  = get f32_zero a [lt; py * ps + i; px * ps + j; c].
Proof.
  intros Hlt Hpy Hpx Hi Hj Hc.
  destruct (window_decode ps P i j c Hi Hj Hc) as (Hk & Hki & Hkj & Hkc).
  unfold get at 1, patched. cbn [shape data].
  replace (offset [LT; ny * nx; ps; ps; P] [lt; py * nx + px; i; j; c])
    with (offset [LT; ny; nx; ps * ps * P] [lt; py; px; (i * ps + j) * P + c])
    by (cbn; ring).
  rewrite nth_tabulate by (apply in_range_4; assumption).
  cbn [window_elem]. rewrite Hki, Hkj, Hkc. reflexivity.
Qed.

(** Reassembling the patches gives the trimmed input. *)
Lemma unpatch_patched : 0 < nx -> unpatch (patched LT Y X P ps a) nx = trimmed LT Y X P ps a.
Proof.
  intros Hnx. unfold unpatch, trimmed. cbn [patched shape].
  rewrite Nat.div_mul by lia.
  unfold build. f_equal. apply tabulate_ext. intros idx Hidx.
  apply in_range_4_inv in Hidx as (lt & y & x & c & -> & Hlt & Hy & Hx & Hc).
  rewrite get_patched.
  - rewrite !div_mod_rebuild. reflexivity.
  - exact Hlt.
  - apply div_lt_mul. exact Hy.
  - apply div_lt_mul. lia.
  - apply Nat.mod_upper_bound. lia.
  - apply Nat.mod_upper_bound. lia.
  - exact Hc.
Qed.

(** Nothing is trimmed when the patch size divides both extents. *)
Lemma trimmed_divisible : wf a -> Y mod ps = 0 -> X mod ps = 0 -> trimmed LT Y X P ps a = a.
Proof.
  intros Hwf HY HX. unfold trimmed.
  pose proof (div_mod_rebuild Y ps) as HY'. pose proof (div_mod_rebuild X ps) as HX'.
  replace (ny * ps) with Y by lia. replace (nx * ps) with X by lia.
  rewrite <- Hshape. apply build_get. exact Hwf.
Qed.

End Patch.

(** C1.  With a patch size [ps] that fits both spatial extents, the patch
    stage succeeds on a (leadtime, y, x, channel) predictor array and its
    one-channel target array; the outputs have shape
    (leadtime, num_y_patches * num_x_patches, ps, ps, channels), where the
    numbers of patches are the floor divisions of the extents by [ps];
    patch [py * num_x_patches + px] is the tile at rows [py * ps ..] and
    columns [px * ps ..]; reassembling the tiles row-major gives the input
    cut to [a[:, :Y//ps*ps, :X//ps*ps, :]], which is the input itself when
    [ps] divides both extents. *)
Theorem patch_unpatch_roundtrip (self : Loader) (ps LT Y X P : nat)
    (p t : tensor float32) :
  patch_size self = Some ps -> 0 < ps -> ps <= Y -> ps <= X ->
  wf p -> shape p = [LT; Y; X; P] ->
  wf t -> shape t = [LT; Y; X; 1] ->
  exists p' t',
    patch self (p, t) = Ok (p', t') /\
    shape p' = [LT; Y / ps * (X / ps); ps; ps; P] /\
    shape t' = [LT; Y / ps * (X / ps); ps; ps; 1] /\
    (forall lt py px i j,
        lt < LT -> py < Y / ps -> px < X / ps -> i < ps -> j < ps ->
        (forall c, c < P ->
           get f32_zero p' [lt; py * (X / ps) + px; i; j; c]
           = get f32_zero p [lt; py * ps + i; px * ps + j; c]) /\
        get f32_zero t' [lt; py * (X / ps) + px; i; j; 0]
        = get f32_zero t [lt; py * ps + i; px * ps + j; 0]) /\
    Ok (unpatch p' (X / ps))
    = slice_to f32_zero [None; Some (Y / ps * ps); Some (X / ps * ps); None] p /\
    Ok (unpatch t' (X / ps))
    = slice_to f32_zero [None; Some (Y / ps * ps); Some (X / ps * ps); None] t /\
    (Y mod ps = 0 -> X mod ps = 0 ->
     unpatch p' (X / ps) = p /\ unpatch t' (X / ps) = t).
Proof.
  intros Hsize Hps HY HX Hwfp Hp Hwft Ht.
  assert (Hnx : 0 < X / ps) by (apply Nat.div_str_pos; lia).
  exists (patched LT Y X P ps p), (patched LT Y X 1 ps t).
  split; [|split; [reflexivity|split; [reflexivity|split; [|split; [|split]]]]].
  - unfold patch, map_decorator2. rewrite Hsize.
    rewrite (patch_tensor_4d LT Y X P ps p Hp Hps).
    rewrite (patch_tensor_4d LT Y X 1 ps t Ht Hps). reflexivity.
  - intros lt py px i j Hlt Hpy Hpx Hi Hj. split.
    + intros c Hc. apply get_patched; assumption.
    + apply get_patched; try assumption. lia.
  - rewrite (slice_to_trimmed LT Y X P ps p Hp). f_equal.
    apply unpatch_patched; assumption.
  - rewrite (slice_to_trimmed LT Y X 1 ps t Ht). f_equal.
    apply unpatch_patched; assumption.
  - intros HYd HXd. split.
    + rewrite unpatch_patched by assumption. apply trimmed_divisible; assumption.
    + rewrite unpatch_patched by assumption. apply trimmed_divisible; assumption.
Qed.

(** ** Feature extraction *)

Lemma in_range_3_inv (a b c : nat) (idx : list nat) :
  in_range [a; b; c] idx ->
  exists i j k, idx = [i; j; k] /\ i < a /\ j < b /\ k < c.
Proof.
  intros H.
  inversion H as [|i ? idx1 ? Hi H1]; subst.
  inversion H1 as [|j ? idx2 ? Hj H2]; subst.
  inversion H2 as [|k ? idx3 ? Hk H3]; subst.
  inversion H3; subst.
  exists i, j, k. repeat split; assumption.
Qed.

Lemma nth_tf_range (n i : nat) :
  i < n -> nth i (data (tf_range n)) f32_zero = f32_of_nat i.
Proof.
  intros H. unfold tf_range. cbn [data].
  rewrite (nth_indep _ f32_zero (f32_of_nat 0)) by (rewrite length_map, length_seq; exact H).
  rewrite map_nth, seq_nth by exact H. reflexivity.
Qed.

Section Broadcast.
Variables LT Y X : nat.
Variable rest : list nat.

Let shp := LT :: Y :: X :: rest.

Lemma broadcast_x :
  broadcast (tf_range X) shp 2
  = Ok (build [LT; Y; X] (fun idx => f32_of_nat (nth 2 idx 0))).
Proof.
  unfold broadcast, expand_dims, tile. cbn [Nat.eqb rank tf_range shape length].
  change (norm_index 2 0) with (Some 0).
  cbn [of_option bind firstn skipn app shape length rank].
  change (norm_index 3 1) with (Some 1).
  cbn [of_option bind firstn skipn app shape length shp lookup list_lookup Nat.eqb rank
       zip_with data].
  rewrite !Nat.mul_1_l, Nat.mul_1_r.
  f_equal. unfold build. f_equal. apply tabulate_ext. intros idx Hidx.
  apply in_range_3_inv in Hidx as (lt & y & x & -> & Hlt & Hy & Hx).
  unfold get. cbn [shape data zip_with offset numel fold_right nth].
  rewrite !Nat.mod_1_r, (Nat.mod_small x X) by exact Hx.
  match goal with |- nth ?o _ _ = _ => replace o with x by lia end.
  apply (nth_tf_range X x Hx).
Qed.

Lemma broadcast_y :
  broadcast (tf_range Y) shp 1
  = Ok (build [LT; Y; X] (fun idx => f32_of_nat (nth 1 idx 0))).
Proof.
  unfold broadcast, expand_dims, tile. cbn [Nat.eqb rank tf_range shape length].
  change (norm_index 2 0) with (Some 0).
  cbn [of_option bind firstn skipn app shape length rank].
  change (norm_index 3 2) with (Some 2).
  cbn [of_option bind firstn skipn app shape length shp lookup list_lookup Nat.eqb rank
       zip_with data].
  rewrite !Nat.mul_1_l, Nat.mul_1_r.
  f_equal. unfold build. f_equal. apply tabulate_ext. intros idx Hidx.
  apply in_range_3_inv in Hidx as (lt & y & x & -> & Hlt & Hy & Hx).
  unfold get. cbn [shape data zip_with offset numel fold_right nth].
  rewrite !Nat.mod_1_r, (Nat.mod_small y Y) by exact Hy.
  match goal with |- nth ?o _ _ = _ => replace o with y by lia end.
  apply (nth_tf_range Y y Hy).
Qed.

Lemma broadcast_leadtime :
  broadcast (tf_range LT) shp 0
  = Ok (build [LT; Y; X] (fun idx => f32_of_nat (nth 0 idx 0))).
Proof.
  unfold broadcast, expand_dims, tile. cbn [Nat.eqb rank tf_range shape length].
  change (norm_index 2 1) with (Some 1).
  cbn [of_option bind firstn skipn app shape length rank].
  change (norm_index 3 2) with (Some 2).
  cbn [of_option bind firstn skipn app shape length shp lookup list_lookup Nat.eqb rank
       zip_with data].
  rewrite !Nat.mul_1_l, Nat.mul_1_r.
  f_equal. unfold build. f_equal. apply tabulate_ext. intros idx Hidx.
  apply in_range_3_inv in Hidx as (lt & y & x & -> & Hlt & Hy & Hx).
  unfold get. cbn [shape data zip_with offset numel fold_right nth].
  rewrite !Nat.mod_1_r, (Nat.mod_small lt LT) by exact Hlt.
  match goal with |- nth ?o _ _ = _ => replace o with lt by lia end.
  apply (nth_tf_range LT lt Hlt).
Qed.

(** One iteration of the loop for a feature of a known type. *)
Lemma extract_feature_known (feature : Feature) (axis : nat)
    (curr : option (tensor float32)) (p : list (tensor float32)) :
  feature_axis feature = Some axis ->
  extract_feature shp (curr, p) feature
  = Ok (Some (coordinate_channel LT Y X axis), p ++ [coordinate_channel LT Y X axis]).
Proof.
  unfold feature_axis, extract_feature. intros H.
  destruct (String.eqb (f_type feature) "x").
  { injection H as <-. cbn [shp lookup list_lookup of_option bind].
    rewrite broadcast_x. cbn [bind of_option]. unfold expand_dims.
    cbn [rank build shape length]. rewrite norm_index_last.
    reflexivity. }
  destruct (String.eqb (f_type feature) "y").
  { injection H as <-. cbn [shp lookup list_lookup of_option bind].
    rewrite broadcast_y. cbn [bind of_option]. unfold expand_dims.
    cbn [rank build shape length]. rewrite norm_index_last.
    reflexivity. }
  destruct (String.eqb (f_type feature) "leadtime"); [|discriminate].
  injection H as <-. cbn [shp lookup list_lookup of_option bind].
  rewrite broadcast_leadtime. cbn [bind of_option]. unfold expand_dims.
  cbn [rank build shape length]. rewrite norm_index_last.
  reflexivity.
Qed.

End Broadcast.

Section ExtractFeatures.
Variables LT Y X : nat.

Lemma extract_feature_loop (rest : list nat) (features : list Feature)
    (curr : option (tensor float32)) (p : list (tensor float32)) :
  Forall (fun feature => is_Some (feature_axis feature)) features ->
  exists curr',
    foldM (extract_feature (LT :: Y :: X :: rest)) features (curr, p)
    = Ok (curr', p ++ feature_channels LT Y X features).
Proof.
  intros H. revert curr p.
  induction H as [|feature features [axis Haxis] _ IH]; intros curr p.
  - exists curr. cbn. rewrite app_nil_r. reflexivity.
  - cbn [foldM].
    rewrite (extract_feature_known LT Y X rest feature axis curr p Haxis).
    cbn [bind].
    destruct (IH (Some (coordinate_channel LT Y X axis))
                (p ++ [coordinate_channel LT Y X axis])) as [curr' ->].
    exists curr'. cbn [feature_channels map]. rewrite Haxis. cbn [default].
    rewrite <- app_assoc. reflexivity.
Qed.

Lemma concat_compatible_channel (Q : nat) :
  concat_compatible 3 [LT; Y; X; Q] [LT; Y; X; 1] = true.
Proof. cbn. rewrite !Nat.eqb_refl. reflexivity. Qed.

(** Joining one-channel arrays to [acc] along the channel axis keeps the
    channels of [acc] and appends one channel per array, in order. *)
Lemma concat_channels (cs : list (tensor float32)) :
  forall (acc : tensor float32) (Q : nat),
    shape acc = [LT; Y; X; Q] ->
    Forall (fun c => shape c = [LT; Y; X; 1]) cs ->
    exists out,
      foldM (concat2 f32_zero 3) cs acc = Ok out /\
      shape out = [LT; Y; X; Q + length cs] /\
      forall lt y x, lt < LT -> y < Y -> x < X ->
        (forall c, c < Q ->
           get f32_zero out [lt; y; x; c] = get f32_zero acc [lt; y; x; c]) /\
        (forall k c', cs !! k = Some c' ->
           get f32_zero out [lt; y; x; Q + k] = get f32_zero c' [lt; y; x; 0]).
Proof.
  induction cs as [|c0 cs IH]; intros acc Q Hacc Hcs.
  - exists acc. cbn. rewrite Nat.add_0_r. repeat split; try assumption.
    intros k c' Hk. discriminate.
  - inversion Hcs as [|? ? Hc0 Hcs']; subst.
    cbn [foldM]. unfold concat2 at 1.
    rewrite Hacc, Hc0, concat_compatible_channel.
    cbn [nth bind list_insert insert].
    set (acc1 := build _ _).
    destruct (IH acc1 (Q + 1) eq_refl Hcs') as (out & Hout & Hshape & Hget).
    exists out. split; [exact Hout|]. split.
    { rewrite Hshape. cbn [length].
      replace (Q + 1 + length cs) with (Q + S (length cs)) by lia. reflexivity. }
    intros lt y x Hlt Hy Hx.
    destruct (Hget lt y x Hlt Hy Hx) as [Hold Hnew]. split.
    + intros c Hc. rewrite Hold by lia. unfold acc1.
      rewrite get_build by (apply in_range_4; lia).
      cbn [nth]. destruct (Nat.ltb_spec c Q); [|lia].
      unfold get. rewrite Hacc. reflexivity.
    + intros [|k] c' Hk.
      * cbn in Hk. injection Hk as <-.
        rewrite Nat.add_0_r, Hold by lia. unfold acc1.
        rewrite get_build by (apply in_range_4; lia).
        cbn [nth]. destruct (Nat.ltb_spec Q Q); [lia|].
        cbn [list_insert insert]. rewrite Nat.sub_diag. reflexivity.
      * cbn in Hk. replace (Q + S k) with (Q + 1 + k) by lia.
        apply Hnew. exact Hk.
Qed.

Lemma get_coordinate_channel (axis lt y x : nat) :
  lt < LT -> y < Y -> x < X ->
  get f32_zero (coordinate_channel LT Y X axis) [lt; y; x; 0]
  = f32_of_nat (nth axis [lt; y; x] 0).
Proof.
  intros Hlt Hy Hx. unfold get, coordinate_channel. cbn [shape data].
  replace (offset [LT; Y; X; 1] [lt; y; x; 0]) with (offset [LT; Y; X] [lt; y; x])
    by (cbn; lia).
  rewrite nth_tabulate by (repeat constructor; assumption).
  reflexivity.
Qed.

End ExtractFeatures.

(** C5.  On a (leadtime, y, x, channel) predictor array with [P] channels
    and features of the types ["x"], ["y"] and ["leadtime"],
    [extract_features] succeeds, leaves the targets and the [P] input
    channels as they are, and appends one channel per feature, in the order
    of the feature list: for the feature at position [k] of type ["x"], the
    channel [P + k] holds at (leadtime, y, x) the x index (as a [float32]),
    for every lead time and y.  With two input channels and one feature of
    type ["x"] this is channel 2. *)
Theorem extract_features_x_channel (self : Loader) (LT Y X P : nat)
    (p t : tensor float32) :
  shape p = [LT; Y; X; P] ->
  Forall (fun feature => is_Some (feature_axis feature)) (extra_features self) ->
  exists p',
    extract_features self (p, t) = Ok (p', t) /\
    shape p' = [LT; Y; X; P + length (extra_features self)] /\
    forall lt y x, lt < LT -> y < Y -> x < X ->
      (forall c, c < P ->
         get f32_zero p' [lt; y; x; c] = get f32_zero p [lt; y; x; c]) /\
      (forall k feature,
         extra_features self !! k = Some feature ->
         f_type feature = "x" ->
         get f32_zero p' [lt; y; x; P + k] = f32_of_nat x).
Proof.
  intros Hp Hknown. unfold extract_features, map_decorator2. rewrite Hp.
  destruct (extract_feature_loop LT Y X [P] (extra_features self) None [p] Hknown)
    as [curr' ->].
  cbn [bind snd app concat].
  destruct (concat_channels LT Y X (feature_channels LT Y X (extra_features self)) p P Hp)
    as (out & -> & Hshape & Hget).
  { unfold feature_channels. apply Forall_map. apply Forall_forall. intros; reflexivity. }
  exists out. split; [reflexivity|]. split.
  { rewrite Hshape. unfold feature_channels. rewrite length_map. reflexivity. }
  intros lt y x Hlt Hy Hx. destruct (Hget lt y x Hlt Hy Hx) as [Hold Hnew].
  split; [exact Hold|].
  intros k feature Hk Hty.
  rewrite (Hnew k (coordinate_channel LT Y X 2)).
  - apply get_coordinate_channel; assumption.
  - unfold feature_channels. rewrite list_lookup_fmap, Hk. cbn.
    unfold feature_axis. rewrite Hty. reflexivity.
Qed.

(** ** Element-wise operations on arrays of one shape *)

Lemma broadcast_rev_same (r : list nat) : broadcast_rev r r = Some r.
Proof.
  induction r as [|n r IH]; [reflexivity|].
  cbn. rewrite Nat.eqb_refl, IH. reflexivity.
Qed.

Lemma broadcast_shapes_same (s : list nat) : broadcast_shapes s s = Some s.
Proof.
  unfold broadcast_shapes. rewrite broadcast_rev_same. cbn.
  rewrite rev_involutive. reflexivity.
Qed.

Lemma project_index_same (s idx : list nat) :
  in_range s idx -> project_index s idx = idx.
Proof.
  intros H. unfold project_index.
  replace (length idx - length s) with 0
    by (apply Forall2_length in H; lia).
  change (skipn 0 idx) with idx.
  induction H as [|i n idx s Hi _ IH]; [reflexivity|].
  cbn [zip_with]. rewrite IH. destruct (Nat.eqb_spec n 1); [|reflexivity].
  f_equal. lia.
Qed.

Lemma binop_same_shape (f : float32 -> float32 -> float32) (a b : tensor float32)
    (s : list nat) :
  shape a = s -> shape b = s ->
  binop f32_zero f a b
  = Ok (build s (fun idx => f (get f32_zero a idx) (get f32_zero b idx))).
Proof.
  intros Ha Hb. unfold binop. rewrite Ha, Hb, broadcast_shapes_same.
  f_equal. unfold build. f_equal. apply tabulate_ext. intros idx Hidx.
  rewrite project_index_same by exact Hidx. reflexivity.
Qed.

Lemma in_range_5_inv (a b c d e : nat) (idx : list nat) :
  in_range [a; b; c; d; e] idx ->
  exists i j k l m, idx = [i; j; k; l; m] /\ i < a /\ j < b /\ k < c /\ l < d /\ m < e.
Proof.
  intros H.
  inversion H as [|i ? idx1 ? Hi H1]; subst.
  apply in_range_4_inv in H1 as (j & k & l & m & -> & ? & ? & ? & ?).
  exists i, j, k, l, m. repeat split; assumption.
Qed.

(** ** The differencing and normalization stages *)

Lemma list_index_None (x : string) (l : list string) :
  list_index x l = None <-> x ∉ l.
Proof.
  induction l as [|y l IH]; cbn.
  - split; [intros _; apply not_elem_of_nil|reflexivity].
  - destruct (String.eqb_spec y x) as [->|Hne].
    + split; [discriminate|]. intros H. exfalso. apply H. left.
    + rewrite not_elem_of_cons. destruct (list_index x l); cbn.
      * split; [discriminate|]. intros [_ H]. apply IH in H. discriminate.
      * split; [|reflexivity]. intros _. split; [congruence|]. apply IH. reflexivity.
Qed.

Lemma list_index_Some (x : string) (l : list string) (i : nat) :
  list_index x l = Some i ->
  l !! i = Some x /\ forall j, j < i -> l !! j <> Some x.
Proof.
  revert i. induction l as [|y l IH]; intros i; cbn; [discriminate|].
  destruct (String.eqb_spec y x) as [->|Hne].
  - intros [= <-]. split; [reflexivity|]. intros j Hj. lia.
  - destruct (list_index x l) as [i'|]; cbn; [|discriminate].
    intros [= <-]. destruct (IH i' eq_refl) as [Hi Hfirst]. split; [exact Hi|].
    intros [|j] Hj; cbn; [congruence|]. apply Hfirst. lia.
Qed.

(** The four [expand_dims] and the [tile] of [expand_array] repeat a
    vector of per-channel values over the four leading axes. *)
Lemma expand_array_tile (v : list float32) (d0 d1 d2 d3 : nat) :
  expand_array (Tensor [length v] v) [d0; d1; d2; d3; 1]
  = Ok (build [d0; d1; d2; d3; length v] (fun idx => nth (nth 4 idx 0) v f32_zero)).
Proof.
  unfold expand_array, expand_dims. cbn [rank shape length].
  change (norm_index 2 0) with (Some 0).
  cbn [of_option bind firstn skipn app shape length rank data].
  change (norm_index 3 0) with (Some 0).
  cbn [of_option bind firstn skipn app shape length rank data].
  change (norm_index 4 0) with (Some 0).
  cbn [of_option bind firstn skipn app shape length rank data].
  change (norm_index 5 0) with (Some 0).
  cbn [of_option bind firstn skipn app shape length rank data].
  unfold tile. cbn [rank shape length Nat.eqb zip_with].
  rewrite !Nat.mul_1_l, Nat.mul_1_r.
  f_equal. unfold build. f_equal. apply tabulate_ext. intros idx Hidx.
  apply in_range_5_inv in Hidx as (i & j & k & l & c & -> & Hi & Hj & Hk & Hl & Hc).
  unfold get. cbn [shape data zip_with offset numel fold_right nth].
  rewrite !Nat.mod_1_r, (Nat.mod_small c (length v)) by exact Hc.
  match goal with |- nth ?o _ _ = _ => replace o with c by lia end.
  reflexivity.
Qed.

(** Normalization of a five-dimensional predictor array by a table with
    one row per channel. *)
Lemma normalize_5d (self : Loader) (tbl : table) (d0 d1 d2 d3 : nat)
    (p t : tensor float32) :
  coefficients self = Some tbl ->
  shape p = [d0; d1; d2; d3; length tbl] ->
  normalize self (p, t)
  = Ok (build [d0; d1; d2; d3; length tbl]
          (fun idx =>
             let row := nth (nth 4 idx 0) tbl (f32_zero, f32_zero) in
             f32_div (f32_sub (get f32_zero p idx) (fst row)) (snd row)),
        t).
Proof.
  intros Hc Hp. unfold normalize, map_decorator2. rewrite Hc, Hp.
  cbn [removelast app].
  pose proof (expand_array_tile (map fst tbl) d0 d1 d2 d3) as Ha.
  pose proof (expand_array_tile (map snd tbl) d0 d1 d2 d3) as Hs.
  rewrite length_map in Ha, Hs. rewrite Ha, Hs. cbn [bind].
  rewrite (binop_same_shape _ _ _ [d0; d1; d2; d3; length tbl]) by (exact Hp || reflexivity).
  cbn [bind].
  rewrite (binop_same_shape _ _ _ [d0; d1; d2; d3; length tbl]) by reflexivity.
  cbn [bind py_function]. f_equal. f_equal. unfold build. f_equal.
  apply tabulate_ext. intros idx Hidx.
  rewrite !get_tabulate by exact Hidx.
  pose proof (map_nth fst tbl (f32_zero, f32_zero) (nth 4 idx 0)) as Hfst.
  pose proof (map_nth snd tbl (f32_zero, f32_zero) (nth 4 idx 0)) as Hsnd.
  cbn [fst snd] in Hfst, Hsnd. rewrite Hfst, Hsnd. reflexivity.
Qed.

(** C6.  Without [predict_diff] the diff stage returns both arrays as it
    got them; and whatever the configuration, the predictors that the diff
    stage returns are the predictors it was given. *)
Theorem diff_keeps_predictors (self : Loader) (p t : tensor float32) :
  (predict_diff self = false -> diff self (p, t) = Ok (p, t)) /\
  (forall p' t', diff self (p, t) = Ok (p', t') -> p' = p).
Proof.
  split.
  - intros H. unfold diff, map_decorator2, raw_predictor_index. rewrite H. reflexivity.
  - intros p' t' H. unfold diff, map_decorator2 in H. apply py_function_Ok in H.
    revert H. destruct (raw_predictor_index self) as [[Ip|]|e]; cbn [bind].
    + destruct (index_last f32_zero p Ip) as [v|e]; cbn [bind]; [|discriminate].
      destruct (expand_dims v (-1)) as [v'|e]; cbn [bind]; [|discriminate].
      destruct (binop f32_zero f32_sub t v') as [t''|e]; cbn [bind]; [|discriminate].
      intros [= <- _]. reflexivity.
    + intros [= <- _]. reflexivity.
    + discriminate.
Qed.

(** C9.  With [predict_diff] set, the raw-forecast channel is the first
    position of the name ["air_temperature_2m"] in the predictor name
    list; when the name is absent the lookup raises [ValueError], and the
    diff stage raises as well instead of passing its input through: its
    decorator turns the [ValueError] of the lookup into
    [tf.errors.InvalidArgumentError]. *)
Theorem raw_predictor_lookup (self : Loader) (p t : tensor float32) :
  predict_diff self = true ->
  ("air_temperature_2m" ∈ predictor_names (metadata self) ->
   exists i,
     raw_predictor_index self = Ok (Some i) /\
     predictor_names (metadata self) !! i = Some "air_temperature_2m" /\
     forall j, j < i -> predictor_names (metadata self) !! j <> Some "air_temperature_2m") /\
  ("air_temperature_2m" ∉ predictor_names (metadata self) ->
   raw_predictor_index self = Err ValueError /\
   diff self (p, t) = Err InvalidArgumentError).
Proof.
  intros Hdiff. split.
  - intros Hin. unfold raw_predictor_index. rewrite Hdiff.
    destruct (list_index "air_temperature_2m" (predictor_names (metadata self)))
      as [i|] eqn:Hi.
    + exists i. split; [reflexivity|]. apply list_index_Some. exact Hi.
    + apply list_index_None in Hi. contradiction.
  - intros Hnot. apply list_index_None in Hnot.
    unfold diff, map_decorator2, raw_predictor_index. rewrite Hdiff, Hnot.
    split; reflexivity.
Qed.

(** C10.  The normalize stage returns the targets it was given: without a
    coefficient table it returns both arrays unchanged; with a table,
    whenever it returns, the targets are unchanged; and on a
    five-dimensional predictor array whose channel count is the number of
    table rows it does return, every predictor element having the mean of
    its channel subtracted and being divided by the scale of its channel. *)
Theorem normalize_keeps_targets (self : Loader) (p t : tensor float32) :
  (coefficients self = None -> normalize self (p, t) = Ok (p, t)) /\
  (forall p' t', normalize self (p, t) = Ok (p', t') -> t' = t) /\
  (forall tbl d0 d1 d2 d3,
      coefficients self = Some tbl ->
      shape p = [d0; d1; d2; d3; length tbl] ->
      exists p',
        normalize self (p, t) = Ok (p', t) /\
        shape p' = shape p /\
        forall idx, in_range (shape p) idx ->
          get f32_zero p' idx
          = f32_div (f32_sub (get f32_zero p idx)
                             (fst (nth (nth 4 idx 0) tbl (f32_zero, f32_zero))))
                    (snd (nth (nth 4 idx 0) tbl (f32_zero, f32_zero)))).
Proof.
  split; [|split].
  - intros H. unfold normalize, map_decorator2. rewrite H. reflexivity.
  - intros p' t' H. unfold normalize, map_decorator2 in H. apply py_function_Ok in H.
    revert H. destruct (coefficients self) as [tbl|].
    + destruct (expand_array _ _) as [a|e]; cbn [bind]; [|discriminate].
      destruct (expand_array _ _) as [s|e]; cbn [bind]; [|discriminate].
      destruct (binop f32_zero f32_sub p a) as [p1|e]; cbn [bind]; [|discriminate].
      destruct (binop f32_zero f32_div p1 s) as [p2|e]; cbn [bind]; [|discriminate].
      intros [= _ <-]. reflexivity.
    + intros [= _ <-]. reflexivity.
  - intros tbl d0 d1 d2 d3 Hc Hp.
    rewrite (normalize_5d self tbl d0 d1 d2 d3 p t Hc Hp).
    eexists. split; [reflexivity|]. split; [symmetry; exact Hp|].
    intros idx Hidx. rewrite Hp in Hidx.
    rewrite get_build by exact Hidx. reflexivity.
Qed.

(** ** The coefficient table *)

Lemma name_in_features_false (name : string) (features : list Feature) :
  name_in_features name features = false.
Proof. induction features as [|f features IH]; [reflexivity|exact IH]. Qed.

Lemma fill_rows_step (coefficients : gmap string (float64 * float64))
    (features : list Feature) (i : nat) (name : string) (names : list string)
    (tbl : table) :
  fill_rows coefficients features i (name :: names) tbl
  = if i <? length tbl
    then fill_rows coefficients features (S i) names
           (<[i := coefficient_row coefficients name]> tbl)
    else Err IndexError.
Proof.
  cbn [fill_rows]. unfold coefficient_row, set_row.
  rewrite name_in_features_false.
  destruct (coefficients !! name) as [v|]; destruct (i <? length tbl); reflexivity.
Qed.

(** When the table has a row for every name, the loop fills row [i + j]
    from name [j] and leaves all other rows. *)
Lemma fill_rows_ok (coefficients : gmap string (float64 * float64))
    (features : list Feature) (names : list string) :
  forall (i : nat) (tbl : table),
    i + length names <= length tbl ->
    exists tbl',
      fill_rows coefficients features i names tbl = Ok tbl' /\
      length tbl' = length tbl /\
      (forall j name, names !! j = Some name ->
         tbl' !! (i + j) = Some (coefficient_row coefficients name)) /\
      (forall j, j < i \/ i + length names <= j -> tbl' !! j = tbl !! j).
Proof.
  induction names as [|name names IH]; intros i tbl Hlen.
  - exists tbl. repeat split; try reflexivity. intros j name Hj. discriminate.
  - cbn [length] in Hlen. rewrite fill_rows_step.
    destruct (Nat.ltb_spec i (length tbl)); [|lia].
    destruct (IH (S i) (<[i := coefficient_row coefficients name]> tbl))
      as (tbl' & Hfill & Hlen' & Hrows & Hrest).
    { rewrite length_insert. lia. }
    exists tbl'. split; [exact Hfill|]. split.
    { rewrite Hlen', length_insert. reflexivity. }
    split.
    + intros [|j] name' Hj.
      * cbn in Hj. injection Hj as <-. rewrite Nat.add_0_r.
        rewrite Hrest by lia. apply list_lookup_insert_eq. assumption.
      * cbn in Hj. replace (i + S j) with (S i + j) by lia.
        apply Hrows. exact Hj.
    + intros j Hj. cbn [length] in Hj. rewrite Hrest by lia.
      apply list_lookup_insert_ne. lia.
Qed.

(** When the names outnumber the rows, the loop raises [IndexError]. *)
Lemma fill_rows_overflow (coefficients : gmap string (float64 * float64))
    (features : list Feature) (names : list string) :
  forall (i : nat) (tbl : table),
    names <> [] -> length tbl < i + length names ->
    fill_rows coefficients features i names tbl = Err IndexError.
Proof.
  induction names as [|name names IH]; intros i tbl Hne Hlen; [congruence|].
  rewrite fill_rows_step. cbn [length] in Hlen.
  destruct (Nat.ltb_spec i (length tbl)); [|reflexivity].
  apply IH.
  - destruct names; [cbn in Hlen; lia|discriminate].
  - rewrite length_insert. lia.
Qed.

Section FeatureNormalization.
Variable m : Metadata.

Let step (normalization : gmap string (float64 * float64)) (feature : Feature) :=
  <[get_feature_name feature := feature_coefficients m feature]> normalization.

Lemma fold_features_other (features : list Feature) (name : string) :
  forall init : gmap string (float64 * float64),
    name ∉ map get_feature_name features ->
    fold_left step features init !! name = init !! name.
Proof.
  induction features as [|f features IH]; intros init Hname; [reflexivity|].
  cbn [map] in Hname. apply not_elem_of_cons in Hname as [Hne Hname].
  cbn [fold_left]. rewrite IH by exact Hname.
  unfold step. apply lookup_insert_ne. congruence.
Qed.

(** A name that no feature carries is not in the analytic mapping. *)
Lemma extra_features_normalization_other (features : list Feature) (name : string) :
  name ∉ map get_feature_name features ->
  get_extra_features_normalization m features !! name = None.
Proof.
  intros H. unfold get_extra_features_normalization.
  fold step. rewrite fold_features_other by exact H. apply lookup_empty.
Qed.

(** The analytic mapping holds, for a feature name, the coefficients of
    the last feature of that name. *)
Lemma extra_features_normalization_last (before after : list Feature) (feature : Feature) :
  get_feature_name feature ∉ map get_feature_name after ->
  get_extra_features_normalization m (before ++ feature :: after)
    !! get_feature_name feature
  = Some (feature_coefficients m feature).
Proof.
  intros H. unfold get_extra_features_normalization. fold step.
  rewrite fold_left_app. cbn [fold_left].
  rewrite fold_features_other by exact H.
  unfold step. apply lookup_insert_eq.
Qed.

End FeatureNormalization.

Lemma f32_of_f64_zero : f32_of_f64 f64_zero = f32_zero.
Proof. reflexivity. Qed.

Lemma f32_of_f64_one : f32_of_f64 f64_one = f32_one.
Proof. vm_compute. reflexivity. Qed.

Section Coefficients.
Variable yaml_load : string -> result (gmap string (float64 * float64)).

(** C3.  With a normalization source, [load_coefficients] first puts the
    analytic coefficients of the extra features into the mapping read
    from the source, replacing what the source has under their names:
    for a feature of type ["x"], ["y"] or ["leadtime"] these are the mean
    and the standard deviation of the integer range [0 .. N-1] over its
    axis length.  Then row [i] of the table is the (mean, scale) that
    this mapping has for predictor name [i], and stays at the default
    (0, 1) when the mapping has none. *)
Theorem load_coefficients_rows (a : Args) (m : Metadata) (path : string)
    (source : gmap string (float64 * float64)) :
  arg_normalization a = Some path ->
  yaml_load path = Ok source ->
  length (predictor_names m) <= num_predictors m ->
  let analytic := get_extra_features_normalization m (arg_extra_features a) in
  let merged := dict_update source analytic in
  exists tbl,
    load_coefficients yaml_load a m = Ok (Some tbl) /\
    length tbl = num_predictors m /\
    (forall i name, predictor_names m !! i = Some name ->
       tbl !! i = Some (match merged !! name with
                        | Some (mean, scale) => (f32_of_f64 mean, f32_of_f64 scale)
                        | None => (f32_zero, f32_one)
                        end)) /\
    (forall i, length (predictor_names m) <= i < num_predictors m ->
       tbl !! i = Some (f32_zero, f32_one)) /\
    (forall before feature after,
       arg_extra_features a = before ++ feature :: after ->
       get_feature_name feature ∉ map get_feature_name after ->
       merged !! get_feature_name feature = Some (feature_coefficients m feature)) /\
    (forall name, name ∉ map get_feature_name (arg_extra_features a) ->
       merged !! name = source !! name) /\
    (forall feature,
       (f_type feature = "x" ->
        feature_coefficients m feature
        = (np_mean (np_arange (num_x_input m)), np_std (np_arange (num_x_input m)))) /\
       (f_type feature = "y" ->
        feature_coefficients m feature
        = (np_mean (np_arange (num_y_input m)), np_std (np_arange (num_y_input m)))) /\
       (f_type feature = "leadtime" ->
        feature_coefficients m feature
        = (np_mean (np_arange (num_leadtimes m)), np_std (np_arange (num_leadtimes m))))).
Proof.
  intros Hnorm Hload Hlen analytic merged.
  unfold load_coefficients. rewrite Hnorm, Hload. cbn [bind].
  fold analytic. fold merged.
  destruct (fill_rows_ok merged (arg_extra_features a) (predictor_names m) 0
              (replicate (num_predictors m) (f32_zero, f32_one)))
    as (tbl & -> & Hlen' & Hrows & Hrest).
  { rewrite length_replicate. lia. }
  rewrite length_replicate in Hlen'.
  exists tbl. split; [reflexivity|]. split; [exact Hlen'|].
  split; [|split; [|split; [|split]]].
  - intros i name Hi. rewrite <- (Nat.add_0_l i) at 1.
    rewrite (Hrows i name Hi). unfold coefficient_row.
    destruct (merged !! name) as [[mean scale]|]; reflexivity.
  - intros i Hi. rewrite Hrest by lia. apply lookup_replicate_2. lia.
  - intros before feature after Hfeat Hlast. unfold merged, dict_update.
    apply lookup_union_Some_l. unfold analytic. rewrite Hfeat.
    apply extra_features_normalization_last. exact Hlast.
  - intros name Hname. unfold merged, dict_update.
    apply lookup_union_r. apply extra_features_normalization_other. exact Hname.
  - intros feature. unfold feature_coefficients. repeat split; intros ->; reflexivity.
Qed.

End Coefficients.

(** ** Dimension limits at metadata resolution and at file reads *)

Lemma bind_Ok {A B : Type} (r : result A) (k : A -> result B) (b : B) :
  bind r k = Ok b -> exists a, r = Ok a /\ k a = Ok b.
Proof. destruct r as [a|e]; cbn; [eauto|discriminate]. Qed.

Lemma of_option_Ok {A : Type} (e : exn) (o : option A) (a : A) :
  of_option e o = Ok a -> o = Some a.
Proof. destruct o; cbn; congruence. Qed.

Lemma as_numpy_Ok {A : Type} (r : result A) (a : A) : as_numpy r = Ok a -> r = Ok a.
Proof. destruct r; cbn; congruence. Qed.

(** A selection along [axis] gives that axis the number of selected
    positions and keeps the other axes. *)
Lemma take_axis_shape (axis : nat) (idxs : list Z) (t t' : tensor float32) :
  take_axis f32_zero axis idxs t = Ok t' ->
  shape t' = <[axis := length idxs]> (shape t) /\ axis < length (shape t).
Proof.
  unfold take_axis. destruct (shape t !! axis) as [n|] eqn:Hn; [|discriminate].
  intros H. apply bind_Ok in H as (sel & Hsel & H).
  apply of_option_Ok in Hsel. apply norm_index_length in Hsel.
  injection H as <-. cbn [build shape]. rewrite Hsel.
  split; [reflexivity|]. apply lookup_lt_Some in Hn. exact Hn.
Qed.

Lemma take_list_length {B : Type} (idxs : list Z) (l l' : list B) :
  take_list idxs l = Ok l' -> length l' = length idxs.
Proof.
  unfold take_list. intros H. apply of_option_Ok in H.
  apply length_mapM in H. congruence.
Qed.

Lemma lookup_insert_other_axis (s : list nat) (axis v : nat) :
  axis <> 0 -> <[axis := v]> s !! 0 = s !! 0.
Proof. intros H. apply list_lookup_insert_ne. exact H. Qed.

Lemma isel_leadtime_sets (idxs : list Z) (ds ds' : Dataset) :
  isel_leadtime idxs ds = Ok ds' -> leadtime_length (length idxs) ds'.
Proof.
  unfold isel_leadtime. intros H.
  apply bind_Ok in H as (lt & Hlt & H).
  apply bind_Ok in H as (p & Hp & H).
  apply bind_Ok in H as (t & Ht & H).
  injection H as <-. unfold leadtime_length. cbn.
  apply take_list_length in Hlt.
  apply take_axis_shape in Hp as [-> Hp]. apply take_axis_shape in Ht as [-> Ht].
  rewrite !list_lookup_insert_eq by assumption. auto.
Qed.

Lemma isel_x_keeps (n : nat) (idxs : list Z) (ds ds' : Dataset) :
  isel_x idxs ds = Ok ds' -> leadtime_length n ds -> leadtime_length n ds'.
Proof.
  unfold isel_x. intros H (Hl & Hp & Ht).
  apply bind_Ok in H as (sel & _ & H).
  apply bind_Ok in H as (p & Hp' & H).
  apply bind_Ok in H as (s & _ & H).
  apply bind_Ok in H as (t & Ht' & H).
  injection H as <-. unfold leadtime_length. cbn.
  apply take_axis_shape in Hp' as [-> _]. apply take_axis_shape in Ht' as [-> _].
  rewrite !lookup_insert_other_axis by lia. auto.
Qed.

Lemma isel_y_keeps (n : nat) (idxs : list Z) (ds ds' : Dataset) :
  isel_y idxs ds = Ok ds' -> leadtime_length n ds -> leadtime_length n ds'.
Proof.
  unfold isel_y. intros H (Hl & Hp & Ht).
  apply bind_Ok in H as (sel & _ & H).
  apply bind_Ok in H as (p & Hp' & H).
  apply bind_Ok in H as (s & _ & H).
  apply bind_Ok in H as (t & Ht' & H).
  injection H as <-. unfold leadtime_length. cbn.
  apply take_axis_shape in Hp' as [-> _]. apply take_axis_shape in Ht' as [-> _].
  rewrite !lookup_insert_other_axis by lia. auto.
Qed.

(** Limiting by a dictionary with a ["leadtime"] entry leaves as many lead
    times as the entry lists. *)
Lemma isel_leadtime_length (limit : gmap string (list Z)) (idxs : list Z)
    (ds ds' : Dataset) :
  limit !! "leadtime" = Some idxs ->
  isel limit ds = Ok ds' ->
  leadtime_length (length idxs) ds'.
Proof.
  intros Hlimit H. unfold isel in H.
  apply bind_Ok in H as (ds1 & _ & H).
  apply bind_Ok in H as (ds2 & _ & H).
  apply bind_Ok in H as (ds3 & H3 & H).
  apply bind_Ok in H as (ds4 & H4 & H5).
  unfold isel_key in H3. rewrite Hlimit in H3.
  apply isel_leadtime_sets in H3.
  assert (leadtime_length (length idxs) ds4) as Hds4.
  { unfold isel_key in H4. destruct (limit !! "x").
    - eapply isel_x_keeps; eassumption.
    - injection H4 as <-. exact H3. }
  unfold isel_key in H5. destruct (limit !! "y").
  - eapply isel_y_keeps; eassumption.
  - injection H5 as <-. exact Hds4.
Qed.

(** Without lead-time positions of the caller, the limits carry the
    loader's [limit_leadtimes] under ["leadtime"]. *)
Lemma get_dimension_limits_leadtime (a : Args) (ds : Dataset) (idxs : list Z)
    (limit : gmap string (list Z)) :
  arg_limit_leadtimes a = Some idxs ->
  get_dimension_limits a ds None = Ok limit ->
  limit !! "leadtime" = Some idxs.
Proof.
  intros Ha. unfold get_dimension_limits. rewrite Ha. cbn [bind].
  intros [= <-].
  destruct (arg_y_range a); destruct (arg_x_range a);
    repeat (rewrite lookup_insert_ne by discriminate);
    apply lookup_insert_eq.
Qed.

Lemma concat2_shape (axis : nat) (a b out : tensor float32) :
  concat2 f32_zero axis a b = Ok out ->
  exists n, shape out = <[axis := n]> (shape a).
Proof.
  unfold concat2. destruct (concat_compatible axis (shape a) (shape b)); [|discriminate].
  intros [= <-]. eexists. reflexivity.
Qed.

Lemma norm_index_nonneg (n k : nat) (i : nat) :
  norm_index n (Z.of_nat i) = Some k -> k = i /\ i < n.
Proof.
  unfold norm_index.
  destruct (Z.leb_spec 0 (Z.of_nat i)); [|lia].
  destruct (Z.ltb_spec (Z.of_nat i) (Z.of_nat n)); cbn [andb].
  - rewrite Nat2Z.id. intros [= <-]. split; [reflexivity|lia].
  - destruct (Z.ltb_spec (Z.of_nat i) 0); [lia|].
    rewrite andb_false_r. discriminate.
Qed.

Lemma expand_dims_keeps_first (t t' : tensor float32) (axis n : nat) :
  0 < axis ->
  expand_dims t (Z.of_nat axis) = Ok t' ->
  shape t !! 0 = Some n -> shape t' !! 0 = Some n.
Proof.
  intros Haxis H Hn. unfold expand_dims in H.
  apply bind_Ok in H as (k & Hk & H). apply of_option_Ok in Hk.
  apply norm_index_nonneg in Hk as [-> _]. injection H as <-. cbn [shape].
  apply lookup_app_l_Some. rewrite lookup_take_lt by exact Haxis. exact Hn.
Qed.

Section Reads.
Variable glob : string -> list string.
Variable open_dataset : string -> result Dataset.
Variable yaml_load : string -> result (gmap string (float64 * float64)).

Lemma load_metadata_num_leadtimes (a : Args) (filename : string) (m : Metadata)
    (idxs : list Z) :
  arg_limit_leadtimes a = Some idxs ->
  load_metadata open_dataset a filename = Ok m ->
  num_leadtimes m = length idxs.
Proof.
  intros Ha H. unfold load_metadata in H.
  apply bind_Ok in H as (ds & _ & H).
  apply bind_Ok in H as (limit & Hlimit & H).
  apply bind_Ok in H as (ds' & Hds' & H).
  apply bind_Ok in H as (_ & _ & H).
  injection H as <-. unfold num_leadtimes. cbn [leadtimes].
  apply (get_dimension_limits_leadtime a ds idxs limit Ha) in Hlimit.
  apply (isel_leadtime_length limit idxs _ _ Hlimit) in Hds'.
  apply Hds'.
Qed.

Lemma parse_file_leadtimes (self : Loader) (filename : string) (idxs : list Z)
    (p t : tensor float32) :
  limit_leadtimes self = Some idxs ->
  parse_file open_dataset self filename = Ok (p, t) ->
  shape p !! 0 = Some (length idxs) /\ shape t !! 0 = Some (length idxs).
Proof.
  intros Ha H. unfold parse_file in H.
  apply bind_Ok in H as (ds & _ & H).
  apply bind_Ok in H as (limit & Hlimit & H).
  apply bind_Ok in H as (ds' & Hds' & H).
  apply bind_Ok in H as (p' & Hp' & H).
  apply bind_Ok in H as (t' & Ht' & H).
  injection H as <- <-.
  apply (get_dimension_limits_leadtime _ ds idxs limit Ha) in Hlimit.
  apply (isel_leadtime_length limit idxs _ _ Hlimit) in Hds' as (_ & Hp & Ht).
  split.
  - destruct (0 <? length (ds_static_predictor ds')).
    + apply bind_Ok in Hp' as (n & _ & Hp').
      apply bind_Ok in Hp' as (num_lt & _ & Hp').
      apply bind_Ok in Hp' as (static & _ & Hp').
      apply as_numpy_Ok in Hp'. cbn [concat foldM] in Hp'.
      apply bind_Ok in Hp' as (out & Hout & Hp'). injection Hp' as <-.
      apply concat2_shape in Hout as [k ->].
      rewrite lookup_insert_other_axis by lia. exact Hp.
    + injection Hp' as <-. exact Hp.
  - apply as_numpy_Ok in Ht'.
    apply (expand_dims_keeps_first _ _ 3 _ ltac:(lia) Ht' Ht).
Qed.

Lemma load_file_leadtimes (self : Loader) (index : nat) (idxs : list Z)
    (p t : tensor float32) :
  limit_leadtimes self = Some idxs ->
  num_leadtimes (metadata self) = length idxs ->
  load_file open_dataset self index = Ok (p, t) ->
  shape p !! 0 = Some (length idxs) /\ shape t !! 0 = Some (length idxs).
Proof.
  intros Ha Hn H. unfold load_file in H.
  apply bind_Ok in H as (filename & _ & H).
  destruct (fake self).
  - injection H as <- <-. cbn. rewrite Hn. split; reflexivity.
  - eapply parse_file_leadtimes; eassumption.
Qed.

Lemma init_Ok (a : Args) (self : Loader) :
  __init__ glob open_dataset yaml_load a = Ok self ->
  args self = a /\
  filenames self = flat_map glob (arg_filenames a) /\
  exists first,
    filenames self !! 0 = Some first /\
    load_metadata open_dataset a first = Ok (metadata self) /\
    load_coefficients yaml_load a (metadata self) = Ok (coefficients self).
Proof.
  unfold __init__. intros H.
  apply bind_Ok in H as (first & Hfirst & H). apply of_option_Ok in Hfirst.
  apply bind_Ok in H as (m & Hm & H).
  apply bind_Ok in H as (c & Hc & H).
  injection H as <-. cbn. eauto 10.
Qed.

End Reads.

Lemma concat_compatible_last (LT Y X Q S : nat) :
  concat_compatible 3 [LT; Y; X; Q] [LT; Y; X; S] = true.
Proof. cbn. rewrite !Nat.eqb_refl. reflexivity. Qed.

(** The limits of a loader that only limits the lead times. *)
Lemma get_dimension_limits_leadtime_only (a : Args) (ds : Dataset) (idxs : list Z) :
  arg_limit_leadtimes a = Some idxs ->
  arg_limit_predictors a = None -> arg_x_range a = None -> arg_y_range a = None ->
  get_dimension_limits a ds None = Ok (<["leadtime" := idxs]> ∅).
Proof.
  intros Hl Hp Hx Hy. unfold get_dimension_limits. rewrite Hl, Hp, Hx, Hy. reflexivity.
Qed.

(** Selecting the lead times 1 and 2 of a dataset with five lead times. *)
Lemma isel_leadtimes_1_2 (ds : Dataset) :
  wf_dataset ds -> length (ds_leadtime ds) = 5 ->
  exists ds',
    isel (<["leadtime" := [1; 2]%Z]> ∅) ds = Ok ds' /\
    length (ds_leadtime ds') = 2 /\
    ds_y ds' = ds_y ds /\ ds_x ds' = ds_x ds /\
    ds_predictor ds' = ds_predictor ds /\
    ds_static_predictor ds' = ds_static_predictor ds /\
    ds_static_predictors ds' = ds_static_predictors ds /\
    shape (ds_predictors ds') = [2; ds_y ds; ds_x ds; length (ds_predictor ds)] /\
    shape (ds_target_mean ds') = [2; ds_y ds; ds_x ds].
Proof.
  intros [Hp Hs Ht _ _ _] Hlen. rewrite Hlen in Hp, Ht.
  unfold isel, isel_key.
  rewrite !(lookup_insert_ne (M:=gmap string)) by discriminate.
  rewrite lookup_insert_eq, !lookup_empty. cbn [bind].
  unfold isel_leadtime, take_list, take_axis. rewrite Hp, Ht, Hlen.
  destruct (ds_leadtime ds) as [|l0 [|l1 [|l2 [|l3 [|l4 [|l5 ls]]]]]]; try discriminate.
  eexists. split; [reflexivity|]. cbn [ds_leadtime ds_y ds_x ds_predictor
    ds_static_predictor ds_static_predictors ds_predictors ds_target_mean].
  repeat split; reflexivity.
Qed.

Section Construction.
Variable glob : string -> list string.
Variable open_dataset : string -> result Dataset.
Variable yaml_load : string -> result (gmap string (float64 * float64)).

(** Reading a well-formed file with five lead times through a loader
    that limits the lead times to 1 and 2 and nothing else. *)
Lemma parse_file_leadtimes_1_2 (self : Loader) (filename : string) (ds : Dataset) :
  limit_leadtimes self = Some [1; 2]%Z ->
  arg_limit_predictors (args self) = None ->
  arg_x_range (args self) = None -> arg_y_range (args self) = None ->
  open_dataset filename = Ok ds -> wf_dataset ds -> length (ds_leadtime ds) = 5 ->
  exists p t, parse_file open_dataset self filename = Ok (p, t).
Proof.
  intros Hl Hp Hx Hy Hopen Hwf Hlen. unfold parse_file. rewrite Hopen. cbn [bind].
  rewrite (get_dimension_limits_leadtime_only _ ds [1; 2]%Z Hl Hp Hx Hy). cbn [bind].
  destruct (isel_leadtimes_1_2 ds Hwf Hlen)
    as (ds' & -> & _ & _ & _ & _ & Hnames & Hstatic & Hshape & Htarget).
  cbn [bind]. rewrite Hnames, Hstatic, Hshape.
  destruct Hwf as [_ Hs _ _ _ _]. rewrite Hs.
  assert (exists t, as_numpy (expand_dims (ds_target_mean ds') 3) = Ok t) as [t ->].
  { unfold expand_dims, rank. rewrite Htarget. eexists. reflexivity. }
  destruct (0 <? length (ds_static_predictor ds)).
  - cbn [last of_option bind removelast app lookup list_lookup].
    unfold assign_leadtimes, np_zeros. cbn [build shape Nat.eqb].
    rewrite bool_decide_eq_true_2 by (rewrite Hs; reflexivity).
    cbn [bind concat foldM]. unfold concat2. rewrite Hshape. cbn [build shape].
    rewrite concat_compatible_last.
    eexists. eexists. reflexivity.
  - eexists. eexists. reflexivity.
Qed.

End Construction.

Lemma parse_range_1_3 (int_other : list ascii -> option Z) :
  parse_range int_other (Some (RangeStr "1:3")) = Ok (Some [1; 2]%Z).
Proof. reflexivity. Qed.

Section LimitLeadtimes.
Variable glob : string -> list string.
Variable open_dataset : string -> result Dataset.
Variable yaml_load : string -> result (gmap string (float64 * float64)).
Variable int_other : list ascii -> option Z.

(** C4.  For a configuration with [limit_leadtimes = "1:3"]: every
    loader constructed from it limits the lead times to the positions 1
    and 2, has [num_leadtimes = 2], and every pair of arrays that
    [load_file] returns has a lead-time axis of length 2.  When nothing
    else is limited and the first file is a well-formed archive with five
    lead times, the construction succeeds, and so does the read of every
    such file of the file list. *)
Theorem limit_leadtimes_1_3 (config : Config) :
  cfg_limit_leadtimes config = Some (RangeStr "1:3") ->
  (forall self,
      from_config glob open_dataset yaml_load int_other config = Ok self ->
      limit_leadtimes self = Some [1; 2]%Z /\
      num_leadtimes (metadata self) = 2 /\
      forall index p t,
        load_file open_dataset self index = Ok (p, t) ->
        shape p !! 0 = Some 2 /\ shape t !! 0 = Some 2) /\
  (forall first ds,
      cfg_x_range config = None -> cfg_y_range config = None ->
      cfg_limit_predictors config = None ->
      cfg_normalization config = None ->
      cfg_patch_size config = None ->
      flat_map glob (cfg_filenames config) !! 0 = Some first ->
      open_dataset first = Ok ds ->
      wf_dataset ds -> length (ds_leadtime ds) = 5 ->
      exists self,
        from_config glob open_dataset yaml_load int_other config = Ok self /\
        forall index filename ds',
          filenames self !! index = Some filename ->
          open_dataset filename = Ok ds' ->
          wf_dataset ds' -> length (ds_leadtime ds') = 5 ->
          exists p t, load_file open_dataset self index = Ok (p, t)).
Proof.
  intros Hcfg. split.
  - intros self H. unfold from_config in H. rewrite Hcfg, parse_range_1_3 in H.
    apply bind_Ok in H as (x_range & _ & H).
    apply bind_Ok in H as (y_range & _ & H).
    cbn [bind] in H.
    apply init_Ok in H as (Hargs & _ & first & _ & Hmeta & _).
    assert (limit_leadtimes self = Some [1; 2]%Z) as Hlimit
      by (unfold limit_leadtimes; rewrite Hargs; reflexivity).
    assert (num_leadtimes (metadata self) = 2) as Hnum
      by (eapply (load_metadata_num_leadtimes open_dataset _ first _ [1; 2]%Z);
          [|exact Hmeta]; reflexivity).
    split; [exact Hlimit|]. split; [exact Hnum|].
    intros index p t Hread.
    apply (load_file_leadtimes open_dataset self index [1; 2]%Z p t Hlimit Hnum Hread).
  - intros first ds Hx Hy Hpred Hnorm Hpatch Hfirst Hopen Hwf Hlen.
    unfold from_config. rewrite Hcfg, parse_range_1_3, Hx, Hy. cbn [parse_range bind].
    unfold __init__. cbn [arg_filenames]. rewrite Hfirst. cbn [of_option bind].
    unfold load_metadata. rewrite Hopen. cbn [bind].
    rewrite (get_dimension_limits_leadtime_only _ ds [1; 2]%Z)
      by (reflexivity || assumption).
    cbn [bind].
    destruct (isel_leadtimes_1_2 ds Hwf Hlen) as (ds1 & -> & _).
    cbn [bind arg_patch_size]. rewrite Hpatch. cbn [bind].
    unfold load_coefficients. cbn [arg_normalization]. rewrite Hnorm. cbn [bind].
    eexists. split; [reflexivity|].
    intros index filename ds' Hindex Hopen' Hwf' Hlen'.
    unfold load_file. cbn [filenames] in Hindex |- *. rewrite Hindex.
    cbn [of_option bind]. destruct (fake _); [eauto|].
    eapply parse_file_leadtimes_1_2; try eassumption; assumption || reflexivity.
Qed.

End LimitLeadtimes.

(** ** The example archive *)

Example init_example_args :
  __init__ example_glob example_open example_yaml example_args = Ok example_loader.
Proof. vm_compute. reflexivity. Qed.

Example init_plain_args :
  __init__ example_glob example_open example_yaml plain_args = Ok plain_loader.
Proof. vm_compute. reflexivity. Qed.

Example load_file_example :
  load_file example_open example_loader 0 = Ok (example_predictors, example_targets).
Proof. vm_compute. reflexivity. Qed.

Lemma wf_example_dataset : wf_dataset example_dataset.
Proof. constructor; vm_compute; reflexivity. Qed.

(** ** Construction *)

Section EmptyFileList.
Variable glob : string -> list string.
Variable open_dataset : string -> result Dataset.
Variable yaml_load : string -> result (gmap string (float64 * float64)).

(** C7, as the code has it.  When the patterns resolve to no file, the
    construction fails: taking the first file name raises [IndexError],
    before any file is opened, and no loader is built. *)
Theorem init_empty_file_list (a : Args) :
  flat_map glob (arg_filenames a) = [] ->
  __init__ glob open_dataset yaml_load a = Err IndexError.
Proof. intros H. unfold __init__. rewrite H. reflexivity. Qed.

End EmptyFileList.

Section ZeroScale.
Variable yaml_load : string -> result (gmap string (float64 * float64)).

(** C8, as the code has it.  The build of the coefficient table does not
    look at the scales.  Whenever the table has a row for every predictor
    name, the build succeeds, and a (mean, scale) that the source gives
    for a predictor name that is not the name of an extra feature is
    stored in its row, converted to [float32]: a scale of 0 is stored as
    0.  Only a row whose name the mapping lacks has the default scale 1,
    which is not 0. *)
Theorem load_coefficients_keeps_zero_scale (a : Args) (m : Metadata) (path : string)
    (source : gmap string (float64 * float64)) :
  arg_normalization a = Some path ->
  yaml_load path = Ok source ->
  length (predictor_names m) <= num_predictors m ->
  exists tbl,
    load_coefficients yaml_load a m = Ok (Some tbl) /\
    (forall i name mean,
       predictor_names m !! i = Some name ->
       name ∉ map get_feature_name (arg_extra_features a) ->
       source !! name = Some (mean, f64_zero) ->
       tbl !! i = Some (f32_of_f64 mean, f32_zero)) /\
    (forall i name,
       predictor_names m !! i = Some name ->
       name ∉ map get_feature_name (arg_extra_features a) ->
       source !! name = None ->
       tbl !! i = Some (f32_zero, f32_one)) /\
    f32_one <> f32_zero.
Proof.
  intros Hnorm Hload Hlen.
  unfold load_coefficients. rewrite Hnorm, Hload. cbn [bind].
  set (merged := dict_update source _).
  destruct (fill_rows_ok merged (arg_extra_features a) (predictor_names m) 0
              (replicate (num_predictors m) (f32_zero, f32_one)))
    as (tbl & -> & _ & Hrows & _).
  { rewrite length_replicate. lia. }
  assert (forall name, name ∉ map get_feature_name (arg_extra_features a) ->
                       merged !! name = source !! name) as Hmerged.
  { intros name Hname. unfold merged, dict_update.
    apply lookup_union_r. apply extra_features_normalization_other. exact Hname. }
  exists tbl. split; [reflexivity|]. split; [|split].
  - intros i name mean Hi Hname Hsrc.
    rewrite <- (Nat.add_0_l i) at 1. rewrite (Hrows i name Hi).
    unfold coefficient_row. rewrite (Hmerged name Hname), Hsrc. reflexivity.
  - intros i name Hi Hname Hsrc.
    rewrite <- (Nat.add_0_l i) at 1. rewrite (Hrows i name Hi).
    unfold coefficient_row. rewrite (Hmerged name Hname), Hsrc. reflexivity.
  - discriminate.
Qed.

End ZeroScale.

(** C7 fails as stated: with an empty file list the construction raises
    [IndexError], not [ConfigError]. *)
Lemma init_empty_file_list_not_ConfigError :
  flat_map no_files (arg_filenames example_args) = [] /\
  __init__ no_files example_open example_yaml example_args <> Err ConfigError.
Proof. split; [reflexivity|]. vm_compute. discriminate. Qed.

Lemma init_empty_file_list_witness :
  flat_map no_files (arg_filenames example_args) = [] /\
  __init__ no_files example_open example_yaml example_args = Err IndexError.
Proof.
  split; [reflexivity|].
  apply (init_empty_file_list no_files example_open example_yaml example_args).
  reflexivity.
Defined.

(** C8 fails as stated: the source gives the precipitation a scale of 0,
    the construction succeeds, and row 1 of the table has scale 0. *)
Lemma zero_scale_is_accepted :
  example_yaml "normalization.yml" = Ok example_source /\
  example_source !! "precipitation_amount" = Some (f64_zero, f64_zero) /\
  exists self tbl,
    __init__ example_glob example_open example_yaml example_args = Ok self /\
    predictor_names (metadata self) !! 1 = Some "precipitation_amount" /\
    coefficients self = Some tbl /\
    tbl !! 1 = Some (f32_zero, f32_zero).
Proof.
  split; [reflexivity|]. split; [vm_compute; reflexivity|].
  rewrite init_example_args. eexists. eexists.
  split; [reflexivity|]. split; [reflexivity|]. split; reflexivity.
Qed.

Lemma load_coefficients_keeps_zero_scale_witness :
  arg_normalization example_args = Some "normalization.yml" /\
  example_yaml "normalization.yml" = Ok example_source /\
  length (predictor_names (metadata example_loader))
  <= num_predictors (metadata example_loader) /\
  exists tbl,
    load_coefficients example_yaml example_args (metadata example_loader) = Ok (Some tbl) /\
    tbl !! 1 = Some (f32_of_f64 f64_zero, f32_zero).
Proof.
  split; [reflexivity|]. split; [reflexivity|]. split; [vm_compute; lia|].
  destruct (load_coefficients_keeps_zero_scale example_yaml example_args
              (metadata example_loader) "normalization.yml" example_source
              eq_refl eq_refl ltac:(vm_compute; lia))
    as (tbl & Htbl & Hzero & _).
  exists tbl. split; [exact Htbl|].
  apply (Hzero 1 "precipitation_amount" f64_zero).
  - reflexivity.
  - cbn. intros H. apply list_elem_of_singleton in H. discriminate.
  - vm_compute. reflexivity.
Defined.

(** C2, on the example archive.  With the allow-list of the two dynamic
    predictors, one extra feature and a normalization file, the table gets
    two rows for three predictor names, and writing row 2 raises
    [IndexError]: the construction fails.  With an allow-list that also
    names the static predictor and two predictors that the archive does not
    have, the construction succeeds with five rows for four names. *)
Theorem coefficient_rows_with_allow_list :
  __init__ example_glob example_open example_yaml
    (allow_list_args ["air_temperature_2m"; "precipitation_amount"])
  = Err IndexError /\
  exists self tbl,
    __init__ example_glob example_open example_yaml
      (allow_list_args ["air_temperature_2m"; "precipitation_amount"; "altitude";
                        "land_area_fraction"; "model_altitude"])
    = Ok self /\
    coefficients self = Some tbl /\
    length tbl = 5 /\
    predictor_names (metadata self)
    = ["air_temperature_2m"; "precipitation_amount"; "altitude"; "x"].
Proof.
  split; [vm_compute; reflexivity|].
  vm_compute. eexists. eexists. repeat split.
Qed.

(** ** The theorems on the example archive *)

Lemma patch_unpatch_roundtrip_witness :
  patch_size plain_loader = Some 2 /\
  exists p' t',
    patch plain_loader (example_predictors, example_targets) = Ok (p', t') /\
    shape p' = [5; 4; 2; 2; 3] /\
    unpatch p' 2 = example_predictors /\
    unpatch t' 2 = example_targets.
Proof.
  split; [reflexivity|].
  destruct (patch_unpatch_roundtrip plain_loader 2 5 4 4 3
              example_predictors example_targets)
    as (p' & t' & Hpatch & Hshape & _ & _ & _ & _ & Hdiv).
  - reflexivity.
  - lia.
  - lia.
  - lia.
  - apply wf_build.
  - reflexivity.
  - vm_compute. reflexivity.
  - reflexivity.
  - exists p', t'. split; [exact Hpatch|]. split; [exact Hshape|].
    apply Hdiv; reflexivity.
Defined.

Lemma load_coefficients_rows_witness :
  arg_normalization example_args = Some "normalization.yml" /\
  example_yaml "normalization.yml" = Ok example_source /\
  length (predictor_names (metadata example_loader))
  <= num_predictors (metadata example_loader) /\
  exists tbl,
    load_coefficients example_yaml example_args (metadata example_loader) = Ok (Some tbl) /\
    length tbl = 4 /\
    tbl !! 3 = Some (f32_of_f64 (np_mean (np_arange 4)), f32_of_f64 (np_std (np_arange 4))).
Proof.
  split; [reflexivity|]. split; [reflexivity|]. split; [vm_compute; lia|].
  destruct (load_coefficients_rows example_yaml example_args (metadata example_loader)
              "normalization.yml" example_source eq_refl eq_refl ltac:(vm_compute; lia))
    as (tbl & Htbl & Hlen & Hrows & _ & Hfeat & _).
  exists tbl. split; [exact Htbl|]. split; [exact Hlen|].
  pose proof (Hfeat [] {| f_type := "x"; f_name := None |} [] eq_refl
                (not_elem_of_nil _)) as Hx.
  change (get_feature_name {| f_type := "x"; f_name := None |}) with "x" in Hx.
  rewrite (Hrows 3 "x" eq_refl), Hx. reflexivity.
Defined.

Lemma limit_leadtimes_1_3_witness :
  cfg_limit_leadtimes example_config = Some (RangeStr "1:3") /\
  exists self p t,
    from_config example_glob example_open example_yaml example_int example_config = Ok self /\
    num_leadtimes (metadata self) = 2 /\
    load_file example_open self 0 = Ok (p, t) /\
    shape p !! 0 = Some 2 /\ shape t !! 0 = Some 2.
Proof.
  split; [reflexivity|].
  destruct (limit_leadtimes_1_3 example_glob example_open example_yaml example_int
              example_config eq_refl) as [Hany Hsome].
  destruct (Hsome "data/20200301.nc" example_dataset)
    as (self & Hself & Hread); try reflexivity.
  - apply wf_example_dataset.
  - destruct (Hany self Hself) as (_ & Hnum & Haxis).
    assert (filenames self !! 0 = Some "data/20200301.nc") as Hfirst.
    { revert Hself. vm_compute. intros [= <-]. reflexivity. }
    destruct (Hread 0 "data/20200301.nc" example_dataset Hfirst eq_refl
                wf_example_dataset eq_refl) as (p & t & Hpt).
    exists self, p, t. split; [exact Hself|]. split; [exact Hnum|].
    split; [exact Hpt|]. apply (Haxis 0 p t Hpt).
Defined.

Lemma extract_features_x_channel_witness :
  shape example_predictors = [5; 4; 4; 3] /\
  Forall (fun feature => is_Some (feature_axis feature)) (extra_features example_loader) /\
  exists p',
    extract_features example_loader (example_predictors, example_targets)
    = Ok (p', example_targets) /\
    shape p' = [5; 4; 4; 4] /\
    get f32_zero p' [0; 1; 2; 3] = f32_of_nat 2.
Proof.
  assert (Forall (fun feature => is_Some (feature_axis feature))
            (extra_features example_loader)) as Hknown.
  { repeat constructor. exists 2. reflexivity. }
  split; [reflexivity|]. split; [exact Hknown|].
  destruct (extract_features_x_channel example_loader 5 4 4 3
              example_predictors example_targets eq_refl Hknown)
    as (p' & Hp' & Hshape & Hget).
  exists p'. split; [exact Hp'|]. split; [exact Hshape|].
  destruct (Hget 0 1 2 ltac:(lia) ltac:(lia) ltac:(lia)) as [_ Hx].
  apply (Hx 0 {| f_type := "x"; f_name := None |}); reflexivity.
Defined.

Lemma diff_keeps_predictors_witness :
  predict_diff plain_loader = false /\
  diff plain_loader (example_predictors, example_targets)
  = Ok (example_predictors, example_targets).
Proof.
  split; [reflexivity|].
  apply (proj1 (diff_keeps_predictors plain_loader example_predictors example_targets)).
  reflexivity.
Defined.

Lemma raw_predictor_lookup_witness :
  (predict_diff example_loader = true /\
   exists i,
     raw_predictor_index example_loader = Ok (Some i) /\
     predictor_names (metadata example_loader) !! i = Some "air_temperature_2m") /\
  (__init__ example_glob example_open example_yaml no_raw_args = Ok no_raw_loader /\
   predict_diff no_raw_loader = true /\
   ("air_temperature_2m" ∉ predictor_names (metadata no_raw_loader)) /\
   raw_predictor_index no_raw_loader = Err ValueError /\
   diff no_raw_loader (np_zeros [5; 4; 2; 2; 2], np_zeros [5; 4; 2; 2; 1])
   = Err InvalidArgumentError).
Proof.
  split.
  - split; [reflexivity|].
    destruct (raw_predictor_lookup example_loader example_predictors example_targets eq_refl)
      as [Hfound _].
    destruct Hfound as (i & Hi & Hname & _); [left|].
    exists i. split; assumption.
  - assert ("air_temperature_2m" ∉ predictor_names (metadata no_raw_loader)) as Habsent
      by (apply (bool_decide_eq_true_1 _); vm_compute; reflexivity).
    split; [vm_compute; reflexivity|]. split; [reflexivity|].
    split; [exact Habsent|].
    destruct (raw_predictor_lookup no_raw_loader (np_zeros [5; 4; 2; 2; 2])
                (np_zeros [5; 4; 2; 2; 1]) eq_refl) as [_ Hraises].
    exact (Hraises Habsent).
Defined.

Lemma normalize_keeps_targets_witness :
  exists tbl p',
    coefficients example_loader = Some tbl /\
    normalize example_loader (np_zeros [1; 1; 2; 2; 4], example_targets)
    = Ok (p', example_targets).
Proof.
  destruct (normalize_keeps_targets example_loader (np_zeros [1; 1; 2; 2; 4]) example_targets)
    as (_ & _ & Hrows).
  destruct (Hrows _ 1 1 2 2 eq_refl eq_refl) as (p' & Hp' & _).
  eexists. exists p'. split; [reflexivity|exact Hp'].
Defined.

(** * Further properties of the stages *)

(** ** Patching without a patch size *)

Lemma expand_dims_1 (t : tensor float32) (n : nat) (s : list nat) :
  shape t = n :: s ->
  expand_dims t 1 = Ok (Tensor (n :: 1 :: s) (data t)).
Proof.
  intros H. unfold expand_dims, rank. rewrite H. cbn [length].
  change 1%Z with (Z.of_nat 1). rewrite norm_index_nat by lia. reflexivity.
Qed.

Lemma expand_dims_scalar (t : tensor float32) :
  shape t = [] -> expand_dims t 1 = Err InvalidArgumentError.
Proof. intros H. unfold expand_dims, rank. rewrite H. reflexivity. Qed.

(** X1.  Without a patch size the patch stage only inserts a patch axis of
    length 1 after the first axis of both arrays and keeps their data: a
    (leadtime, y, x, channel) array becomes (leadtime, 1, y, x, channel)
    with the same element at every position.  An array without axes makes
    the stage raise: [tf.expand_dims] rejects it, and the decorator of the
    stage turns that error into [tf.errors.UnknownError]. *)
Theorem patch_without_patch_size (self : Loader) (p t : tensor float32) :
  patch_size self = None ->
  (forall n sp m st,
      shape p = n :: sp -> shape t = m :: st ->
      patch self (p, t)
      = Ok (Tensor (n :: 1 :: sp) (data p), Tensor (m :: 1 :: st) (data t))) /\
  (shape p = [] \/ shape t = [] -> patch self (p, t) = Err UnknownError) /\
  (forall LT Y X C p' t' lt y x c,
      shape p = [LT; Y; X; C] ->
      patch self (p, t) = Ok (p', t') ->
      shape p' = [LT; 1; Y; X; C] /\
      get f32_zero p' [lt; 0; y; x; c] = get f32_zero p [lt; y; x; c]).
Proof.
  intros Hsize. unfold patch, map_decorator2. rewrite Hsize. split; [|split].
  - intros n sp m st Hp Ht.
    rewrite (expand_dims_1 p n sp Hp), (expand_dims_1 t m st Ht). reflexivity.
  - intros [Hp|Ht].
    + rewrite (expand_dims_scalar p Hp). reflexivity.
    + destruct (expand_dims p 1) as [p'|e] eqn:Hp'; cbn [bind].
      * rewrite (expand_dims_scalar t Ht). reflexivity.
      * unfold expand_dims in Hp'.
        destruct (norm_index (S (rank p)) 1); cbn in Hp';
          first [discriminate | injection Hp' as <-; reflexivity].
  - intros LT Y X C p' t' lt y x c Hp H. apply py_function_Ok in H.
    rewrite (expand_dims_1 p LT [Y; X; C] Hp) in H. cbn [bind] in H.
    destruct (expand_dims t 1) as [t''|e]; cbn [bind] in H; [|discriminate].
    injection H as <- <-. split; [reflexivity|].
    unfold get. rewrite Hp. cbn [shape data]. f_equal. cbn. lia.
Qed.

(** ** Reordering *)

Lemma transpose_5d (t : tensor float32) (a b c d e : nat) :
  shape t = [a; b; c; d; e] ->
  transpose f32_zero t [1; 0; 2; 3; 4]
  = Ok (build [b; a; c; d; e]
          (fun idx =>
             match idx with
             | [i; j; k; l; m] => get f32_zero t [j; i; k; l; m]
             | _ => f32_zero
             end)).
Proof.
  intros H. unfold transpose. rewrite H. cbn [length map nth].
  change (is_permutation 5 [1; 0; 2; 3; 4]) with true. cbn iota.
  apply (f_equal Ok). unfold build. apply (f_equal (Tensor _)).
  apply tabulate_ext. intros idx Hidx.
  apply in_range_5_inv in Hidx as (i & j & k & l & m & -> & _).
  reflexivity.
Qed.

Lemma transpose_not_5d (t : tensor float32) :
  length (shape t) <> 5 ->
  transpose f32_zero t [1; 0; 2; 3; 4] = Err InvalidArgumentError.
Proof.
  intros H. unfold transpose, is_permutation. cbn [length].
  destruct (Nat.eqb_spec 5 (length (shape t))); [congruence|]. reflexivity.
Qed.

Lemma transpose_5d_twice (t : tensor float32) (a b c d e : nat) :
  wf t -> shape t = [a; b; c; d; e] ->
  exists t',
    transpose f32_zero t [1; 0; 2; 3; 4] = Ok t' /\
    shape t' = [b; a; c; d; e] /\
    wf t' /\
    (forall i j k l m, i < b -> j < a -> k < c -> l < d -> m < e ->
       get f32_zero t' [i; j; k; l; m] = get f32_zero t [j; i; k; l; m]) /\
    transpose f32_zero t' [1; 0; 2; 3; 4] = Ok t.
Proof.
  intros Hwf H. rewrite (transpose_5d t a b c d e H).
  eexists. split; [reflexivity|]. split; [reflexivity|]. split; [apply wf_build|].
  split.
  - intros i j k l m Hi Hj Hk Hl Hm.
    rewrite get_build by (repeat constructor; assumption). reflexivity.
  - erewrite (transpose_5d _ b a c d e) by reflexivity.
    apply (f_equal Ok).
    etransitivity; [|exact (build_get f32_zero t Hwf)]. rewrite H.
    unfold build at 1 3. apply (f_equal (Tensor _)).
    apply tabulate_ext. intros idx Hidx.
    apply in_range_5_inv in Hidx as (i & j & k & l & m & -> & Hi & Hj & Hk & Hl & Hm).
    rewrite get_build by (repeat constructor; assumption). reflexivity.
Qed.

(** X2.  On five-dimensional arrays [reorder] exchanges the lead-time axis
    and the patch axis and keeps the others: the element at
    (patch, leadtime, y, x, channel) of the output is the element at
    (leadtime, patch, y, x, channel) of the input, for predictors and
    targets alike, and reordering the output gives the input back.  On a
    predictor array of another rank it raises: [tf.transpose] rejects the
    array, and the decorator of the stage turns that error into
    [tf.errors.UnknownError]. *)
Theorem reorder_swaps_leadtime_and_patch (self : Loader) (p t : tensor float32) :
  (forall LT N Y X C K,
      wf p -> shape p = [LT; N; Y; X; C] ->
      wf t -> shape t = [LT; N; Y; X; K] ->
      exists p' t',
        reorder self (p, t) = Ok (p', t') /\
        shape p' = [N; LT; Y; X; C] /\
        shape t' = [N; LT; Y; X; K] /\
        (forall n lt y x, n < N -> lt < LT -> y < Y -> x < X ->
           (forall c, c < C ->
              get f32_zero p' [n; lt; y; x; c] = get f32_zero p [lt; n; y; x; c]) /\
           (forall k, k < K ->
              get f32_zero t' [n; lt; y; x; k] = get f32_zero t [lt; n; y; x; k])) /\
        reorder self (p', t') = Ok (p, t)) /\
  (length (shape p) <> 5 -> reorder self (p, t) = Err UnknownError).
Proof.
  split.
  - intros LT N Y X C K Hwfp Hp Hwft Ht.
    destruct (transpose_5d_twice p LT N Y X C Hwfp Hp) as (p' & Hp' & Hsp & _ & Hgp & Hbp).
    destruct (transpose_5d_twice t LT N Y X K Hwft Ht) as (t' & Ht' & Hst & _ & Hgt & Hbt).
    exists p', t'. unfold reorder, map_decorator2. rewrite Hp', Ht', Hbp, Hbt.
    split; [reflexivity|]. split; [exact Hsp|]. split; [exact Hst|].
    split; [|reflexivity].
    intros n lt y x Hn Hlt Hy Hx. split.
    + intros c Hc. apply Hgp; assumption.
    + intros k Hk. apply Hgt; assumption.
  - intros H. unfold reorder, map_decorator2. rewrite (transpose_not_5d p H). reflexivity.
Qed.

(** ** Differencing against the raw forecast *)

Lemma diff_raw_channel (self : Loader) (p t : tensor float32)
    (d0 d1 d2 d3 C Ip : nat) :
  raw_predictor_index self = Ok (Some Ip) ->
  shape p = [d0; d1; d2; d3; C] ->
  shape t = [d0; d1; d2; d3; 1] ->
  Ip < C ->
  exists t',
    diff self (p, t) = Ok (p, t') /\
    shape t' = [d0; d1; d2; d3; 1] /\
    wf t' /\
    forall i0 i1 i2 i3, i0 < d0 -> i1 < d1 -> i2 < d2 -> i3 < d3 ->
      get f32_zero t' [i0; i1; i2; i3; 0]
      = f32_sub (get f32_zero t [i0; i1; i2; i3; 0])
                (get f32_zero p [i0; i1; i2; i3; Ip]).
Proof.
  intros Hraw Hp Ht HIp. unfold diff, map_decorator2. rewrite Hraw. cbn [bind].
  unfold index_last. rewrite Hp. cbn [last removelast].
  change (last [d0; d1; d2; d3; C]) with (Some C). cbn iota.
  destruct (Nat.ltb_spec Ip C); [|lia]. cbn [bind].
  unfold expand_dims. cbn [rank build shape length]. rewrite norm_index_last.
  cbn [of_option bind firstn skipn app data].
  rewrite (binop_same_shape _ _ _ [d0; d1; d2; d3; 1]) by (exact Ht || reflexivity).
  cbn [bind]. eexists. split; [reflexivity|]. split; [reflexivity|].
  split; [apply wf_build|].
  intros i0 i1 i2 i3 H0 H1 H2 H3.
  rewrite get_build by (repeat constructor; assumption || lia).
  f_equal. unfold get at 1, build. cbn [shape data].
  replace (offset [d0; d1; d2; d3; 1] [i0; i1; i2; i3; 0])
    with (offset [d0; d1; d2; d3] [i0; i1; i2; i3]) by (cbn; lia).
  rewrite nth_tabulate by (repeat constructor; assumption).
  reflexivity.
Qed.

(** X3.  When the raw-forecast channel is channel [Ip] of five-dimensional
    predictors, the diff stage subtracts, at every (leadtime, patch, y, x),
    the value of that channel from the target and returns the predictors
    as they are; when the position of the name is not a channel of the
    array, it raises: the slice is rejected, and the decorator of the stage
    turns that error into [tf.errors.UnknownError]. *)
Theorem diff_subtracts_raw_forecast (self : Loader) (p t : tensor float32)
    (d0 d1 d2 d3 C Ip : nat) :
  raw_predictor_index self = Ok (Some Ip) ->
  shape p = [d0; d1; d2; d3; C] ->
  shape t = [d0; d1; d2; d3; 1] ->
  (Ip < C ->
   exists t',
     diff self (p, t) = Ok (p, t') /\
     shape t' = [d0; d1; d2; d3; 1] /\
     forall i0 i1 i2 i3, i0 < d0 -> i1 < d1 -> i2 < d2 -> i3 < d3 ->
       get f32_zero t' [i0; i1; i2; i3; 0]
       = f32_sub (get f32_zero t [i0; i1; i2; i3; 0])
                 (get f32_zero p [i0; i1; i2; i3; Ip])) /\
  (C <= Ip -> diff self (p, t) = Err UnknownError).
Proof.
  intros Hraw Hp Ht. split.
  - intros HIp.
    destruct (diff_raw_channel self p t d0 d1 d2 d3 C Ip Hraw Hp Ht HIp)
      as (t' & Hdiff & Hshape & _ & Hget).
    exists t'. auto.
  - intros HIp. unfold diff, map_decorator2. rewrite Hraw. cbn [bind].
    unfold index_last. rewrite Hp.
    change (last [d0; d1; d2; d3; C]) with (Some C). cbn iota.
    destruct (Nat.ltb_spec Ip C); [lia|]. reflexivity.
Qed.

(** ** Normalization of arrays that do not fit the table *)

Lemma length_removelast_one (s : list nat) :
  length (removelast s ++ [1]) = Nat.max 1 (length s).
Proof.
  rewrite length_app, removelast_firstn_len, length_firstn. cbn. lia.
Qed.

Lemma expand_array_rank (v : list float32) (shp : list nat) :
  length shp <> 5 ->
  expand_array (Tensor [length v] v) shp = Err InvalidArgumentError.
Proof.
  intros H. unfold expand_array, expand_dims. cbn [rank shape length].
  change (norm_index 2 0) with (Some 0).
  cbn [of_option bind firstn skipn app shape length rank data].
  change (norm_index 3 0) with (Some 0).
  cbn [of_option bind firstn skipn app shape length rank data].
  change (norm_index 4 0) with (Some 0).
  cbn [of_option bind firstn skipn app shape length rank data].
  change (norm_index 5 0) with (Some 0).
  cbn [of_option bind firstn skipn app shape length rank data].
  unfold tile. cbn [rank shape length].
  destruct (Nat.eqb_spec (length shp) 5); [contradiction|reflexivity].
Qed.

(** X4.  With a coefficient table, the normalize stage raises on a
    predictor array that is not five-dimensional, and on a
    five-dimensional one whose channel count differs from the number of
    table rows when neither of the two is 1.  In both cases a TensorFlow
    operation rejects the shapes, and the decorator of the stage turns
    that error into [tf.errors.UnknownError]. *)
Theorem normalize_rejects_other_shapes (self : Loader) (tbl : table)
    (p t : tensor float32) :
  coefficients self = Some tbl ->
  (length (shape p) <> 5 -> normalize self (p, t) = Err UnknownError) /\
  (forall d0 d1 d2 d3 C,
      shape p = [d0; d1; d2; d3; C] ->
      C <> length tbl -> C <> 1 -> length tbl <> 1 ->
      normalize self (p, t) = Err UnknownError).
Proof.
  intros Hc. split.
  - intros Hrank. unfold normalize, map_decorator2. rewrite Hc.
    pose proof (expand_array_rank (map fst tbl) (removelast (shape p) ++ [1])) as Ha.
    rewrite length_map in Ha. rewrite Ha; [reflexivity|].
    rewrite length_removelast_one. lia.
  - intros d0 d1 d2 d3 C Hp HC HC1 Htbl1. unfold normalize, map_decorator2. rewrite Hc, Hp.
    cbn [removelast app].
    pose proof (expand_array_tile (map fst tbl) d0 d1 d2 d3) as Ha.
    pose proof (expand_array_tile (map snd tbl) d0 d1 d2 d3) as Hs.
    rewrite length_map in Ha, Hs. rewrite Ha, Hs. cbn [bind].
    unfold binop at 1. rewrite Hp. cbn [build shape].
    unfold broadcast_shapes. cbn [rev app broadcast_rev].
    destruct (Nat.eqb_spec C (length tbl)); [contradiction|].
    destruct (Nat.eqb_spec C 1); [contradiction|].
    destruct (Nat.eqb_spec (length tbl) 1); [contradiction|].
    reflexivity.
Qed.

(** ** Feature extraction: the other coordinates and unknown types *)

Lemma foldM_app {A B : Type} (f : B -> A -> result B) (l1 l2 : list A) (acc : B) :
  foldM f (l1 ++ l2) acc = let* acc' := foldM f l1 acc in foldM f l2 acc'.
Proof.
  revert acc. induction l1 as [|x l1 IH]; intros acc; [reflexivity|].
  cbn [app foldM]. destruct (f acc x) as [acc'|e]; cbn [bind]; [apply IH|reflexivity].
Qed.

Lemma concat_channels_wf (cs : list (tensor float32)) :
  forall acc out,
    foldM (concat2 f32_zero 3) cs acc = Ok out -> wf acc -> wf out.
Proof.
  induction cs as [|c cs IH]; intros acc out H Hwf.
  - injection H as <-. exact Hwf.
  - cbn [foldM] in H. apply bind_Ok in H as (acc1 & Hacc1 & H).
    apply (IH acc1 out H). unfold concat2 in Hacc1.
    destruct (concat_compatible 3 (shape acc) (shape c)); [|discriminate].
    injection Hacc1 as <-. apply wf_build.
Qed.

(** What [extract_features] computes for features of known types. *)
Lemma extract_features_known (self : Loader) (LT Y X P : nat) (p t : tensor float32) :
  shape p = [LT; Y; X; P] ->
  Forall (fun feature => is_Some (feature_axis feature)) (extra_features self) ->
  exists p',
    extract_features self (p, t) = Ok (p', t) /\
    shape p' = [LT; Y; X; P + length (extra_features self)] /\
    (wf p -> wf p') /\
    forall lt y x, lt < LT -> y < Y -> x < X ->
      (forall c, c < P ->
         get f32_zero p' [lt; y; x; c] = get f32_zero p [lt; y; x; c]) /\
      (forall k feature axis,
         extra_features self !! k = Some feature ->
         feature_axis feature = Some axis ->
         get f32_zero p' [lt; y; x; P + k] = f32_of_nat (nth axis [lt; y; x] 0)).
Proof.
  intros Hp Hknown. unfold extract_features, map_decorator2. rewrite Hp.
  destruct (extract_feature_loop LT Y X [P] (extra_features self) None [p] Hknown)
    as [curr' ->].
  cbn [bind snd app concat].
  destruct (concat_channels LT Y X (feature_channels LT Y X (extra_features self)) p P Hp)
    as (out & Hout & Hshape & Hget).
  { unfold feature_channels. apply Forall_map. apply Forall_forall. intros; reflexivity. }
  rewrite Hout. exists out. split; [reflexivity|]. split.
  { rewrite Hshape. unfold feature_channels. rewrite length_map. reflexivity. }
  split; [apply (concat_channels_wf _ _ _ Hout)|].
  intros lt y x Hlt Hy Hx. destruct (Hget lt y x Hlt Hy Hx) as [Hold Hnew].
  split; [exact Hold|].
  intros k feature axis Hk Haxis.
  rewrite (Hnew k (coordinate_channel LT Y X axis)).
  - apply get_coordinate_channel; assumption.
  - unfold feature_channels. rewrite list_lookup_fmap, Hk. cbn. rewrite Haxis. reflexivity.
Qed.

(** X5.  A feature of type ["y"] gives a channel that holds the y index at
    every position, and a feature of type ["leadtime"] one that holds the
    position along the first axis of the array that the stage is given
    (which, for a chunk of lead times, is the position within the chunk). *)
Theorem extract_features_y_and_leadtime (self : Loader) (LT Y X P : nat)
    (p t : tensor float32) :
  shape p = [LT; Y; X; P] ->
  Forall (fun feature => is_Some (feature_axis feature)) (extra_features self) ->
  exists p',
    extract_features self (p, t) = Ok (p', t) /\
    forall lt y x k feature, lt < LT -> y < Y -> x < X ->
      extra_features self !! k = Some feature ->
      (f_type feature = "y" -> get f32_zero p' [lt; y; x; P + k] = f32_of_nat y) /\
      (f_type feature = "leadtime" ->
       get f32_zero p' [lt; y; x; P + k] = f32_of_nat lt).
Proof.
  intros Hp Hknown.
  destruct (extract_features_known self LT Y X P p t Hp Hknown)
    as (p' & Hp' & _ & _ & Hget).
  exists p'. split; [exact Hp'|].
  intros lt y x k feature Hlt Hy Hx Hk.
  destruct (Hget lt y x Hlt Hy Hx) as [_ Hnew]. split; intros Hty.
  - apply (Hnew k feature 1 Hk). unfold feature_axis. rewrite Hty. reflexivity.
  - apply (Hnew k feature 0 Hk). unfold feature_axis. rewrite Hty. reflexivity.
Qed.

Lemma feature_axis_None (feature : Feature) :
  feature_axis feature = None ->
  String.eqb (f_type feature) "x" = false /\
  String.eqb (f_type feature) "y" = false /\
  String.eqb (f_type feature) "leadtime" = false.
Proof.
  unfold feature_axis.
  destruct (String.eqb (f_type feature) "x"); [discriminate|].
  destruct (String.eqb (f_type feature) "y"); [discriminate|].
  destruct (String.eqb (f_type feature) "leadtime"); [discriminate|].
  auto.
Qed.

Section UnknownFeature.
Variables LT Y X : nat.
Variable rest : list nat.

Local Abbreviation shp := (LT :: Y :: X :: rest).

(** A feature of an unknown type with [curr] unbound. *)
Lemma extract_feature_unbound (feature : Feature) (p : list (tensor float32)) :
  feature_axis feature = None ->
  extract_feature shp (None, p) feature = Err NameError.
Proof.
  intros H. apply feature_axis_None in H as (Hx & Hy & Hl).
  unfold extract_feature. rewrite Hx, Hy, Hl. reflexivity.
Qed.

(** A feature of an unknown type appends the previous [curr] with one
    more axis. *)
Lemma extract_feature_stale (feature : Feature) (c : tensor float32)
    (p : list (tensor float32)) :
  feature_axis feature = None ->
  extract_feature shp (Some c, p) feature
  = Ok (Some (Tensor (shape c ++ [1]) (data c)), p ++ [Tensor (shape c ++ [1]) (data c)]).
Proof.
  intros H. apply feature_axis_None in H as (Hx & Hy & Hl).
  unfold extract_feature. rewrite Hx, Hy, Hl. cbn [bind of_option].
  unfold expand_dims, rank. rewrite norm_index_last. cbn [of_option bind].
  rewrite firstn_all, skipn_all. reflexivity.
Qed.

(** Once [curr] is bound the loop does not raise. *)
Lemma extract_feature_loop_bound (features : list Feature) :
  forall (c : tensor float32) (p : list (tensor float32)),
  exists c' more,
    foldM (extract_feature shp) features (Some c, p) = Ok (Some c', p ++ more).
Proof.
  induction features as [|feature features IH]; intros c p.
  - exists c, []. cbn. rewrite app_nil_r. reflexivity.
  - cbn [foldM]. destruct (feature_axis feature) as [axis|] eqn:Haxis.
    + rewrite (extract_feature_known LT Y X rest feature axis (Some c) p Haxis).
      cbn [bind].
      destruct (IH (coordinate_channel LT Y X axis) (p ++ [coordinate_channel LT Y X axis]))
        as (c' & more & ->).
      exists c', (coordinate_channel LT Y X axis :: more).
      rewrite <- app_assoc. reflexivity.
    + rewrite (extract_feature_stale feature c p Haxis). cbn [bind].
      destruct (IH (Tensor (shape c ++ [1]) (data c))
                  (p ++ [Tensor (shape c ++ [1]) (data c)])) as (c' & more & ->).
      exists c', (Tensor (shape c ++ [1]) (data c) :: more).
      rewrite <- app_assoc. reflexivity.
Qed.

(** After features of known types, [curr] is the channel of the last one. *)
Lemma extract_feature_loop_curr (features : list Feature) :
  forall (curr : option (tensor float32)) (p : list (tensor float32)),
    Forall (fun feature => is_Some (feature_axis feature)) features ->
    exists curr',
      foldM (extract_feature shp) features (curr, p)
      = Ok (curr', p ++ feature_channels LT Y X features) /\
      (features = [] -> curr' = curr) /\
      (features <> [] -> exists axis, curr' = Some (coordinate_channel LT Y X axis)).
Proof.
  induction features as [|feature features IH]; intros curr p Hknown.
  - exists curr. cbn. rewrite app_nil_r. split; [reflexivity|]. split; congruence.
  - inversion Hknown as [|? ? [axis Haxis] Hknown']; subst. cbn [foldM].
    rewrite (extract_feature_known LT Y X rest feature axis curr p Haxis). cbn [bind].
    destruct (IH (Some (coordinate_channel LT Y X axis))
                (p ++ [coordinate_channel LT Y X axis]) Hknown')
      as (curr' & -> & Hnil & Hcons).
    exists curr'. split.
    { cbn [feature_channels map]. rewrite Haxis. cbn [default].
      rewrite <- app_assoc. reflexivity. }
    split; [discriminate|]. intros _.
    destruct features as [|f features].
    + exists axis. apply Hnil. reflexivity.
    + apply Hcons. discriminate.
Qed.

End UnknownFeature.

(** X6.  A feature whose type is none of ["x"], ["y"] and ["leadtime"] makes
    [extract_features] raise on a (leadtime, y, x, channel) array.  When it
    is the first feature the channel variable is unbound ([NameError] in
    the body of the stage); otherwise, after features of known types, the
    previous channel is appended again with one more axis, which the
    concatenation rejects.  In both cases the decorator of the stage turns
    the error into [tf.errors.UnknownError]. *)
Theorem extract_features_unknown_type (self : Loader) (LT Y X P : nat)
    (p t : tensor float32) :
  shape p = [LT; Y; X; P] ->
  (forall feature others,
      extra_features self = feature :: others ->
      feature_axis feature = None ->
      extract_features self (p, t) = Err UnknownError) /\
  (forall known feature others,
      extra_features self = known ++ feature :: others ->
      known <> [] ->
      Forall (fun f => is_Some (feature_axis f)) known ->
      feature_axis feature = None ->
      extract_features self (p, t) = Err UnknownError).
Proof.
  intros Hp. split.
  - intros feature others Hfeat Hnone. unfold extract_features, map_decorator2.
    rewrite Hfeat, Hp. cbn [foldM].
    rewrite (extract_feature_unbound LT Y X [P] feature [p] Hnone). reflexivity.
  - intros known feature others Hfeat Hne Hknown Hnone. unfold extract_features, map_decorator2.
    rewrite Hfeat, Hp, foldM_app.
    destruct (extract_feature_loop_curr LT Y X [P] known None [p] Hknown)
      as (curr' & -> & _ & Hcurr).
    destruct (Hcurr Hne) as [axis ->]. cbn [bind foldM].
    rewrite (extract_feature_stale LT Y X [P] feature _ _ Hnone). cbn [bind].
    destruct (extract_feature_loop_bound LT Y X [P] others
                (Tensor (shape (coordinate_channel LT Y X axis) ++ [1])
                        (data (coordinate_channel LT Y X axis)))
                (([p] ++ feature_channels LT Y X known)
                   ++ [Tensor (shape (coordinate_channel LT Y X axis) ++ [1])
                              (data (coordinate_channel LT Y X axis))]))
      as (c' & more & ->).
    cbn [bind snd app concat]. rewrite <- !app_assoc, foldM_app.
    destruct (concat_channels LT Y X (feature_channels LT Y X known) p P Hp)
      as (out & -> & Hshape & _).
    { unfold feature_channels. apply Forall_map. apply Forall_forall. intros; reflexivity. }
    cbn [bind app foldM]. unfold concat2 at 1. rewrite Hshape.
    cbn [coordinate_channel shape app concat_compatible].
    rewrite !Nat.eqb_refl. cbn [andb].
    rewrite bool_decide_eq_false_2 by discriminate. reflexivity.
Qed.

(** ** The four stages in sequence *)

(** Differencing and normalization of five-dimensional arrays. *)
Lemma diff_normalize_5d (self : Loader) (p t : tensor float32) (d0 d1 d2 d3 C : nat) :
  wf p -> shape p = [d0; d1; d2; d3; C] ->
  wf t -> shape t = [d0; d1; d2; d3; 1] ->
  (predict_diff self = false \/
   exists Ip, raw_predictor_index self = Ok (Some Ip) /\ Ip < C) ->
  (coefficients self = None \/
   exists tbl, coefficients self = Some tbl /\ length tbl = C) ->
  exists p' t',
    (let* pt := diff self (p, t) in normalize self pt) = Ok (p', t') /\
    shape p' = [d0; d1; d2; d3; C] /\
    shape t' = [d0; d1; d2; d3; 1] /\
    wf p' /\ wf t' /\
    forall i0 i1 i2 i3, i0 < d0 -> i1 < d1 -> i2 < d2 -> i3 < d3 ->
      (forall c, c < C ->
         get f32_zero p' [i0; i1; i2; i3; c]
         = normalized self c (get f32_zero p [i0; i1; i2; i3; c])) /\
      get f32_zero t' [i0; i1; i2; i3; 0]
      = match raw_predictor_index self with
        | Ok (Some Ip) =>
            f32_sub (get f32_zero t [i0; i1; i2; i3; 0])
                    (get f32_zero p [i0; i1; i2; i3; Ip])
        | _ => get f32_zero t [i0; i1; i2; i3; 0]
        end.
Proof.
  intros Hwfp Hp Hwft Ht Hdiff Hnorm.
  assert (exists t1, diff self (p, t) = Ok (p, t1) /\
                     shape t1 = [d0; d1; d2; d3; 1] /\ wf t1 /\
                     forall i0 i1 i2 i3, i0 < d0 -> i1 < d1 -> i2 < d2 -> i3 < d3 ->
                       get f32_zero t1 [i0; i1; i2; i3; 0]
                       = match raw_predictor_index self with
                         | Ok (Some Ip) =>
                             f32_sub (get f32_zero t [i0; i1; i2; i3; 0])
                                     (get f32_zero p [i0; i1; i2; i3; Ip])
                         | _ => get f32_zero t [i0; i1; i2; i3; 0]
                         end)
    as (t1 & -> & Ht1 & Hwft1 & Hval).
  { destruct Hdiff as [Hoff|(Ip & Hraw & HIp)].
    - exists t. unfold diff, map_decorator2, raw_predictor_index. rewrite Hoff.
      split; [reflexivity|]. split; [exact Ht|]. split; [exact Hwft|]. reflexivity.
    - destruct (diff_raw_channel self p t d0 d1 d2 d3 C Ip Hraw Hp Ht HIp)
        as (t1 & H1 & H2 & H3 & H4).
      exists t1. rewrite Hraw. auto. }
  cbn [bind]. destruct Hnorm as [Hnone|(tbl & Htbl & <-)].
  - exists p, t1. unfold normalize, map_decorator2, normalized. rewrite Hnone.
    split; [reflexivity|]. split; [exact Hp|]. split; [exact Ht1|].
    split; [exact Hwfp|]. split; [exact Hwft1|].
    intros i0 i1 i2 i3 H0 H1 H2 H3. split; [reflexivity|]. apply Hval; assumption.
  - rewrite (normalize_5d self tbl d0 d1 d2 d3 p t1 Htbl Hp).
    eexists. eexists. split; [reflexivity|]. split; [reflexivity|].
    split; [exact Ht1|]. split; [apply wf_build|]. split; [exact Hwft1|].
    intros i0 i1 i2 i3 H0 H1 H2 H3. split; [|apply Hval; assumption].
    intros c Hc. rewrite get_build by (repeat constructor; assumption).
    unfold normalized. rewrite Htbl. reflexivity.
Qed.

Lemma patch_position (k nx ps i : nat) (Y X ny : nat) :
  0 < ps -> nx = X / ps -> ny = Y / ps -> k < nx * ny -> i < ps ->
  k / nx < ny /\ k mod nx < nx /\ k = k / nx * nx + k mod nx /\
  k / nx * ps + i < Y /\ k mod nx * ps + i < X.
Proof.
  intros Hps -> -> Hk Hi.
  assert (0 < X / ps) as Hnx by (destruct (X / ps); [lia|lia]).
  assert (k / (X / ps) < Y / ps) as Hrow
    by (apply Nat.Div0.div_lt_upper_bound; lia).
  assert (k mod (X / ps) < X / ps) as Hcol by (apply Nat.mod_upper_bound; lia).
  pose proof (Nat.div_mod_eq k (X / ps)) as Hdm.
  pose proof (div_mul_le Y ps) as HY. pose proof (div_mul_le X ps) as HX.
  split; [exact Hrow|]. split; [exact Hcol|]. split; [lia|]. split; nia.
Qed.

Lemma process_values_5d (self : Loader) (LT P : nat) (p t : tensor float32) :
  let m := metadata self in
  let C := P + length (extra_features self) in
  wf p -> shape p = [LT; num_y_input m; num_x_input m; P] ->
  wf t -> shape t = [LT; num_y_input m; num_x_input m; 1] ->
  patch_size self <> Some 0 ->
  Forall (fun feature => is_Some (feature_axis feature)) (extra_features self) ->
  (predict_diff self = false \/
   exists Ip, raw_predictor_index self = Ok (Some Ip) /\ Ip < C) ->
  (coefficients self = None \/
   exists tbl, coefficients self = Some tbl /\ length tbl = C) ->
  exists n p' t',
    num_patches_per_file self = Ok n /\
    process self (p, t) = Ok (p', t') /\
    shape p' = [LT; n; num_y self; num_x self; C] /\
    shape t' = [LT; n; num_y self; num_x self; 1] /\
    wf p' /\ wf t' /\
    forall lt k i j, lt < LT -> k < n -> i < num_y self -> j < num_x self ->
      let value y x c := get f32_zero p [lt; y; x; c] in
      let target y x := get f32_zero t [lt; y; x; 0] in
      (forall c, c < C ->
         get f32_zero p' [lt; k; i; j; c]
         = normalized self c
             (extended self P value lt (patch_row self k i) (patch_column self k j) c)) /\
      get f32_zero t' [lt; k; i; j; 0]
      = differenced self P value target lt (patch_row self k i) (patch_column self k j).
Proof.
  intros m C Hwfp Hp Hwft Ht Hps Hknown Hdiff Hnorm. unfold process, map_decorator2.
  destruct (extract_features_known self LT _ _ P p t Hp Hknown)
    as (p1 & -> & Hp1 & Hwfp1 & Hfeat).
  specialize (Hwfp1 Hwfp). cbn [bind]. fold C in Hp1. fold m in Hp1.
  assert (forall lt y x c, lt < LT -> y < num_y_input m -> x < num_x_input m -> c < C ->
            get f32_zero p1 [lt; y; x; c]
            = extended self P (fun y x c => get f32_zero p [lt; y; x; c]) lt y x c)
    as Hext.
  { intros lt y x c Hlt Hy Hx Hc. destruct (Hfeat lt y x Hlt Hy Hx) as [Hin Hnew].
    unfold extended. destruct (Nat.ltb_spec c P) as [HcP|HcP]; [apply Hin; exact HcP|].
    destruct (lookup_lt_is_Some_2 (extra_features self) (c - P)) as [feature Hf];
      [unfold C in Hc; lia|].
    rewrite Hf. rewrite Forall_forall in Hknown.
    destruct (Hknown feature (list_elem_of_lookup_2 _ _ _ Hf)) as [axis Haxis].
    rewrite Haxis. pose proof (Hnew (c - P) feature axis Hf Haxis) as Hv.
    replace (P + (c - P)) with c in Hv by lia. exact Hv. }
  unfold num_patches_per_file, num_x_patches, num_y_patches, num_x, num_y, patch,
    map_decorator2, patch_row, patch_column, differenced.
  destruct (patch_size self) as [ps|] eqn:Hsize.
  - assert (0 < ps) as Hpos by (destruct ps; [congruence|lia]).
    unfold floordiv. destruct (Nat.eqb_spec ps 0); [lia|]. cbn [bind].
    rewrite (patch_tensor_4d LT _ _ C ps p1 Hp1 Hpos).
    rewrite (patch_tensor_4d LT _ _ 1 ps t Ht Hpos). cbn [bind].
    fold m.
    destruct (diff_normalize_5d self (patched LT (num_y_input m) (num_x_input m) C ps p1)
                (patched LT (num_y_input m) (num_x_input m) 1 ps t)
                LT (num_x_input m / ps * (num_y_input m / ps)) ps ps C)
      as (p' & t' & Hrun & Hsp & Hst & Hwfp' & Hwft' & Hval); try assumption.
    + apply wf_patched.
    + cbn [patched shape]. rewrite Nat.mul_comm. reflexivity.
    + apply wf_patched.
    + cbn [patched shape]. rewrite Nat.mul_comm. reflexivity.
    + exists (num_x_input m / ps * (num_y_input m / ps)), p', t'.
      split; [reflexivity|]. split; [apply py_function_Ok; exact Hrun|].
      split; [exact Hsp|].
      split; [exact Hst|]. split; [exact Hwfp'|]. split; [exact Hwft'|].
      intros lt k i j Hlt Hk Hi Hj. cbv zeta.
      pose (value := fun y x c : nat => get f32_zero p [lt; y; x; c]).
      pose (target := fun y x : nat => get f32_zero t [lt; y; x; 0]).
      destruct (patch_position k (num_x_input m / ps) ps i (num_y_input m) (num_x_input m)
                  (num_y_input m / ps) Hpos eq_refl eq_refl Hk Hi)
        as (Hrow & Hcol & Hkeq & HiY & _).
      destruct (patch_position k (num_x_input m / ps) ps j (num_y_input m) (num_x_input m)
                  (num_y_input m / ps) Hpos eq_refl eq_refl Hk Hj)
        as (_ & _ & _ & _ & HjX).
      destruct (Hval lt k i j Hlt Hk Hi Hj) as [Hpv Htv].
      assert (forall c, c < C ->
                get f32_zero (patched LT (num_y_input m) (num_x_input m) C ps p1)
                    [lt; k; i; j; c]
                = extended self P value lt
                    (k / (num_x_input m / ps) * ps + i)
                    (k mod (num_x_input m / ps) * ps + j) c) as Hpatched.
      { intros c Hc.
        pose proof (get_patched LT (num_y_input m) (num_x_input m) C ps p1 lt
                      (k / (num_x_input m / ps)) (k mod (num_x_input m / ps)) i j c
                      Hlt Hrow Hcol Hi Hj Hc) as Hg.
        rewrite <- Hkeq in Hg. rewrite Hg. apply Hext; assumption. }
      split.
      * intros c Hc. rewrite (Hpv c Hc), (Hpatched c Hc). reflexivity.
      * rewrite Htv.
        assert (get f32_zero (patched LT (num_y_input m) (num_x_input m) 1 ps t)
                    [lt; k; i; j; 0]
                = target (k / (num_x_input m / ps) * ps + i)
                         (k mod (num_x_input m / ps) * ps + j)) as Htarget.
        { pose proof (get_patched LT (num_y_input m) (num_x_input m) 1 ps t lt
                        (k / (num_x_input m / ps)) (k mod (num_x_input m / ps)) i j 0
                        Hlt Hrow Hcol Hi Hj ltac:(lia)) as Hg.
          rewrite <- Hkeq in Hg. exact Hg. }
        rewrite Htarget.
        destruct Hdiff as [Hoff|(Ip & Hraw & HIp)].
        -- unfold raw_predictor_index. rewrite Hoff. reflexivity.
        -- rewrite Hraw. rewrite (Hpatched Ip HIp). reflexivity.
  - cbn [bind].
    rewrite (expand_dims_1 p1 LT [num_y_input m; num_x_input m; C] Hp1).
    rewrite (expand_dims_1 t LT [num_y_input m; num_x_input m; 1] Ht). cbn [bind].
    destruct (diff_normalize_5d self
                (Tensor [LT; 1; num_y_input m; num_x_input m; C] (data p1))
                (Tensor [LT; 1; num_y_input m; num_x_input m; 1] (data t))
                LT 1 (num_y_input m) (num_x_input m) C)
      as (p' & t' & Hrun & Hsp & Hst & Hwfp' & Hwft' & Hval);
      try assumption; try reflexivity.
    + unfold wf in *. cbn [shape data]. rewrite Hwfp1, Hp1. cbn. lia.
    + unfold wf in *. cbn [shape data]. rewrite Hwft, Ht. cbn. lia.
    + exists 1, p', t'.
      split; [reflexivity|]. split; [apply py_function_Ok; exact Hrun|].
      split; [exact Hsp|].
      split; [exact Hst|]. split; [exact Hwfp'|]. split; [exact Hwft'|].
      intros lt k i j Hlt Hk Hi Hj. cbv zeta.
      pose (value := fun y x c : nat => get f32_zero p [lt; y; x; c]).
      pose (target := fun y x : nat => get f32_zero t [lt; y; x; 0]).
      assert (k = 0) as -> by lia.
      destruct (Hval lt 0 i j Hlt Hk Hi Hj) as [Hpv Htv].
      assert (forall c, c < C ->
                get f32_zero (Tensor [LT; 1; num_y_input m; num_x_input m; C] (data p1))
                    [lt; 0; i; j; c]
                = extended self P value lt i j c) as Hpatched.
      { intros c Hc.
        transitivity (get f32_zero p1 [lt; i; j; c]); [|apply Hext; assumption].
        unfold get. rewrite Hp1. cbn [shape data]. f_equal. cbn. lia. }
      split.
      * intros c Hc. rewrite (Hpv c Hc), (Hpatched c Hc). reflexivity.
      * rewrite Htv.
        assert (get f32_zero (Tensor [LT; 1; num_y_input m; num_x_input m; 1] (data t))
                    [lt; 0; i; j; 0] = target i j) as Htarget.
        { unfold target, get. rewrite Ht. cbn [shape data]. f_equal. cbn. lia. }
        rewrite Htarget.
        destruct Hdiff as [Hoff|(Ip & Hraw & HIp)].
        -- unfold raw_predictor_index. rewrite Hoff. reflexivity.
        -- rewrite Hraw. rewrite (Hpatched Ip HIp). reflexivity.
Qed.

Lemma process_5d (self : Loader) (LT P : nat) (p t : tensor float32) :
  let m := metadata self in
  let C := P + length (extra_features self) in
  wf p -> shape p = [LT; num_y_input m; num_x_input m; P] ->
  wf t -> shape t = [LT; num_y_input m; num_x_input m; 1] ->
  patch_size self <> Some 0 ->
  Forall (fun feature => is_Some (feature_axis feature)) (extra_features self) ->
  (predict_diff self = false \/
   exists Ip, raw_predictor_index self = Ok (Some Ip) /\ Ip < C) ->
  (coefficients self = None \/
   exists tbl, coefficients self = Some tbl /\ length tbl = C) ->
  exists n p' t',
    num_patches_per_file self = Ok n /\
    process self (p, t) = Ok (p', t') /\
    shape p' = [LT; n; num_y self; num_x self; C] /\
    shape t' = [LT; n; num_y self; num_x self; 1] /\
    wf p' /\ wf t'.
Proof.
  intros m C Hwfp Hp Hwft Ht Hps Hknown Hdiff Hnorm.
  destruct (process_values_5d self LT P p t Hwfp Hp Hwft Ht Hps Hknown Hdiff Hnorm)
    as (n & p' & t' & Hn & Hrun & Hsp & Hst & Hwfp' & Hwft' & _).
  exists n, p', t'. auto 10.
Qed.

(** X7.  On the arrays of one file (or of a chunk of its lead times), with
    features of known types, a raw-forecast channel that exists when
    differencing is on and a table with one row per channel when
    normalization is on, [process] succeeds, and its predictor output has
    the shape (leadtime, [num_patches_per_file], [num_y], [num_x],
    channels + features) that the loader's properties declare, the target
    output the same with one channel. *)
Theorem process_output_shape (self : Loader) (LT P : nat) (p t : tensor float32) :
  let m := metadata self in
  let C := P + length (extra_features self) in
  wf p -> shape p = [LT; num_y_input m; num_x_input m; P] ->
  wf t -> shape t = [LT; num_y_input m; num_x_input m; 1] ->
  patch_size self <> Some 0 ->
  Forall (fun feature => is_Some (feature_axis feature)) (extra_features self) ->
  (predict_diff self = false \/
   exists Ip, raw_predictor_index self = Ok (Some Ip) /\ Ip < C) ->
  (coefficients self = None \/
   exists tbl, coefficients self = Some tbl /\ length tbl = C) ->
  exists n p' t',
    num_patches_per_file self = Ok n /\
    process self (p, t) = Ok (p', t') /\
    shape p' = [LT; n; num_y self; num_x self; C] /\
    shape t' = [LT; n; num_y self; num_x self; 1] /\
    wf p' /\ wf t'.
Proof. exact (process_5d self LT P p t). Qed.

(** * Further properties of the construction *)

Section ConstructionFacts.
Variable glob : string -> list string.
Variable open_dataset : string -> result Dataset.
Variable yaml_load : string -> result (gmap string (float64 * float64)).

(** What a successful [load_metadata] has done. *)
Lemma load_metadata_Ok (a : Args) (filename : string) (m : Metadata) :
  load_metadata open_dataset a filename = Ok m ->
  exists ds limit ds',
    open_dataset filename = Ok ds /\
    get_dimension_limits a ds None = Ok limit /\
    isel limit ds = Ok ds' /\
    (forall ps, arg_patch_size a = Some ps -> ps <= ds_x ds' /\ ps <= ds_y ds') /\
    m = {| leadtimes := ds_leadtime ds';
           num_x_input := ds_x ds';
           num_y_input := ds_y ds';
           num_input_predictors :=
             length (ds_predictor ds') + length (ds_static_predictor ds');
           num_predictors :=
             match arg_limit_predictors a with
             | Some allowed => length allowed
             | None =>
                 length (ds_predictor ds') + length (ds_static_predictor ds')
                 + length (arg_extra_features a)
             end;
           predictor_names_input := ds_predictor ds' ++ ds_static_predictor ds';
           predictor_names :=
             (ds_predictor ds' ++ ds_static_predictor ds')
               ++ map get_feature_name (arg_extra_features a);
           num_targets := 1 |}.
Proof.
  unfold load_metadata. intros H.
  apply bind_Ok in H as (ds & Hds & H).
  apply bind_Ok in H as (limit & Hlimit & H).
  apply bind_Ok in H as (ds' & Hds' & H).
  apply bind_Ok in H as (u & Hguard & H).
  injection H as <-. exists ds, limit, ds'.
  split; [exact Hds|]. split; [exact Hlimit|]. split; [exact Hds'|].
  split; [|reflexivity].
  intros ps Hps. rewrite Hps in Hguard.
  destruct (Nat.ltb_spec (ds_x ds') ps); [discriminate|].
  destruct (Nat.ltb_spec (ds_y ds') ps); [discriminate|].
  split; assumption.
Qed.

Lemma init_metadata_facts (a : Args) (self : Loader) :
  __init__ glob open_dataset yaml_load a = Ok self ->
  let m := metadata self in
  args self = a /\
  filenames self <> [] /\
  (forall ps, patch_size self = Some ps ->
     ps <= num_x_input m /\ ps <= num_y_input m) /\
  num_input_predictors m = length (predictor_names_input m) /\
  predictor_names m
  = predictor_names_input m ++ map get_feature_name (extra_features self) /\
  num_targets m = 1 /\
  (limit_predictors self = None -> num_predictors m = length (predictor_names m)) /\
  (forall allowed, limit_predictors self = Some allowed ->
     num_predictors m = length allowed).
Proof.
  intros H m. apply init_Ok in H as (Hargs & _ & first & Hfirst & Hmeta & _).
  apply load_metadata_Ok in Hmeta as (ds & limit & ds' & _ & _ & _ & Hguard & Hm).
  unfold m. rewrite Hm. unfold patch_size, extra_features, limit_predictors.
  rewrite Hargs. cbn.
  split; [reflexivity|]. split.
  { intros Hnil. rewrite Hnil in Hfirst. discriminate. }
  split; [exact Hguard|]. split; [rewrite length_app; reflexivity|].
  split; [reflexivity|]. split; [reflexivity|]. split.
  - intros ->. rewrite !length_app, length_map. reflexivity.
  - intros allowed ->. reflexivity.
Qed.

(** X8.  Every constructed loader has a non-empty file list, a patch size
    (if any) that exceeds neither spatial extent of the limited archive,
    one input predictor name per input channel, and a predictor name list
    that is the input names followed by the feature names in the order of
    the feature list; its [num_predictors] is the length of that list,
    unless a predictor allow-list is given, in which case it is the length
    of the allow-list. *)
Theorem constructed_loader_metadata (a : Args) (self : Loader) :
  __init__ glob open_dataset yaml_load a = Ok self ->
  let m := metadata self in
  args self = a /\
  filenames self <> [] /\
  (forall ps, patch_size self = Some ps ->
     ps <= num_x_input m /\ ps <= num_y_input m) /\
  num_input_predictors m = length (predictor_names_input m) /\
  predictor_names m
  = predictor_names_input m ++ map get_feature_name (extra_features self) /\
  num_targets m = 1 /\
  (limit_predictors self = None -> num_predictors m = length (predictor_names m)) /\
  (forall allowed, limit_predictors self = Some allowed ->
     num_predictors m = length allowed).
Proof. exact (init_metadata_facts a self). Qed.

Lemma fill_rows_Ok (coefficients : gmap string (float64 * float64))
    (features : list Feature) (names : list string) (tbl tbl' : table) :
  fill_rows coefficients features 0 names tbl = Ok tbl' ->
  length names <= length tbl /\
  length tbl' = length tbl /\
  forall i name, names !! i = Some name ->
    tbl' !! i = Some (coefficient_row coefficients name).
Proof.
  intros H.
  assert (length names <= length tbl) as Hlen.
  { destruct (Nat.le_gt_cases (length names) (length tbl)) as [Hle|Hgt]; [exact Hle|].
    rewrite fill_rows_overflow in H; [discriminate| |exact Hgt].
    destruct names; [cbn in Hgt; lia|discriminate]. }
  split; [exact Hlen|].
  destruct (fill_rows_ok coefficients features names 0 tbl Hlen)
    as (tbl2 & Hfill & Hlen2 & Hrows & _).
  rewrite Hfill in H. injection H as <-. split; [exact Hlen2|].
  intros i name Hi. apply (Hrows i name Hi).
Qed.

(** X9.  A constructed loader has a coefficient table exactly when a
    normalization file is given.  The table then has [num_predictors]
    rows, at least one per predictor name, and row [i] holds what the
    source, after the analytic feature coefficients are put into it, has
    for predictor name [i] (the default (0, 1) if it has nothing).  Without
    a predictor allow-list the number of rows is the number of names. *)
Theorem constructed_loader_coefficients (a : Args) (self : Loader) :
  __init__ glob open_dataset yaml_load a = Ok self ->
  let m := metadata self in
  (normalization self = None -> coefficients self = None) /\
  (forall path, normalization self = Some path ->
     exists source tbl,
       yaml_load path = Ok source /\
       coefficients self = Some tbl /\
       length tbl = num_predictors m /\
       length (predictor_names m) <= length tbl /\
       (limit_predictors self = None -> length tbl = length (predictor_names m)) /\
       forall i name, predictor_names m !! i = Some name ->
         tbl !! i
         = Some (coefficient_row
                   (dict_update source
                      (get_extra_features_normalization m (extra_features self)))
                   name)).
Proof.
  intros H m. pose proof H as Hinit.
  apply init_Ok in H as (Hargs & _ & first & _ & _ & Hcoef).
  unfold normalization, limit_predictors, extra_features. rewrite Hargs.
  unfold load_coefficients in Hcoef. split.
  - intros Hnone. rewrite Hnone in Hcoef. congruence.
  - intros path Hpath. rewrite Hpath in Hcoef.
    apply bind_Ok in Hcoef as (source & Hsource & Hcoef).
    apply bind_Ok in Hcoef as (tbl & Hfill & Hcoef).
    injection Hcoef as Hcoef.
    apply fill_rows_Ok in Hfill as (Hle & Hlen & Hrows).
    rewrite length_replicate in Hle, Hlen.
    exists source, tbl. split; [exact Hsource|]. split; [symmetry; exact Hcoef|].
    split; [exact Hlen|]. split; [rewrite Hlen; exact Hle|]. split; [|exact Hrows].
    intros Hnone.
    destruct (init_metadata_facts a self Hinit) as (_ & _ & _ & _ & _ & _ & Hnum & _).
    rewrite Hlen. apply Hnum. unfold limit_predictors. rewrite Hargs. exact Hnone.
Qed.

End ConstructionFacts.

(** ** The predictor allow-list *)

Lemma take_list_matching (allowed names : list string) :
  forall pre : list string,
    take_list (matching_indices (length pre) names allowed) (pre ++ names)
    = Ok (filter (fun name => name ∈ allowed) names).
Proof.
  unfold take_list.
  induction names as [|name names IH]; intros pre; [reflexivity|].
  cbn [matching_indices].
  specialize (IH (pre ++ [name])). rewrite <- app_assoc in IH. cbn [app] in IH.
  replace (length (pre ++ [name])) with (S (length pre)) in IH
    by (rewrite length_app; cbn; lia).
  destruct (decide (name ∈ allowed)) as [Hin|Hout].
  - rewrite bool_decide_eq_true_2 by exact Hin. rewrite filter_cons_True by exact Hin.
    cbn [mapM]. rewrite norm_index_nat by (rewrite length_app; cbn; lia).
    cbn. rewrite lookup_app_r by lia. rewrite Nat.sub_diag. cbn.
    destruct (mapM _ _) as [l|]; cbn in IH |- *; [|discriminate].
    injection IH as ->. reflexivity.
  - rewrite bool_decide_eq_false_2 by exact Hout. rewrite filter_cons_False by exact Hout.
    exact IH.
Qed.

Lemma isel_predictor_names (idxs : list Z) (ds ds' : Dataset) (names : list string) :
  take_list idxs (ds_predictor ds) = Ok names ->
  isel_predictor idxs ds = Ok ds' ->
  ds_predictor ds' = names /\ ds_static_predictor ds' = ds_static_predictor ds.
Proof.
  intros Hnames H. unfold isel_predictor in H. rewrite Hnames in H. cbn [bind] in H.
  apply bind_Ok in H as (p & _ & H). injection H as <-. split; reflexivity.
Qed.

Lemma isel_static_predictor_names (idxs : list Z) (ds ds' : Dataset) (names : list string) :
  take_list idxs (ds_static_predictor ds) = Ok names ->
  isel_static_predictor idxs ds = Ok ds' ->
  ds_predictor ds' = ds_predictor ds /\ ds_static_predictor ds' = names.
Proof.
  intros Hnames H. unfold isel_static_predictor in H. rewrite Hnames in H.
  cbn [bind] in H. apply bind_Ok in H as (p & _ & H). injection H as <-.
  split; reflexivity.
Qed.

Lemma isel_leadtime_names (idxs : list Z) (ds ds' : Dataset) :
  isel_leadtime idxs ds = Ok ds' ->
  ds_predictor ds' = ds_predictor ds /\ ds_static_predictor ds' = ds_static_predictor ds.
Proof.
  unfold isel_leadtime. intros H.
  apply bind_Ok in H as (lt & _ & H). apply bind_Ok in H as (p & _ & H).
  apply bind_Ok in H as (t & _ & H). injection H as <-. split; reflexivity.
Qed.

Lemma isel_x_names (idxs : list Z) (ds ds' : Dataset) :
  isel_x idxs ds = Ok ds' ->
  ds_predictor ds' = ds_predictor ds /\ ds_static_predictor ds' = ds_static_predictor ds.
Proof.
  unfold isel_x. intros H.
  apply bind_Ok in H as (sel & _ & H). apply bind_Ok in H as (p & _ & H).
  apply bind_Ok in H as (s & _ & H). apply bind_Ok in H as (t & _ & H).
  injection H as <-. split; reflexivity.
Qed.

Lemma isel_y_names (idxs : list Z) (ds ds' : Dataset) :
  isel_y idxs ds = Ok ds' ->
  ds_predictor ds' = ds_predictor ds /\ ds_static_predictor ds' = ds_static_predictor ds.
Proof.
  unfold isel_y. intros H.
  apply bind_Ok in H as (sel & _ & H). apply bind_Ok in H as (p & _ & H).
  apply bind_Ok in H as (s & _ & H). apply bind_Ok in H as (t & _ & H).
  injection H as <-. split; reflexivity.
Qed.

Lemma isel_key_names (limit : gmap string (list Z)) (dim : string)
    (sel : list Z -> Dataset -> result Dataset) (ds ds' : Dataset) :
  (forall idxs d d', sel idxs d = Ok d' ->
     ds_predictor d' = ds_predictor d /\ ds_static_predictor d' = ds_static_predictor d) ->
  isel_key limit dim sel ds = Ok ds' ->
  ds_predictor ds' = ds_predictor ds /\ ds_static_predictor ds' = ds_static_predictor ds.
Proof.
  intros Hsel H. unfold isel_key in H. destruct (limit !! dim) as [idxs|].
  - eapply Hsel. exact H.
  - injection H as <-. split; reflexivity.
Qed.

Lemma get_dimension_limits_allow_list (a : Args) (ds : Dataset) (allowed : list string)
    (limit : gmap string (list Z)) :
  arg_limit_predictors a = Some allowed ->
  get_dimension_limits a ds None = Ok limit ->
  limit !! "predictor" = Some (matching_indices 0 (ds_predictor ds) allowed) /\
  limit !! "static_predictor" = Some (matching_indices 0 (ds_static_predictor ds) allowed).
Proof.
  intros Ha. unfold get_dimension_limits. rewrite Ha. cbn [bind].
  destruct (arg_limit_leadtimes a); cbn [bind]; intros [= <-];
    destruct (arg_y_range a); destruct (arg_x_range a);
    split; repeat (rewrite lookup_insert_ne by discriminate);
    apply lookup_insert_eq.
Qed.

(** Limiting by an allow-list keeps the names of the allow-list, in the
    order of the archive. *)
Lemma isel_allow_list (a : Args) (ds ds' : Dataset) (allowed : list string)
    (limit : gmap string (list Z)) :
  arg_limit_predictors a = Some allowed ->
  get_dimension_limits a ds None = Ok limit ->
  isel limit ds = Ok ds' ->
  ds_predictor ds' = filter (fun name => name ∈ allowed) (ds_predictor ds) /\
  ds_static_predictor ds'
  = filter (fun name => name ∈ allowed) (ds_static_predictor ds).
Proof.
  intros Ha Hlimit H.
  destruct (get_dimension_limits_allow_list a ds allowed limit Ha Hlimit) as [Hp Hs].
  unfold isel in H.
  apply bind_Ok in H as (ds1 & H1 & H).
  apply bind_Ok in H as (ds2 & H2 & H).
  apply bind_Ok in H as (ds3 & H3 & H).
  apply bind_Ok in H as (ds4 & H4 & H5).
  unfold isel_key in H1. rewrite Hp in H1.
  apply (isel_predictor_names _ _ _ _ (take_list_matching allowed (ds_predictor ds) [])) in H1
    as [Hp1 Hs1].
  unfold isel_key in H2. rewrite Hs in H2. rewrite <- Hs1 in H2.
  apply (isel_static_predictor_names _ _ _ _
           (take_list_matching allowed (ds_static_predictor ds1) [])) in H2 as [Hp2 Hs2].
  apply (isel_key_names _ _ _ _ _ isel_leadtime_names) in H3 as [Hp3 Hs3].
  apply (isel_key_names _ _ _ _ _ isel_x_names) in H4 as [Hp4 Hs4].
  apply (isel_key_names _ _ _ _ _ isel_y_names) in H5 as [Hp5 Hs5].
  split; congruence.
Qed.

Section AllowList.
Variable open_dataset : string -> result Dataset.

(** X10.  With a predictor allow-list, the input predictor names that
    [load_metadata] resolves are the names of the archive that the
    allow-list contains, dynamic before static, each group in the order of
    the archive; names of the allow-list that the archive lacks are
    ignored. *)
Theorem allow_list_filters_names (a : Args) (filename : string) (ds : Dataset)
    (m : Metadata) (allowed : list string) :
  open_dataset filename = Ok ds ->
  arg_limit_predictors a = Some allowed ->
  load_metadata open_dataset a filename = Ok m ->
  predictor_names_input m
  = filter (fun name => name ∈ allowed) (ds_predictor ds)
    ++ filter (fun name => name ∈ allowed) (ds_static_predictor ds) /\
  num_input_predictors m = length (predictor_names_input m).
Proof.
  intros Hopen Ha H.
  apply load_metadata_Ok in H as (ds0 & limit & ds' & Hopen' & Hlimit & Hisel & _ & ->).
  rewrite Hopen in Hopen'. injection Hopen' as <-.
  destruct (isel_allow_list a ds ds' allowed limit Ha Hlimit Hisel) as [Hp Hs].
  cbn. rewrite Hp, Hs, length_app. split; reflexivity.
Qed.

End AllowList.

(** ** Reads against the resolved metadata *)

Ltac isel_shapes_step :=
  match goal with
  | H : take_axis _ _ _ _ = Ok _ |- _ =>
      apply take_axis_shape in H as [? _]
  | H : take_list _ _ = Ok _ |- _ => apply take_list_length in H
  | H : of_option _ (mapM (norm_index _) _) = Ok _ |- _ =>
      apply of_option_Ok in H; apply norm_index_length in H
  end.

Lemma isel_leadtime_consistent (idxs : list Z) (ds ds' : Dataset) :
  consistent_shapes ds -> isel_leadtime idxs ds = Ok ds' -> consistent_shapes ds'.
Proof.
  intros (Hp & Hs & Ht) H. unfold isel_leadtime in H.
  apply bind_Ok in H as (lt & Hlt & H). apply bind_Ok in H as (p & Hp' & H).
  apply bind_Ok in H as (t & Ht' & H). injection H as <-.
  repeat isel_shapes_step. unfold consistent_shapes. cbn.
  rewrite Hlt. split; [|split]; [| exact Hs |]; congruence || (etransitivity; [eassumption|]);
    rewrite ?Hp, ?Ht; reflexivity.
Qed.

Lemma isel_y_consistent (idxs : list Z) (ds ds' : Dataset) :
  consistent_shapes ds -> isel_y idxs ds = Ok ds' -> consistent_shapes ds'.
Proof.
  intros (Hp & Hs & Ht) H. unfold isel_y in H.
  apply bind_Ok in H as (sel & Hsel & H). apply bind_Ok in H as (p & Hp' & H).
  apply bind_Ok in H as (s & Hs' & H). apply bind_Ok in H as (t & Ht' & H).
  injection H as <-. repeat isel_shapes_step. unfold consistent_shapes. cbn.
  rewrite Hsel. split; [|split]; (etransitivity; [eassumption|]);
    rewrite ?Hp, ?Hs, ?Ht; reflexivity.
Qed.

Lemma isel_x_consistent (idxs : list Z) (ds ds' : Dataset) :
  consistent_shapes ds -> isel_x idxs ds = Ok ds' -> consistent_shapes ds'.
Proof.
  intros (Hp & Hs & Ht) H. unfold isel_x in H.
  apply bind_Ok in H as (sel & Hsel & H). apply bind_Ok in H as (p & Hp' & H).
  apply bind_Ok in H as (s & Hs' & H). apply bind_Ok in H as (t & Ht' & H).
  injection H as <-. repeat isel_shapes_step. unfold consistent_shapes. cbn.
  rewrite Hsel. split; [|split]; (etransitivity; [eassumption|]);
    rewrite ?Hp, ?Hs, ?Ht; reflexivity.
Qed.

Lemma isel_predictor_consistent (idxs : list Z) (ds ds' : Dataset) :
  consistent_shapes ds -> isel_predictor idxs ds = Ok ds' -> consistent_shapes ds'.
Proof.
  intros (Hp & Hs & Ht) H. unfold isel_predictor in H.
  apply bind_Ok in H as (names & Hnames & H). apply bind_Ok in H as (p & Hp' & H).
  injection H as <-. repeat isel_shapes_step. unfold consistent_shapes. cbn.
  rewrite Hnames. split; [|split]; [|exact Hs|exact Ht].
  etransitivity; [eassumption|]. rewrite Hp. reflexivity.
Qed.

Lemma isel_static_predictor_consistent (idxs : list Z) (ds ds' : Dataset) :
  consistent_shapes ds -> isel_static_predictor idxs ds = Ok ds' -> consistent_shapes ds'.
Proof.
  intros (Hp & Hs & Ht) H. unfold isel_static_predictor in H.
  apply bind_Ok in H as (names & Hnames & H). apply bind_Ok in H as (s & Hs' & H).
  injection H as <-. repeat isel_shapes_step. unfold consistent_shapes. cbn.
  rewrite Hnames. split; [|split]; [exact Hp| |exact Ht].
  etransitivity; [eassumption|]. rewrite Hs. reflexivity.
Qed.

Lemma isel_key_consistent (limit : gmap string (list Z)) (dim : string)
    (sel : list Z -> Dataset -> result Dataset) (ds ds' : Dataset) :
  (forall idxs d d', consistent_shapes d -> sel idxs d = Ok d' -> consistent_shapes d') ->
  consistent_shapes ds -> isel_key limit dim sel ds = Ok ds' -> consistent_shapes ds'.
Proof.
  intros Hsel Hds H. unfold isel_key in H. destruct (limit !! dim) as [idxs|].
  - eapply Hsel; eassumption.
  - injection H as <-. exact Hds.
Qed.

(** Limiting keeps the variables in step with the dimensions. *)
Lemma isel_consistent (limit : gmap string (list Z)) (ds ds' : Dataset) :
  consistent_shapes ds -> isel limit ds = Ok ds' -> consistent_shapes ds'.
Proof.
  intros Hds H. unfold isel in H.
  apply bind_Ok in H as (ds1 & H1 & H).
  apply bind_Ok in H as (ds2 & H2 & H).
  apply bind_Ok in H as (ds3 & H3 & H).
  apply bind_Ok in H as (ds4 & H4 & H5).
  apply (isel_key_consistent _ _ _ _ _ isel_predictor_consistent Hds) in H1.
  apply (isel_key_consistent _ _ _ _ _ isel_static_predictor_consistent H1) in H2.
  apply (isel_key_consistent _ _ _ _ _ isel_leadtime_consistent H2) in H3.
  apply (isel_key_consistent _ _ _ _ _ isel_x_consistent H3) in H4.
  apply (isel_key_consistent _ _ _ _ _ isel_y_consistent H4) in H5.
  exact H5.
Qed.

Section ReadFacts.
Variable glob : string -> list string.
Variable open_dataset : string -> result Dataset.
Variable yaml_load : string -> result (gmap string (float64 * float64)).

(** What [parse_file] makes of the limited dataset. *)
Lemma parse_file_limited (self : Loader) (filename : string) (ds ds' : Dataset)
    (limit : gmap string (list Z)) :
  open_dataset filename = Ok ds ->
  get_dimension_limits (args self) ds None = Ok limit ->
  isel limit ds = Ok ds' ->
  consistent_shapes ds' ->
  let LT := length (ds_leadtime ds') in
  let P := length (ds_predictor ds') in
  let NS := length (ds_static_predictor ds') in
  exists p t,
    parse_file open_dataset self filename = Ok (p, t) /\
    shape p = [LT; ds_y ds'; ds_x ds'; P + NS] /\
    shape t = [LT; ds_y ds'; ds_x ds'; 1] /\
    forall lt y x, lt < LT -> y < ds_y ds' -> x < ds_x ds' ->
      (forall c, c < P ->
         get f32_zero p [lt; y; x; c] = get f32_zero (ds_predictors ds') [lt; y; x; c]) /\
      (forall s, s < NS ->
         get f32_zero p [lt; y; x; P + s]
         = get f32_zero (ds_static_predictors ds') [y; x; s]) /\
      get f32_zero t [lt; y; x; 0] = get f32_zero (ds_target_mean ds') [lt; y; x].
Proof.
  intros Hopen Hlimit Hisel (Hp & Hs & Ht) LT P NS.
  unfold parse_file. rewrite Hopen. cbn [bind]. rewrite Hlimit. cbn [bind].
  rewrite Hisel. cbn [bind]. fold LT P NS in Hp, Hs, Ht.
  assert (as_numpy (expand_dims (ds_target_mean ds') 3)
          = Ok (Tensor [LT; ds_y ds'; ds_x ds'; 1] (data (ds_target_mean ds')))) as ->.
  { unfold expand_dims, rank. rewrite Ht. reflexivity. }
  assert (forall lt y x,
             get f32_zero (Tensor [LT; ds_y ds'; ds_x ds'; 1] (data (ds_target_mean ds')))
                 [lt; y; x; 0]
             = get f32_zero (ds_target_mean ds') [lt; y; x]) as Htarget.
  { intros lt y x. unfold get. rewrite Ht. cbn [shape data]. f_equal; cbn; lia. }
  fold NS. destruct (Nat.ltb_spec 0 NS) as [HS|HS].
  - rewrite Hs, Hp. cbn [last removelast app of_option bind lookup list_lookup].
    change (last [ds_y ds'; ds_x ds'; NS]) with (Some NS). cbn [of_option bind].
    unfold assign_leadtimes, np_zeros. cbn [build shape].
    rewrite bool_decide_eq_true_2 by (rewrite Hs; reflexivity).
    destruct (Nat.eqb_spec LT 0) as [HLT|HLT].
    + cbn [bind concat foldM]. unfold concat2. rewrite Hp. cbn [build shape].
      rewrite concat_compatible_last. cbn [nth bind list_insert insert].
      eexists. eexists. split; [reflexivity|]. split; [reflexivity|].
      split; [reflexivity|]. intros lt y x Hlt. lia.
    + cbn [bind concat foldM]. unfold concat2. rewrite Hp. cbn [build shape].
      rewrite concat_compatible_last. cbn [nth bind list_insert insert].
      eexists. eexists. split; [reflexivity|]. split; [reflexivity|].
      split; [reflexivity|]. intros lt y x Hlt Hy Hx. split; [|split].
      * intros c Hc. rewrite get_build by (apply in_range_4; lia).
        cbn [nth]. destruct (Nat.ltb_spec c P); [|lia]. reflexivity.
      * intros s Hs'. rewrite get_build by (apply in_range_4; lia).
        cbn [nth]. destruct (Nat.ltb_spec (P + s) P); [lia|].
        cbn [list_insert insert]. replace (P + s - P) with s by lia.
        rewrite get_build by (apply in_range_4; lia). reflexivity.
      * apply Htarget.
  - assert (NS = 0) as HS0 by lia. cbn [bind].
    eexists. eexists. split; [reflexivity|]. split; [rewrite Hp, HS0, Nat.add_0_r; reflexivity|].
    split; [reflexivity|]. intros lt y x Hlt Hy Hx. split; [|split].
    + reflexivity.
    + intros s Hs'. lia.
    + apply Htarget.
Qed.

(** X11.  [parse_file] returns the limited archive: the dynamic predictors
    in the channels of their names, then every static predictor repeated
    at every lead time, and the target mean as the single target channel.
    It succeeds whenever the limiting of the archive succeeds. *)
Theorem parse_file_merges_static (self : Loader) (filename : string)
    (ds ds' : Dataset) (limit : gmap string (list Z)) :
  open_dataset filename = Ok ds ->
  consistent_shapes ds ->
  get_dimension_limits (args self) ds None = Ok limit ->
  isel limit ds = Ok ds' ->
  let LT := length (ds_leadtime ds') in
  let P := length (ds_predictor ds') in
  let NS := length (ds_static_predictor ds') in
  exists p t,
    parse_file open_dataset self filename = Ok (p, t) /\
    shape p = [LT; ds_y ds'; ds_x ds'; P + NS] /\
    shape t = [LT; ds_y ds'; ds_x ds'; 1] /\
    forall lt y x, lt < LT -> y < ds_y ds' -> x < ds_x ds' ->
      (forall c, c < P ->
         get f32_zero p [lt; y; x; c] = get f32_zero (ds_predictors ds') [lt; y; x; c]) /\
      (forall s, s < NS ->
         get f32_zero p [lt; y; x; P + s]
         = get f32_zero (ds_static_predictors ds') [y; x; s]) /\
      get f32_zero t [lt; y; x; 0] = get f32_zero (ds_target_mean ds') [lt; y; x].
Proof.
  intros Hopen Hds Hlimit Hisel.
  apply (parse_file_limited self filename ds ds' limit Hopen Hlimit Hisel).
  apply (isel_consistent limit ds ds' Hds Hisel).
Qed.

(** X12.  For a constructed loader whose first file is an archive with
    consistent variables, whatever [load_file] returns for that file, real
    or fake data, has the shapes that the metadata resolved:
    ([num_leadtimes], [num_y_input], [num_x_input], [num_input_predictors])
    for the predictors and the same with one channel for the targets; and
    in fake mode it returns arrays of these shapes for every file of the
    list without opening it. *)
Theorem load_file_shapes_match_metadata (a : Args) (self : Loader)
    (first : string) (ds : Dataset) :
  __init__ glob open_dataset yaml_load a = Ok self ->
  filenames self !! 0 = Some first ->
  open_dataset first = Ok ds ->
  consistent_shapes ds ->
  let m := metadata self in
  (forall p t,
      load_file open_dataset self 0 = Ok (p, t) ->
      shape p = [num_leadtimes m; num_y_input m; num_x_input m; num_input_predictors m] /\
      shape t = [num_leadtimes m; num_y_input m; num_x_input m; 1]) /\
  (fake self = true ->
   forall index, index < num_files self ->
     exists p t,
       load_file open_dataset self index = Ok (p, t) /\
       shape p = [num_leadtimes m; num_y_input m; num_x_input m; num_input_predictors m] /\
       shape t = [num_leadtimes m; num_y_input m; num_x_input m; 1]).
Proof.
  intros Hinit Hfirst Hopen Hds m. split.
  - intros p t Hread. unfold load_file in Hread. rewrite Hfirst in Hread.
    cbn [of_option bind] in Hread. destruct (fake self).
    + injection Hread as <- <-. split; reflexivity.
    + apply init_Ok in Hinit as (Hargs & _ & first' & Hfirst' & Hmeta & _).
      rewrite Hfirst in Hfirst'. injection Hfirst' as <-.
      apply load_metadata_Ok in Hmeta
        as (ds0 & limit & ds' & Hopen' & Hlimit & Hisel & _ & Hm).
      rewrite Hopen in Hopen'. injection Hopen' as <-.
      rewrite <- Hargs in Hlimit.
      destruct (parse_file_limited self first ds ds' limit Hopen Hlimit Hisel
                  (isel_consistent limit ds ds' Hds Hisel))
        as (p' & t' & Hparse & Hp & Ht & _).
      rewrite Hparse in Hread. injection Hread as <- <-.
      unfold m. rewrite Hm. cbn. split; assumption.
  - intros Hfake index Hindex. unfold load_file.
    destruct (filenames self !! index) as [filename|] eqn:Hfile.
    + cbn [of_option bind]. rewrite Hfake. eexists. eexists.
      split; [reflexivity|]. split; reflexivity.
    + apply lookup_ge_None in Hfile. unfold num_files in Hindex. lia.
Qed.

End ReadFacts.

(** ** Range strings of the configuration *)

Lemma length_split_colon (cs : list ascii) :
  length (split_colon cs) = S (count_occ Ascii.ascii_dec cs colon).
Proof.
  induction cs as [|c cs IH]; [reflexivity|].
  cbn [split_colon count_occ].
  destruct (Ascii.eqb_spec c colon) as [->|Hne].
  - destruct (Ascii.ascii_dec colon colon); [|congruence].
    cbn [length]. rewrite IH. reflexivity.
  - destruct (Ascii.ascii_dec c colon); [congruence|].
    destruct (split_colon cs) as [|h t]; cbn [length] in *; [discriminate|exact IH].
Qed.

(** The only exception of [parse_range] is [ValueError]. *)
Lemma parse_range_ValueError {int_other : list ascii -> option Z}
    (r : option range_arg) (e : exn) :
  parse_range int_other r = Err e -> e = ValueError.
Proof.
  destruct r as [[s|l]|]; cbn [parse_range]; try discriminate.
  destruct (existsb _ _); cbn [negb]; [|congruence].
  destruct (split_colon _) as [|a [|b [|c rest]]]; try congruence.
  destruct (int_of_str int_other a); cbn [of_option bind]; [|congruence].
  destruct (int_of_str int_other b); cbn [of_option bind]; [discriminate|congruence].
Qed.

(** A range string is accepted only with exactly one colon. *)
Lemma parse_range_one_colon {int_other : list ascii -> option Z}
    (s : string) (r : option (list Z)) :
  parse_range int_other (Some (RangeStr s)) = Ok r -> count_colons s = 1.
Proof.
  unfold count_colons. cbn [parse_range].
  destruct (existsb _ _); cbn [negb]; [|discriminate].
  pose proof (length_split_colon (list_ascii_of_string s)) as Hlen.
  destruct (split_colon _) as [|a [|b [|c rest]]]; try discriminate.
  intros _. cbn [length] in Hlen. lia.
Qed.

Section RangeStrings.
Variable glob : string -> list string.
Variable open_dataset : string -> result Dataset.
Variable yaml_load : string -> result (gmap string (float64 * float64)).
Variable int_other : list ascii -> option Z.

(** X13.  When one of the options [x_range], [y_range] and
    [limit_leadtimes] is a string that does not contain exactly one colon,
    [from_config] raises [ValueError], whatever the other options and the
    files are; no file is looked up before. *)
Theorem from_config_rejects_range_strings (config : Config) (s : string) :
  cfg_x_range config = Some (RangeStr s) \/
  cfg_y_range config = Some (RangeStr s) \/
  cfg_limit_leadtimes config = Some (RangeStr s) ->
  count_colons s <> 1 ->
  from_config glob open_dataset yaml_load int_other config = Err ValueError.
Proof.
  intros Hcfg Hcount.
  assert (exists e, parse_range int_other (Some (RangeStr s)) = Err e) as [e He].
  { destruct (parse_range int_other (Some (RangeStr s))) as [r|e] eqn:Hr; [|eauto].
    apply parse_range_one_colon in Hr. contradiction. }
  pose proof (parse_range_ValueError _ _ He) as ->.
  unfold from_config.
  destruct (parse_range int_other (cfg_x_range config)) as [x|ex] eqn:Hx.
  2: { apply parse_range_ValueError in Hx as ->. reflexivity. }
  cbn [bind].
  destruct (parse_range int_other (cfg_y_range config)) as [y|ey] eqn:Hy.
  2: { apply parse_range_ValueError in Hy as ->. reflexivity. }
  cbn [bind].
  destruct (parse_range int_other (cfg_limit_leadtimes config)) as [l|el] eqn:Hl.
  2: { apply parse_range_ValueError in Hl as ->. reflexivity. }
  destruct Hcfg as [H|[H|H]]; rewrite H in *; congruence.
Qed.

End RangeStrings.

(** * The streaming pipeline *)

(** ** Maps that may raise *)

Lemma map_result_Forall {A B : Type} (f : A -> result B) (Q : B -> Prop) (l : list A) :
  Forall (fun x => exists y, f x = Ok y /\ Q y) l ->
  exists l', map_result f l = Ok l' /\ Forall Q l' /\ length l' = length l.
Proof.
  induction 1 as [|x l (y & Hy & HQ) _ (l' & Hl' & HQl & Hlen)].
  - exists []. repeat split. constructor.
  - exists (y :: l'). cbn [map_result]. rewrite Hy, Hl'. cbn [bind length].
    split; [reflexivity|]. split; [constructor; assumption|congruence].
Qed.

Lemma map_result_py_function {A B : Type} (f : A -> result B) (l : list A) (l' : list B) :
  map_result f l = Ok l' -> map_result (fun x => py_function (f x)) l = Ok l'.
Proof.
  revert l'. induction l as [|x l IH]; intros l' H; cbn in H |- *; [exact H|].
  destruct (f x) as [y|]; [|discriminate]. cbn in H |- *.
  destruct (map_result f l) as [ys|]; [|discriminate].
  rewrite (IH ys eq_refl). exact H.
Qed.

Lemma map_result_map {A B : Type} (f : A -> result B) (g : A -> B) (l : list A) :
  Forall (fun x => f x = Ok (g x)) l -> map_result f l = Ok (map g l).
Proof.
  induction 1 as [|x l Hx _ IH]; [reflexivity|].
  cbn [map_result map]. rewrite Hx, IH. reflexivity.
Qed.

Lemma map_result_inverse {A B : Type} (f : B -> result A) (g : A -> B) (l : list A) :
  Forall (fun x => f (g x) = Ok x) l -> map_result f (map g l) = Ok l.
Proof.
  induction 1 as [|x l Hx _ IH]; [reflexivity|].
  cbn [map_result map]. rewrite Hx, IH. reflexivity.
Qed.

(** ** Groups of consecutive elements *)

Lemma ceil_div_step (a n : nat) :
  0 < n -> 0 < a -> ceil_div a n = S (ceil_div (a - n) n).
Proof.
  intros Hn Ha. unfold ceil_div.
  destruct (Nat.le_gt_cases n a) as [Hle|Hgt].
  - replace (a + n - 1) with ((a - n + n - 1) + 1 * n) by lia.
    rewrite Nat.div_add by lia. lia.
  - replace (a - n) with 0 by lia. cbn [Nat.add].
    rewrite (Nat.div_small (n - 1) n) by lia.
    symmetry. apply (Nat.div_unique _ _ _ (a - 1)); lia.
Qed.

Lemma ceil_div_0 (n : nat) : 0 < n -> ceil_div 0 n = 0.
Proof. intros H. unfold ceil_div. apply Nat.div_small. lia. Qed.

(** With enough fuel, the groups partition the list: laid end to end they
    give the list, each has between 1 and [n] elements, and there are
    [ceil (length l / n)] of them. *)
Lemma groups_spec {A : Type} (n : nat) :
  0 < n ->
  forall (fuel : nat) (l : list A),
    length l <= fuel ->
    List.concat (groups fuel n l) = l /\
    Forall (fun g => 1 <= length g <= n /\ exists k, g = firstn n (skipn k l)) (groups fuel n l) /\
    length (groups fuel n l) = ceil_div (length l) n.
Proof.
  intros Hn. induction fuel as [|fuel IH]; intros l Hlen.
  - destruct l; [|cbn in Hlen; lia]. cbn. rewrite ceil_div_0 by exact Hn.
    repeat split. constructor.
  - destruct l as [|x l].
    + cbn. rewrite ceil_div_0 by exact Hn. repeat split. constructor.
    + cbn [groups].
      destruct (IH (skipn n (x :: l))) as (Hcat & Hall & Hcount).
      { rewrite length_skipn. cbn [length] in *. lia. }
      split; [|split].
      * cbn [List.concat]. rewrite Hcat. apply firstn_skipn.
      * constructor.
        -- split; [|exists 0; reflexivity].
           rewrite length_firstn. cbn [length]. lia.
        -- eapply Forall_impl; [exact Hall|].
           intros g [Hg [k ->]]. split; [exact Hg|].
           exists (n + k). rewrite skipn_skipn. f_equal. f_equal. lia.
      * cbn [length]. rewrite Hcount, length_skipn.
        symmetry. apply ceil_div_step; [exact Hn|cbn; lia].
Qed.

(** Lists of [n] elements each, laid end to end, are grouped back. *)
Lemma groups_concat {A : Type} (n : nat) (ls : list (list A)) :
  0 < n ->
  Forall (fun l => length l = n) ls ->
  forall fuel, length ls <= fuel -> groups fuel n (List.concat ls) = ls.
Proof.
  intros Hn Hls. induction Hls as [|l ls Hl _ IH]; intros fuel Hfuel.
  - destruct fuel; reflexivity.
  - destruct fuel as [|fuel]; [cbn in Hfuel; lia|].
    cbn [List.concat]. destruct l as [|x l]; [cbn in Hl; lia|].
    cbn [app groups]. change (x :: l ++ List.concat ls) with ((x :: l) ++ List.concat ls).
    rewrite firstn_app, skipn_app, Hl, Nat.sub_diag.
    rewrite firstn_all2 by lia. rewrite skipn_all2 by lia. cbn [firstn skipn app].
    rewrite app_nil_r. f_equal. apply IH. cbn in Hfuel. lia.
Qed.

(** ** Slicing and stacking *)

Lemma flat_map_map {A B C : Type} (f : B -> list C) (g : A -> B) (l : list A) :
  flat_map f (map g l) = flat_map (fun x => f (g x)) l.
Proof. induction l as [|x l IH]; [reflexivity|]. cbn. rewrite IH. reflexivity. Qed.

Lemma length_concat_uniform {A : Type} (n : nat) (ls : list (list A)) :
  Forall (fun l => length l = n) ls -> length (List.concat ls) = length ls * n.
Proof.
  induction 1 as [|l ls Hl _ IH]; [reflexivity|].
  cbn [List.concat length]. rewrite length_app, Hl, IH. lia.
Qed.

Section Slices.
Context {A : Type}.

Lemma unstack_slices (t : tensor A) (n : nat) (s : list nat) :
  shape t = n :: s ->
  unstack t = Ok (slices t) /\
  length (slices t) = n /\
  Forall (fun u => shape u = s /\ (wf t -> wf u)) (slices t).
Proof.
  intros H. unfold unstack, slices. rewrite H. split; [reflexivity|]. split.
  - rewrite length_map, length_seq. reflexivity.
  - apply Forall_map. apply Forall_forall. intros i Hi. apply elem_of_seq in Hi.
    cbn [shape data]. split; [reflexivity|]. unfold wf. rewrite H. cbn [shape data].
    intros Hwf. rewrite length_firstn, length_skipn, Hwf.
    cbn [numel fold_right]. fold (numel s). nia.
Qed.

Lemma flat_map_data_slices (t : tensor A) (n : nat) (s : list nat) :
  wf t -> shape t = n :: s -> flat_map data (slices t) = data t.
Proof.
  intros Hwf H. unfold slices. rewrite H. rewrite flat_map_map. cbn [data].
  rewrite (flat_map_chunks (data t) (numel s) n 0).
  - reflexivity.
  - unfold wf in Hwf. rewrite Hwf, H. cbn [numel fold_right]. fold (numel s). lia.
Qed.

Lemma stack_uniform (ts : list (tensor A)) (s : list nat) :
  ts <> [] -> Forall (fun u => shape u = s) ts ->
  stack ts = Ok (Tensor (length ts :: s) (flat_map data ts)).
Proof.
  intros Hne Hs. destruct ts as [|t ts]; [congruence|]. unfold stack.
  assert (forallb (fun u => bool_decide (shape u = shape t)) (t :: ts) = true) as ->.
  { apply forallb_forall. intros u Hu. apply bool_decide_eq_true_2.
    rewrite Forall_forall in Hs. rewrite (Hs u), (Hs t); [reflexivity|left; reflexivity|].
    apply list_elem_of_In. exact Hu. }
  inversion Hs as [|? ? Ht _]; subst. reflexivity.
Qed.

Lemma stack_slices (t : tensor A) (n : nat) (s : list nat) :
  wf t -> shape t = n :: s -> 0 < n -> stack (slices t) = Ok t.
Proof.
  intros Hwf H Hn.
  destruct (unstack_slices t n s H) as (_ & Hlen & Hall).
  rewrite (stack_uniform (slices t) s).
  - rewrite Hlen, (flat_map_data_slices t n s Hwf H), <- H. destruct t; reflexivity.
  - intros Hnil. rewrite Hnil in Hlen. cbn in Hlen. lia.
  - eapply Forall_impl; [exact Hall|]. intros u [Hu _]. exact Hu.
Qed.

End Slices.

Lemma unbatch_element_leading (n : nat) (e : element) :
  leading n e ->
  unbatch_element e = Ok (element_slices e) /\ length (element_slices e) = n.
Proof.
  intros (_ & _ & [sp Hp] & [st Ht]). unfold unbatch_element, element_slices.
  destruct (unstack_slices (fst e) n sp Hp) as (-> & Hlp & _).
  destruct (unstack_slices (snd e) n st Ht) as (-> & Hlt & _).
  cbn [bind]. rewrite Hlp, Hlt, Nat.eqb_refl. split; [reflexivity|].
  rewrite length_zip_with, Hlp, Hlt. lia.
Qed.

Lemma batch_element_slices (n : nat) (e : element) :
  leading n e -> 0 < n -> batch_element (element_slices e) = Ok e.
Proof.
  intros (Hwfp & Hwft & [sp Hp] & [st Ht]) Hn. unfold batch_element, element_slices.
  destruct (unstack_slices (fst e) n sp Hp) as (_ & Hlp & _).
  destruct (unstack_slices (snd e) n st Ht) as (_ & Hlt & _).
  change (map fst (zip (slices e.1) (slices e.2))) with ((zip (slices e.1) (slices e.2)).*1).
  change (map snd (zip (slices e.1) (slices e.2))) with ((zip (slices e.1) (slices e.2)).*2).
  rewrite fst_zip, snd_zip by lia.
  rewrite (stack_slices (fst e) n sp Hwfp Hp Hn), (stack_slices (snd e) n st Hwft Ht Hn).
  destruct e; reflexivity.
Qed.

(** Splitting elements with [n] entries along the first axis and
    regrouping by [n] gives the elements back. *)
Lemma unbatch_batch (n : nat) (dataset : list element) :
  0 < n -> Forall (leading n) dataset ->
  (let* d := unbatch dataset in batch n d) = Ok dataset.
Proof.
  intros Hn Hall. unfold unbatch.
  rewrite (map_result_map unbatch_element element_slices).
  2: { eapply Forall_impl; [exact Hall|]. intros e He.
       apply (unbatch_element_leading n e He). }
  cbn [bind]. unfold batch. destruct (Nat.eqb_spec n 0); [lia|].
  assert (Forall (fun l : list element => length l = n) (map element_slices dataset)) as Hparts.
  { apply Forall_map. eapply Forall_impl; [exact Hall|]. intros e He.
    apply (unbatch_element_leading n e He). }
  rewrite (groups_concat n _ Hn Hparts).
  - apply map_result_inverse. eapply Forall_impl; [exact Hall|]. intros e He.
    apply (batch_element_slices n e He Hn).
  - rewrite (length_concat_uniform n _ Hparts). nia.
Qed.

(** ** The stream of batches *)

Lemma flat_map_concat {A B : Type} (f : A -> list B) (ls : list (list A)) :
  flat_map f (List.concat ls) = flat_map (flat_map f) ls.
Proof.
  induction ls as [|l ls IH]; [reflexivity|].
  cbn [List.concat flat_map]. rewrite flat_map_app, IH. reflexivity.
Qed.

Lemma ceil_div_1 (n : nat) : ceil_div n 1 = n.
Proof. unfold ceil_div. rewrite Nat.div_1_r. lia. Qed.

Section Stream.
Variable open_dataset : string -> result Dataset.
Variable self : Loader.
Variable P : nat.

Hypothesis Hps : patch_size self <> Some 0.
Hypothesis Hknown :
  Forall (fun feature => is_Some (feature_axis feature)) (extra_features self).
Hypothesis Hdiff :
  predict_diff self = false \/
  exists Ip, raw_predictor_index self = Ok (Some Ip) /\
             Ip < P + length (extra_features self).
Hypothesis Hnorm :
  coefficients self = None \/
  exists tbl, coefficients self = Some tbl /\
              length tbl = P + length (extra_features self).

Lemma process_file_arrays (e : element) :
  file_arrays self P e ->
  exists n, num_patches_per_file self = Ok n /\
            exists e', process self e = Ok e' /\ processed self P n e'.
Proof.
  destruct e as [p t]. intros (Hwfp & Hp & Hwft & Ht).
  destruct (process_5d self _ P p t Hwfp Hp Hwft Ht Hps Hknown Hdiff Hnorm)
    as (n & p' & t' & Hn & Hrun & Hsp & Hst & Hwfp' & Hwft').
  exists n. split; [exact Hn|]. exists (p', t'). split; [exact Hrun|].
  repeat split; assumption.
Qed.

Lemma reorder_processed (n : nat) (e : element) :
  processed self P n e -> exists e', reorder self e = Ok e' /\ reordered self P n e'.
Proof.
  destruct e as [p t]. intros (Hwfp & Hp & Hwft & Ht). cbn [fst snd] in *.
  destruct (transpose_5d_twice p _ _ _ _ _ Hwfp Hp) as (p' & Hp' & Hsp & Hwfp' & _).
  destruct (transpose_5d_twice t _ _ _ _ _ Hwft Ht) as (t' & Ht' & Hst & Hwft' & _).
  exists (p', t'). unfold reorder, map_decorator2. rewrite Hp', Ht'. split; [reflexivity|].
  repeat split; assumption.
Qed.

Lemma slices_reordered (n : nat) (e : element) :
  reordered self P n e ->
  leading n e /\ Forall (sample_arrays self P) (element_slices e) /\
  flat_map (fun s => data (fst s)) (element_slices e) = data (fst e) /\
  flat_map (fun s => data (snd s)) (element_slices e) = data (snd e).
Proof.
  intros (Hwfp & Hp & Hwft & Ht).
  destruct (unstack_slices (fst e) _ _ Hp) as (_ & Hlp & Hallp).
  destruct (unstack_slices (snd e) _ _ Ht) as (_ & Hlt & Hallt).
  split; [repeat split; eauto|]. unfold element_slices. split; [|split].
  - apply Forall_forall. intros [sp st] Hin.
    apply elem_of_zip_l in Hin as Hinp. apply elem_of_zip_r in Hin as Hint.
    rewrite Forall_forall in Hallp, Hallt. split; cbn [fst snd].
    + apply (Hallp sp Hinp).
    + apply (Hallt st Hint).
  - rewrite <- (flat_map_data_slices (fst e) _ _ Hwfp Hp).
    rewrite <- (fst_zip (slices (fst e)) (slices (snd e))) at 2 by lia.
    rewrite flat_map_map. reflexivity.
  - rewrite <- (flat_map_data_slices (snd e) _ _ Hwft Ht).
    rewrite <- (snd_zip (slices (fst e)) (slices (snd e))) at 2 by lia.
    rewrite flat_map_map. reflexivity.
Qed.

Lemma num_patches_per_file_Ok : exists n, num_patches_per_file self = Ok n.
Proof.
  unfold num_patches_per_file, num_x_patches, num_y_patches, floordiv.
  destruct (patch_size self) as [ps|]; [|eexists; reflexivity].
  destruct (Nat.eqb_spec ps 0) as [->|_]; [congruence|]. eexists; reflexivity.
Qed.

Lemma map_result_process (n : nat) (loaded : list element) :
  num_patches_per_file self = Ok n ->
  Forall (file_arrays self P) loaded ->
  exists outs, map_result (process self) loaded = Ok outs /\
               Forall (processed self P n) outs /\ length outs = length loaded.
Proof.
  intros Hn Hall. apply map_result_Forall.
  eapply Forall_impl; [exact Hall|]. intros e He. cbn beta.
  destruct (process_file_arrays e He) as (n' & Hn' & e' & Hrun & Hout).
  assert (n' = n) as -> by congruence. eauto.
Qed.

Lemma map_result_reorder (n : nat) (outs : list element) :
  Forall (processed self P n) outs ->
  exists rs, map_result (reorder self) outs = Ok rs /\
             Forall (reordered self P n) rs /\ length rs = length outs.
Proof.
  intros Hall. apply map_result_Forall.
  eapply Forall_impl; [exact Hall|]. intros e He. exact (reorder_processed n e He).
Qed.

Lemma unbatch_reordered (n : nat) (rs : list element) :
  Forall (reordered self P n) rs ->
  exists samples, unbatch rs = Ok samples /\
    Forall (sample_arrays self P) samples /\
    length samples = length rs * n /\
    flat_map (fun s => data (fst s)) samples = flat_map (fun r => data (fst r)) rs /\
    flat_map (fun s => data (snd s)) samples = flat_map (fun r => data (snd r)) rs.
Proof.
  intros Hall. exists (List.concat (map element_slices rs)). unfold unbatch.
  rewrite (map_result_map unbatch_element element_slices).
  2:{ eapply Forall_impl; [exact Hall|]. intros e He.
      apply (unbatch_element_leading n), (slices_reordered n e He). }
  cbn [bind]. split; [reflexivity|]. split; [|split; [|split]].
  - apply Forall_concat, Forall_map.
    eapply Forall_impl; [exact Hall|]. intros e He. apply (slices_reordered n e He).
  - rewrite (length_concat_uniform n), length_map; [reflexivity|].
    apply Forall_map. eapply Forall_impl; [exact Hall|]. intros e He.
    apply (unbatch_element_leading n), (slices_reordered n e He).
  - rewrite flat_map_concat, flat_map_map.
    induction Hall as [|e rs' He _ IH]; [reflexivity|]. cbn [flat_map].
    rewrite IH. f_equal. apply (slices_reordered n e He).
  - rewrite flat_map_concat, flat_map_map.
    induction Hall as [|e rs' He _ IH]; [reflexivity|]. cbn [flat_map].
    rewrite IH. f_equal. apply (slices_reordered n e He).
Qed.

End Stream.

Lemma map_result_to_gpu (self : Loader) (l : list element) :
  map_result (to_gpu self) l = Ok l.
Proof.
  rewrite (map_result_map (to_gpu self) (fun e => e)).
  - rewrite map_id. reflexivity.
  - apply Forall_forall. intros [p t] _. reflexivity.
Qed.

Lemma batch_uniform (bs : nat) (samples : list element) (sp st : list nat) :
  0 < bs ->
  Forall (fun e => shape (fst e) = sp /\ shape (snd e) = st) samples ->
  exists batches, batch bs samples = Ok batches /\
    length batches = ceil_div (length samples) bs /\
    Forall (fun b => exists k, 1 <= k <= bs /\
                               shape (fst b) = k :: sp /\ shape (snd b) = k :: st) batches /\
    flat_map (fun b => data (fst b)) batches = flat_map (fun e => data (fst e)) samples /\
    flat_map (fun b => data (snd b)) batches = flat_map (fun e => data (snd e)) samples.
Proof.
  intros Hbs Hall.
  set (stk := fun g : list element =>
                (Tensor (length g :: sp) (flat_map data (map fst g)),
                 Tensor (length g :: st) (flat_map data (map snd g)))).
  destruct (groups_spec bs Hbs (length samples) samples (le_n _)) as (Hcat & Hgs & Hlen).
  assert (Forall (fun g => batch_element g = Ok (stk g) /\ 1 <= length g <= bs)
                 (groups (length samples) bs samples)) as Hok.
  { eapply Forall_impl; [exact Hgs|]. intros g ((Hl1 & Hl2) & k & Hg). cbn beta.
    split; [|lia].
    assert (Forall (fun e => shape (fst e) = sp /\ shape (snd e) = st) g) as Hg'.
    { rewrite Hg. apply Forall_take, Forall_drop, Hall. }
    unfold batch_element, stk.
    rewrite (stack_uniform (map fst g) sp).
    2:{ destruct g; [cbn in Hl1; lia|discriminate]. }
    2:{ apply Forall_map. eapply Forall_impl; [exact Hg'|]. intros e He. apply He. }
    rewrite (stack_uniform (map snd g) st).
    2:{ destruct g; [cbn in Hl1; lia|discriminate]. }
    2:{ apply Forall_map. eapply Forall_impl; [exact Hg'|]. intros e He. apply He. }
    cbn [bind]. rewrite !length_map. reflexivity. }
  exists (map stk (groups (length samples) bs samples)). unfold batch.
  destruct (Nat.eqb_spec bs 0) as [->|_]; [lia|].
  split; [|split; [|split; [|split]]].
  - apply map_result_map. eapply Forall_impl; [exact Hok|]. intros g Hg. apply Hg.
  - rewrite length_map. exact Hlen.
  - apply Forall_map. eapply Forall_impl; [exact Hok|]. intros g (_ & Hl).
    exists (length g). split; [exact Hl|]. split; reflexivity.
  - rewrite flat_map_map.
    transitivity (flat_map (fun e : element => data (fst e))
                    (List.concat (groups (length samples) bs samples)));
      [|rewrite Hcat; reflexivity].
    rewrite flat_map_concat.
    apply flat_map_ext. intros g. unfold stk. cbn [fst data].
    rewrite flat_map_map. reflexivity.
  - rewrite flat_map_map.
    transitivity (flat_map (fun e : element => data (snd e))
                    (List.concat (groups (length samples) bs samples)));
      [|rewrite Hcat; reflexivity].
    rewrite flat_map_concat.
    apply flat_map_ext. intros g. unfold stk. cbn [snd data].
    rewrite flat_map_map. reflexivity.
Qed.

Lemma map_result_bind {A B C : Type} (f : A -> result B) (g : B -> result C)
    (l : list A) (l1 : list B) (l2 : list C) :
  map_result f l = Ok l1 -> map_result g l1 = Ok l2 ->
  map_result (fun x => let* y := f x in g y) l = Ok l2.
Proof.
  revert l1 l2. induction l as [|x l IH]; intros l1 l2 H1 H2; cbn in *.
  - injection H1 as <-. exact H2.
  - destruct (f x) as [y|] eqn:Hy; [|discriminate]. cbn in *.
    destruct (map_result f l) as [ys|] eqn:Hys; [|discriminate]. cbn in *.
    injection H1 as <-. cbn in H2.
    destruct (g y) as [w|]; [|discriminate]. cbn in *.
    destruct (map_result g ys) as [ws|] eqn:Hws; [|discriminate]. cbn in *.
    rewrite (IH ys ws eq_refl Hws). exact H2.
Qed.

Section GetDataset.
Variable open_dataset : string -> result Dataset.
Variable self : Loader.
Variable P : nat.

Hypothesis Hps : patch_size self <> Some 0.
Hypothesis Hknown :
  Forall (fun feature => is_Some (feature_axis feature)) (extra_features self).
Hypothesis Hdiff :
  predict_diff self = false \/
  exists Ip, raw_predictor_index self = Ok (Some Ip) /\
             Ip < P + length (extra_features self).
Hypothesis Hnorm :
  coefficients self = None \/
  exists tbl, coefficients self = Some tbl /\
              length tbl = P + length (extra_features self).

Lemma stream_whole_files (z : list nat) :
  0 < arg_batch_size (args self) ->
  Forall (fun index => exists e, load_file open_dataset self index = Ok e /\
                                 file_arrays self P e) z ->
  exists n files batches,
    num_patches_per_file self = Ok n /\
    map_result (fun index =>
                  let* e := load_file open_dataset self index in
                  let* e := process self e in
                  reorder self e) z = Ok files /\
    stream open_dataset self z None = Ok batches /\
    length batches = ceil_div (length z * n) (arg_batch_size (args self)) /\
    Forall (fun b => exists k,
              1 <= k <= arg_batch_size (args self) /\
              shape (fst b) = [k; num_leadtimes (metadata self); num_y self; num_x self;
                               P + length (extra_features self)] /\
              shape (snd b) = [k; num_leadtimes (metadata self); num_y self; num_x self; 1])
           batches /\
    flat_map (fun b => data (fst b)) batches = flat_map (fun r => data (fst r)) files /\
    flat_map (fun b => data (snd b)) batches = flat_map (fun r => data (snd r)) files.
Proof.
  intros Hbs Hz.
  destruct (num_patches_per_file_Ok self Hps) as (n & Hn).
  destruct (map_result_Forall _ _ _ Hz) as (loaded & Hload & Hloaded & Hl1).
  destruct (map_result_process self P Hps Hknown Hdiff Hnorm n loaded Hn Hloaded)
    as (outs & Hproc & Houts & Hl2).
  destruct (map_result_reorder self P n outs Houts) as (rs & Hre & Hrs & Hl3).
  destruct (unbatch_reordered self P n rs Hrs)
    as (samples & Hun & Hsamples & Hl4 & Hdp & Hdt).
  destruct (batch_uniform (arg_batch_size (args self)) samples _ _ Hbs Hsamples)
    as (batches & Hbatch & Hl5 & Hshapes & Hbp & Hbt).
  exists n, rs, batches. split; [exact Hn|]. split; [|split; [|split; [|split; [|split]]]].
  - apply (map_result_bind _ _ z loaded rs Hload).
    apply (map_result_bind _ _ loaded outs rs Hproc Hre).
  - unfold stream. cbv zeta. rewrite (map_result_py_function _ _ _ Hload). cbn [bind]. rewrite Hproc. cbn [bind].
    rewrite Hre. cbn [bind]. rewrite Hun. cbn [bind].
    rewrite map_result_to_gpu. cbn [bind]. exact Hbatch.
  - rewrite Hl5, Hl4, Hl3, Hl2, Hl1. reflexivity.
  - exact Hshapes.
  - rewrite Hbp. exact Hdp.
  - rewrite Hbt. exact Hdt.
Qed.

Lemma stream_one_chunk (z : list nat) :
  0 < num_leadtimes (metadata self) ->
  Forall (fun index => exists e, load_file open_dataset self index = Ok e /\
                                 file_arrays self P e) z ->
  stream open_dataset self z (Some (num_leadtimes (metadata self)))
  = stream open_dataset self z None.
Proof.
  intros HLT Hz.
  destruct (num_patches_per_file_Ok self Hps) as (n & Hn).
  destruct (map_result_Forall _ _ _ Hz) as (loaded & Hload & Hloaded & _).
  destruct (map_result_process self P Hps Hknown Hdiff Hnorm n loaded Hn Hloaded)
    as (outs & Hproc & Houts & _).
  unfold stream. cbv zeta. rewrite (map_result_py_function _ _ _ Hload). cbn [bind].
  rewrite (unbatch_batch _ loaded HLT).
  2:{ eapply Forall_impl; [exact Hloaded|]. intros e (Hwfp & Hp & Hwft & Ht).
      repeat split; eauto. }
  cbn [bind]. rewrite Hproc. cbn [bind].
  rewrite (unbatch_batch _ outs HLT).
  2:{ eapply Forall_impl; [exact Houts|]. intros e (Hwfp & Hp & Hwft & Ht).
      repeat split; eauto. }
  reflexivity.
Qed.

End GetDataset.

(** X14.  Take a loader with a patch size other than 0, extra features of
    the types ["x"], ["y"] and ["leadtime"] only, the raw forecast among
    the first [P + features] predictor names when differencing is on, and
    a coefficient table of [P + features] rows when normalization is on,
    [P] being the number of channels of the arrays that the files give.
    When no number of threads is fixed in the loader, the batch size is
    positive, [get_dataset] is called with [tf.data.AUTOTUNE], and every
    file that is streamed gives arrays of the shape in the metadata, the
    dataset gives [ceil(files * patches_per_file / batch_size)] batches.
    Every batch has the shape [(k, leadtime, num_y, num_x, channels)] with
    [1 <= k <= batch_size], and the batches hold, in order, the values of
    the reordered outputs of [process] for the files in the order in which
    they are streamed: nothing is dropped, repeated or shuffled. *)
Theorem get_dataset_batches (open_dataset : string -> result Dataset) (self : Loader)
    (P : nat) (randomized : option (list nat)) (repeat : option nat) :
  patch_size self <> Some 0 ->
  Forall (fun feature => is_Some (feature_axis feature)) (extra_features self) ->
  (predict_diff self = false \/
   exists Ip, raw_predictor_index self = Ok (Some Ip) /\
              Ip < P + length (extra_features self)) ->
  (coefficients self = None \/
   exists tbl, coefficients self = Some tbl /\
               length tbl = P + length (extra_features self)) ->
  arg_num_parallel_calls (args self) = None ->
  0 < arg_batch_size (args self) ->
  Forall (fun index => exists e, load_file open_dataset self index = Ok e /\
                                 file_arrays self P e)
         (file_indices self randomized repeat) ->
  exists n files batches,
    num_patches_per_file self = Ok n /\
    map_result (fun index =>
                  let* e := load_file open_dataset self index in
                  let* e := process self e in
                  reorder self e) (file_indices self randomized repeat) = Ok files /\
    get_dataset open_dataset self randomized Autotune repeat = Ok (Some batches) /\
    length batches
    = ceil_div (length (file_indices self randomized repeat) * n)
               (arg_batch_size (args self)) /\
    Forall (fun b => exists k,
              1 <= k <= arg_batch_size (args self) /\
              shape (fst b) = [k; num_leadtimes (metadata self); num_y self; num_x self;
                               P + length (extra_features self)] /\
              shape (snd b) = [k; num_leadtimes (metadata self); num_y self; num_x self; 1])
           batches /\
    flat_map (fun b => data (fst b)) batches = flat_map (fun r => data (fst r)) files /\
    flat_map (fun b => data (snd b)) batches = flat_map (fun r => data (snd r)) files.
Proof.
  intros Hps Hknown Hdiff Hnorm Hcalls Hbs Hz.
  destruct (stream_whole_files open_dataset self P Hps Hknown Hdiff Hnorm _ Hbs Hz)
    as (n & files & batches & Hn & Hfiles & Hstream & Hrest).
  exists n, files, batches. split; [exact Hn|]. split; [exact Hfiles|].
  split; [|exact Hrest].
  unfold get_dataset. rewrite Hcalls. cbn [bind].
  destruct (Nat.eqb_spec (arg_batch_size (args self)) 0) as [H0|_]; [lia|].
  cbn [bind]. fold (file_indices self randomized repeat).
  rewrite Hstream. reflexivity.
Qed.

(** X15.  Take a loader with a patch size other than 0, extra features of
    the types ["x"], ["y"] and ["leadtime"] only, the raw forecast among
    the channels when differencing is on and one table row per channel
    when normalization is on, with no number of threads fixed in the
    loader, at least one lead time in the metadata and every streamed
    file giving arrays of the shape in the metadata.  Then, with one
    thread (the default of [get_dataset])
    the lead times of a file form one chunk, and splitting the files into
    chunks before [process] and collecting them afterwards changes
    nothing: the dataset is the one that [tf.data.AUTOTUNE] gives. *)
Theorem get_dataset_one_thread (open_dataset : string -> result Dataset) (self : Loader)
    (P : nat) (randomized : option (list nat)) (repeat : option nat) :
  patch_size self <> Some 0 ->
  Forall (fun feature => is_Some (feature_axis feature)) (extra_features self) ->
  (predict_diff self = false \/
   exists Ip, raw_predictor_index self = Ok (Some Ip) /\
              Ip < P + length (extra_features self)) ->
  (coefficients self = None \/
   exists tbl, coefficients self = Some tbl /\
               length tbl = P + length (extra_features self)) ->
  arg_num_parallel_calls (args self) = None ->
  0 < num_leadtimes (metadata self) ->
  Forall (fun index => exists e, load_file open_dataset self index = Ok e /\
                                 file_arrays self P e)
         (file_indices self randomized repeat) ->
  get_dataset open_dataset self randomized (Calls 1) repeat
  = get_dataset open_dataset self randomized Autotune repeat.
Proof.
  intros Hps Hknown Hdiff Hnorm Hcalls HLT Hz. unfold get_dataset. rewrite Hcalls.
  change (1 =? 0) with false. cbn iota. rewrite ceil_div_1.
  destruct (Nat.eqb_spec (num_leadtimes (metadata self)) 0) as [H0|_]; [lia|].
  cbn [bind]. fold (file_indices self randomized repeat).
  rewrite (stream_one_chunk open_dataset self P Hps Hknown Hdiff Hnorm _ HLT Hz).
  reflexivity.
Qed.

(** ** Lead times are processed one by one *)

Lemma patch_grid_bounds (self : Loader) (n k i j : nat) :
  patch_size self <> Some 0 ->
  num_patches_per_file self = Ok n ->
  k < n -> i < num_y self -> j < num_x self ->
  patch_row self k i < num_y_input (metadata self) /\
  patch_column self k j < num_x_input (metadata self).
Proof.
  unfold num_patches_per_file, num_x_patches, num_y_patches, num_x, num_y,
    patch_row, patch_column, floordiv.
  intros Hps Hn Hk Hi Hj. destruct (patch_size self) as [ps|]; [|lia].
  destruct (Nat.eqb_spec ps 0) as [->|Hne]; [congruence|]. cbn [bind] in Hn.
  injection Hn as <-.
  destruct (patch_position k (num_x_input (metadata self) / ps) ps i
              (num_y_input (metadata self)) (num_x_input (metadata self))
              (num_y_input (metadata self) / ps) ltac:(lia) eq_refl eq_refl Hk Hi)
    as (_ & _ & _ & HiY & _).
  destruct (patch_position k (num_x_input (metadata self) / ps) ps j
              (num_y_input (metadata self)) (num_x_input (metadata self))
              (num_y_input (metadata self) / ps) ltac:(lia) eq_refl eq_refl Hk Hj)
    as (_ & _ & _ & _ & HjX).
  split; assumption.
Qed.

(** X16.  What [process] computes, element by element.  For the arrays of
    one file (or of a chunk of its lead times), element [(i, j)] of patch
    [k] at position [lt] is the grid point in row [patch_row k i] and
    column [patch_column k j]: the patches tile the grid row by row.  A
    predictor channel holds the normalized value of the input channel, or
    of the coordinate of its extra feature, at that grid point; the
    target holds the target there, minus the raw-forecast channel (not
    normalized) when differencing is on. *)
Theorem process_values (self : Loader) (LT P : nat) (p t : tensor float32) :
  let m := metadata self in
  let C := P + length (extra_features self) in
  wf p -> shape p = [LT; num_y_input m; num_x_input m; P] ->
  wf t -> shape t = [LT; num_y_input m; num_x_input m; 1] ->
  patch_size self <> Some 0 ->
  Forall (fun feature => is_Some (feature_axis feature)) (extra_features self) ->
  (predict_diff self = false \/
   exists Ip, raw_predictor_index self = Ok (Some Ip) /\ Ip < C) ->
  (coefficients self = None \/
   exists tbl, coefficients self = Some tbl /\ length tbl = C) ->
  exists n p' t',
    num_patches_per_file self = Ok n /\
    process self (p, t) = Ok (p', t') /\
    forall lt k i j, lt < LT -> k < n -> i < num_y self -> j < num_x self ->
      let value y x c := get f32_zero p [lt; y; x; c] in
      let target y x := get f32_zero t [lt; y; x; 0] in
      patch_row self k i < num_y_input m /\
      patch_column self k j < num_x_input m /\
      (forall c, c < C ->
         get f32_zero p' [lt; k; i; j; c]
         = normalized self c
             (extended self P value lt (patch_row self k i) (patch_column self k j) c)) /\
      get f32_zero t' [lt; k; i; j; 0]
      = differenced self P value target lt (patch_row self k i) (patch_column self k j).
Proof.
  intros m C Hwfp Hp Hwft Ht Hps Hknown Hdiff Hnorm.
  destruct (process_values_5d self LT P p t Hwfp Hp Hwft Ht Hps Hknown Hdiff Hnorm)
    as (n & p' & t' & Hn & Hrun & _ & _ & _ & _ & Hval).
  exists n, p', t'. split; [exact Hn|]. split; [exact Hrun|].
  intros lt k i j Hlt Hk Hi Hj. cbv zeta.
  destruct (patch_grid_bounds self n k i j Hps Hn Hk Hi Hj) as [Hrow Hcol].
  split; [exact Hrow|]. split; [exact Hcol|]. exact (Hval lt k i j Hlt Hk Hi Hj).
Qed.

Lemma zip_map {A B C : Type} (f : A -> B) (g : A -> C) (l : list A) :
  zip (map f l) (map g l) = map (fun a => (f a, g a)) l.
Proof. induction l as [|a l IH]; [reflexivity|]. cbn. rewrite IH. reflexivity. Qed.

Section SliceAt.
Context {A : Type}.
Variable zero : A.

Lemma slices_slice_at (t : tensor A) (n : nat) (s : list nat) :
  shape t = n :: s -> slices t = map (slice_at t) (seq 0 n).
Proof. intros H. unfold slices, slice_at. rewrite H. reflexivity. Qed.

Lemma get_slice_at (t : tensor A) (n i : nat) (s idx : list nat) :
  shape t = n :: s -> in_range s idx ->
  get zero (slice_at t i) idx = get zero t (i :: idx).
Proof.
  intros H Hidx. unfold get, slice_at. rewrite H. cbn [tail shape data offset].
  pose proof (offset_lt _ _ Hidx) as Ho.
  rewrite nth_firstn. destruct (Nat.ltb_spec (offset s idx) (numel s)); [|lia].
  rewrite nth_skipn. reflexivity.
Qed.

Lemma wf_slice_at (t : tensor A) (n i : nat) (s : list nat) :
  wf t -> shape t = n :: s -> i < n -> wf (slice_at t i) /\ shape (slice_at t i) = s.
Proof.
  intros Hwf H Hi. unfold wf, slice_at in *. rewrite H in *.
  cbn [tail shape data numel fold_right] in *. fold (numel s) in *.
  split; [|reflexivity]. rewrite length_firstn, length_skipn. nia.
Qed.

Lemma slice_at_build (t : tensor A) (n i : nat) (s : list nat) :
  wf t -> shape t = n :: s -> i < n ->
  slice_at t i = build s (fun idx => get zero t (i :: idx)).
Proof.
  intros Hwf H Hi. destruct (wf_slice_at t n i s Hwf H Hi) as [Hwf' Hs].
  rewrite <- (build_get zero (slice_at t i) Hwf'). rewrite Hs.
  unfold build. f_equal. apply tabulate_ext. intros idx Hidx.
  apply (get_slice_at t n i s idx H Hidx).
Qed.

Lemma slices_stacked (s : list nat) (ts : list (tensor A)) :
  Forall (fun t => shape t = s /\ wf t) ts ->
  map (fun i => Tensor s (firstn (numel s) (skipn (i * numel s) (flat_map data ts))))
      (seq 0 (length ts)) = ts.
Proof.
  induction 1 as [|t ts [Hs Hwf] _ IH]; [reflexivity|].
  cbn [length seq map flat_map]. unfold wf in Hwf. rewrite Hs in Hwf. f_equal.
  - cbn [Nat.mul]. rewrite drop_0, firstn_app, Hwf, Nat.sub_diag, firstn_O, app_nil_r.
    rewrite <- Hwf, firstn_all. destruct t as [s' d]. cbn in *. congruence.
  - rewrite <- seq_shift, map_map. etransitivity; [|exact IH].
    apply map_ext. intros i. f_equal. f_equal.
    replace (S i * numel s) with (i * numel s + length (data t)) by lia.
    rewrite <- skipn_skipn, drop_app_length. reflexivity.
Qed.

Lemma stacked_tensor_slices (s : list nat) (ts : list (tensor A)) :
  ts <> [] ->
  Forall (fun t => shape t = s /\ wf t) ts ->
  stack ts = Ok (stacked_tensor ts) /\
  shape (stacked_tensor ts) = length ts :: s /\
  wf (stacked_tensor ts) /\
  slices (stacked_tensor ts) = ts.
Proof.
  intros Hne Hall.
  assert (match ts with t :: _ => shape t | [] => [] end = s) as Hhd.
  { destruct Hall as [|t ts' [Hs _] _]; [congruence|exact Hs]. }
  assert (stacked_tensor ts = Tensor (length ts :: s) (flat_map data ts)) as Heq
    by (unfold stacked_tensor; rewrite Hhd; reflexivity).
  rewrite Heq. split; [|split; [reflexivity|split]].
  - apply stack_uniform; [exact Hne|].
    eapply Forall_impl; [exact Hall|]. intros t Ht. apply Ht.
  - unfold wf. cbn [shape data numel fold_right]. fold (numel s).
    apply length_flat_map_uniform. intros t Ht. apply list_elem_of_In in Ht.
    rewrite Forall_forall in Hall. destruct (Hall t Ht) as [Hs Hwf].
    unfold wf in Hwf. rewrite Hs in Hwf. exact Hwf.
  - unfold slices. cbn [shape data]. apply slices_stacked. exact Hall.
Qed.

End SliceAt.

Lemma extended_ext (self : Loader) (P : nat) (value value' : nat -> nat -> nat -> float32)
    (lt y x c : nat) :
  (c < P -> value y x c = value' y x c) ->
  extended self P value lt y x c = extended self P value' lt y x c.
Proof. unfold extended. destruct (Nat.ltb_spec c P); auto. Qed.

Lemma extended_position (self : Loader) (P : nat) (value : nat -> nat -> nat -> float32)
    (lt lt' y x c : nat) :
  Forall (fun feature => feature_axis feature <> Some 0) (extra_features self) ->
  extended self P value lt y x c = extended self P value lt' y x c.
Proof.
  intros Hall. unfold extended. destruct (c <? P); [reflexivity|].
  destruct (extra_features self !! (c - P)) as [feature|] eqn:Hf; [|reflexivity].
  rewrite Forall_forall in Hall.
  specialize (Hall feature (list_elem_of_lookup_2 _ _ _ Hf)).
  destruct (feature_axis feature) as [[|axis]|]; [congruence|reflexivity|reflexivity].
Qed.

Lemma process_slice_position (self : Loader) (P n pos : nat) (s : element) :
  Forall (fun feature => feature_axis feature <> Some 0) (extra_features self) ->
  process_slice self P n pos s = process_slice self P n 0 s.
Proof.
  intros Hall. unfold process_slice, build. f_equal; f_equal; apply tabulate_ext;
    intros idx Hidx;
    destruct (in_range_4_inv _ _ _ _ idx Hidx) as (k & i & j & c & -> & _).
  - f_equal. apply extended_position, Hall.
  - unfold differenced. destruct (raw_predictor_index self) as [[Ip|]|]; try reflexivity.
    f_equal. apply extended_position, Hall.
Qed.

Section ProcessSlices.
Variable self : Loader.
Variable P : nat.

Hypothesis Hps : patch_size self <> Some 0.
Hypothesis Hknown :
  Forall (fun feature => is_Some (feature_axis feature)) (extra_features self).
Hypothesis Hdiff :
  predict_diff self = false \/
  exists Ip, raw_predictor_index self = Ok (Some Ip) /\
             Ip < P + length (extra_features self).
Hypothesis Hnorm :
  coefficients self = None \/
  exists tbl, coefficients self = Some tbl /\
              length tbl = P + length (extra_features self).

Lemma process_chunk_slices (k : nat) (e : element) :
  chunk_arrays self P k e ->
  exists n o,
    num_patches_per_file self = Ok n /\
    process self e = Ok o /\
    wf (fst o) /\
    shape (fst o) = [k; n; num_y self; num_x self; P + length (extra_features self)] /\
    wf (snd o) /\
    shape (snd o) = [k; n; num_y self; num_x self; 1] /\
    element_slices o
    = map (fun i => process_slice self P n i (slice_at (fst e) i, slice_at (snd e) i))
          (seq 0 k).
Proof.
  destruct e as [p t]. intros (Hwfp & Hp & Hwft & Ht). cbn [fst snd] in *.
  destruct (process_values_5d self k P p t Hwfp Hp Hwft Ht Hps Hknown Hdiff Hnorm)
    as (n & p' & t' & Hn & Hrun & Hsp & Hst & Hwfp' & Hwft' & Hval).
  exists n, (p', t'). cbn [fst snd].
  split; [exact Hn|]. split; [exact Hrun|]. split; [exact Hwfp'|].
  split; [exact Hsp|]. split; [exact Hwft'|]. split; [exact Hst|].
  unfold element_slices. cbn [fst snd].
  rewrite (slices_slice_at p' _ _ Hsp), (slices_slice_at t' _ _ Hst), zip_map.
  apply map_ext_in. intros i Hi. apply in_seq in Hi.
  assert (i < k) as Hik by lia.
  unfold process_slice. cbn [fst snd].
  rewrite (slice_at_build f32_zero p' _ i _ Hwfp' Hsp Hik).
  rewrite (slice_at_build f32_zero t' _ i _ Hwft' Hst Hik).
  unfold build. f_equal; f_equal; apply tabulate_ext; intros idx Hidx;
    destruct (in_range_4_inv _ _ _ _ idx Hidx) as (k0 & a & b & c & -> & Hk0 & Ha & Hb & Hc);
    destruct (Hval i k0 a b Hik Hk0 Ha Hb) as [Hpv Htv];
    destruct (patch_grid_bounds self n k0 a b Hps Hn Hk0 Ha Hb) as [Hrow Hcol].
  - rewrite (Hpv c Hc). f_equal. apply extended_ext. intros HcP. symmetry.
    apply (get_slice_at f32_zero p _ i _ _ Hp). repeat constructor; assumption.
  - assert (c = 0) as -> by lia. rewrite Htv. unfold differenced.
    assert (get f32_zero t [i; patch_row self k0 a; patch_column self k0 b; 0]
            = get f32_zero (slice_at t i) [patch_row self k0 a; patch_column self k0 b; 0])
      as Htarget.
    { symmetry. apply (get_slice_at f32_zero t _ i _ _ Ht).
      repeat constructor; (assumption || lia). }
    destruct (raw_predictor_index self) as [[Ip|]|]; try exact Htarget.
    rewrite Htarget. f_equal. apply extended_ext. intros HIp. symmetry.
    apply (get_slice_at f32_zero p _ i _ _ Hp). repeat constructor; assumption.
Qed.

End ProcessSlices.

Lemma zip_fst_snd_map {A B : Type} (l : list (A * B)) : zip (map fst l) (map snd l) = l.
Proof. induction l as [|[a b] l IH]; [reflexivity|]. cbn. rewrite IH. reflexivity. Qed.

Lemma unbatch_leading (dataset : list element) :
  Forall (fun e => exists k, leading k e) dataset ->
  unbatch dataset = Ok (List.concat (map element_slices dataset)).
Proof.
  intros Hall. unfold unbatch.
  rewrite (map_result_map unbatch_element element_slices); [reflexivity|].
  eapply Forall_impl; [exact Hall|]. intros e (k & Hk).
  apply (unbatch_element_leading k e Hk).
Qed.

Lemma chunk_arrays_leading (self : Loader) (P k : nat) (e : element) :
  chunk_arrays self P k e -> leading k e.
Proof. intros (Hwfp & Hp & Hwft & Ht). repeat split; eauto. Qed.

Lemma chunk_slices (self : Loader) (P k : nat) (e : element) :
  chunk_arrays self P k e ->
  element_slices e = map (fun i => (slice_at (fst e) i, slice_at (snd e) i)) (seq 0 k) /\
  Forall (slice_arrays self P) (element_slices e).
Proof.
  intros (Hwfp & Hp & Hwft & Ht).
  assert (element_slices e
          = map (fun i => (slice_at (fst e) i, slice_at (snd e) i)) (seq 0 k)) as Heq.
  { unfold element_slices.
    rewrite (slices_slice_at (fst e) _ _ Hp), (slices_slice_at (snd e) _ _ Ht).
    apply zip_map. }
  split; [exact Heq|]. rewrite Heq. apply Forall_map, Forall_forall.
  intros i Hi. apply elem_of_seq in Hi.
  destruct (wf_slice_at (fst e) _ i _ Hwfp Hp ltac:(lia)) as [H1 H2].
  destruct (wf_slice_at (snd e) _ i _ Hwft Ht ltac:(lia)) as [H3 H4].
  repeat split; assumption.
Qed.

Lemma stacked_chunk (self : Loader) (P : nat) (g : list element) :
  g <> [] ->
  Forall (slice_arrays self P) g ->
  batch_element g = Ok (stacked g) /\
  chunk_arrays self P (length g) (stacked g) /\
  element_slices (stacked g) = g.
Proof.
  intros Hne Hall.
  destruct (stacked_tensor_slices
              [num_y_input (metadata self); num_x_input (metadata self); P] (map fst g))
    as (Hp1 & Hp2 & Hp3 & Hp4).
  { destruct g; [congruence|discriminate]. }
  { apply Forall_map. eapply Forall_impl; [exact Hall|].
    intros e (H1 & H2 & _). split; assumption. }
  destruct (stacked_tensor_slices
              [num_y_input (metadata self); num_x_input (metadata self); 1] (map snd g))
    as (Ht1 & Ht2 & Ht3 & Ht4).
  { destruct g; [congruence|discriminate]. }
  { apply Forall_map. eapply Forall_impl; [exact Hall|].
    intros e (_ & _ & H3 & H4). split; assumption. }
  rewrite length_map in Hp2, Ht2. split; [|split].
  - unfold batch_element. rewrite Hp1, Ht1. reflexivity.
  - repeat split; assumption.
  - unfold element_slices, stacked. cbn [fst snd]. rewrite Hp4, Ht4.
    apply zip_fst_snd_map.
Qed.

Section Threads.
Variable open_dataset : string -> result Dataset.
Variable self : Loader.
Variable P : nat.

Hypothesis Hps : patch_size self <> Some 0.
Hypothesis Hknown :
  Forall (fun feature => is_Some (feature_axis feature)) (extra_features self).
Hypothesis Hdiff :
  predict_diff self = false \/
  exists Ip, raw_predictor_index self = Ok (Some Ip) /\
             Ip < P + length (extra_features self).
Hypothesis Hnorm :
  coefficients self = None \/
  exists tbl, coefficients self = Some tbl /\
              length tbl = P + length (extra_features self).
Hypothesis Hposition :
  Forall (fun feature => feature_axis feature <> Some 0) (extra_features self).

Lemma process_chunk (n k : nat) (e : element) :
  num_patches_per_file self = Ok n ->
  chunk_arrays self P k e ->
  exists o,
    process self e = Ok o /\ leading k o /\
    element_slices o = map (process_slice self P n 0) (element_slices e).
Proof.
  intros Hn He.
  destruct (process_chunk_slices self P Hps Hknown Hdiff Hnorm k e He)
    as (n' & o & Hn' & Hrun & Hwfp & Hsp & Hwft & Hst & Hslices).
  assert (n' = n) as -> by congruence.
  exists o. split; [exact Hrun|]. split; [repeat split; eauto|].
  rewrite Hslices, (proj1 (chunk_slices self P k e He)), map_map.
  apply map_ext. intros i. apply process_slice_position, Hposition.
Qed.

Lemma process_all (n : nat) (chunks : list element) :
  num_patches_per_file self = Ok n ->
  Forall (fun e => exists k, chunk_arrays self P k e) chunks ->
  exists outs,
    map_result (process self) chunks = Ok outs /\
    Forall (fun o => exists k, leading k o) outs /\
    List.concat (map element_slices outs)
    = map (process_slice self P n 0) (List.concat (map element_slices chunks)).
Proof.
  intros Hn. induction 1 as [|e chunks (k & He) _ (outs & Hrun & Hlead & Hslices)].
  - exists []. repeat split. constructor.
  - destruct (process_chunk n k e Hn He) as (o & Ho & Hk & Hs).
    exists (o :: outs). cbn [map_result]. rewrite Ho, Hrun. cbn [bind].
    split; [reflexivity|]. split; [constructor; eauto|].
    cbn [map List.concat]. rewrite map_app, Hs, Hslices. reflexivity.
Qed.

Lemma stream_chunks (z : list nat) (size : nat) :
  0 < size ->
  0 < num_leadtimes (metadata self) ->
  Forall (fun index => exists e, load_file open_dataset self index = Ok e /\
                                 file_arrays self P e) z ->
  stream open_dataset self z (Some size) = stream open_dataset self z None.
Proof.
  intros Hsize HLT Hz.
  destruct (num_patches_per_file_Ok self Hps) as (n & Hn).
  destruct (map_result_Forall _ _ _ Hz) as (loaded & Hload & Hloaded & _).
  assert (Forall (fun e => exists k, chunk_arrays self P k e) loaded) as Hfiles.
  { eapply Forall_impl; [exact Hloaded|]. intros e He. eexists. exact He. }
  destruct (process_all n loaded Hn Hfiles) as (outs & Hproc & Houts & Hslices).
  assert (Forall (leading (num_leadtimes (metadata self))) outs) as Hleading.
  { destruct (map_result_process self P Hps Hknown Hdiff Hnorm n loaded Hn Hloaded)
      as (outs' & Hproc' & Houts' & _).
    assert (outs' = outs) as -> by congruence.
    eapply Forall_impl; [exact Houts'|]. intros e (Hwfp & Hp & Hwft & Ht).
    repeat split; eauto. }
  set (samples := List.concat (map element_slices loaded)) in *.
  assert (Forall (slice_arrays self P) samples) as Hsamples.
  { apply Forall_concat, Forall_map. eapply Forall_impl; [exact Hloaded|].
    intros e He. apply (chunk_slices self P _ e He). }
  destruct (groups_spec size Hsize (length samples) samples (le_n _))
    as (Hcat & Hgroups & _).
  assert (Forall (fun g => g <> [] /\ Forall (slice_arrays self P) g)
                 (groups (length samples) size samples)) as Hgs.
  { eapply Forall_impl; [exact Hgroups|]. intros g ((Hl & _) & k & Hg). cbn beta. split.
    - destruct g; [cbn in Hl; lia|discriminate].
    - rewrite Hg. apply Forall_take, Forall_drop, Hsamples. }
  assert (batch size samples = Ok (map stacked (groups (length samples) size samples)))
    as Hbatch.
  { unfold batch. destruct (Nat.eqb_spec size 0); [lia|]. apply map_result_map.
    eapply Forall_impl; [exact Hgs|]. intros g [Hne Hg].
    apply (stacked_chunk self P g Hne Hg). }
  assert (Forall (fun e => exists k, chunk_arrays self P k e)
                 (map stacked (groups (length samples) size samples))) as Hchunks.
  { apply Forall_map. eapply Forall_impl; [exact Hgs|]. intros g [Hne Hg].
    exists (length g). apply (stacked_chunk self P g Hne Hg). }
  destruct (process_all n _ Hn Hchunks) as (os & Hos & Hlead & Hoslices).
  assert (List.concat (map element_slices (map stacked (groups (length samples) size samples)))
          = samples) as Hback.
  { transitivity (List.concat (groups (length samples) size samples)); [|exact Hcat].
    f_equal. rewrite map_map.
    etransitivity; [apply (map_ext_Forall _ (fun g => g))|apply map_id].
    eapply Forall_impl; [exact Hgs|]. intros g [Hne Hg].
    apply (stacked_chunk self P g Hne Hg). }
  rewrite Hback, <- Hslices in Hoslices.
  pose proof (unbatch_batch _ outs HLT Hleading) as Hregroup.
  rewrite (unbatch_leading outs Houts) in Hregroup. cbn [bind] in Hregroup.
  unfold stream. cbv zeta. rewrite (map_result_py_function _ _ _ Hload). cbn [bind].
  rewrite (unbatch_leading loaded).
  2:{ eapply Forall_impl; [exact Hfiles|]. intros e (k & He). exists k.
      apply (chunk_arrays_leading self P k e He). }
  cbn [bind]. fold samples. rewrite Hbatch. cbn [bind]. rewrite Hos. cbn [bind].
  rewrite (unbatch_leading os Hlead). cbn [bind]. rewrite Hoslices, Hregroup.
  cbn [bind]. rewrite Hproc. reflexivity.
Qed.

End Threads.

(** X17.  Take a loader with a patch size other than 0, extra features of
    the types ["x"] and ["y"] only, the raw forecast among the channels
    when differencing is on and one table row per channel when
    normalization is on, with no number of threads fixed in the loader,
    at least one lead time in the metadata and every streamed file giving
    arrays of the shape in the metadata.  Without an extra feature of
    type ["leadtime"], as here, the number of threads does not change
    what the dataset gives.  For
    every [num_parallel_calls >= 1] the lead times are split into chunks
    (which may span two files), processed chunk by chunk and collected
    again, and the result is that of [tf.data.AUTOTUNE], which does not
    split. *)
Theorem get_dataset_threads (open_dataset : string -> result Dataset) (self : Loader)
    (P : nat) (randomized : option (list nat)) (repeat : option nat) (calls : nat) :
  patch_size self <> Some 0 ->
  Forall (fun feature => is_Some (feature_axis feature)) (extra_features self) ->
  (predict_diff self = false \/
   exists Ip, raw_predictor_index self = Ok (Some Ip) /\
              Ip < P + length (extra_features self)) ->
  (coefficients self = None \/
   exists tbl, coefficients self = Some tbl /\
               length tbl = P + length (extra_features self)) ->
  Forall (fun feature => feature_axis feature <> Some 0) (extra_features self) ->
  arg_num_parallel_calls (args self) = None ->
  0 < calls ->
  0 < num_leadtimes (metadata self) ->
  Forall (fun index => exists e, load_file open_dataset self index = Ok e /\
                                 file_arrays self P e)
         (file_indices self randomized repeat) ->
  get_dataset open_dataset self randomized (Calls calls) repeat
  = get_dataset open_dataset self randomized Autotune repeat.
Proof.
  intros Hps Hknown Hdiff Hnorm Hposition Hcalls Hpos HLT Hz.
  unfold get_dataset. rewrite Hcalls.
  destruct (Nat.eqb_spec calls 0) as [H0|_]; [lia|].
  assert (0 < ceil_div (num_leadtimes (metadata self)) calls) as Hsize.
  { unfold ceil_div.
    apply Nat.div_str_pos. lia. }
  destruct (Nat.eqb_spec (ceil_div (num_leadtimes (metadata self)) calls) 0) as [H0|_];
    [lia|].
  cbn [bind].
  destruct (Nat.eqb_spec (num_leadtimes (metadata self)) 0) as [H0|_]; [lia|].
  cbn [bind]. fold (file_indices self randomized repeat).
  rewrite (stream_chunks open_dataset self P Hps Hknown Hdiff Hnorm Hposition
             _ _ Hsize HLT Hz).
  reflexivity.
Qed.

(** ** The positions that the dimension limits select *)

Lemma norm_index_lt (n : nat) (i : Z) (k : nat) : norm_index n i = Some k -> k < n.
Proof.
  unfold norm_index. intros H.
  destruct ((0 <=? i)%Z && (i <? Z.of_nat n)%Z) eqn:H1.
  - injection H as <-. apply andb_true_iff in H1 as [Ha Hb]. lia.
  - destruct ((- Z.of_nat n <=? i)%Z && (i <? 0)%Z) eqn:H2; [|discriminate].
    injection H as <-. apply andb_true_iff in H2 as [Ha Hb]. lia.
Qed.

Lemma selection_lt (n : nat) (r : option (list Z)) (sel : list nat) (x : nat) :
  selection n r = Some sel -> x < length sel -> nth x sel 0 < n.
Proof.
  intros Hsel Hx. destruct r as [idxs|]; cbn in Hsel.
  - apply mapM_Some in Hsel.
    destruct (lookup_lt_is_Some_2 sel x Hx) as [k Hk].
    rewrite (nth_lookup_Some _ _ _ _ Hk).
    destruct (Forall2_lookup_r _ _ _ _ _ Hsel Hk) as (i & _ & Hi).
    apply (norm_index_lt n i k Hi).
  - injection Hsel as <-. rewrite length_seq in Hx. rewrite seq_nth by exact Hx. lia.
Qed.

Lemma map_nth_seq_id {A : Type} (l : list A) (d : A) :
  map (fun i => nth i l d) (seq 0 (length l)) = l.
Proof.
  induction l as [|x l IH]; [reflexivity|].
  cbn [length seq map nth]. f_equal. rewrite <- seq_shift, map_map. exact IH.
Qed.

Lemma take_list_selection {A : Type} (l : list A) (d : A) (idxs : list Z) (sel : list nat) :
  mapM (norm_index (length l)) idxs = Some sel ->
  take_list idxs l = Ok (map (fun i => nth i l d) sel).
Proof.
  intros H. apply mapM_Some in H. unfold take_list.
  assert (mapM (fun i => norm_index (length l) i ≫= (l !!.)) idxs
          = Some (map (fun i => nth i l d) sel)) as ->; [|reflexivity].
  apply mapM_Some. induction H as [|i k idxs sel Hk _ IH]; cbn [map]; constructor.
  - rewrite Hk. cbn.
    destruct (lookup_lt_is_Some_2 l k (norm_index_lt _ _ _ Hk)) as [x Hx].
    rewrite Hx, (nth_lookup_Some _ _ d _ Hx). reflexivity.
  - exact IH.
Qed.

Lemma take_list_IndexError {A : Type} (l : list A) (idxs : list Z) :
  mapM (norm_index (length l)) idxs = None -> take_list idxs l = Err IndexError.
Proof.
  intros H. apply mapM_None in H. unfold take_list.
  assert (mapM (fun i => norm_index (length l) i ≫= (l !!.)) idxs = None) as ->;
    [|reflexivity].
  apply mapM_None. eapply Exists_impl; [exact H|]. intros i Hi. rewrite Hi. reflexivity.
Qed.

Lemma matching_indices_positions (allowed names : list string) :
  forall pre : list string,
    mapM (norm_index (length (pre ++ names))) (matching_indices (length pre) names allowed)
    = Some (filter (fun i => nth i (pre ++ names) ""%string ∈ allowed)
                   (seq (length pre) (length names))).
Proof.
  induction names as [|name names IH]; intros pre; [reflexivity|].
  cbn [matching_indices length seq].
  specialize (IH (pre ++ [name])). rewrite <- app_assoc in IH. cbn [app] in IH.
  replace (length (pre ++ [name])) with (S (length pre)) in IH
    by (rewrite length_app; cbn; lia).
  assert (nth (length pre) (pre ++ name :: names) ""%string = name) as Hnth
    by (rewrite app_nth2, Nat.sub_diag by lia; reflexivity).
  destruct (decide (name ∈ allowed)) as [Hin|Hout].
  - rewrite bool_decide_eq_true_2 by exact Hin.
    rewrite filter_cons_True by (rewrite Hnth; exact Hin).
    cbn [mapM]. rewrite norm_index_nat by (rewrite length_app; cbn; lia).
    cbn. rewrite IH. reflexivity.
  - rewrite bool_decide_eq_false_2 by exact Hout.
    rewrite filter_cons_False by (rewrite Hnth; exact Hout).
    exact IH.
Qed.

Lemma selection_allowed (names : list string) (allowed : option (list string)) :
  selection (length names) (matching_indices 0 names <$> allowed)
  = Some (allowed_positions names allowed).
Proof.
  destruct allowed as [al|]; [|reflexivity]. cbn [fmap option_fmap option_map selection].
  apply (matching_indices_positions al names []).
Qed.

Lemma take_axis_spec (axis n : nat) (idxs : list Z) (sel : list nat) (t : tensor float32) :
  shape t !! axis = Some n ->
  mapM (norm_index n) idxs = Some sel ->
  exists t',
    take_axis f32_zero axis idxs t = Ok t' /\
    shape t' = <[axis := length sel]> (shape t) /\
    forall idx, in_range (<[axis := length sel]> (shape t)) idx ->
      get f32_zero t' idx = get f32_zero t (<[axis := nth (nth axis idx 0) sel 0]> idx).
Proof.
  intros Hn Hsel. unfold take_axis. rewrite Hn, Hsel. cbn [of_option bind].
  eexists. split; [reflexivity|]. split; [reflexivity|].
  intros idx Hidx. rewrite get_build by exact Hidx. reflexivity.
Qed.

Lemma reindexed_refl (ds : Dataset) :
  consistent_shapes ds ->
  reindexed (seq 0 (length (ds_leadtime ds))) (seq 0 (ds_y ds)) (seq 0 (ds_x ds))
            (seq 0 (length (ds_predictor ds))) (seq 0 (length (ds_static_predictor ds)))
            ds ds.
Proof.
  intros (Hp & Hs & Ht). unfold reindexed. rewrite !length_seq, !map_nth_seq_id.
  repeat split; try assumption; intros; rewrite !seq_nth by assumption; reflexivity.
Qed.

Lemma reindexed_consistent (sl sy sx sp ss : list nat) (ds ds' : Dataset) :
  reindexed sl sy sx sp ss ds ds' -> consistent_shapes ds'.
Proof.
  intros (Hl & Hp & Hs & Hy & Hx & Hps & Hss & Hts & _).
  unfold consistent_shapes. rewrite Hl, Hp, Hs, Hy, Hx, !length_map.
  repeat split; assumption.
Qed.

Ltac reindex_values Hsel :=
  intros;
  match goal with
  | Hget : forall idx, in_range _ idx -> get f32_zero ?t idx = _
    |- get f32_zero ?t _ = _ =>
      rewrite Hget by (repeat constructor; assumption)
  end;
  cbn [nth insert list_insert];
  match goal with
  | Hval : forall _ _ _ _, _ -> _ -> _ -> _ -> get f32_zero ?t _ = _
    |- get f32_zero ?t _ = _ =>
      rewrite Hval;
      rewrite ?length_seq, ?seq_nth;
      try assumption; try (apply (selection_lt _ _ _ _ Hsel); assumption);
      try reflexivity
  | Hval : forall _ _ _, _ -> _ -> _ -> get f32_zero ?t _ = _
    |- get f32_zero ?t _ = _ =>
      rewrite Hval;
      rewrite ?length_seq, ?seq_nth;
      try assumption; try (apply (selection_lt _ _ _ _ Hsel); assumption);
      try reflexivity
  end.

Lemma step_x (r : option (list Z)) (sl sy sx sp ss : list nat) (ds ds1 : Dataset) :
  reindexed sl sy (seq 0 (ds_x ds)) sp ss ds ds1 ->
  selection (ds_x ds) r = Some sx ->
  exists ds2,
    match r with Some idxs => isel_x idxs ds1 | None => Ok ds1 end = Ok ds2 /\
    reindexed sl sy sx sp ss ds ds2.
Proof.
  intros Hre Hsel. destruct r as [idxs|]; cbn in Hsel.
  2:{ injection Hsel as <-. exists ds1. split; [reflexivity|exact Hre]. }
  pose proof Hsel as Hsel'. change (selection (ds_x ds) (Some idxs) = Some sx) in Hsel'.
  destruct Hre as (Hl & Hp & Hs & Hy & Hx & Hps & Hss & Hts & Hpv & Hsv & Htv).
  rewrite length_seq in *.
  destruct (take_axis_spec 2 (ds_x ds) idxs sx (ds_predictors ds1))
    as (p' & Hp' & Hsp' & Hgp); [rewrite Hps; reflexivity|exact Hsel|].
  destruct (take_axis_spec 1 (ds_x ds) idxs sx (ds_static_predictors ds1))
    as (s' & Hs' & Hss' & Hgs); [rewrite Hss; reflexivity|exact Hsel|].
  destruct (take_axis_spec 2 (ds_x ds) idxs sx (ds_target_mean ds1))
    as (t' & Ht' & Hst' & Hgt); [rewrite Hts; reflexivity|exact Hsel|].
  rewrite Hps in Hsp', Hgp. rewrite Hss in Hss', Hgs. rewrite Hts in Hst', Hgt.
  cbn [insert list_insert] in *.
  unfold isel_x. rewrite Hx, Hsel, Hp', Hs', Ht'. cbn [of_option bind].
  eexists. split; [reflexivity|]. unfold reindexed.
  cbn [ds_leadtime ds_predictor ds_static_predictor ds_y ds_x ds_predictors
       ds_static_predictors ds_target_mean].
  split; [exact Hl|]. split; [exact Hp|]. split; [exact Hs|]. split; [exact Hy|].
  split; [reflexivity|]. split; [exact Hsp'|]. split; [exact Hss'|]. split; [exact Hst'|].
  split; [|split]; reindex_values Hsel'.
Qed.

Lemma step_y (r : option (list Z)) (sl sy sx sp ss : list nat) (ds ds1 : Dataset) :
  reindexed sl (seq 0 (ds_y ds)) sx sp ss ds ds1 ->
  selection (ds_y ds) r = Some sy ->
  exists ds2,
    match r with Some idxs => isel_y idxs ds1 | None => Ok ds1 end = Ok ds2 /\
    reindexed sl sy sx sp ss ds ds2.
Proof.
  intros Hre Hsel. destruct r as [idxs|]; cbn in Hsel.
  2:{ injection Hsel as <-. exists ds1. split; [reflexivity|exact Hre]. }
  pose proof Hsel as Hsel'. change (selection (ds_y ds) (Some idxs) = Some sy) in Hsel'.
  destruct Hre as (Hl & Hp & Hs & Hy & Hx & Hps & Hss & Hts & Hpv & Hsv & Htv).
  rewrite length_seq in *.
  destruct (take_axis_spec 1 (ds_y ds) idxs sy (ds_predictors ds1))
    as (p' & Hp' & Hsp' & Hgp); [rewrite Hps; reflexivity|exact Hsel|].
  destruct (take_axis_spec 0 (ds_y ds) idxs sy (ds_static_predictors ds1))
    as (s' & Hs' & Hss' & Hgs); [rewrite Hss; reflexivity|exact Hsel|].
  destruct (take_axis_spec 1 (ds_y ds) idxs sy (ds_target_mean ds1))
    as (t' & Ht' & Hst' & Hgt); [rewrite Hts; reflexivity|exact Hsel|].
  rewrite Hps in Hsp', Hgp. rewrite Hss in Hss', Hgs. rewrite Hts in Hst', Hgt.
  cbn [insert list_insert] in *.
  unfold isel_y. rewrite Hy, Hsel, Hp', Hs', Ht'. cbn [of_option bind].
  eexists. split; [reflexivity|]. unfold reindexed.
  cbn [ds_leadtime ds_predictor ds_static_predictor ds_y ds_x ds_predictors
       ds_static_predictors ds_target_mean].
  split; [exact Hl|]. split; [exact Hp|]. split; [exact Hs|]. split; [reflexivity|].
  split; [exact Hx|]. split; [exact Hsp'|]. split; [exact Hss'|]. split; [exact Hst'|].
  split; [|split]; reindex_values Hsel'.
Qed.

Lemma step_leadtime (r : option (list Z)) (sl sy sx sp ss : list nat) (ds ds1 : Dataset) :
  reindexed (seq 0 (length (ds_leadtime ds))) sy sx sp ss ds ds1 ->
  selection (length (ds_leadtime ds)) r = Some sl ->
  exists ds2,
    match r with Some idxs => isel_leadtime idxs ds1 | None => Ok ds1 end = Ok ds2 /\
    reindexed sl sy sx sp ss ds ds2.
Proof.
  intros Hre Hsel. destruct r as [idxs|]; cbn in Hsel.
  2:{ injection Hsel as <-. exists ds1. split; [reflexivity|exact Hre]. }
  pose proof Hsel as Hsel'.
  change (selection (length (ds_leadtime ds)) (Some idxs) = Some sl) in Hsel'.
  destruct Hre as (Hl & Hp & Hs & Hy & Hx & Hps & Hss & Hts & Hpv & Hsv & Htv).
  rewrite map_nth_seq_id in Hl. rewrite length_seq in *.
  destruct (take_axis_spec 0 (length (ds_leadtime ds)) idxs sl (ds_predictors ds1))
    as (p' & Hp' & Hsp' & Hgp); [rewrite Hps; reflexivity|exact Hsel|].
  destruct (take_axis_spec 0 (length (ds_leadtime ds)) idxs sl (ds_target_mean ds1))
    as (t' & Ht' & Hst' & Hgt); [rewrite Hts; reflexivity|exact Hsel|].
  rewrite Hps in Hsp', Hgp. rewrite Hts in Hst', Hgt.
  cbn [insert list_insert] in *.
  unfold isel_leadtime. rewrite Hl.
  rewrite (take_list_selection (ds_leadtime ds) 0%Z idxs sl Hsel), Hp', Ht'.
  cbn [of_option bind].
  eexists. split; [reflexivity|]. unfold reindexed.
  cbn [ds_leadtime ds_predictor ds_static_predictor ds_y ds_x ds_predictors
       ds_static_predictors ds_target_mean].
  split; [reflexivity|]. split; [exact Hp|]. split; [exact Hs|]. split; [exact Hy|].
  split; [exact Hx|]. split; [exact Hsp'|]. split; [exact Hss|]. split; [exact Hst'|].
  split; [|split]; [reindex_values Hsel'|exact Hsv|reindex_values Hsel'].
Qed.

Lemma step_predictor (r : option (list Z)) (sl sy sx sp ss : list nat) (ds ds1 : Dataset) :
  reindexed sl sy sx (seq 0 (length (ds_predictor ds))) ss ds ds1 ->
  selection (length (ds_predictor ds)) r = Some sp ->
  exists ds2,
    match r with Some idxs => isel_predictor idxs ds1 | None => Ok ds1 end = Ok ds2 /\
    reindexed sl sy sx sp ss ds ds2.
Proof.
  intros Hre Hsel. destruct r as [idxs|]; cbn in Hsel.
  2:{ injection Hsel as <-. exists ds1. split; [reflexivity|exact Hre]. }
  pose proof Hsel as Hsel'.
  change (selection (length (ds_predictor ds)) (Some idxs) = Some sp) in Hsel'.
  destruct Hre as (Hl & Hp & Hs & Hy & Hx & Hps & Hss & Hts & Hpv & Hsv & Htv).
  rewrite map_nth_seq_id in Hp. rewrite length_seq in *.
  destruct (take_axis_spec 3 (length (ds_predictor ds)) idxs sp (ds_predictors ds1))
    as (p' & Hp' & Hsp' & Hgp); [rewrite Hps; reflexivity|exact Hsel|].
  rewrite Hps in Hsp', Hgp. cbn [insert list_insert] in *.
  unfold isel_predictor. rewrite Hp.
  rewrite (take_list_selection (ds_predictor ds) ""%string idxs sp Hsel), Hp'.
  cbn [of_option bind].
  eexists. split; [reflexivity|]. unfold reindexed.
  cbn [ds_leadtime ds_predictor ds_static_predictor ds_y ds_x ds_predictors
       ds_static_predictors ds_target_mean].
  split; [exact Hl|]. split; [reflexivity|]. split; [exact Hs|]. split; [exact Hy|].
  split; [exact Hx|]. split; [exact Hsp'|]. split; [exact Hss|]. split; [exact Hts|].
  split; [|split]; [reindex_values Hsel'|exact Hsv|exact Htv].
Qed.

Lemma step_static_predictor (r : option (list Z)) (sl sy sx sp ss : list nat)
    (ds ds1 : Dataset) :
  reindexed sl sy sx sp (seq 0 (length (ds_static_predictor ds))) ds ds1 ->
  selection (length (ds_static_predictor ds)) r = Some ss ->
  exists ds2,
    match r with Some idxs => isel_static_predictor idxs ds1 | None => Ok ds1 end = Ok ds2 /\
    reindexed sl sy sx sp ss ds ds2.
Proof.
  intros Hre Hsel. destruct r as [idxs|]; cbn in Hsel.
  2:{ injection Hsel as <-. exists ds1. split; [reflexivity|exact Hre]. }
  pose proof Hsel as Hsel'.
  change (selection (length (ds_static_predictor ds)) (Some idxs) = Some ss) in Hsel'.
  destruct Hre as (Hl & Hp & Hs & Hy & Hx & Hps & Hss & Hts & Hpv & Hsv & Htv).
  rewrite map_nth_seq_id in Hs. rewrite length_seq in *.
  destruct (take_axis_spec 2 (length (ds_static_predictor ds)) idxs ss
              (ds_static_predictors ds1))
    as (s' & Hs' & Hss' & Hgs); [rewrite Hss; reflexivity|exact Hsel|].
  rewrite Hss in Hss', Hgs. cbn [insert list_insert] in *.
  unfold isel_static_predictor. rewrite Hs.
  rewrite (take_list_selection (ds_static_predictor ds) ""%string idxs ss Hsel), Hs'.
  cbn [of_option bind].
  eexists. split; [reflexivity|]. unfold reindexed.
  cbn [ds_leadtime ds_predictor ds_static_predictor ds_y ds_x ds_predictors
       ds_static_predictors ds_target_mean].
  split; [exact Hl|]. split; [exact Hp|]. split; [reflexivity|]. split; [exact Hy|].
  split; [exact Hx|]. split; [exact Hps|]. split; [exact Hss'|]. split; [exact Hts|].
  split; [|split]; [exact Hpv|reindex_values Hsel'|exact Htv].
Qed.

Lemma isel_reindexed (limit : gmap string (list Z)) (sl sy sx sp ss : list nat)
    (ds : Dataset) :
  consistent_shapes ds ->
  selection (length (ds_predictor ds)) (limit !! "predictor") = Some sp ->
  selection (length (ds_static_predictor ds)) (limit !! "static_predictor") = Some ss ->
  selection (length (ds_leadtime ds)) (limit !! "leadtime") = Some sl ->
  selection (ds_x ds) (limit !! "x") = Some sx ->
  selection (ds_y ds) (limit !! "y") = Some sy ->
  exists ds', isel limit ds = Ok ds' /\ reindexed sl sy sx sp ss ds ds'.
Proof.
  intros Hds Hp Hs Hl Hx Hy. unfold isel, isel_key.
  destruct (step_predictor _ _ _ _ _ _ ds ds (reindexed_refl ds Hds) Hp) as (ds1 & -> & H1).
  cbn [bind].
  destruct (step_static_predictor _ _ _ _ _ _ ds ds1 H1 Hs) as (ds2 & -> & H2).
  cbn [bind].
  destruct (step_leadtime _ _ _ _ _ _ ds ds2 H2 Hl) as (ds3 & -> & H3). cbn [bind].
  destruct (step_x _ _ _ _ _ _ ds ds3 H3 Hx) as (ds4 & -> & H4). cbn [bind].
  destruct (step_y _ _ _ _ _ _ ds ds4 H4 Hy) as (ds5 & -> & H5).
  exists ds5. split; [reflexivity|exact H5].
Qed.

Lemma isel_IndexError (limit : gmap string (list Z)) (sp ss : list nat) (ds : Dataset) :
  consistent_shapes ds ->
  selection (length (ds_predictor ds)) (limit !! "predictor") = Some sp ->
  selection (length (ds_static_predictor ds)) (limit !! "static_predictor") = Some ss ->
  selection (length (ds_leadtime ds)) (limit !! "leadtime") = None \/
  selection (ds_x ds) (limit !! "x") = None \/
  selection (ds_y ds) (limit !! "y") = None ->
  isel limit ds = Err IndexError.
Proof.
  intros Hds Hp Hs Hnone. unfold isel, isel_key.
  destruct (step_predictor _ _ _ _ _ _ ds ds (reindexed_refl ds Hds) Hp) as (ds1 & -> & H1).
  cbn [bind].
  destruct (step_static_predictor _ _ _ _ _ _ ds ds1 H1 Hs) as (ds2 & -> & H2).
  cbn [bind].
  destruct (selection (length (ds_leadtime ds)) (limit !! "leadtime")) as [sl|] eqn:Hl.
  - destruct (step_leadtime _ _ _ _ _ _ ds ds2 H2 Hl) as (ds3 & -> & H3). cbn [bind].
    destruct (selection (ds_x ds) (limit !! "x")) as [sx|] eqn:Hx.
    + destruct (step_x _ _ _ _ _ _ ds ds3 H3 Hx) as (ds4 & -> & H4). cbn [bind].
      destruct Hnone as [Hnone|[Hnone|Hy]]; try discriminate.
      destruct (limit !! "y") as [ys|]; cbn in Hy; [|discriminate].
      destruct H4 as (_ & _ & _ & Hy4 & _). rewrite length_seq in Hy4.
      unfold isel_y. rewrite Hy4, Hy. reflexivity.
    + destruct (limit !! "x") as [xs|]; cbn in Hx; [|discriminate].
      destruct H3 as (_ & _ & _ & _ & Hx3 & _). rewrite length_seq in Hx3.
      unfold isel_x. rewrite Hx3, Hx. reflexivity.
  - destruct (limit !! "leadtime") as [ls|]; cbn in Hl; [|discriminate].
    destruct H2 as (Hl2 & _). rewrite map_nth_seq_id in Hl2.
    unfold isel_leadtime. rewrite Hl2, (take_list_IndexError _ _ Hl). reflexivity.
Qed.

Lemma get_dimension_limits_lookups (a : Args) (ds : Dataset) :
  exists limit,
    get_dimension_limits a ds None = Ok limit /\
    limit !! "predictor" = matching_indices 0 (ds_predictor ds) <$> arg_limit_predictors a /\
    limit !! "static_predictor"
    = matching_indices 0 (ds_static_predictor ds) <$> arg_limit_predictors a /\
    limit !! "leadtime" = arg_limit_leadtimes a /\
    limit !! "x" = arg_x_range a /\
    limit !! "y" = arg_y_range a.
Proof.
  unfold get_dimension_limits.
  destruct (arg_limit_predictors a) as [al|], (arg_limit_leadtimes a) as [ls|],
    (arg_x_range a) as [xs|], (arg_y_range a) as [ys|];
    cbn [bind]; (eexists; split; [reflexivity|]);
    rewrite ?(lookup_insert_ne (M:=gmap string)) by discriminate;
    rewrite ?lookup_insert_eq, ?lookup_empty; repeat split.
Qed.

Section Limits.
Variable open_dataset : string -> result Dataset.

(** X18.  The dimension limits select by position (a negative position
    counting from the end) and by name: [limit_leadtimes], [y_range] and
    [x_range] list the positions of the lead times, rows and columns that
    are kept, in the order in which they are listed, and a predictor
    allow-list keeps the dynamic and the static predictors whose names it
    contains, in the order of the archive.  The arrays that [parse_file]
    returns have one entry per kept position along every axis and hold
    what the archive holds there, the static predictors in the channels
    after the dynamic ones.  A position outside the archive makes the read
    raise [IndexError]. *)
Theorem limits_select_positions (self : Loader) (filename : string) (ds : Dataset) :
  open_dataset filename = Ok ds ->
  consistent_shapes ds ->
  let sp := allowed_positions (ds_predictor ds) (limit_predictors self) in
  let ss := allowed_positions (ds_static_predictor ds) (limit_predictors self) in
  (forall sl sy sx,
      selection (length (ds_leadtime ds)) (limit_leadtimes self) = Some sl ->
      selection (ds_y ds) (arg_y_range (args self)) = Some sy ->
      selection (ds_x ds) (arg_x_range (args self)) = Some sx ->
      exists p t,
        parse_file open_dataset self filename = Ok (p, t) /\
        shape p = [length sl; length sy; length sx; length sp + length ss] /\
        shape t = [length sl; length sy; length sx; 1] /\
        forall lt y x, lt < length sl -> y < length sy -> x < length sx ->
          (forall c, c < length sp ->
             get f32_zero p [lt; y; x; c]
             = get f32_zero (ds_predictors ds)
                   [nth lt sl 0; nth y sy 0; nth x sx 0; nth c sp 0]) /\
          (forall s, s < length ss ->
             get f32_zero p [lt; y; x; length sp + s]
             = get f32_zero (ds_static_predictors ds)
                   [nth y sy 0; nth x sx 0; nth s ss 0]) /\
          get f32_zero t [lt; y; x; 0]
          = get f32_zero (ds_target_mean ds) [nth lt sl 0; nth y sy 0; nth x sx 0]) /\
  (selection (length (ds_leadtime ds)) (limit_leadtimes self) = None \/
   selection (ds_x ds) (arg_x_range (args self)) = None \/
   selection (ds_y ds) (arg_y_range (args self)) = None ->
   parse_file open_dataset self filename = Err IndexError).
Proof.
  intros Hopen Hds sp ss. subst sp ss.
  destruct (get_dimension_limits_lookups (args self) ds)
    as (limit & Hlimit & Hp & Hs & Hl & Hx & Hy).
  pose proof (selection_allowed (ds_predictor ds) (limit_predictors self)) as Hsp.
  pose proof (selection_allowed (ds_static_predictor ds) (limit_predictors self)) as Hss.
  unfold limit_predictors, limit_leadtimes in *. rewrite <- Hp in Hsp. rewrite <- Hs in Hss.
  split.
  - intros sl sy sx Hsl Hsy Hsx. rewrite <- Hl in Hsl. rewrite <- Hy in Hsy.
    rewrite <- Hx in Hsx.
    destruct (isel_reindexed limit sl sy sx _ _ ds Hds Hsp Hss Hsl Hsx Hsy)
      as (ds' & Hisel & Hre).
    destruct (parse_file_limited open_dataset self filename ds ds' limit Hopen Hlimit Hisel
                (reindexed_consistent _ _ _ _ _ ds ds' Hre))
      as (p & t & Hrun & Hshp & Hsht & Hget).
    destruct Hre as (Hl' & Hp' & Hs' & Hy' & Hx' & _ & _ & _ & Hpv & Hsv & Htv).
    revert Hshp Hsht Hget. rewrite Hl', Hp', Hs', Hy', Hx', !length_map.
    intros Hshp Hsht Hget.
    exists p, t. split; [exact Hrun|]. split; [exact Hshp|]. split; [exact Hsht|].
    intros lt y x Hlt Hyr Hxr.
    destruct (Hget lt y x Hlt Hyr Hxr) as (Hgp & Hgs & Hgt).
    split; [|split].
    + intros c Hc. rewrite (Hgp c Hc). apply Hpv; assumption.
    + intros s Hs0. rewrite (Hgs s Hs0). apply Hsv; assumption.
    + rewrite Hgt. apply Htv; assumption.
  - intros Hnone. rewrite <- Hl, <- Hx, <- Hy in Hnone.
    unfold parse_file. rewrite Hopen. cbn [bind]. rewrite Hlimit. cbn [bind].
    rewrite (isel_IndexError limit _ _ ds Hds Hsp Hss Hnone). reflexivity.
Qed.

End Limits.

Section PatchSizeCheck.
Variable glob : string -> list string.
Variable open_dataset : string -> result Dataset.
Variable yaml_load : string -> result (gmap string (float64 * float64)).

(** X19.  Construction compares the patch size with the grid of the first
    file after the dimension limits are applied: when the patch size
    exceeds the number of columns or of rows that are left, it raises
    [ValueError], before any normalization file is read. *)
Theorem init_rejects_large_patch_size (a : Args) (first : string) (ds ds' : Dataset)
    (limit : gmap string (list Z)) (ps : nat) :
  flat_map glob (arg_filenames a) !! 0 = Some first ->
  open_dataset first = Ok ds ->
  get_dimension_limits a ds None = Ok limit ->
  isel limit ds = Ok ds' ->
  arg_patch_size a = Some ps ->
  ds_x ds' < ps \/ ds_y ds' < ps ->
  __init__ glob open_dataset yaml_load a = Err ValueError.
Proof.
  intros Hfirst Hopen Hlimit Hisel Hps Hlarge. unfold __init__, load_metadata.
  rewrite Hfirst. cbn [of_option bind]. rewrite Hopen. cbn [bind].
  rewrite Hlimit. cbn [bind]. rewrite Hisel. cbn [bind]. rewrite Hps.
  destruct (Nat.ltb_spec (ds_x ds') ps) as [Hx|Hx]; [reflexivity|].
  destruct (Nat.ltb_spec (ds_y ds') ps) as [Hy|Hy]; [reflexivity|]. lia.
Qed.

End PatchSizeCheck.

(** ** The shapes of the batches for any number of threads *)

Lemma groups_exact {A : Type} (n m : nat) :
  0 < n ->
  forall (fuel : nat) (l : list A),
    length l = m * n -> length l <= fuel ->
    Forall (fun g => length g = n) (groups fuel n l) /\ length (groups fuel n l) = m.
Proof.
  intros Hn. induction m as [|m IH]; intros fuel l Hl Hfuel.
  - destruct l; [|cbn in Hl; lia]. destruct fuel; split; constructor.
  - destruct l as [|x l]; [cbn in Hl; lia|].
    destruct fuel as [|fuel]; [cbn in Hfuel; lia|].
    cbn [groups].
    destruct (IH fuel (skipn n (x :: l))) as [Hall Hlen].
    + rewrite length_skipn. lia.
    + rewrite length_skipn. cbn [length] in *. lia.
    + split; [|cbn [length]; rewrite Hlen; reflexivity].
      constructor; [|exact Hall]. rewrite length_firstn. lia.
Qed.

Lemma stacked_uniform (sp st : list nat) (g : list element) :
  g <> [] ->
  Forall (fun e => wf (fst e) /\ shape (fst e) = sp /\
                   wf (snd e) /\ shape (snd e) = st) g ->
  batch_element g = Ok (stacked g) /\
  wf (fst (stacked g)) /\ shape (fst (stacked g)) = length g :: sp /\
  wf (snd (stacked g)) /\ shape (snd (stacked g)) = length g :: st /\
  element_slices (stacked g) = g.
Proof.
  intros Hne Hall.
  destruct (stacked_tensor_slices sp (map fst g)) as (Hp1 & Hp2 & Hp3 & Hp4).
  { destruct g; [congruence|discriminate]. }
  { apply Forall_map. eapply Forall_impl; [exact Hall|].
    intros e (H1 & H2 & _). split; assumption. }
  destruct (stacked_tensor_slices st (map snd g)) as (Ht1 & Ht2 & Ht3 & Ht4).
  { destruct g; [congruence|discriminate]. }
  { apply Forall_map. eapply Forall_impl; [exact Hall|].
    intros e (_ & _ & H3 & H4). split; assumption. }
  rewrite length_map in Hp2, Ht2. unfold stacked. cbn [fst snd].
  split; [unfold batch_element; rewrite Hp1, Ht1; reflexivity|].
  split; [exact Hp3|]. split; [exact Hp2|]. split; [exact Ht3|]. split; [exact Ht2|].
  unfold element_slices. cbn [fst snd]. rewrite Hp4, Ht4. apply zip_fst_snd_map.
Qed.

Section AnyThreads.
Variable open_dataset : string -> result Dataset.
Variable self : Loader.
Variable P : nat.

Hypothesis Hps : patch_size self <> Some 0.
Hypothesis Hknown :
  Forall (fun feature => is_Some (feature_axis feature)) (extra_features self).
Hypothesis Hdiff :
  predict_diff self = false \/
  exists Ip, raw_predictor_index self = Ok (Some Ip) /\
             Ip < P + length (extra_features self).
Hypothesis Hnorm :
  coefficients self = None \/
  exists tbl, coefficients self = Some tbl /\
              length tbl = P + length (extra_features self).

Lemma stream_rest (n : nat) (outs : list element) :
  0 < arg_batch_size (args self) ->
  Forall (processed self P n) outs ->
  exists batches,
    (let* dataset := map_result (reorder self) outs in
     let* dataset := unbatch dataset in
     let* dataset := map_result (to_gpu self) dataset in
     batch (arg_batch_size (args self)) dataset) = Ok batches /\
    length batches = ceil_div (length outs * n) (arg_batch_size (args self)) /\
    Forall (fun b => exists k,
              1 <= k <= arg_batch_size (args self) /\
              shape (fst b) = [k; num_leadtimes (metadata self); num_y self; num_x self;
                               P + length (extra_features self)] /\
              shape (snd b) = [k; num_leadtimes (metadata self); num_y self; num_x self; 1])
           batches.
Proof.
  intros Hbs Houts.
  destruct (map_result_reorder self P n outs Houts) as (rs & Hre & Hrs & Hl3).
  destruct (unbatch_reordered self P n rs Hrs) as (samples & Hun & Hsamples & Hl4 & _).
  destruct (batch_uniform (arg_batch_size (args self)) samples _ _ Hbs Hsamples)
    as (batches & Hbatch & Hl5 & Hshapes & _).
  exists batches. rewrite Hre. cbn [bind]. rewrite Hun. cbn [bind].
  rewrite map_result_to_gpu. cbn [bind].
  split; [exact Hbatch|]. split; [|exact Hshapes]. rewrite Hl5, Hl4, Hl3. reflexivity.
Qed.

Lemma process_all_shapes (n : nat) (chunks : list element) :
  num_patches_per_file self = Ok n ->
  Forall (fun e => exists k, chunk_arrays self P k e) chunks ->
  exists outs,
    map_result (process self) chunks = Ok outs /\
    Forall (fun o => exists k, leading k o) outs /\
    Forall (patch_arrays self P n) (List.concat (map element_slices outs)) /\
    length (List.concat (map element_slices outs))
    = length (List.concat (map element_slices chunks)).
Proof.
  intros Hn. induction 1 as [|e chunks (k & He) _ (outs & Hrun & Hlead & Hshapes & Hlen)].
  - exists []. repeat split; constructor.
  - destruct (process_chunk_slices self P Hps Hknown Hdiff Hnorm k e He)
      as (n' & o & Hn' & Ho & Hwfp & Hsp & Hwft & Hst & Hslices).
    assert (n' = n) as -> by congruence.
    exists (o :: outs). cbn [map_result]. rewrite Ho, Hrun. cbn [bind].
    split; [reflexivity|]. split.
    { constructor; [|exact Hlead]. exists k. repeat split; eauto. }
    cbn [map List.concat]. split.
    + apply Forall_app. split; [|exact Hshapes]. rewrite Hslices.
      apply Forall_map, Forall_forall. intros i _. unfold process_slice.
      repeat split; apply wf_build.
    + rewrite !length_app, Hlen, Hslices, (proj1 (chunk_slices self P k e He)).
      rewrite !length_map. reflexivity.
Qed.

Lemma stream_chunk_stages (z : list nat) (size : nat) :
  0 < size ->
  0 < num_leadtimes (metadata self) ->
  Forall (fun index => exists e, load_file open_dataset self index = Ok e /\
                                 file_arrays self P e) z ->
  exists n loaded os,
    let samples := List.concat (map element_slices loaded) in
    let chunks := map stacked (groups (length samples) size samples) in
    let slices' := List.concat (map element_slices os) in
    let outs :=
      map stacked (groups (length slices') (num_leadtimes (metadata self)) slices') in
    num_patches_per_file self = Ok n /\
    Forall (fun g => 1 <= length g <= size /\ Forall (slice_arrays self P) g)
           (groups (length samples) size samples) /\
    map_result (process self) chunks = Ok os /\
    Forall (patch_arrays self P n) slices' /\
    Forall (fun g => length g = num_leadtimes (metadata self) /\
                     Forall (patch_arrays self P n) g)
           (groups (length slices') (num_leadtimes (metadata self)) slices') /\
    Forall (processed self P n) outs /\
    length outs = length z /\
    stream open_dataset self z (Some size)
    = (let* dataset := map_result (reorder self) outs in
       let* dataset := unbatch dataset in
       let* dataset := map_result (to_gpu self) dataset in
       batch (arg_batch_size (args self)) dataset).
Proof.
  intros Hsize HLT Hz.
  destruct (num_patches_per_file_Ok self Hps) as (n & Hn).
  destruct (map_result_Forall _ _ _ Hz) as (loaded & Hload & Hloaded & Hl1).
  assert (Forall (fun e => exists k, chunk_arrays self P k e) loaded) as Hfiles.
  { eapply Forall_impl; [exact Hloaded|]. intros e He. eexists. exact He. }
  set (samples := List.concat (map element_slices loaded)).
  assert (Forall (slice_arrays self P) samples) as Hsamples.
  { apply Forall_concat, Forall_map. eapply Forall_impl; [exact Hloaded|].
    intros e He. apply (chunk_slices self P _ e He). }
  assert (length samples = length z * num_leadtimes (metadata self)) as Hcount.
  { unfold samples.
    rewrite (length_concat_uniform (num_leadtimes (metadata self))), length_map, Hl1;
      [reflexivity|].
    apply Forall_map. eapply Forall_impl; [exact Hloaded|]. intros e He.
    rewrite (proj1 (chunk_slices self P _ e He)), length_map, length_seq. reflexivity. }
  destruct (groups_spec size Hsize (length samples) samples (le_n _))
    as (_ & Hgroups & _).
  assert (Forall (fun g => 1 <= length g <= size /\ Forall (slice_arrays self P) g)
                 (groups (length samples) size samples)) as Hgs.
  { eapply Forall_impl; [exact Hgroups|]. intros g (Hl & k & Hg). cbn beta.
    split; [exact Hl|]. rewrite Hg. apply Forall_take, Forall_drop, Hsamples. }
  assert (forall g : list element, 1 <= length g <= size -> g <> []) as Hnonempty.
  { intros g Hl ->. cbn in Hl. lia. }
  assert (batch size samples = Ok (map stacked (groups (length samples) size samples)))
    as Hbatch.
  { unfold batch. destruct (Nat.eqb_spec size 0); [lia|]. apply map_result_map.
    eapply Forall_impl; [exact Hgs|]. intros g [Hl Hg].
    apply (stacked_chunk self P g (Hnonempty g Hl) Hg). }
  assert (Forall (fun e => exists k, chunk_arrays self P k e)
                 (map stacked (groups (length samples) size samples))) as Hchunks.
  { apply Forall_map. eapply Forall_impl; [exact Hgs|]. intros g [Hl Hg].
    exists (length g). apply (stacked_chunk self P g (Hnonempty g Hl) Hg). }
  assert (List.concat (map element_slices (map stacked (groups (length samples) size samples)))
          = samples) as Hback.
  { transitivity (List.concat (groups (length samples) size samples));
      [|apply (groups_spec size Hsize (length samples) samples (le_n _))].
    f_equal. rewrite map_map.
    etransitivity; [apply (map_ext_Forall _ (fun g => g))|apply map_id].
    eapply Forall_impl; [exact Hgs|]. intros g [Hl Hg].
    apply (stacked_chunk self P g (Hnonempty g Hl) Hg). }
  destruct (process_all_shapes n _ Hn Hchunks) as (os & Hos & Hlead & Hshapes & Hlen).
  rewrite Hback, Hcount in Hlen.
  exists n, loaded, os. cbv zeta. fold samples.
  set (slices' := List.concat (map element_slices os)) in *.
  destruct (groups_exact (num_leadtimes (metadata self)) (length z) HLT
              (length slices') slices' Hlen (le_n _)) as [Hexact Hnumber].
  destruct (groups_spec (num_leadtimes (metadata self)) HLT (length slices') slices'
              (le_n _)) as (_ & Hparts & _).
  assert (Forall (fun g => length g = num_leadtimes (metadata self) /\
                           Forall (patch_arrays self P n) g)
                 (groups (length slices') (num_leadtimes (metadata self)) slices'))
    as Hfiles'.
  { apply Forall_forall. intros g Hg. rewrite Forall_forall in Hexact, Hparts.
    split; [exact (Hexact g Hg)|]. destruct (Hparts g Hg) as (_ & k & ->).
    apply Forall_take, Forall_drop, Hshapes. }
  assert (Forall (fun g => batch_element g = Ok (stacked g) /\ processed self P n (stacked g))
                 (groups (length slices') (num_leadtimes (metadata self)) slices'))
    as Hstacked.
  { eapply Forall_impl; [exact Hfiles'|]. intros g [Hlg Hg]. cbn beta.
    destruct (stacked_uniform
                [n; num_y self; num_x self; P + length (extra_features self)]
                [n; num_y self; num_x self; 1] g)
      as (H1 & H2 & H3 & H4 & H5 & _).
    - destruct g; [cbn in Hlg; lia|discriminate].
    - exact Hg.
    - rewrite Hlg in H3, H5. split; [exact H1|]. repeat split; assumption. }
  split; [exact Hn|]. split; [exact Hgs|]. split; [exact Hos|]. split; [exact Hshapes|].
  split; [exact Hfiles'|]. split; [|split].
  - apply Forall_map. eapply Forall_impl; [exact Hstacked|]. intros g Hg. apply Hg.
  - rewrite length_map. exact Hnumber.
  - unfold stream. cbv zeta. rewrite (map_result_py_function _ _ _ Hload). cbn [bind].
    rewrite (unbatch_leading loaded).
    2:{ eapply Forall_impl; [exact Hfiles|]. intros e (k & He). exists k.
        apply (chunk_arrays_leading self P k e He). }
    cbn [bind]. fold samples. rewrite Hbatch. cbn [bind]. rewrite Hos. cbn [bind].
    rewrite (unbatch_leading os Hlead). cbn [bind]. fold slices'.
    assert (batch (num_leadtimes (metadata self)) slices'
            = Ok (map stacked
                    (groups (length slices') (num_leadtimes (metadata self)) slices')))
      as ->.
    { unfold batch. destruct (Nat.eqb_spec (num_leadtimes (metadata self)) 0); [lia|].
      apply map_result_map. eapply Forall_impl; [exact Hstacked|]. intros g Hg. apply Hg. }
    reflexivity.
Qed.

Lemma stream_any_chunk (z : list nat) (size : nat) :
  0 < size ->
  0 < num_leadtimes (metadata self) ->
  0 < arg_batch_size (args self) ->
  Forall (fun index => exists e, load_file open_dataset self index = Ok e /\
                                 file_arrays self P e) z ->
  exists n batches,
    num_patches_per_file self = Ok n /\
    stream open_dataset self z (Some size) = Ok batches /\
    length batches = ceil_div (length z * n) (arg_batch_size (args self)) /\
    Forall (fun b => exists k,
              1 <= k <= arg_batch_size (args self) /\
              shape (fst b) = [k; num_leadtimes (metadata self); num_y self; num_x self;
                               P + length (extra_features self)] /\
              shape (snd b) = [k; num_leadtimes (metadata self); num_y self; num_x self; 1])
           batches.
Proof.
  intros Hsize HLT Hbs Hz.
  destruct (stream_chunk_stages z size Hsize HLT Hz)
    as (n & loaded & os & Hn & _ & _ & _ & _ & Houts & Hlen & Hstream).
  destruct (stream_rest n _ Hbs Houts) as (batches & Hrun & Hnum & Hshapes).
  exists n, batches. split; [exact Hn|]. split; [rewrite Hstream; exact Hrun|].
  split; [rewrite Hnum, Hlen; reflexivity|exact Hshapes].
Qed.

Lemma get_dataset_any_threads (randomized : option (list nat)) (repeat : option nat)
    (calls : parallelism) :
  threads self calls <> Calls 0 ->
  0 < num_leadtimes (metadata self) ->
  0 < arg_batch_size (args self) ->
  Forall (fun index => exists e, load_file open_dataset self index = Ok e /\
                                 file_arrays self P e)
         (file_indices self randomized repeat) ->
  exists n batches,
    num_patches_per_file self = Ok n /\
    get_dataset open_dataset self randomized calls repeat = Ok (Some batches) /\
    length batches
    = ceil_div (length (file_indices self randomized repeat) * n)
               (arg_batch_size (args self)) /\
    Forall (fun b => exists k,
              1 <= k <= arg_batch_size (args self) /\
              shape (fst b) = [k; num_leadtimes (metadata self); num_y self; num_x self;
                               P + length (extra_features self)] /\
              shape (snd b) = [k; num_leadtimes (metadata self); num_y self; num_x self; 1])
           batches.
Proof.
  intros Hthreads HLT Hbs Hz. unfold get_dataset. fold (threads self calls).
  fold (file_indices self randomized repeat).
  destruct (threads self calls) as [|k].
  - destruct (stream_whole_files open_dataset self P Hps Hknown Hdiff Hnorm _ Hbs Hz)
      as (n & files & batches & Hn & _ & Hstream & Hlen & Hshapes & _).
    exists n, batches. split; [exact Hn|]. split; [|split; assumption]. cbn [bind].
    destruct (Nat.eqb_spec (arg_batch_size (args self)) 0) as [H0|_]; [lia|].
    cbn [bind]. rewrite Hstream. reflexivity.
  - destruct (Nat.eqb_spec k 0) as [->|Hk]; [congruence|].
    assert (0 < ceil_div (num_leadtimes (metadata self)) k) as Hsize
      by (unfold ceil_div; apply Nat.div_str_pos; lia).
    destruct (stream_any_chunk _ _ Hsize HLT Hbs Hz)
      as (n & batches & Hn & Hstream & Hlen & Hshapes).
    exists n, batches. split; [exact Hn|]. split; [|split; assumption].
    destruct (Nat.eqb_spec (ceil_div (num_leadtimes (metadata self)) k) 0) as [H0|_];
      [lia|].
    cbn [bind].
    destruct (Nat.eqb_spec (num_leadtimes (metadata self)) 0) as [H0|_]; [lia|].
    cbn [bind].
    destruct (Nat.eqb_spec (arg_batch_size (args self)) 0) as [H0|_]; [lia|].
    cbn [bind]. rewrite Hstream. reflexivity.
Qed.

End AnyThreads.

(** ** A loader in fake mode, from construction to the batches *)

Lemma length_concat_replicate {A : Type} (r : nat) (z : list A) :
  length (List.concat (replicate r z)) = r * length z.
Proof.
  induction r as [|r IH]; [reflexivity|].
  cbn [replicate List.concat]. rewrite length_app, IH. lia.
Qed.

Lemma Forall_concat_replicate {A : Type} (Q : A -> Prop) (r : nat) (z : list A) :
  Forall Q z -> Forall Q (List.concat (replicate r z)).
Proof.
  intros Hz. induction r as [|r IH]; [constructor|].
  cbn [replicate List.concat]. apply Forall_app. split; assumption.
Qed.

Section FakeLoader.
Variable glob : string -> list string.
Variable open_dataset : string -> result Dataset.
Variable yaml_load : string -> result (gmap string (float64 * float64)).

Lemma init_coefficients_length (a : Args) (self : Loader) :
  __init__ glob open_dataset yaml_load a = Ok self ->
  coefficients self = None \/
  exists tbl, coefficients self = Some tbl /\ length tbl = num_predictors (metadata self).
Proof.
  intros H. apply init_Ok in H as (_ & _ & first & _ & _ & Hcoef).
  unfold load_coefficients in Hcoef.
  destruct (arg_normalization a) as [path|]; [|left; congruence].
  apply bind_Ok in Hcoef as (source & Hsource & Hcoef).
  apply bind_Ok in Hcoef as (tbl & Hfill & Hcoef).
  injection Hcoef as Hcoef.
  apply fill_rows_Ok in Hfill as (_ & Hlen & _). rewrite length_replicate in Hlen.
  right. exists tbl. split; [symmetry; exact Hcoef|exact Hlen].
Qed.

(** X20.  A loader constructed in fake mode, without a predictor
    allow-list, with extra features of known types, a patch size other
    than 0, the raw forecast among the predictor names when differencing
    is on, at least one lead time and a positive batch size, gives a
    dataset for every number of threads (at least one, or
    [tf.data.AUTOTUNE]) without reading a file: the batches have the
    shapes [(k,) + predictor_shape] and [(k,) + target_shape] with
    [1 <= k <= batch_size], and there are
    [ceil (repeat * num_patches / batch_size)] of them. *)
Theorem fake_loader_dataset (a : Args) (self : Loader) (randomized : option (list nat))
    (repeat : option nat) (calls : parallelism) :
  __init__ glob open_dataset yaml_load a = Ok self ->
  arg_fake a = true ->
  arg_limit_predictors a = None ->
  arg_patch_size a <> Some 0 ->
  Forall (fun feature => is_Some (feature_axis feature)) (arg_extra_features a) ->
  (arg_predict_diff a = true ->
   "air_temperature_2m" ∈ predictor_names (metadata self)) ->
  0 < arg_batch_size a ->
  0 < num_leadtimes (metadata self) ->
  threads self calls <> Calls 0 ->
  match randomized with
  | Some order => Permutation order (seq 0 (num_files self))
  | None => True
  end ->
  exists total batches,
    num_patches self = Ok total /\
    get_dataset open_dataset self randomized calls repeat = Ok (Some batches) /\
    length batches
    = ceil_div (match repeat with Some r => r | None => 1 end * total) (arg_batch_size a) /\
    Forall (fun b => exists k,
              1 <= k <= arg_batch_size a /\
              shape (fst b) = k :: predictor_shape self /\
              shape (snd b) = k :: target_shape self)
           batches.
Proof.
  intros Hinit Hfake Hallow Hps Hknown Hraw Hbs HLT Hthreads Horder.
  destruct (init_metadata_facts glob open_dataset yaml_load a self Hinit)
    as (Hargs & _ & _ & Hinput & Hnames & Htargets & Hnum & _).
  assert (num_predictors (metadata self)
          = num_input_predictors (metadata self) + length (extra_features self)) as HC.
  { rewrite Hnum by (unfold limit_predictors; rewrite Hargs; exact Hallow).
    rewrite Hnames, length_app, length_map, Hinput. reflexivity. }
  assert (length (file_indices self randomized repeat)
          = match repeat with Some r => r | None => 1 end * num_files self
          /\ Forall (fun index => index < num_files self)
                    (file_indices self randomized repeat)) as [Hcount Hvalid].
  { assert (exists z, (match randomized with
                       | Some order => order
                       | None => seq 0 (num_files self)
                       end) = z /\ length z = num_files self /\
                      Forall (fun index => index < num_files self) z)
      as (z & Hz & Hlen & Hall).
    { eexists. split; [reflexivity|]. destruct randomized as [order|].
      - split.
        + rewrite (Permutation_length Horder), length_seq. reflexivity.
        + apply (Permutation_Forall (Permutation_sym Horder)).
          apply Forall_forall. intros i Hi. apply elem_of_seq in Hi. lia.
      - split; [apply length_seq|].
        apply Forall_forall. intros i Hi. apply elem_of_seq in Hi. lia. }
    unfold file_indices. rewrite Hz. destruct repeat as [r|].
    - split; [rewrite length_concat_replicate, Hlen; reflexivity|].
      apply Forall_concat_replicate, Hall.
    - split; [lia|exact Hall]. }
  destruct (get_dataset_any_threads open_dataset self (num_input_predictors (metadata self)))
    with (randomized := randomized) (repeat := repeat) (calls := calls)
    as (n & batches & Hn & Hrun & Hlen & Hshapes).
  - unfold patch_size. rewrite Hargs. exact Hps.
  - unfold extra_features. rewrite Hargs. exact Hknown.
  - unfold raw_predictor_index, predict_diff. rewrite Hargs.
    destruct (arg_predict_diff a); [right|left; reflexivity].
    destruct (list_index "air_temperature_2m" (predictor_names (metadata self)))
      as [i|] eqn:Hi.
    + exists i. split; [reflexivity|]. apply list_index_Some in Hi as [Hi _].
      apply lookup_lt_Some in Hi. rewrite <- HC, Hnum; [exact Hi|].
      unfold limit_predictors. rewrite Hargs. exact Hallow.
    + apply list_index_None in Hi. destruct (Hi (Hraw eq_refl)).
  - destruct (init_coefficients_length a self Hinit) as [Hnone|(tbl & Htbl & Hlen)];
      [left; exact Hnone|right].
    exists tbl. split; [exact Htbl|]. rewrite Hlen. exact HC.
  - exact Hthreads.
  - exact HLT.
  - rewrite Hargs. exact Hbs.
  - eapply Forall_impl; [exact Hvalid|]. intros index Hindex. cbn beta.
    exists (generate_fake_data self). split.
    + unfold load_file.
      destruct (lookup_lt_is_Some_2 (filenames self) index Hindex) as [name ->].
      cbn [of_option bind]. unfold fake. rewrite Hargs, Hfake. reflexivity.
    + unfold generate_fake_data, file_arrays. cbn [fst snd].
      repeat split; apply wf_build.
  - exists (n * num_files self), batches. rewrite Hargs in *.
    split; [unfold num_patches; rewrite Hn; reflexivity|].
    split; [exact Hrun|]. split.
    + rewrite Hlen, Hcount. f_equal. lia.
    + eapply Forall_impl; [exact Hshapes|]. intros b (k & Hk & Hp & Ht).
      exists k. split; [exact Hk|]. unfold predictor_shape, target_shape.
      rewrite HC, Htargets. split; assumption.
Qed.

End FakeLoader.

(** ** A lead-time feature when every lead time is a chunk of its own *)

Lemma map_result_preserves {A B : Type} (f : A -> result B) (Q : A -> Prop)
    (R : B -> Prop) (l : list A) (l' : list B) :
  (forall x y, Q x -> f x = Ok y -> R y) ->
  Forall Q l -> map_result f l = Ok l' -> Forall R l'.
Proof.
  intros Hf Hl. revert l'. induction Hl as [|x l Hx _ IH]; intros l' H; cbn in H.
  - injection H as <-. constructor.
  - destruct (f x) as [y|] eqn:Hy; [|discriminate]. cbn in H.
    destruct (map_result f l) as [ys|]; [|discriminate]. cbn in H.
    injection H as <-. constructor; [apply (Hf x y Hx Hy)|apply IH; reflexivity].
Qed.

Lemma in_range_cons_inv (n : nat) (s idx : list nat) :
  in_range (n :: s) idx -> exists i idx', idx = i :: idx' /\ i < n /\ in_range s idx'.
Proof. intros H. inversion H as [|i ? idx' ? Hi Hr]; subst. eauto. Qed.

Lemma in_range_channel_cons (n c : nat) (s pre : list nat) :
  s <> [] -> in_range (n :: s) (pre ++ [c]) ->
  exists i pre', pre = i :: pre' /\ i < n /\ in_range s (pre' ++ [c]).
Proof.
  intros Hs H. destruct pre as [|i pre'].
  - apply in_range_cons_inv in H as (i & idx' & Heq & _ & Hr).
    injection Heq as _ <-. inversion Hr; subst; congruence.
  - apply in_range_cons_inv in H as (i' & idx' & Heq & Hi & Hr).
    cbn in Heq. injection Heq as <- <-. eauto.
Qed.

Lemma channel_constant_stacked (c : nat) (v : float32) (s : list nat)
    (ts : list (tensor float32)) :
  s <> [] ->
  Forall (fun t => shape t = s /\ wf t /\ channel_constant c v t) ts ->
  channel_constant c v (stacked_tensor ts).
Proof.
  intros Hs Hall.
  destruct ts as [|t0 ts'].
  { intros pre Hr. apply in_range_cons_inv in Hr as (i & idx' & _ & Hi & _).
    cbn in Hi. lia. }
  set (ts := t0 :: ts') in *.
  destruct (stacked_tensor_slices s ts) as (_ & Hshape & Hwf & Hslices);
    [discriminate|eapply Forall_impl; [exact Hall|]; intros t Ht; split; apply Ht|].
  rewrite (slices_slice_at _ _ _ Hshape) in Hslices.
  intros pre Hr. rewrite Hshape in Hr.
  destruct (in_range_channel_cons _ c s pre Hs Hr) as (i & pre' & -> & Hi & Hr').
  cbn [app]. rewrite <- (get_slice_at f32_zero _ _ i _ _ Hshape Hr').
  assert (slice_at (stacked_tensor ts) i = nth i ts t0) as ->.
  { rewrite <- Hslices at 2.
    rewrite (nth_indep _ t0 (slice_at (stacked_tensor ts) 0))
      by (rewrite length_map, length_seq; exact Hi).
    rewrite map_nth, seq_nth by exact Hi. reflexivity. }
  rewrite Forall_forall in Hall.
  destruct (Hall (nth i ts t0)) as (Hsi & _ & Hci).
  { apply list_elem_of_In, nth_In. exact Hi. }
  apply Hci. rewrite Hsi. exact Hr'.
Qed.

Lemma channel_constant_slice_at (c : nat) (v : float32) (t : tensor float32)
    (n i : nat) (s : list nat) :
  shape t = n :: s -> i < n -> channel_constant c v t ->
  channel_constant c v (slice_at t i).
Proof.
  intros Hshape Hi Hc pre Hr.
  assert (shape (slice_at t i) = s) as Hs by (unfold slice_at; rewrite Hshape; reflexivity).
  rewrite Hs in Hr. rewrite (get_slice_at f32_zero t n i s _ Hshape Hr).
  apply (Hc (i :: pre)). rewrite Hshape. constructor; assumption.
Qed.

Lemma channel_constant_transpose (c : nat) (v : float32) (t t' : tensor float32)
    (d0 d1 d2 d3 d4 : nat) :
  wf t -> shape t = [d0; d1; d2; d3; d4] ->
  channel_constant c v t ->
  transpose f32_zero t [1; 0; 2; 3; 4] = Ok t' ->
  channel_constant c v t'.
Proof.
  intros Hwf Hshape Hc Hrun.
  destruct (transpose_5d_twice t _ _ _ _ _ Hwf Hshape) as (t2 & Hrun' & Hs' & _ & Hget & _).
  assert (t2 = t') as -> by congruence.
  intros pre Hr. rewrite Hs' in Hr.
  destruct (in_range_5_inv _ _ _ _ _ _ Hr) as (i & j & k & l & m & Heq & Hi & Hj & Hk & Hl & Hm).
  change [i; j; k; l; m] with ([i; j; k; l] ++ [m]) in Heq.
  apply app_inj_tail in Heq as [-> ->].
  cbn [app]. rewrite (Hget i j k l m Hi Hj Hk Hl Hm).
  apply (Hc [j; i; k; l]). rewrite Hshape. repeat constructor; assumption.
Qed.

Lemma element_slices_leading (k : nat) (sp st : list nat) (e : element) :
  shape (fst e) = k :: sp -> shape (snd e) = k :: st ->
  element_slices e = map (fun i => (slice_at (fst e) i, slice_at (snd e) i)) (seq 0 k).
Proof.
  intros Hp Ht. unfold element_slices.
  rewrite (slices_slice_at (fst e) _ _ Hp), (slices_slice_at (snd e) _ _ Ht).
  apply zip_map.
Qed.

Section SingleChunks.
Variable open_dataset : string -> result Dataset.
Variable self : Loader.
Variable P : nat.

Hypothesis Hps : patch_size self <> Some 0.
Hypothesis Hknown :
  Forall (fun feature => is_Some (feature_axis feature)) (extra_features self).
Hypothesis Hdiff :
  predict_diff self = false \/
  exists Ip, raw_predictor_index self = Ok (Some Ip) /\
             Ip < P + length (extra_features self).
Hypothesis Hnorm :
  coefficients self = None \/
  exists tbl, coefficients self = Some tbl /\
              length tbl = P + length (extra_features self).

Lemma stream_rest_channel (c : nat) (v : float32) (n : nat) (outs batches : list element) :
  Forall (processed self P n) outs ->
  Forall (fun e => channel_constant c v (fst e)) outs ->
  (let* dataset := map_result (reorder self) outs in
   let* dataset := unbatch dataset in
   let* dataset := map_result (to_gpu self) dataset in
   batch (arg_batch_size (args self)) dataset) = Ok batches ->
  Forall (fun b => channel_constant c v (fst b)) batches.
Proof.
  intros Houts Hc H.
  destruct (map_result_reorder self P n outs Houts) as (rs & Hre & Hrs & _).
  rewrite Hre in H. cbn [bind] in H.
  assert (Forall (fun r => channel_constant c v (fst r)) rs) as Hrc.
  { apply (map_result_preserves (reorder self)
             (fun e => processed self P n e /\ channel_constant c v (fst e))
             (fun r => channel_constant c v (fst r)) outs rs); [| |exact Hre].
    - intros [p t] [p' t'] [(Hwfp & Hp & _) Hcp] Hrun. cbn [fst snd] in *.
      unfold reorder, map_decorator2 in Hrun. apply py_function_Ok in Hrun.
      destruct (transpose f32_zero p [1; 0; 2; 3; 4]) as [p2|] eqn:Hp2; [|discriminate].
      cbn [bind] in Hrun.
      destruct (transpose f32_zero t [1; 0; 2; 3; 4]) as [t2|]; [|discriminate].
      injection Hrun as <- <-.
      apply (channel_constant_transpose c v p p2 _ _ _ _ _ Hwfp Hp Hcp Hp2).
    - apply Forall_and. split; assumption. }
  rewrite (unbatch_leading rs) in H.
  2:{ eapply Forall_impl; [exact Hrs|]. intros r (Hwfp & Hp & Hwft & Ht).
      exists n. repeat split; eauto. }
  cbn [bind] in H. rewrite map_result_to_gpu in H. cbn [bind] in H.
  set (sp := [num_leadtimes (metadata self); num_y self; num_x self;
              P + length (extra_features self)]) in *.
  set (st := [num_leadtimes (metadata self); num_y self; num_x self; 1]) in *.
  set (sample := fun e : element =>
                   (wf (fst e) /\ shape (fst e) = sp /\ wf (snd e) /\ shape (snd e) = st)
                   /\ channel_constant c v (fst e)).
  assert (Forall sample (List.concat (map element_slices rs))) as Hsamples.
  { apply Forall_concat, Forall_map.
    assert (Forall (fun r => reordered self P n r /\ channel_constant c v (fst r)) rs)
      as Hboth by (apply Forall_and; split; assumption).
    eapply Forall_impl; [exact Hboth|]. intros r [(Hwfp & Hp & Hwft & Ht) Hcr].
    rewrite (element_slices_leading n _ _ r Hp Ht).
    apply Forall_map, Forall_forall. intros i Hi. apply elem_of_seq in Hi.
    destruct (wf_slice_at (fst r) _ i _ Hwfp Hp ltac:(lia)) as [H1 H2].
    destruct (wf_slice_at (snd r) _ i _ Hwft Ht ltac:(lia)) as [H3 H4].
    split; [repeat split; assumption|]. cbn [fst].
    apply (channel_constant_slice_at c v (fst r) n i _ Hp ltac:(lia) Hcr). }
  unfold batch in H.
  destruct (Nat.eqb_spec (arg_batch_size (args self)) 0) as [H0|Hbs]; [discriminate|].
  set (samples := List.concat (map element_slices rs)) in *.
  destruct (groups_spec (arg_batch_size (args self)) ltac:(lia) (length samples) samples
              (le_n _)) as (_ & Hgroups & _).
  apply (map_result_preserves batch_element
           (fun g => g <> [] /\ Forall sample g)
           (fun b => channel_constant c v (fst b))
           (groups (length samples) (arg_batch_size (args self)) samples) batches);
    [| |exact H].
  - intros g b [Hne Hg] Hb.
    destruct (stacked_uniform sp st g Hne) as (Hrun & _).
    { eapply Forall_impl; [exact Hg|]. intros e He. apply He. }
    assert (b = stacked g) as -> by congruence.
    unfold stacked. cbn [fst]. apply (channel_constant_stacked c v sp); [discriminate|].
    apply Forall_map. eapply Forall_impl; [exact Hg|].
    intros e ((H1 & H2 & _) & H3). repeat split; assumption.
  - eapply Forall_impl; [exact Hgroups|]. intros g ((Hl & _) & k & Hg). cbn beta. split.
    + destruct g; [cbn in Hl; lia|discriminate].
    + rewrite Hg. apply Forall_take, Forall_drop, Hsamples.
Qed.

(** X21.  When the lead times are split into chunks of one lead time
    each (a number of threads that is at least the number of lead times),
    a feature of type ["leadtime"] does not tell the lead times apart:
    [process] sees every lead time at position 0 of its chunk, and the
    feature's channel holds the normalized value of 0 at every position
    of every batch. *)
Theorem leadtime_feature_single_chunks (randomized : option (list nat))
    (repeat : option nat) (calls : parallelism) (k f : nat) (feature : Feature) :
  threads self calls = Calls k ->
  0 < num_leadtimes (metadata self) <= k ->
  0 < arg_batch_size (args self) ->
  extra_features self !! f = Some feature ->
  f_type feature = "leadtime" ->
  Forall (fun index => exists e, load_file open_dataset self index = Ok e /\
                                 file_arrays self P e)
         (file_indices self randomized repeat) ->
  exists batches,
    get_dataset open_dataset self randomized calls repeat = Ok (Some batches) /\
    Forall (fun b => forall s lt i j,
              in_range (shape (fst b)) [s; lt; i; j; P + f] ->
              get f32_zero (fst b) [s; lt; i; j; P + f]
              = normalized self (P + f) (f32_of_nat 0))
           batches.
Proof.
  intros Hthreads [HLT Hk] Hbs Hf Htype Hz.
  assert (ceil_div (num_leadtimes (metadata self)) k = 1) as Hsize.
  { unfold ceil_div. symmetry.
    apply (Nat.div_unique _ k 1 (num_leadtimes (metadata self) - 1)); lia. }
  destruct (stream_chunk_stages open_dataset self P Hps Hknown Hdiff Hnorm _ 1
              ltac:(lia) HLT Hz)
    as (n & loaded & os & Hn & Hgs & Hos & Hshapes & _ & Houts & _ & Hstream).
  cbv zeta in *.
  set (samples := List.concat (map element_slices loaded)) in *.
  set (slices' := List.concat (map element_slices os)) in *.
  set (v := normalized self (P + f) (f32_of_nat 0)).
  assert (Forall (fun e => channel_constant (P + f) v (fst e)) slices') as Hchannel.
  { apply Forall_concat, Forall_map.
    apply (map_result_preserves (process self)
             (fun e => chunk_arrays self P 1 e)
             (fun o => Forall (fun e => channel_constant (P + f) v (fst e))
                              (element_slices o))
             (map stacked (groups (length samples) 1 samples)) os); [| |exact Hos].
    - intros e o He Ho.
      destruct (process_chunk_slices self P Hps Hknown Hdiff Hnorm 1 e He)
        as (n' & o' & _ & Ho' & _ & _ & _ & _ & Hslices).
      assert (o' = o) as -> by congruence. rewrite Hslices.
      cbn [seq map]. constructor; [|constructor].
      unfold process_slice. cbn [fst]. intros pre Hr. cbn [build shape] in Hr.
      destruct (in_range_4_inv _ _ _ _ _ Hr) as (k0 & a & b & m & Heq & _).
      change [k0; a; b; m] with ([k0; a; b] ++ [m]) in Heq.
      apply app_inj_tail in Heq as [-> <-].
      rewrite get_build by exact Hr. cbn [app]. unfold v. f_equal.
      unfold extended. destruct (Nat.ltb_spec (P + f) P) as [Hlt|_]; [lia|].
      replace (P + f - P) with f by lia. rewrite Hf.
      unfold feature_axis. rewrite Htype. reflexivity.
    - apply Forall_map. eapply Forall_impl; [exact Hgs|]. intros g [Hl Hg]. cbn beta.
      assert (g <> []) as Hne by (intros ->; cbn in Hl; lia).
      replace 1 with (length g) by lia. apply (stacked_chunk self P g Hne Hg). }
  set (sp := [n; num_y self; num_x self; P + length (extra_features self)]).
  assert (Forall (fun e => channel_constant (P + f) v (fst e))
                 (map stacked
                    (groups (length slices') (num_leadtimes (metadata self)) slices')))
    as Houtc.
  { destruct (groups_spec (num_leadtimes (metadata self)) HLT (length slices') slices'
                (le_n _)) as (_ & Hparts & _).
    apply Forall_map. eapply Forall_impl; [exact Hparts|]. intros g (_ & k0 & ->).
    unfold stacked. cbn [fst]. apply (channel_constant_stacked _ v sp); [discriminate|].
    apply Forall_map, Forall_take, Forall_drop.
    assert (Forall (fun e => patch_arrays self P n e /\ channel_constant (P + f) v (fst e))
                   slices') as Hboth by (apply Forall_and; split; assumption).
    eapply Forall_impl; [exact Hboth|]. intros e [(H1 & H2 & _) H3].
    repeat split; assumption. }
  destruct (stream_rest self P n _ Hbs Houts) as (batches & Hrun & _).
  pose proof (stream_rest_channel (P + f) v n _ batches Houts Houtc Hrun) as Hbc.
  exists batches. split.
  - unfold get_dataset. fold (threads self calls). rewrite Hthreads.
    fold (file_indices self randomized repeat).
    destruct (Nat.eqb_spec k 0) as [H0|_]; [lia|]. rewrite Hsize.
    cbn [Nat.eqb bind].
    destruct (Nat.eqb_spec (num_leadtimes (metadata self)) 0) as [H0|_]; [lia|].
    cbn [bind].
    destruct (Nat.eqb_spec (arg_batch_size (args self)) 0) as [H0|_]; [lia|].
    cbn [bind]. rewrite Hstream, Hrun. reflexivity.
  - eapply Forall_impl; [exact Hbc|]. intros b Hb s lt i j Hr.
    apply (Hb [s; lt; i; j] Hr).
Qed.

End SingleChunks.

(** ** When construction succeeds *)

Section InitSucceeds.
Variable glob : string -> list string.
Variable open_dataset : string -> result Dataset.
Variable yaml_load : string -> result (gmap string (float64 * float64)).

(** X22.  Construction succeeds when a file matches, the first file opens
    to an archive with consistent variables, the position limits lie
    inside it, the patch size (if any) exceeds neither the number of kept
    rows nor of kept columns, and, when a normalization file is given, it
    loads and (with a predictor allow-list) the allow-list is at least as
    long as the list of predictor names.  The loader then has the resolved
    file list, the kept lead times, the numbers of kept rows and columns,
    the kept predictor names, dynamic before static, and a coefficient
    table exactly when a normalization file is given. *)
Theorem init_succeeds (a : Args) (first : string) (ds : Dataset) (sl sy sx : list nat) :
  flat_map glob (arg_filenames a) !! 0 = Some first ->
  open_dataset first = Ok ds ->
  consistent_shapes ds ->
  selection (length (ds_leadtime ds)) (arg_limit_leadtimes a) = Some sl ->
  selection (ds_y ds) (arg_y_range a) = Some sy ->
  selection (ds_x ds) (arg_x_range a) = Some sx ->
  (forall ps, arg_patch_size a = Some ps -> ps <= length sx /\ ps <= length sy) ->
  let sp := allowed_positions (ds_predictor ds) (arg_limit_predictors a) in
  let ss := allowed_positions (ds_static_predictor ds) (arg_limit_predictors a) in
  (forall path, arg_normalization a = Some path ->
     (exists source, yaml_load path = Ok source) /\
     forall allowed, arg_limit_predictors a = Some allowed ->
       length sp + length ss + length (arg_extra_features a) <= length allowed) ->
  exists self,
    __init__ glob open_dataset yaml_load a = Ok self /\
    args self = a /\
    filenames self = flat_map glob (arg_filenames a) /\
    leadtimes (metadata self) = map (fun i => nth i (ds_leadtime ds) 0%Z) sl /\
    num_y_input (metadata self) = length sy /\
    num_x_input (metadata self) = length sx /\
    predictor_names_input (metadata self)
    = map (fun i => nth i (ds_predictor ds) ""%string) sp
      ++ map (fun i => nth i (ds_static_predictor ds) ""%string) ss /\
    (coefficients self = None <-> arg_normalization a = None).
Proof.
  intros Hfirst Hopen Hds Hsl Hsy Hsx Hpatch sp ss Hnorm. subst sp ss.
  destruct (get_dimension_limits_lookups a ds) as (limit & Hlimit & Hp & Hs & Hl & Hx & Hy).
  pose proof (selection_allowed (ds_predictor ds) (arg_limit_predictors a)) as Hsp.
  pose proof (selection_allowed (ds_static_predictor ds) (arg_limit_predictors a)) as Hss.
  rewrite <- Hp in Hsp. rewrite <- Hs in Hss.
  rewrite <- Hl in Hsl. rewrite <- Hy in Hsy. rewrite <- Hx in Hsx.
  destruct (isel_reindexed limit sl sy sx _ _ ds Hds Hsp Hss Hsl Hsx Hsy)
    as (ds' & Hisel & Hl' & Hp' & Hs' & Hy' & Hx' & _).
  unfold __init__. rewrite Hfirst. cbn [of_option bind].
  unfold load_metadata. rewrite Hopen. cbn [bind]. rewrite Hlimit. cbn [bind].
  rewrite Hisel. cbn [bind].
  assert (match arg_patch_size a with
          | Some ps =>
              if ds_x ds' <? ps then Err ValueError
              else if ds_y ds' <? ps then Err ValueError else Ok tt
          | None => Ok tt
          end = Ok tt) as ->.
  { destruct (arg_patch_size a) as [ps|]; [|reflexivity].
    destruct (Hpatch ps eq_refl) as [H1 H2]. rewrite Hx', Hy'.
    destruct (Nat.ltb_spec (length sx) ps); [lia|].
    destruct (Nat.ltb_spec (length sy) ps); [lia|]. reflexivity. }
  cbn [bind]. unfold load_coefficients.
  cbn [num_predictors predictor_names].
  destruct (arg_normalization a) as [path|] eqn:Hpath.
  - destruct (Hnorm path eq_refl) as [(source & Hsource) Hrows].
    rewrite Hsource. cbn [bind].
    match goal with
    | |- context [fill_rows ?c ?f 0 ?names ?tbl] =>
        destruct (fill_rows_ok c f names 0 tbl) as (tbl' & Hfill & _)
    end.
    { rewrite length_replicate, !length_app, length_map, Hp', Hs', !length_map.
      destruct (arg_limit_predictors a) as [allowed|] eqn:Hallow.
      - cbn [plus]. apply (Hrows allowed eq_refl).
      - cbn [plus]. lia. }
    rewrite Hfill. cbn [bind]. eexists. split; [reflexivity|].
    cbn [args filenames metadata coefficients leadtimes num_y_input num_x_input
         predictor_names_input].
    rewrite Hl', Hy', Hx', Hp', Hs'. repeat split; try reflexivity; discriminate.
  - cbn [bind]. eexists. split; [reflexivity|].
    cbn [args filenames metadata coefficients leadtimes num_y_input num_x_input
         predictor_names_input].
    rewrite Hl', Hy', Hx', Hp', Hs'. repeat split; reflexivity.
Qed.

End InitSucceeds.

(** ** Range strings of the configuration *)

Lemma list_ascii_of_string_append (a b : string) :
  list_ascii_of_string (a ++ b)%string = list_ascii_of_string a ++ list_ascii_of_string b.
Proof.
  induction a as [|c a IH]; [reflexivity|].
  change (c :: list_ascii_of_string (a ++ b)%string
          = c :: (list_ascii_of_string a ++ list_ascii_of_string b)).
  f_equal. exact IH.
Qed.

Lemma split_colon_free (cs : list ascii) :
  count_occ Ascii.ascii_dec cs colon = 0 -> split_colon cs = [cs].
Proof.
  induction cs as [|c cs IH]; [reflexivity|]. cbn [count_occ split_colon].
  destruct (Ascii.ascii_dec c colon) as [->|Hne]; [discriminate|].
  intros H. destruct (Ascii.eqb_spec c colon) as [->|_]; [congruence|].
  rewrite (IH H). reflexivity.
Qed.

Lemma split_colon_parts (a b : list ascii) :
  count_occ Ascii.ascii_dec a colon = 0 -> count_occ Ascii.ascii_dec b colon = 0 ->
  split_colon (a ++ colon :: b) = [a; b] /\
  existsb (Ascii.eqb colon) (a ++ colon :: b) = true.
Proof.
  intros Ha Hb. induction a as [|c a IH]; cbn [app split_colon existsb].
  - rewrite Ascii.eqb_refl, (split_colon_free b Hb). split; reflexivity.
  - cbn [count_occ] in Ha. destruct (Ascii.ascii_dec c colon) as [->|Hne]; [discriminate|].
    destruct (IH Ha) as [-> ->].
    destruct (Ascii.eqb_spec c colon) as [->|_]; [congruence|].
    split; [reflexivity|]. apply orb_true_r.
Qed.

Lemma parse_range_value {int_other : list ascii -> option Z}
    (r : option range_arg) (v : option (list Z)) :
  range_value int_other r v -> parse_range int_other r = Ok v.
Proof.
  intros [|l|start stop s e Hstart Hstop Hs He]; try reflexivity.
  cbn [parse_range]. rewrite list_ascii_of_string_append.
  change (list_ascii_of_string (":" ++ stop)%string)
    with (colon :: list_ascii_of_string stop).
  destruct (split_colon_parts _ _ Hstart Hstop) as [-> ->]. cbn [negb].
  rewrite Hs, He. reflexivity.
Qed.

Lemma parse_range_not_int {int_other : list ascii -> option Z}
    (start stop : string) :
  count_colons start = 0 -> count_colons stop = 0 ->
  int_of_str int_other (list_ascii_of_string start) = None \/
  int_of_str int_other (list_ascii_of_string stop) = None ->
  parse_range int_other (Some (RangeStr (start ++ ":" ++ stop)%string)) = Err ValueError.
Proof.
  intros Hstart Hstop Hnone.
  cbn [parse_range]. rewrite list_ascii_of_string_append.
  change (list_ascii_of_string (":" ++ stop)%string)
    with (colon :: list_ascii_of_string stop).
  destruct (split_colon_parts _ _ Hstart Hstop) as [-> ->]. cbn [negb].
  destruct (int_of_str int_other (list_ascii_of_string start)) as [s|]; [|reflexivity].
  cbn [of_option bind]. destruct Hnone as [Hnone | ->]; [discriminate|reflexivity].
Qed.

Section RangeValues.
Variable glob : string -> list string.
Variable open_dataset : string -> result Dataset.
Variable yaml_load : string -> result (gmap string (float64 * float64)).
Variable int_other : list ascii -> option Z.

(** X23.  [from_config] passes every option of the dictionary on to the
    constructor, a range option given as a list unchanged and one given as
    a string ["start:end"] as [range(int(start), int(end))]; when [int]
    rejects a part of such a string it raises [ValueError] and constructs
    nothing.  Here [int] is [int_of_str]: the literals of ASCII text of at
    most 640 characters are read as [int_of_ascii] does, and what [int]
    makes of other text (digits and white space outside ASCII, longer
    literals) is the parameter [int_other], so that the statement holds
    whatever the interpreter accepts there. *)
Theorem from_config_ranges (config : Config) :
  (forall x y l,
      range_value int_other (cfg_x_range config) x ->
      range_value int_other (cfg_y_range config) y ->
      range_value int_other (cfg_limit_leadtimes config) l ->
      from_config glob open_dataset yaml_load int_other config
      = __init__ glob open_dataset yaml_load
          {| arg_filenames := cfg_filenames config;
             arg_limit_leadtimes := l;
             arg_limit_predictors := cfg_limit_predictors config;
             arg_x_range := x;
             arg_y_range := y;
             arg_normalization := cfg_normalization config;
             arg_patch_size := cfg_patch_size config;
             arg_predict_diff := cfg_predict_diff config;
             arg_batch_size := cfg_batch_size config;
             arg_prefetch := cfg_prefetch config;
             arg_cache := cfg_cache config;
             arg_num_parallel_calls := cfg_num_parallel_calls config;
             arg_extra_features := cfg_extra_features config;
             arg_fake := cfg_fake config |}) /\
  (forall start stop,
      cfg_x_range config = Some (RangeStr (start ++ ":" ++ stop)%string) \/
      cfg_y_range config = Some (RangeStr (start ++ ":" ++ stop)%string) \/
      cfg_limit_leadtimes config = Some (RangeStr (start ++ ":" ++ stop)%string) ->
      count_colons start = 0 -> count_colons stop = 0 ->
      int_of_str int_other (list_ascii_of_string start) = None \/
      int_of_str int_other (list_ascii_of_string stop) = None ->
      from_config glob open_dataset yaml_load int_other config = Err ValueError).
Proof.
  split.
  - intros x y l Hx Hy Hl. unfold from_config.
    rewrite (parse_range_value _ _ Hx), (parse_range_value _ _ Hy),
      (parse_range_value _ _ Hl). reflexivity.
  - intros start stop Hcfg Hstart Hstop Hnone.
    pose proof (parse_range_not_int start stop Hstart Hstop Hnone) as He.
    unfold from_config.
    destruct (parse_range int_other (cfg_x_range config)) as [x|ex] eqn:Hx.
    2: { apply parse_range_ValueError in Hx as ->. reflexivity. }
    cbn [bind].
    destruct (parse_range int_other (cfg_y_range config)) as [y|ey] eqn:Hy.
    2: { apply parse_range_ValueError in Hy as ->. reflexivity. }
    cbn [bind].
    destruct (parse_range int_other (cfg_limit_leadtimes config)) as [l|el] eqn:Hl.
    2: { apply parse_range_ValueError in Hl as ->. reflexivity. }
    destruct Hcfg as [H|[H|H]]; rewrite H in *; congruence.
Qed.

End RangeValues.

(** ** The values of the stream *)

Lemma map_result_Forall2 {A B : Type} (f : A -> result B) (l : list A) (l' : list B) :
  map_result f l = Ok l' -> Forall2 (fun x y => f x = Ok y) l l'.
Proof.
  revert l'. induction l as [|x l IH]; intros l' H; cbn in H.
  - injection H as <-. constructor.
  - destruct (f x) as [y|] eqn:Hy; [|discriminate]. cbn in H.
    destruct (map_result f l) as [ys|]; [|discriminate]. cbn in H.
    injection H as <-. constructor; [exact Hy|apply IH; reflexivity].
Qed.

Lemma lookup_map {A B : Type} (f : A -> B) (l : list A) (i : nat) (x : A) :
  l !! i = Some x -> map f l !! i = Some (f x).
Proof. exact (list_lookup_fmap_Some_2 f l i x). Qed.

Lemma lookup_concat_uniform {A : Type} (n : nat) (ls : list (list A)) :
  Forall (fun l => length l = n) ls ->
  forall f q l, ls !! f = Some l -> q < n -> List.concat ls !! (f * n + q) = l !! q.
Proof.
  induction 1 as [|l0 ls Hl0 _ IH]; intros f q l Hf Hq; [discriminate|].
  cbn [List.concat]. destruct f as [|f].
  - injection Hf as ->. cbn [Nat.mul Nat.add]. apply lookup_app_l. lia.
  - cbn in Hf. rewrite lookup_app_r by lia.
    replace (S f * n + q - length l0) with (f * n + q) by lia.
    apply IH; assumption.
Qed.

Lemma lookup_groups {A : Type} (n : nat) :
  0 < n ->
  forall (fuel : nat) (l : list A) (b : nat),
    length l <= fuel -> b * n < length l ->
    groups fuel n l !! b = Some (firstn n (skipn (b * n) l)).
Proof.
  intros Hn. induction fuel as [|fuel IH]; intros l b Hfuel Hb; [lia|].
  destruct l as [|x l]; [cbn in Hb; lia|]. cbn [groups].
  destruct b as [|b]; [reflexivity|].
  change ((firstn n (x :: l) :: groups fuel n (skipn n (x :: l))) !! S b)
    with (groups fuel n (skipn n (x :: l)) !! b).
  rewrite IH.
  - rewrite skipn_skipn. do 3 f_equal. lia.
  - rewrite length_skipn. cbn [length] in *. lia.
  - rewrite length_skipn. cbn [length] in *. lia.
Qed.

Lemma get_stacked_tensor (s : list nat) (ts : list (tensor float32)) (k : nat)
    (t : tensor float32) (idx : list nat) :
  Forall (fun t => shape t = s /\ wf t) ts -> ts !! k = Some t -> in_range s idx ->
  get f32_zero (stacked_tensor ts) (k :: idx) = get f32_zero t idx.
Proof.
  intros Hall Hk Hr.
  destruct (stacked_tensor_slices s ts) as (_ & Hshape & _ & Hslices);
    [intros ->; discriminate|exact Hall|].
  rewrite (slices_slice_at _ _ _ Hshape) in Hslices.
  rewrite <- (get_slice_at f32_zero _ _ k _ _ Hshape Hr).
  assert (Some (slice_at (stacked_tensor ts) k) = Some t) as [= ->]; [|reflexivity].
  rewrite <- Hk. rewrite <- Hslices at 2. symmetry.
  apply lookup_map. rewrite lookup_seq_lt by (apply (lookup_lt_Some _ _ _ Hk)).
  reflexivity.
Qed.

Section Values.
Variable open_dataset : string -> result Dataset.
Variable self : Loader.
Variable P : nat.

Hypothesis Hps : patch_size self <> Some 0.
Hypothesis Hknown :
  Forall (fun feature => is_Some (feature_axis feature)) (extra_features self).
Hypothesis Hdiff :
  predict_diff self = false \/
  exists Ip, raw_predictor_index self = Ok (Some Ip) /\
             Ip < P + length (extra_features self).
Hypothesis Hnorm :
  coefficients self = None \/
  exists tbl, coefficients self = Some tbl /\
              length tbl = P + length (extra_features self).

Lemma reorder_values (n : nat) (file o r : element) :
  file_arrays self P file -> num_patches_per_file self = Ok n ->
  process self file = Ok o -> reorder self o = Ok r ->
  holds_patches self P n file r.
Proof.
  destruct file as [p t]. intros (Hwfp & Hp & Hwft & Ht) Hn Hproc Hre.
  cbn [fst snd] in *.
  destruct (process_values_5d self _ P p t Hwfp Hp Hwft Ht Hps Hknown Hdiff Hnorm)
    as (n' & p' & t' & Hn' & Hrun & Hsp & Hst & Hwfp' & Hwft' & Hval).
  assert (n' = n) as -> by congruence.
  assert (o = (p', t')) as -> by congruence.
  destruct (transpose_5d_twice p' _ _ _ _ _ Hwfp' Hsp) as (p2 & Hp2 & Hsp2 & Hwfp2 & Hgp & _).
  destruct (transpose_5d_twice t' _ _ _ _ _ Hwft' Hst) as (t2 & Ht2 & Hst2 & Hwft2 & Hgt & _).
  unfold reorder, map_decorator2 in Hre. apply py_function_Ok in Hre.
  rewrite Hp2, Ht2 in Hre. cbn [bind] in Hre.
  injection Hre as <-. split; [repeat split; assumption|].
  intros q lt i j Hq Hlt Hi Hj. cbn [fst snd].
  destruct (Hval lt q i j Hlt Hq Hi Hj) as [Hv Htv]. split.
  - intros c Hc. rewrite Hgp by assumption. exact (Hv c Hc).
  - rewrite Hgt by (assumption || lia). exact Htv.
Qed.

End Values.

(** X24.  The values of the stream, for a loader with a patch size other
    than 0, extra features of the types ["x"], ["y"] and ["leadtime"]
    only, the raw forecast among the channels when differencing is on,
    one table row per channel when normalization is on, no number of
    threads fixed in the loader and a positive batch size, when
    [get_dataset] is called with [tf.data.AUTOTUNE] and every streamed
    file gives arrays of the shape in the metadata.  With
    [n] patches per file and batch size [bs], sample [g] of the stream is
    entry [g mod bs] of batch [g / bs], and it is patch [g mod n] of the
    file that is streamed at position [g / n]: at every lead time, element
    and channel it holds the normalized value of the grid point of that
    patch, and its target the (differenced) target there. *)
Theorem get_dataset_values (open_dataset : string -> result Dataset) (self : Loader)
    (P : nat) (randomized : option (list nat)) (repeat : option nat) :
  patch_size self <> Some 0 ->
  Forall (fun feature => is_Some (feature_axis feature)) (extra_features self) ->
  (predict_diff self = false \/
   exists Ip, raw_predictor_index self = Ok (Some Ip) /\
              Ip < P + length (extra_features self)) ->
  (coefficients self = None \/
   exists tbl, coefficients self = Some tbl /\
               length tbl = P + length (extra_features self)) ->
  arg_num_parallel_calls (args self) = None ->
  0 < arg_batch_size (args self) ->
  Forall (fun index => exists e, load_file open_dataset self index = Ok e /\
                                 file_arrays self P e)
         (file_indices self randomized repeat) ->
  exists n batches,
    num_patches_per_file self = Ok n /\
    get_dataset open_dataset self randomized Autotune repeat = Ok (Some batches) /\
    forall g, g < length (file_indices self randomized repeat) * n ->
      exists index file batch,
        file_indices self randomized repeat !! (g / n) = Some index /\
        load_file open_dataset self index = Ok file /\
        batches !! (g / arg_batch_size (args self)) = Some batch /\
        forall lt i j,
          lt < num_leadtimes (metadata self) -> i < num_y self -> j < num_x self ->
          (forall c, c < P + length (extra_features self) ->
             get f32_zero (fst batch) [g mod arg_batch_size (args self); lt; i; j; c]
             = patch_value self P file (g mod n) lt i j c) /\
          get f32_zero (snd batch) [g mod arg_batch_size (args self); lt; i; j; 0]
          = patch_target self P file (g mod n) lt i j.
Proof.
  intros Hps Hknown Hdiff Hnorm Hcalls Hbs Hz.
  set (z := file_indices self randomized repeat) in *.
  set (bs := arg_batch_size (args self)) in *.
  destruct (num_patches_per_file_Ok self Hps) as (n & Hn).
  destruct (map_result_Forall _ _ _ Hz) as (loaded & Hload & Hloaded & Hl1).
  destruct (map_result_process self P Hps Hknown Hdiff Hnorm n loaded Hn Hloaded)
    as (outs & Hproc & Houts & Hl2).
  destruct (map_result_reorder self P n outs Houts) as (rs & Hre & Hrs & Hl3).
  set (samples := List.concat (map element_slices rs)).
  assert (unbatch rs = Ok samples) as Hun.
  { apply unbatch_leading. eapply Forall_impl; [exact Hrs|].
    intros r (Hwfp & Hp & Hwft & Ht). exists n. repeat split; eauto. }
  set (sp := [num_leadtimes (metadata self); num_y self; num_x self;
              P + length (extra_features self)]).
  set (st := [num_leadtimes (metadata self); num_y self; num_x self; 1]).
  set (sample := fun e : element =>
                   wf (fst e) /\ shape (fst e) = sp /\ wf (snd e) /\ shape (snd e) = st).
  assert (Forall (fun l : list element => length l = n) (map element_slices rs)) as Hparts.
  { apply Forall_map. eapply Forall_impl; [exact Hrs|].
    intros r (_ & Hp & _ & Ht). cbn beta.
    rewrite (element_slices_leading n _ _ r Hp Ht), length_map, length_seq.
    reflexivity. }
  assert (length samples = length z * n) as Hl4.
  { unfold samples. rewrite (length_concat_uniform n _ Hparts), length_map. congruence. }
  assert (Forall sample samples) as Hsamples.
  { apply Forall_concat, Forall_map.
    eapply Forall_impl; [exact Hrs|]. intros r (Hwfp & Hp & Hwft & Ht).
    rewrite (element_slices_leading n _ _ r Hp Ht).
    apply Forall_map, Forall_forall. intros i Hi. apply elem_of_seq in Hi.
    destruct (wf_slice_at (fst r) _ i _ Hwfp Hp ltac:(lia)) as [H1 H2].
    destruct (wf_slice_at (snd r) _ i _ Hwft Ht ltac:(lia)) as [H3 H4].
    repeat split; assumption. }
  destruct (groups_spec bs Hbs (length samples) samples (le_n _)) as (_ & Hgroups & _).
  assert (batch bs samples = Ok (map stacked (groups (length samples) bs samples)))
    as Hbatch.
  { unfold batch. destruct (Nat.eqb_spec bs 0) as [H0|_]; [lia|].
    apply map_result_map. eapply Forall_impl; [exact Hgroups|].
    intros grp ((Hlen & _) & k & Hgrp). cbn beta.
    apply (stacked_uniform sp st grp).
    - destruct grp; [cbn in Hlen; lia|discriminate].
    - rewrite Hgrp. apply Forall_take, Forall_drop, Hsamples. }
  exists n, (map stacked (groups (length samples) bs samples)).
  split; [exact Hn|]. split.
  { assert (stream open_dataset self z None
            = Ok (map stacked (groups (length samples) bs samples))) as Hstream.
    { unfold stream. cbv zeta. rewrite (map_result_py_function _ _ _ Hload). cbn [bind]. rewrite Hproc. cbn [bind].
      rewrite Hre. cbn [bind]. rewrite Hun. cbn [bind].
      rewrite map_result_to_gpu. cbn [bind]. exact Hbatch. }
    unfold get_dataset. rewrite Hcalls. cbn [bind].
    destruct (Nat.eqb_spec (arg_batch_size (args self)) 0) as [H0|_]; [unfold bs in Hbs; lia|].
    cbn [bind]. fold (file_indices self randomized repeat).
    change (file_indices self randomized repeat) with z.
    rewrite Hstream. reflexivity. }
  intros g Hg.
  assert (0 < n) as Hn0 by (destruct n; lia).
  assert (g / n < length z) as Hf by (apply Nat.Div0.div_lt_upper_bound; lia).
  assert (g mod n < n) as Hq by (apply Nat.mod_upper_bound; lia).
  pose proof (Nat.div_mod_eq g n) as Hgn.
  assert (g mod bs < bs) as Hk by (apply Nat.mod_upper_bound; lia).
  pose proof (Nat.div_mod_eq g bs) as Hgb.
  destruct (lookup_lt_is_Some_2 z (g / n) Hf) as [index Hindex].
  destruct (Forall2_lookup_l _ _ _ _ _ (map_result_Forall2 _ _ _ Hload) Hindex)
    as (file & Hfile & Hrun1).
  destruct (Forall2_lookup_l _ _ _ _ _ (map_result_Forall2 _ _ _ Hproc) Hfile)
    as (o & Ho & Hrun2).
  destruct (Forall2_lookup_l _ _ _ _ _ (map_result_Forall2 _ _ _ Hre) Ho)
    as (r & Hr & Hrun3).
  pose proof (Forall_lookup_1 _ _ _ _ Hloaded Hfile) as Hfa.
  destruct (reorder_values self P Hps Hknown Hdiff Hnorm n file o r Hfa Hn Hrun2 Hrun3)
    as [(Hwfp & Hp & Hwft & Ht) Hval].
  set (s := (slice_at (fst r) (g mod n), slice_at (snd r) (g mod n))).
  assert (samples !! g = Some s) as Hs.
  { replace g with (g / n * n + g mod n) at 1 by lia.
    unfold samples.
    rewrite (lookup_concat_uniform n _ Hparts _ _ (element_slices r));
      [|apply lookup_map; exact Hr|exact Hq].
    rewrite (element_slices_leading n _ _ r Hp Ht).
    apply (lookup_map (fun i => (slice_at (fst r) i, slice_at (snd r) i))).
    rewrite lookup_seq_lt by exact Hq. reflexivity. }
  set (grp := firstn bs (skipn (g / bs * bs) samples)).
  assert (groups (length samples) bs samples !! (g / bs) = Some grp) as Hgrp
    by (apply lookup_groups; lia).
  assert (grp !! (g mod bs) = Some s) as Hin.
  { unfold grp. rewrite lookup_take_lt by exact Hk. rewrite lookup_drop.
    replace (g / bs * bs + g mod bs) with g by lia. exact Hs. }
  assert (Forall sample grp) as Hsg by (apply Forall_take, Forall_drop, Hsamples).
  exists index, file, (stacked grp).
  split; [exact Hindex|]. split; [exact Hrun1|].
  split; [apply lookup_map; exact Hgrp|].
  intros lt i j Hlt Hi Hj. destruct (Hval (g mod n) lt i j Hq Hlt Hi Hj) as [Hv Htv].
  unfold stacked. cbn [fst snd]. split.
  - intros c Hc.
    rewrite (get_stacked_tensor sp (map fst grp) (g mod bs) (fst s));
      [|apply Forall_map; eapply Forall_impl; [exact Hsg|];
        intros e (H1 & H2 & _); split; assumption
       |apply (lookup_map fst); exact Hin
       |repeat constructor; assumption].
    unfold s. cbn [fst].
    rewrite (get_slice_at f32_zero (fst r) n _ _ _ Hp)
      by (repeat constructor; assumption).
    exact (Hv c Hc).
  - rewrite (get_stacked_tensor st (map snd grp) (g mod bs) (snd s));
      [|apply Forall_map; eapply Forall_impl; [exact Hsg|];
        intros e (_ & _ & H3 & H4); split; assumption
       |apply (lookup_map snd); exact Hin
       |repeat constructor; (assumption || lia)].
    unfold s. cbn [snd].
    rewrite (get_slice_at f32_zero (snd r) n _ _ _ Ht)
      by (repeat constructor; (assumption || lia)).
    exact Htv.
Qed.

(** ** The further theorems on the example archive *)

Lemma patch_without_patch_size_witness :
  patch_size (loader_with None [feature_of_type "y"] false) = None /\
  patch (loader_with None [feature_of_type "y"] false) (example_predictors, example_targets)
  = Ok (Tensor [5; 1; 4; 4; 3] (data example_predictors),
        Tensor [5; 1; 4; 4; 1] (data example_targets)) /\
  patch (loader_with None [feature_of_type "y"] false)
    (Tensor [] [f32_zero], example_targets) = Err UnknownError.
Proof.
  split; [reflexivity|]. split.
  - apply (proj1 (patch_without_patch_size (loader_with None [feature_of_type "y"] false)
                    example_predictors example_targets eq_refl));
      reflexivity.
  - apply (proj1 (proj2 (patch_without_patch_size
                           (loader_with None [feature_of_type "y"] false)
                           (Tensor [] [f32_zero]) example_targets eq_refl))).
    left. reflexivity.
Defined.

Lemma reorder_swaps_leadtime_and_patch_witness :
  (exists p' t',
     reorder plain_loader (fst example_patches, snd example_patches) = Ok (p', t') /\
     shape p' = [4; 5; 2; 2; 4] /\ shape t' = [4; 5; 2; 2; 1] /\
     get f32_zero p' [3; 1; 0; 1; 2] = get f32_zero (fst example_patches) [1; 3; 0; 1; 2]) /\
  reorder plain_loader (example_predictors, example_targets) = Err UnknownError.
Proof.
  split.
  - destruct (proj1 (reorder_swaps_leadtime_and_patch plain_loader
                       (fst example_patches) (snd example_patches))
                5 4 2 2 4 1 eq_refl eq_refl eq_refl eq_refl)
      as (p' & t' & Hrun & Hp & Ht & Hget & _).
    exists p', t'. split; [exact Hrun|]. split; [exact Hp|]. split; [exact Ht|].
    apply (Hget 3 1 0 1); lia.
  - apply (proj2 (reorder_swaps_leadtime_and_patch plain_loader
                    example_predictors example_targets)).
    vm_compute. lia.
Defined.

Lemma diff_subtracts_raw_forecast_witness :
  raw_predictor_index example_loader = Ok (Some 0) /\
  (exists t',
     diff example_loader (fst example_patches, snd example_patches)
     = Ok (fst example_patches, t') /\
     get f32_zero t' [1; 3; 0; 1; 0]
     = f32_sub (get f32_zero (snd example_patches) [1; 3; 0; 1; 0])
               (get f32_zero (fst example_patches) [1; 3; 0; 1; 0])) /\
  diff example_loader (np_zeros [5; 4; 2; 2; 0], snd example_patches) = Err UnknownError.
Proof.
  split; [reflexivity|]. split.
  - destruct (proj1 (diff_subtracts_raw_forecast example_loader
                       (fst example_patches) (snd example_patches) 5 4 2 2 4 0
                       eq_refl eq_refl eq_refl) ltac:(lia))
      as (t' & Hrun & _ & Hget).
    exists t'. split; [exact Hrun|]. apply Hget; lia.
  - apply (proj2 (diff_subtracts_raw_forecast example_loader
                    (np_zeros [5; 4; 2; 2; 0]) (snd example_patches) 5 4 2 2 0 0
                    eq_refl eq_refl eq_refl)).
    lia.
Defined.

Lemma normalize_rejects_other_shapes_witness :
  (exists tbl, coefficients example_loader = Some tbl /\ length tbl = 4) /\
  normalize example_loader (example_predictors, example_targets) = Err UnknownError /\
  normalize example_loader (np_zeros [5; 4; 2; 2; 3], snd example_patches)
  = Err UnknownError.
Proof.
  split; [eexists; split; reflexivity|]. split.
  - refine (proj1 (normalize_rejects_other_shapes example_loader _
                     example_predictors example_targets eq_refl) _).
    vm_compute. lia.
  - refine (proj2 (normalize_rejects_other_shapes example_loader _
                     (np_zeros [5; 4; 2; 2; 3]) (snd example_patches) eq_refl)
              5 4 2 2 3 eq_refl _ _ _); vm_compute; lia.
Defined.

Lemma extract_features_y_and_leadtime_witness :
  exists p',
    extract_features
      (loader_with None [feature_of_type "y"; feature_of_type "leadtime"] false)
      (example_predictors, example_targets) = Ok (p', example_targets) /\
    get f32_zero p' [2; 3; 1; 3] = f32_of_nat 3 /\
    get f32_zero p' [2; 3; 1; 4] = f32_of_nat 2.
Proof.
  destruct (extract_features_y_and_leadtime
              (loader_with None [feature_of_type "y"; feature_of_type "leadtime"] false)
              5 4 4 3 example_predictors example_targets eq_refl)
    as (p' & Hrun & Hget).
  - repeat constructor; eexists; reflexivity.
  - exists p'. split; [exact Hrun|]. split.
    + apply (Hget 2 3 1 0 (feature_of_type "y")); (lia || reflexivity).
    + apply (Hget 2 3 1 1 (feature_of_type "leadtime")); (lia || reflexivity).
Defined.

Lemma extract_features_unknown_type_witness :
  extract_features (loader_with None [feature_of_type "z"] false)
    (example_predictors, example_targets) = Err UnknownError /\
  extract_features (loader_with None [feature_of_type "x"; feature_of_type "z"] false)
    (example_predictors, example_targets) = Err UnknownError.
Proof.
  split.
  - apply (proj1 (extract_features_unknown_type
                    (loader_with None [feature_of_type "z"] false)
                    5 4 4 3 example_predictors example_targets eq_refl)
             (feature_of_type "z") []); reflexivity.
  - apply (proj2 (extract_features_unknown_type
                    (loader_with None [feature_of_type "x"; feature_of_type "z"] false)
                    5 4 4 3 example_predictors example_targets eq_refl)
             [feature_of_type "x"] (feature_of_type "z") []).
    + reflexivity.
    + discriminate.
    + repeat constructor; eexists; reflexivity.
    + reflexivity.
Defined.

Lemma process_output_shape_witness :
  exists p' t',
    num_patches_per_file example_loader = Ok 4 /\
    process example_loader (example_predictors, example_targets) = Ok (p', t') /\
    shape p' = [5; 4; 2; 2; 4] /\
    shape t' = [5; 4; 2; 2; 1].
Proof.
  destruct (process_output_shape example_loader 5 3 example_predictors example_targets)
    as (n & p' & t' & Hn & Hrun & Hp & Ht & _).
  - reflexivity.
  - reflexivity.
  - reflexivity.
  - reflexivity.
  - discriminate.
  - repeat constructor; eexists; reflexivity.
  - right. exists 0. split; [reflexivity|vm_compute; lia].
  - right. eexists. split; reflexivity.
  - assert (n = 4) as -> by (vm_compute in Hn; congruence).
    exists p', t'. split; [reflexivity|]. split; [exact Hrun|]. split; [exact Hp|exact Ht].
Defined.

Lemma constructed_loader_metadata_witness :
  __init__ example_glob example_open example_yaml example_args = Ok example_loader /\
  filenames example_loader <> [] /\
  predictor_names (metadata example_loader)
  = predictor_names_input (metadata example_loader) ++ ["x"] /\
  num_predictors (metadata example_loader) = 4.
Proof.
  assert (__init__ example_glob example_open example_yaml example_args = Ok example_loader)
    as Hinit by (vm_compute; reflexivity).
  split; [exact Hinit|].
  destruct (constructed_loader_metadata example_glob example_open example_yaml
              example_args example_loader Hinit)
    as (_ & Hfiles & _ & _ & Hnames & _ & Hnum & _).
  split; [exact Hfiles|]. split; [exact Hnames|]. exact (Hnum eq_refl).
Defined.

Lemma constructed_loader_coefficients_witness :
  __init__ example_glob example_open example_yaml example_args = Ok example_loader /\
  exists tbl,
    coefficients example_loader = Some tbl /\
    length tbl = 4 /\
    tbl !! 3
    = Some (coefficient_row
              (dict_update example_source
                 (get_extra_features_normalization (metadata example_loader)
                    (extra_features example_loader)))
              "x").
Proof.
  assert (__init__ example_glob example_open example_yaml example_args = Ok example_loader)
    as Hinit by (vm_compute; reflexivity).
  split; [exact Hinit|].
  destruct (constructed_loader_coefficients example_glob example_open example_yaml
              example_args example_loader Hinit) as [_ Hsome].
  destruct (Hsome "normalization.yml" eq_refl)
    as (source & tbl & Hsource & Htbl & Hlen & _ & _ & Hrows).
  assert (Ok source = Ok example_source) as [= ->] by (rewrite <- Hsource; reflexivity).
  exists tbl. split; [exact Htbl|]. split; [exact Hlen|]. apply Hrows. reflexivity.
Defined.

Lemma allow_list_filters_names_witness :
  exists m,
    load_metadata example_open
      (allow_list_args ["missing"; "altitude"; "precipitation_amount"])
      "data/20200301.nc" = Ok m /\
    predictor_names_input m = ["precipitation_amount"; "altitude"] /\
    num_input_predictors m = 2.
Proof.
  eexists. split; [vm_compute; reflexivity|].
  refine (allow_list_filters_names example_open
            (allow_list_args ["missing"; "altitude"; "precipitation_amount"])
            "data/20200301.nc" example_dataset _
            ["missing"; "altitude"; "precipitation_amount"] _ _ _);
    vm_compute; reflexivity.
Defined.

Lemma parse_file_merges_static_witness :
  exists p t,
    parse_file example_open example_loader "data/20200301.nc" = Ok (p, t) /\
    shape p = [5; 4; 4; 3] /\
    get f32_zero p [2; 1; 3; 2]
    = get f32_zero (ds_static_predictors example_dataset) [1; 3; 0].
Proof.
  edestruct (parse_file_merges_static example_open example_loader "data/20200301.nc"
               example_dataset example_dataset)
    as (p & t & Hrun & Hp & _ & Hget).
  - reflexivity.
  - repeat split.
  - vm_compute. reflexivity.
  - vm_compute. reflexivity.
  - exists p, t. split; [exact Hrun|]. split; [exact Hp|].
    destruct (Hget 2 1 3) as (_ & Hstatic & _); [cbn; lia..|].
    apply (Hstatic 0). cbn. lia.
Defined.

Lemma load_file_shapes_match_metadata_witness :
  fake (loader_with (Some 2) [feature_of_type "x"] true) = true /\
  exists p t,
    load_file example_open (loader_with (Some 2) [feature_of_type "x"] true) 1 = Ok (p, t) /\
    shape p = [5; 4; 4; 3] /\ shape t = [5; 4; 4; 1].
Proof.
  split; [reflexivity|].
  refine (proj2 (load_file_shapes_match_metadata example_glob example_open example_yaml
                   (options_with (Some 2) [feature_of_type "x"] true)
                   (loader_with (Some 2) [feature_of_type "x"] true)
                   "data/20200301.nc" example_dataset _ _ _ _) eq_refl 1 _).
  - vm_compute. reflexivity.
  - reflexivity.
  - reflexivity.
  - repeat split.
  - vm_compute. lia.
Defined.

Lemma from_config_rejects_range_strings_witness :
  cfg_x_range bad_range_config = Some (RangeStr "0-4") /\
  from_config example_glob example_open example_yaml example_int bad_range_config
  = Err ValueError.
Proof.
  split; [reflexivity|].
  apply (from_config_rejects_range_strings example_glob example_open example_yaml
           example_int bad_range_config "0-4").
  - left. reflexivity.
  - vm_compute. lia.
Defined.

Lemma get_dataset_batches_witness :
  exists batches,
    get_dataset example_open (loader_with (Some 2) [feature_of_type "x"] false)
      (Some [1; 0]) Autotune (Some 2) = Ok (Some batches) /\
    length batches = 6.
Proof.
  destruct (get_dataset_batches example_open
              (loader_with (Some 2) [feature_of_type "x"] false) 3
              (Some [1; 0]) (Some 2)
              ltac:(discriminate)
              ltac:(repeat constructor; eexists; reflexivity)
              ltac:(left; reflexivity)
              ltac:(left; reflexivity)
              eq_refl)
    as (n & files & batches & Hn & _ & Hrun & Hlen & _).
  - vm_compute. lia.
  - vm_compute (file_indices _ _ _).
    repeat (apply List.Forall_cons;
            [eexists; split; [vm_compute; reflexivity|repeat split]|]).
    apply List.Forall_nil.
  - assert (n = 4) as -> by (vm_compute in Hn; congruence).
    exists batches. split; [exact Hrun|exact Hlen].
Defined.

Lemma get_dataset_one_thread_witness :
  0 < num_leadtimes (metadata plain_loader) /\
  get_dataset example_open plain_loader None (Calls 1) None
  = get_dataset example_open plain_loader None Autotune None.
Proof.
  split; [vm_compute; lia|].
  apply (get_dataset_one_thread example_open plain_loader 3 None None
           ltac:(discriminate)
           ltac:(repeat constructor; eexists; reflexivity)
           ltac:(left; reflexivity)
           ltac:(left; reflexivity)
           eq_refl).
  - vm_compute. lia.
  - vm_compute (file_indices _ _ _).
    repeat (apply List.Forall_cons;
            [eexists; split; [vm_compute; reflexivity|repeat split]|]).
    apply List.Forall_nil.
Defined.

Lemma process_values_witness :
  exists p' t',
    process example_loader (example_predictors, example_targets) = Ok (p', t') /\
    get f32_zero p' [2; 3; 1; 0; 3] = normalized example_loader 3 (f32_of_nat 2) /\
    get f32_zero t' [2; 3; 1; 0; 0]
    = f32_sub (get f32_zero example_targets [2; 3; 2; 0])
              (get f32_zero example_predictors [2; 3; 2; 0]).
Proof.
  destruct (process_values example_loader 5 3 example_predictors example_targets)
    as (n & p' & t' & Hn & Hrun & Hval).
  - reflexivity.
  - reflexivity.
  - reflexivity.
  - reflexivity.
  - discriminate.
  - repeat constructor; eexists; reflexivity.
  - right. exists 0. split; [reflexivity|vm_compute; lia].
  - right. eexists. split; reflexivity.
  - assert (n = 4) as -> by (vm_compute in Hn; congruence).
    exists p', t'. split; [exact Hrun|].
    destruct (Hval 2 3 1 0) as (_ & _ & Hp & Ht); [vm_compute; lia..|].
    split; [apply (Hp 3); vm_compute; lia|exact Ht].
Defined.

Lemma get_dataset_threads_witness :
  0 < num_leadtimes (metadata plain_loader) /\
  get_dataset example_open plain_loader None (Calls 2) None
  = get_dataset example_open plain_loader None Autotune None.
Proof.
  split; [vm_compute; lia|].
  apply (get_dataset_threads example_open plain_loader 3 None None 2
           ltac:(discriminate)
           ltac:(repeat constructor; eexists; reflexivity)
           ltac:(left; reflexivity)
           ltac:(left; reflexivity)
           ltac:(repeat constructor; intros H; vm_compute in H; discriminate H)
           eq_refl).
  - lia.
  - vm_compute. lia.
  - vm_compute (file_indices _ _ _).
    repeat (apply List.Forall_cons;
            [eexists; split; [vm_compute; reflexivity|repeat split]|]).
    apply List.Forall_nil.
Defined.

Lemma limits_select_positions_witness :
  selection 4 (arg_x_range (args range_loader)) = Some [1; 3] /\
  exists p t,
    parse_file example_open range_loader "data/20200301.nc" = Ok (p, t) /\
    shape p = [2; 3; 2; 2] /\
    get f32_zero p [0; 1; 1; 0] = get f32_zero (ds_predictors example_dataset) [4; 2; 3; 1] /\
    get f32_zero p [0; 1; 1; 1]
    = get f32_zero (ds_static_predictors example_dataset) [2; 3; 0].
Proof.
  split; [reflexivity|].
  destruct (proj1 (limits_select_positions example_open range_loader "data/20200301.nc"
                     example_dataset eq_refl ltac:(repeat split))
              [4; 0] [0; 2; 3] [1; 3] eq_refl eq_refl eq_refl)
    as (p & t & Hrun & Hp & _ & Hval).
  exists p, t. split; [exact Hrun|]. split; [exact Hp|].
  destruct (Hval 0 1 1) as (Hv & Hs & _); [vm_compute; lia..|].
  split; [apply (Hv 0)|apply (Hs 0)]; vm_compute; lia.
Defined.

Lemma init_rejects_large_patch_size_witness :
  arg_patch_size (options_with (Some 5) [] false) = Some 5 /\
  __init__ example_glob example_open example_yaml (options_with (Some 5) [] false)
  = Err ValueError.
Proof.
  split; [reflexivity|].
  apply (init_rejects_large_patch_size example_glob example_open example_yaml
           (options_with (Some 5) [] false) "data/20200301.nc"
           example_dataset example_dataset ∅ 5);
    try reflexivity.
  left. vm_compute. lia.
Defined.

Lemma fake_loader_dataset_witness :
  exists batches,
    get_dataset example_open
      (loader_with (Some 2) [feature_of_type "x"; feature_of_type "leadtime"] true)
      (Some [1; 0]) (Calls 2) (Some 2) = Ok (Some batches) /\
    length batches = 6 /\
    Forall (fun b => exists k, 1 <= k <= 3 /\
                               shape (fst b) = [k; 5; 2; 2; 5] /\
                               shape (snd b) = [k; 5; 2; 2; 1]) batches.
Proof.
  destruct (fake_loader_dataset example_glob example_open example_yaml
              (options_with (Some 2) [feature_of_type "x"; feature_of_type "leadtime"] true)
              (loader_with (Some 2) [feature_of_type "x"; feature_of_type "leadtime"] true)
              (Some [1; 0]) (Some 2) (Calls 2))
    as (total & batches & Htotal & Hrun & Hlen & Hshapes).
  - vm_compute. reflexivity.
  - reflexivity.
  - reflexivity.
  - discriminate.
  - repeat constructor; eexists; reflexivity.
  - intros H. discriminate H.
  - vm_compute. lia.
  - vm_compute. lia.
  - vm_compute. discriminate.
  - exact (perm_swap 0 1 []).
  - assert (total = 8) as -> by (vm_compute in Htotal; congruence).
    exists batches. split; [exact Hrun|]. split; [exact Hlen|exact Hshapes].
Defined.

Lemma leadtime_feature_single_chunks_witness :
  extra_features (loader_with (Some 2) [feature_of_type "x"; feature_of_type "leadtime"] false)
    !! 1 = Some (feature_of_type "leadtime") /\
  exists batches,
    get_dataset example_open
      (loader_with (Some 2) [feature_of_type "x"; feature_of_type "leadtime"] false)
      None (Calls 5) None = Ok (Some batches) /\
    Forall (fun b => forall s lt i j,
              in_range (shape (fst b)) [s; lt; i; j; 4] ->
              get f32_zero (fst b) [s; lt; i; j; 4] = f32_of_nat 0)
           batches.
Proof.
  split; [reflexivity|].
  apply (leadtime_feature_single_chunks example_open
           (loader_with (Some 2) [feature_of_type "x"; feature_of_type "leadtime"] false) 3
           ltac:(discriminate)
           ltac:(repeat constructor; eexists; reflexivity)
           ltac:(left; reflexivity)
           ltac:(left; reflexivity)
           None None (Calls 5) 5 1 (feature_of_type "leadtime")).
  - reflexivity.
  - vm_compute. lia.
  - vm_compute. lia.
  - reflexivity.
  - reflexivity.
  - vm_compute (file_indices _ _ _).
    repeat (apply List.Forall_cons;
            [eexists; split; [vm_compute; reflexivity|repeat split]|]).
    apply List.Forall_nil.
Defined.

Lemma init_succeeds_witness :
  exists self,
    __init__ example_glob example_open example_yaml range_args = Ok self /\
    leadtimes (metadata self) = [14400; 0]%Z /\
    num_y_input (metadata self) = 3 /\
    num_x_input (metadata self) = 2 /\
    predictor_names_input (metadata self) = ["precipitation_amount"; "altitude"].
Proof.
  destruct (init_succeeds example_glob example_open example_yaml range_args
              "data/20200301.nc" example_dataset [4; 0] [0; 2; 3] [1; 3])
    as (self & Hinit & _ & _ & Hl & Hy & Hx & Hnames & _).
  - reflexivity.
  - reflexivity.
  - repeat split.
  - reflexivity.
  - reflexivity.
  - reflexivity.
  - intros ps Hps. discriminate Hps.
  - intros path Hpath. discriminate Hpath.
  - exists self. split; [exact Hinit|]. split; [exact Hl|]. split; [exact Hy|].
    split; [exact Hx|exact Hnames].
Defined.

Lemma from_config_ranges_witness :
  (range_value example_int (cfg_limit_leadtimes example_config) (Some [1; 2]%Z) /\
   from_config example_glob example_open example_yaml example_int example_config
   = __init__ example_glob example_open example_yaml
       {| arg_filenames := ["data/*.nc"];
          arg_limit_leadtimes := Some [1; 2]%Z;
          arg_limit_predictors := None;
          arg_x_range := None;
          arg_y_range := None;
          arg_normalization := None;
          arg_patch_size := None;
          arg_predict_diff := false;
          arg_batch_size := 1;
          arg_prefetch := None;
          arg_cache := false;
          arg_num_parallel_calls := None;
          arg_extra_features := [];
          arg_fake := false |}) /\
  (cfg_x_range letter_range_config = Some (RangeStr ("1" ++ ":" ++ "x")%string) /\
   int_of_str example_int (list_ascii_of_string "x") = None /\
   from_config example_glob example_open example_yaml example_int letter_range_config
   = Err ValueError).
Proof.
  split.
  - assert (range_value example_int (cfg_limit_leadtimes example_config)
              (Some [1; 2]%Z)) as Hl
      by exact (range_string example_int "1" "3" 1 3 eq_refl eq_refl eq_refl eq_refl).
    split; [exact Hl|].
    exact (proj1 (from_config_ranges example_glob example_open example_yaml example_int
                    example_config)
             None None (Some [1; 2]%Z) (range_absent example_int)
             (range_absent example_int) Hl).
  - split; [reflexivity|]. split; [reflexivity|].
    apply (proj2 (from_config_ranges example_glob example_open example_yaml example_int
                    letter_range_config) "1" "x").
    + left. reflexivity.
    + reflexivity.
    + reflexivity.
    + right. reflexivity.
Defined.

Lemma get_dataset_values_witness :
  exists batches,
    get_dataset example_open (loader_with (Some 2) [feature_of_type "x"] false)
      (Some [1; 0]) Autotune (Some 2) = Ok (Some batches) /\
    forall g, g < 16 ->
      exists file batch,
        load_file example_open (loader_with (Some 2) [feature_of_type "x"] false)
          (nth (g / 4) [1; 0; 1; 0] 0) = Ok file /\
        batches !! (g / 3) = Some batch /\
        get f32_zero (snd batch) [g mod 3; 0; 0; 0; 0]
        = patch_target (loader_with (Some 2) [feature_of_type "x"] false) 3 file
            (g mod 4) 0 0 0.
Proof.
  destruct (get_dataset_values example_open
              (loader_with (Some 2) [feature_of_type "x"] false) 3
              (Some [1; 0]) (Some 2)
              ltac:(discriminate)
              ltac:(repeat constructor; eexists; reflexivity)
              ltac:(left; reflexivity)
              ltac:(left; reflexivity)
              eq_refl)
    as (n & batches & Hn & Hrun & Hval).
  - vm_compute. lia.
  - vm_compute (file_indices _ _ _).
    repeat (apply List.Forall_cons;
            [eexists; split; [vm_compute; reflexivity|repeat split]|]).
    apply List.Forall_nil.
  - assert (n = 4) as -> by (vm_compute in Hn; congruence).
    exists batches. split; [exact Hrun|]. intros g Hg.
    destruct (Hval g Hg) as (index & file & batch & Hindex & Hfile & Hbatch & Hget).
    exists file, batch.
    assert (nth (g / 4) [1; 0; 1; 0] 0 = index) as ->
      by (apply nth_lookup_Some with (d := 0) in Hindex; exact Hindex).
    split; [exact Hfile|]. split; [exact Hbatch|].
    apply (Hget 0 0 0); vm_compute; lia.
Defined.
